(* ===== verification/_CoqProject ===== *)
-Q . S2P
Prelude.v
RustStr.v
Net.v
State.v
Stats.v
Host.v
Ipset.v
Firewall.v
Policy.v
Address.v
Control.v
Prepare.v
Trust.v
Allocate.v
Terminate.v
System.v
Proxy.v
Enforce.v
Limits.v
Serve.v
Main.v
Interleave.v
ExampleHost.v
ExampleServe.v
