(* ===== verification/Prelude.v ===== *)
(** * Dockerwall: a verification development

    Dockerwall ([src/src/*.rs]) restricts the outbound traffic of containers to
    the addresses of allowed domains.  A daemon forwards the containers' DNS
    queries, and pushes the addresses that it sees in the responses to kernel
    sets; rules of [iptables] let packets through to the addresses of these sets
    only.  A command line prepares the networks and talks to the daemon over a
    control socket.

    ** The parts, and where they are modelled

    - [RustStr], [Net]: the operations on [str] and the addresses of Rust's
      standard library that the program uses, and [is_local_ip] (proxy.rs).
    - [State] (state.rs): [STATE] is a finite map [IpsetTable] from names to
      [ManagedIpset]; [domain_matches_pattern], [apply_resolved_ips].
    - [Stats] (stats.rs): [NETWORK_REGISTRY], [SUBNET_TO_ID] and
      [NEXT_NETWORK_ID] are a [Registry], [STATS] is a [StatsTable];
      [register_network], [record_resolve], [get_stats_report], [ip_in_subnet].
    - [Host] (trust.rs, helper.rs): the monad [M] of computations on a host, the
      interface [Host] of the operating system, running commands, and
      [is_trusted_binary].
    - [Ipset] (ipset.rs): [update_ipset] and the script that it writes.
    - [Firewall], [Policy] (helper.rs): every rule that is installed, its
      idempotent installation, and what the installed chains do to packets.
    - [Address], [Prepare], [Allocate], [System] (helper.rs, main.rs): plans and
      source addresses, the two preparations with all their commands, the
      allocation of addresses, and what is read from [/proc], [ip] and
      [resolv.conf].
    - [Trust], [Terminate]: two properties of whole preparations, which binaries
      they run and that they end.
    - [Control] (control.rs, manage.rs): the daemon's memory [Daemon], the
      handler of a connection, and the functions of the clients.
    - [Proxy], [Serve] (proxy.rs): a request from its reception to the reply.
    - [Enforce]: the kernel's sets follow the table during one response.
    - [Limits] (proxy.rs): the two semaphores of the loop as a step relation.
    - [Interleave] (proxy.rs, control.rs, stats.rs): every connection of the
      control socket and every response is a task, at the place where it stands;
      the critical sections of all tasks and the commands of their pushes, in any
      order, are a step relation with histories.
    - [Main] (main.rs, cli.rs, daemon.rs, control.rs, stats.rs): the commands, the
      start of the daemon with its control socket, [dockerwall stats].
    - [ExampleHost], [ExampleServe]: an executable machine that keeps all the
      promises below; the theorems with hypotheses are applied to it.

    ** How code becomes definitions

    A function without effects is a function.  One with effects is a
    computation in [M W], from a host [W] to the host afterwards and a
    [Result]; the [?] operator is [let!], a [match] on a result is [attempt].  The
    operations of the operating system are the fields of the classes [Host],
    [DnsSockets] and [ServerIO], so a theorem holds for every behaviour of theirs
    that its hypotheses allow.  What is relied on is stated in classes with laws:
    [Netfilter] and [FiniteRules] ([iptables]: a rule is accepted exactly if its
    words are valid, which is a parameter, and the sets and chains that it refers to
    exist; nobody holds the lock of the tables), [IpsetTool] and [SetCommands]
    ([ipset], for trusted binaries; a set stores every address of its family but
    0.0.0.0 and [::], and a script ends at its first command that fails),
    [AddressTool] ([ip]; asking for an interface that does not exist fails),
    [RuleSemantics] (the meaning of the matches of a rule), [StableFiles] (the
    metadata of the system's binaries do not change), [SocketFiles] (calls on the
    socket's file that report success have done what they say), and [DaemonPeer] (the
    daemon behind the control socket).  The iteration order of hash tables is any ([HashOrder]), the
    decoding of DNS messages ([hickory_proto]) and the value of [DefaultHasher]
    are any functions.  Integers are numbers with their width written out where
    the code wraps or narrows; times are in nanoseconds.

    ** What the theorems show

    - The policy: which domains a pattern accepts
      ([domain_matches_pattern_labels]), what a response does to the table
      ([apply_resolved_ips_refines], [apply_resolved_ips_changed]) and a push to
      the sets ([update_ipset_pushes]); nothing reaches the kernel that no
      pattern allowed, in any interleaving ([kernel_addresses_granted]), and no
      command opens anything ([commands_open_nothing]).
    - The firewall: the installed chains drop what is not allowed and leave the
      other sources alone ([docker_default_deny], [podman_default_deny],
      [podman_v6_default_deny]), a rule is installed exactly once
      ([ensure_rule_present_spec]), and after a response has been handled
      packets pass exactly as the table says ([firewall_follows_table]).  The
      theorems on installations have two branches: a filter that refuses a rule
      is reported.
    - The daemon: a client is answered after the sets have been updated
      ([served_before_answered]), every task ends ([serve_request_total]), the
      limits hold and no permit is lost ([limits_hold], [limits_drain]), the
      table is what requests and responses made of it in any interleaving
      ([table_follows_history]), the report is
      complete and never panics ([stats_command_complete]), the statistics are
      bounded ([record_resolve_bounded]), the daemon starts ([daemon_starts]) and
      its control socket is its owner's ([control_socket_private]).
    - The preparation: it ends ([prepare_network_ends]), runs trusted binaries
      only ([prepare_network_runs_trusted]), gives sets that accept pushes
      ([prepared_sets_accept_pushes]) and tells the daemon last
      ([prepare_docker_network_ok]); addresses are allocated completely and
      stably ([allocate_source_ip_complete], [allocate_source_ip_stable],
      [allocate_source_ipv6_spec], [source_ip_pool], [plan_gateway_usable]).
    - Limits of the design that the model shows: [pushes_can_be_lost],
      [zero_address_blocks], [one_client_exhausts], [mapped_clients_rejected],
      [ipset_name_collision], [restart_opens_nothing], [apostrophe_forgotten].

    ** Bounds and fuel

    [remove_rule_all] is the only unbounded loop and has fuel: more than the
    copies of the rule are enough ([ensure_rule_present_spec]; the length of the
    chains plus the number of rules for a list of them), and for every preparation
    there is enough ([prepare_network_ends]).  The loops over attempts have the
    program's own bounds: 50 plans, 50 polls, 131069 IPv4 and 50 IPv6 addresses.
    The loops of the two servers are modelled by their turns.

    ** Not modelled

    - The parsing of the command line ([clap]) and of DNS messages
      ([hickory_proto]): their results are the inputs here.
    - The runtime: tasks are interleaved at the critical sections and pushes of
      [Interleave] and the permits of [Limits].
    - Waiting without end: every call of a tool, of a socket and of the daemon is
      assumed to return, although neither [send_control_command] (control.rs) nor
      [update_ipset] (ipset.rs) has a time limit; termination is meant under this
      assumption.
    - The preparation of a rootless Podman network has no theorem of its own from
      end to end; its parts have ([Policy], [Allocate], [System]), and [Trust] and
      [Terminate] are about the whole.
    - Overflow of the count of a statistics entry wraps, as in a release build.
    - The unit tests of helper.rs and the scripts of the repository. *)

From stdpp Require Export base gmap sets list strings fin_maps.
From Stdlib Require Export ZArith Lia Ascii.

#[global] Open Scope string_scope.
#[global] Open Scope list_scope.
#[global] Open Scope Z_scope.

#[global] Arguments String.append : simpl nomatch.

(** ** Results

    [Result A] is Rust's [Result<A, Box<dyn Error + Send + Sync>>]; an error is
    represented by the text its [Display] implementation prints. *)
Inductive Result (A : Type) : Type :=
| Ok (a : A)
| Err (e : string).
Arguments Ok {A} _.
Arguments Err {A} _.

#[export] Instance Result_eq_dec {A} `{EqDecision A} : EqDecision (Result A).
Proof. solve_decision. Defined.

Definition rbind {A B} (r : Result A) (k : A -> Result B) : Result B :=
  match r with
  | Ok a => k a
  | Err e => Err e
  end.

Definition is_ok {A} (r : Result A) : bool :=
  match r with Ok _ => true | Err _ => false end.

(** [Option::ok_or] *)
Definition ok_or {A} (o : option A) (e : string) : Result A :=
  match o with Some a => Ok a | None => Err e end.

Declare Scope dockerwall_scope.
Delimit Scope dockerwall_scope with dw.
Notation "'try!' x ':=' c 'in' k" := (rbind c (fun x => k))
  (at level 10, x binder, c at level 100, k at level 200) : dockerwall_scope.
#[global] Open Scope dockerwall_scope.

(** ** Proof automation *)

Create HintDb dockerwall.
Create Rewrite HintDb dockerwall.

(** Splits every [match]/[if] of the goal or of the hypotheses. *)
Ltac case_all :=
  repeat (case_match; simplify_eq/=).

(** Destructs the conjunctions of the context, then closes the goal. *)
Ltac crush :=
  repeat match goal with
         | H : _ /\ _ |- _ => destruct H
         | H : exists _, _ |- _ => destruct H
         end;
  simplify_eq/=; try done; try lia; try eauto with dockerwall.

(** ** Machine integers

    A [w]-bit unsigned integer is a [Z] in [[0, 2^w)]; wrapping arithmetic is
    written with [wrap]. *)
Definition wrap (w n : Z) : Z := n mod 2 ^ w.
Definition in_width (w n : Z) : Prop := 0 <= n < 2 ^ w.

Lemma wrap_in_width w n : 0 <= w -> in_width w (wrap w n).
Proof. intros. unfold in_width, wrap. apply Z.mod_pos_bound. lia. Qed.

Lemma wrap_id w n : in_width w n -> wrap w n = n.
Proof. intros [? ?]. apply Z.mod_small. lia. Qed.

#[export] Hint Resolve wrap_in_width : dockerwall.
#[export] Hint Rewrite wrap_id using (unfold in_width; lia) : dockerwall.

(** ** Iteration order of hash tables

    [HashMap] and [HashSet] are finite maps and sets; their iterators visit the
    entries in an order that Rust does not specify.  A theorem about code that
    iterates holds for every instance of this class. *)
Class HashOrder := {
  hm_iter : forall {K V} `{Countable K}, gmap K V -> list (K * V);
  hm_iter_perm : forall {K V} `{Countable K} (m : gmap K V), hm_iter m ≡ₚ map_to_list m;
  hs_iter : forall {K} `{Countable K}, gset K -> list K;
  hs_iter_perm : forall {K} `{Countable K} (s : gset K), hs_iter s ≡ₚ elements s;
}.

(** The order of the map's own representation, for the examples. *)
Definition tree_order : HashOrder :=
  {| hm_iter := fun K V _ _ m => map_to_list m;
     hm_iter_perm := fun K V _ _ m => reflexivity _;
     hs_iter := fun K _ _ s => elements s;
     hs_iter_perm := fun K _ _ s => reflexivity _ |}.

Section hash_order.
Context `{HashOrder}.

Lemma elem_of_hm_iter {K V} `{Countable K} (m : gmap K V) k v :
  (k, v) ∈ hm_iter m <-> m !! k = Some v.
Proof. by rewrite hm_iter_perm, elem_of_map_to_list. Qed.

Lemma hm_iter_NoDup {K V} `{Countable K} (m : gmap K V) : NoDup (hm_iter m).*1.
Proof. rewrite hm_iter_perm. apply NoDup_fst_map_to_list. Qed.

Lemma elem_of_hs_iter {K} `{Countable K} (s : gset K) x : x ∈ hs_iter s <-> x ∈ s.
Proof. by rewrite hs_iter_perm, elem_of_elements. Qed.

Lemma hs_iter_NoDup {K} `{Countable K} (s : gset K) : NoDup (hs_iter s).
Proof. rewrite hs_iter_perm. apply NoDup_elements. Qed.

Lemma hs_iter_set {K} `{Countable K} (s : gset K) : list_to_set (hs_iter s) = s.
Proof. apply set_eq. intros x. by rewrite elem_of_list_to_set, elem_of_hs_iter. Qed.
End hash_order.

#[export] Hint Rewrite @elem_of_hm_iter @elem_of_hs_iter @hs_iter_set : dockerwall.
#[export] Hint Resolve hm_iter_NoDup hs_iter_NoDup : dockerwall.
