(* ===== verification/RustStr.v ===== *)
(** * The [str] operations of Rust's standard library that the program uses

    A [str] is the [string] of its UTF-8 bytes.  Each definition follows the
    documented behaviour of the method of the same name; operations on [char]s
    (white space, padding) decode the UTF-8 sequences they look for. *)

From S2P Require Import Prelude.
From Stdlib Require Import Ascii String.
#[local] Open Scope list_scope.
#[local] Open Scope Z_scope.

(** ** Bytes *)

Definition byte_of (a : ascii) : Z := Z.of_N (N_of_ascii a).
Definition chr (n : Z) : ascii := ascii_of_N (Z.to_N n).

(** [str::as_bytes] *)
Fixpoint as_bytes (s : string) : list Z :=
  match s with
  | "" => []
  | String a s' => byte_of a :: as_bytes s'
  end.

(** [str::len] *)
Definition len (s : string) : Z := Z.of_nat (String.length s).

Definition is_empty (s : string) : bool := (s =? "")%string.

(** [u8::is_ascii_alphanumeric] *)
Definition is_ascii_digit (b : Z) : bool := (48 <=? b) && (b <=? 57).
Definition is_ascii_alphanumeric (b : Z) : bool :=
  is_ascii_digit b || ((65 <=? b) && (b <=? 90)) || ((97 <=? b) && (b <=? 122)).

(** [u8::to_ascii_lowercase], [str::to_ascii_lowercase] *)
Definition lower_ascii (a : ascii) : ascii :=
  let b := byte_of a in
  if (65 <=? b) && (b <=? 90) then chr (b + 32) else a.

Fixpoint to_ascii_lowercase (s : string) : string :=
  match s with
  | "" => ""
  | String a s' => String (lower_ascii a) (to_ascii_lowercase s')
  end.

Definition all_chars (p : ascii -> bool) (s : string) : bool :=
  forallb p (list_ascii_of_string s).

(** Does the character [c] occur in [s]? *)
Fixpoint has_char (c : ascii) (s : string) : bool :=
  match s with
  | "" => false
  | String a s' => Ascii.eqb a c || has_char c s'
  end.

(** ** Prefixes, suffixes, substrings *)

Fixpoint strip_prefix (p s : string) : option string :=
  match p, s with
  | "", _ => Some s
  | String a p', String b s' => if Ascii.eqb a b then strip_prefix p' s' else None
  | String _ _, "" => None
  end.

Definition starts_with (p s : string) : bool :=
  match strip_prefix p s with Some _ => true | None => false end.

(** [s.strip_suffix(x)]: the part of [s] before [x], when [s] ends with [x]. *)
Fixpoint strip_suffix (x s : string) : option string :=
  if (s =? x)%string then Some ""
  else match s with
       | "" => None
       | String a s' =>
           match strip_suffix x s' with
           | Some r => Some (String a r)
           | None => None
           end
       end.

Definition ends_with (x s : string) : bool :=
  match strip_suffix x s with Some _ => true | None => false end.

(** [hay.contains(needle)] *)
Fixpoint contains (needle hay : string) : bool :=
  starts_with needle hay ||
  match hay with
  | "" => false
  | String _ hay' => contains needle hay'
  end.

(** [str::trim_end_matches] with a single ASCII character *)
Fixpoint trim_end_matches (c : ascii) (s : string) : string :=
  match s with
  | "" => ""
  | String a s' =>
      match trim_end_matches c s' with
      | "" => if Ascii.eqb a c then "" else String a ""
      | t => String a t
      end
  end.

(** ** Splitting *)

(** [str::split] with a single ASCII character; never empty. *)
Fixpoint split (c : ascii) (s : string) : list string :=
  match s with
  | "" => [""]
  | String a s' =>
      if Ascii.eqb a c then "" :: split c s'
      else match split c s' with
           | w :: ws => String a w :: ws
           | [] => [String a ""]
           end
  end.

(** [str::split_once] with a single ASCII character *)
Fixpoint split_once (c : ascii) (s : string) : option (string * string) :=
  match s with
  | "" => None
  | String a s' =>
      if Ascii.eqb a c then Some ("", s')
      else match split_once c s' with
           | Some (l, r) => Some (String a l, r)
           | None => None
           end
  end.

(** [str::splitn]: at most [n] pieces, the last one holding the rest. *)
Fixpoint splitn (n : nat) (c : ascii) (s : string) : list string :=
  match n with
  | O => []
  | S O => [s]
  | S n' => match split_once c s with
            | Some (l, r) => l :: splitn n' c r
            | None => [s]
            end
  end.

(** [[String]::join] *)
Fixpoint join (sep : string) (l : list string) : string :=
  match l with
  | [] => ""
  | [w] => w
  | w :: l' => w +:+ sep +:+ join sep l'
  end.

Definition newline : ascii := "010".
Definition tab : ascii := "009".
Definition cr : ascii := "013".
Definition nl : string := String newline "".
Definition tabs : string := String tab "".

(** The pieces of [str::split_inclusive] at newlines, each with a flag that
    tells whether it was ended by a newline (which is removed). *)
Fixpoint split_inclusive_nl (s : string) : list (string * bool) :=
  match s with
  | "" => []
  | String a s' =>
      if Ascii.eqb a newline then ("", true) :: split_inclusive_nl s'
      else match split_inclusive_nl s' with
           | (w, b) :: ws => (String a w, b) :: ws
           | [] => [(String a "", false)]
           end
  end.

(** [str::lines]: the carriage return goes only with its newline. *)
Definition lines (s : string) : list string :=
  map (fun '(w, ended) =>
         if ended : bool
         then match strip_suffix (String cr "") w with Some w' => w' | None => w end
         else w) (split_inclusive_nl s).

(** ** White space *)

(** The number of bytes of the white-space [char] (Unicode [White_Space]) that
    starts the byte list, 0 when its first character is not white space. *)
Definition ws_len (bs : list Z) : nat :=
  match bs with
  | b :: bs' =>
      if ((9 <=? b) && (b <=? 13)) || (b =? 32) then 1%nat
      else match b, bs' with
           | 194, c :: _ => if (c =? 133) || (c =? 160) then 2%nat else 0%nat
           | 225, 154 :: 128 :: _ => 3%nat
           | 226, 128 :: d :: _ =>
               if ((128 <=? d) && (d <=? 138)) || (d =? 168) || (d =? 169) || (d =? 175)
               then 3%nat else 0%nat
           | 226, 129 :: 159 :: _ => 3%nat
           | 227, 128 :: 128 :: _ => 3%nat
           | _, _ => 0%nat
           end
  | [] => 0%nat
  end.

Definition ws_at (s : string) : nat := ws_len (as_bytes (substring 0 3 s)).

(** Drops white space from the front; [skip] bytes of the current character
    are still to be dropped. *)
Fixpoint trim_start_from (skip : nat) (s : string) : string :=
  match s with
  | "" => ""
  | String _ s' =>
      match skip with
      | S k => trim_start_from k s'
      | O => match ws_at s with
             | O => s
             | S k => trim_start_from k s'
             end
      end
  end.
Definition trim_start (s : string) : string := trim_start_from 0 s.

(** Is the whole string white space? *)
Definition all_ws (s : string) : bool := is_empty (trim_start s).

(** The longest prefix whose remainder is white space. *)
Fixpoint trim_end (s : string) : string :=
  match s with
  | "" => ""
  | String a s' => if all_ws s then "" else String a (trim_end s')
  end.

(** [str::trim] *)
Definition trim (s : string) : string := trim_end (trim_start s).

(** [str::split_whitespace]: [cur] is the word being read. *)
Fixpoint split_ws_from (skip : nat) (cur : string) (s : string) : list string :=
  match s with
  | "" => if is_empty cur then [] else [cur]
  | String a s' =>
      match skip with
      | S k => split_ws_from k cur s'
      | O => match ws_at s with
             | O => split_ws_from 0 (cur +:+ String a "") s'
             | S k => if is_empty cur then split_ws_from k "" s'
                      else cur :: split_ws_from k "" s'
             end
      end
  end.
Definition split_whitespace (s : string) : list string := split_ws_from 0 "" s.

(** [u8::is_ascii_whitespace]: vertical tab is not one of them. *)
Definition is_ascii_whitespace (a : ascii) : bool :=
  let b := byte_of a in
  (b =? 9) || (b =? 10) || (b =? 12) || (b =? 13) || (b =? 32).

(** [str::split_ascii_whitespace] *)
Fixpoint split_aws_from (cur : string) (s : string) : list string :=
  match s with
  | "" => if is_empty cur then [] else [cur]
  | String a s' =>
      if is_ascii_whitespace a
      then if is_empty cur then split_aws_from "" s' else cur :: split_aws_from "" s'
      else split_aws_from (cur +:+ String a "") s'
  end.
Definition split_ascii_whitespace (s : string) : list string := split_aws_from "" s.

(** ** UTF-8 *)

Definition is_cont (b : Z) : bool := (128 <=? b) && (b <=? 191).

(** Length of the well-formed UTF-8 sequence at the head of the bytes, as
    [inl n]; [inr n] for an ill-formed one, with the length of the maximal
    part of it that one replacement character stands for. *)
Definition utf8_head (bs : list Z) : nat + nat :=
  match bs with
  | [] => inr 0%nat
  | b :: r =>
      let in2 lo hi := match r with c :: _ => (lo <=? c) && (c <=? hi) | [] => false end in
      let in3 := match r with _ :: c :: _ => is_cont c | _ => false end in
      let in4 := match r with _ :: _ :: c :: _ => is_cont c | _ => false end in
      let two := in2 128 191 in
      let three lo hi := if in2 lo hi then (if in3 then inl 3%nat else inr 2%nat) else inr 1%nat in
      let four lo hi :=
        if in2 lo hi
        then (if in3 then (if in4 then inl 4%nat else inr 3%nat) else inr 2%nat)
        else inr 1%nat in
      if b <? 128 then inl 1%nat
      else if (194 <=? b) && (b <=? 223) then (if two then inl 2%nat else inr 1%nat)
      else if b =? 224 then three 160 191
      else if b =? 237 then three 128 159
      else if (225 <=? b) && (b <=? 239) then three 128 191
      else if b =? 240 then four 144 191
      else if (241 <=? b) && (b <=? 243) then four 128 191
      else if b =? 244 then four 128 143
      else inr 1%nat
  end.

Definition utf8_at (s : string) : nat + nat := utf8_head (as_bytes (substring 0 4 s)).

(** [String::from_utf8_lossy]: [skip] bytes of the current sequence are still
    to be consumed, and copied when [keep] holds. *)
Fixpoint from_utf8_lossy_from (skip : nat) (keep : bool) (s : string) : string :=
  match s with
  | "" => ""
  | String a s' =>
      match skip with
      | S k => if keep then String a (from_utf8_lossy_from k keep s')
               else from_utf8_lossy_from k keep s'
      | O => match utf8_at s with
             | inl n => String a (from_utf8_lossy_from (n - 1) true s')
             | inr n => "�" +:+ from_utf8_lossy_from (n - 1) false s'
             end
      end
  end.
Definition from_utf8_lossy (s : string) : string := from_utf8_lossy_from 0 true s.

Fixpoint is_utf8_from (skip : nat) (s : string) : bool :=
  match s with
  | "" => true
  | String a s' =>
      match skip with
      | S k => is_utf8_from k s'
      | O => match utf8_at s with
             | inl n => is_utf8_from (n - 1) s'
             | inr _ => false
             end
      end
  end.
Definition is_utf8 (s : string) : bool := is_utf8_from 0 s.

(** [str::chars().count()], which the padding of [format!] measures. *)
Definition char_count (s : string) : Z :=
  Z.of_nat (List.length (List.filter (fun b => negb (is_cont b)) (as_bytes s))).

Fixpoint spaces (n : nat) : string :=
  match n with O => "" | S n' => String " " (spaces n') end.

(** [format!("{:<w$}", s)] *)
Definition pad_right (w : Z) (s : string) : string :=
  s +:+ spaces (Z.to_nat (w - char_count s)).

(** ** Numbers *)

Definition digit_char (d : Z) : ascii :=
  if d <? 10 then chr (48 + d) else chr (87 + d).

(** The digits of [n] in base [r], with [fuel] bounding their number. *)
Fixpoint digits_from (fuel : nat) (r n : Z) (acc : string) : string :=
  match fuel with
  | O => acc
  | S f => let acc' := String (digit_char (n mod r)) acc in
           if n <? r then acc' else digits_from f r (n / r) acc'
  end.

(** As many rounds as the number has bits are enough. *)
Definition digits (r n : Z) : string := digits_from (S (Z.to_nat (Z.log2 n))) r n "".

(** The [Display] and the [LowerHex] form of an unsigned integer *)
Definition dec (n : Z) : string := digits 10 n.
Definition hex (n : Z) : string := digits 16 n.

(** [char::to_digit] *)
Definition to_digit (r : Z) (a : ascii) : option Z :=
  let b := byte_of a in
  let d := if is_ascii_digit b then b - 48
           else if (97 <=? b) && (b <=? 102) then b - 87
           else if (65 <=? b) && (b <=? 70) then b - 55
           else 255 in
  if d <? r then Some d else None.

Fixpoint parse_digits (bound acc : Z) (s : string) : option Z :=
  match s with
  | "" => Some acc
  | String a s' =>
      match to_digit 10 a with
      | Some d => let acc' := acc * 10 + d in
                  if acc' <? bound then parse_digits bound acc' s' else None
      | None => None
      end
  end.

(** [str::parse::<uN>]: an optional [+], then at least one digit, and no
    overflow of the [w]-bit type. *)
Definition parse_uint (w : Z) (s : string) : option Z :=
  match s with
  | "" => None
  | String "+" "" => None
  | String "+" s' => parse_digits (2 ^ w) 0 s'
  | _ => parse_digits (2 ^ w) 0 s
  end.

(** ** Lemmas: concatenation *)

Lemma sapp_nil_r (s : string) : s +:+ "" = s.
Proof. induction s; simpl; congruence. Qed.

Lemma sapp_assoc (a b c : string) : (a +:+ b) +:+ c = a +:+ (b +:+ c).
Proof. induction a; simpl; congruence. Qed.

Lemma app_inj_l (p a b : string) : p +:+ a = p +:+ b -> a = b.
Proof. induction p; simpl; intros; simplify_eq; auto. Qed.

Lemma length_app_str (a b : string) :
  String.length (a +:+ b) = (String.length a + String.length b)%nat.
Proof. induction a; simpl; congruence. Qed.

Lemma app_inj_r (a b s : string) : a +:+ s = b +:+ s -> a = b.
Proof.
  intros H. assert (String.length a = String.length b) as Hl.
  { apply (f_equal String.length) in H. rewrite !length_app_str in H. lia. }
  revert b Hl H. induction a as [|x a IH]; intros [|y b] Hl H; simplify_eq/=; auto.
  f_equal. eauto.
Qed.

Lemma has_char_app c (a b : string) : has_char c (a +:+ b) = has_char c a || has_char c b.
Proof. induction a; simpl; [done|]. rewrite IHa. by destruct (Ascii.eqb _ _). Qed.

#[export] Hint Rewrite sapp_nil_r sapp_assoc has_char_app length_app_str : dockerwall.

(** ** Lemmas: prefixes and suffixes *)

Lemma strip_prefix_spec p s r : strip_prefix p s = Some r <-> s = p +:+ r.
Proof.
  revert s. induction p as [|a p IH]; intros [|b s]; simpl; try (split; congruence).
  destruct (Ascii.eqb_spec a b); [subst; rewrite IH|]; split; congruence.
Qed.

Lemma strip_prefix_app p r : strip_prefix p (p +:+ r) = Some r.
Proof. by apply strip_prefix_spec. Qed.

Lemma starts_with_spec p s : starts_with p s = true <-> exists r, s = p +:+ r.
Proof.
  unfold starts_with. setoid_rewrite <- strip_prefix_spec.
  destruct (strip_prefix p s); split; [eauto|done..|by intros []].
Qed.

Lemma strip_suffix_spec x s r : strip_suffix x s = Some r <-> s = r +:+ x.
Proof.
  revert r. induction s as [|a s IH]; intros r; cbn [strip_suffix].
  - destruct (String.eqb_spec "" x) as [<-|Hne].
    + rewrite sapp_nil_r. split; congruence.
    + split; [done|]. destruct r; simpl; congruence.
  - destruct (String.eqb_spec (String a s) x) as [<-|Hne].
    + split; [by intros [= <-]|]. intros H.
      apply (app_inj_r "") in H. by subst.
    + destruct (strip_suffix x s) as [r'|] eqn:E.
      * pose proof (proj1 (IH r') eq_refl) as ->. split; [by intros [= <-]|].
        destruct r as [|b r]; simpl; [congruence|].
        intros [= -> H]. apply app_inj_r in H. by subst.
      * split; [done|]. destruct r as [|b r]; simpl; [congruence|].
        intros [= -> H]. specialize (proj2 (IH r) H). congruence.
Qed.

Lemma ends_with_spec x s : ends_with x s = true <-> exists r, s = r +:+ x.
Proof.
  unfold ends_with. setoid_rewrite <- strip_suffix_spec.
  destruct (strip_suffix x s); split; [eauto|done..|by intros []].
Qed.

(** [contains] is the existence of an occurrence. *)
Lemma contains_spec n h : contains n h = true <-> exists a b, h = a +:+ n +:+ b.
Proof.
  induction h as [|c h IH]; cbn [contains]; rewrite orb_true_iff, starts_with_spec.
  - split; [|intros ([|] & b & H); simplify_eq/=; eauto].
    intros [[r H]|H]; [by exists "", r|done].
  - rewrite IH. split.
    + intros [[r H]|(a & b & ->)]; [by exists "", r|by exists (String c a), b].
    + intros ([|c' a] & b & H); simplify_eq/=; eauto.
Qed.

(** ** Lemmas: splitting *)

Lemma split_nonempty c s : split c s <> [].
Proof. destruct s; simpl; [done|]. by repeat case_match. Qed.

Lemma split_no_char c s : has_char c s = false -> split c s = [s].
Proof.
  induction s as [|a s IH]; simpl; [done|].
  intros [-> ?]%orb_false_iff. by rewrite IH.
Qed.

Lemma split_app c a b : split c (a +:+ String c b) = split c a ++ split c b.
Proof.
  induction a as [|x a IH]; simpl; [by rewrite Ascii.eqb_refl|].
  rewrite IH. destruct (Ascii.eqb x c); [done|].
  destruct (split c a) eqn:E; [by apply split_nonempty in E|done].
Qed.

Lemma split_pieces c s : Forall (fun w => has_char c w = false) (split c s).
Proof.
  induction s as [|a s IH]; simpl; [by repeat constructor|].
  destruct (Ascii.eqb a c) eqn:E; [by constructor|].
  destruct (split c s); [repeat constructor; simpl; by rewrite E|].
  inversion IH; subst. constructor; [|done]. simpl. by rewrite E.
Qed.

Lemma join_split c s : join (String c "") (split c s) = s.
Proof.
  induction s as [|a s IH]; simpl; [done|].
  pose proof (split_nonempty c s). destruct (Ascii.eqb_spec a c) as [->|].
  - destruct (split c s); [done|]. simpl in *. by f_equal.
  - destruct (split c s) as [|w [|w' ws]]; [done| |]; simpl in *; by f_equal.
Qed.

Lemma split_join c l :
  l <> [] -> Forall (fun w => has_char c w = false) l -> split c (join (String c "") l) = l.
Proof.
  induction l as [|w l IH]; [done|]. intros _ [Hw Hl]%Forall_cons.
  destruct l as [|w' l]; simpl; [by apply split_no_char|].
  rewrite split_app, split_no_char by done. simpl. f_equal. by apply IH.
Qed.

Lemma split_inj c s t : split c s = split c t -> s = t.
Proof. intros H. rewrite <- (join_split c s), <- (join_split c t). by rewrite H. Qed.

Lemma split_once_app c l r :
  has_char c l = false -> split_once c (l +:+ String c r) = Some (l, r).
Proof.
  induction l as [|a l IH]; simpl; [by rewrite Ascii.eqb_refl|].
  intros [-> ?]%orb_false_iff. by rewrite IH.
Qed.
#[export] Hint Rewrite split_once_app using (assumption) : dockerwall.

Lemma split_once_None c s : has_char c s = false -> split_once c s = None.
Proof.
  induction s as [|a s IH]; simpl; [done|].
  intros [-> ?]%orb_false_iff. by rewrite IH.
Qed.

(** ** Lemmas: case and trailing characters *)

Lemma byte_of_range a : 0 <= byte_of a < 256.
Proof. unfold byte_of. pose proof (N_ascii_bounded a). lia. Qed.

Lemma byte_of_chr n : 0 <= n < 256 -> byte_of (chr n) = n.
Proof. intros. unfold byte_of, chr. rewrite N_ascii_embedding; lia. Qed.

Lemma byte_of_inj a b : byte_of a = byte_of b -> a = b.
Proof.
  unfold byte_of. intros H. rewrite <- (ascii_N_embedding a), <- (ascii_N_embedding b).
  f_equal. lia.
Qed.

Lemma lower_ascii_idem a : lower_ascii (lower_ascii a) = lower_ascii a.
Proof.
  unfold lower_ascii. destruct ((65 <=? byte_of a) && (byte_of a <=? 90)) eqn:E; [|by rewrite E].
  rewrite byte_of_chr by lia.
  replace ((65 <=? byte_of a + 32) && (byte_of a + 32 <=? 90)) with false by lia. done.
Qed.

(** Lower-casing maps no other character to [c], when [c] is not a letter. *)
Lemma lower_ascii_fix a c :
  byte_of c < 65 -> (lower_ascii a = c <-> a = c).
Proof.
  intros Hc. unfold lower_ascii. destruct (_ && _) eqn:E; [|done].
  split; intros H; apply (f_equal byte_of) in H; exfalso;
    rewrite ?byte_of_chr in H by lia; lia.
Qed.

Lemma lower_app a b : to_ascii_lowercase (a +:+ b) = to_ascii_lowercase a +:+ to_ascii_lowercase b.
Proof. induction a; simpl; congruence. Qed.

Lemma lower_idem s : to_ascii_lowercase (to_ascii_lowercase s) = to_ascii_lowercase s.
Proof. induction s; simpl; rewrite ?lower_ascii_idem; congruence. Qed.

Lemma lower_eqb a c : byte_of c < 65 -> Ascii.eqb (lower_ascii a) c = Ascii.eqb a c.
Proof.
  intros Hc. destruct (Ascii.eqb_spec a c) as [->|Hne].
  - apply Ascii.eqb_eq, lower_ascii_fix; auto.
  - apply Ascii.eqb_neq. by rewrite lower_ascii_fix.
Qed.

Lemma trim_end_matches_lower c s :
  byte_of c < 65 ->
  trim_end_matches c (to_ascii_lowercase s) = to_ascii_lowercase (trim_end_matches c s).
Proof.
  intros Hc. induction s as [|a s IH]; simpl; [done|]. rewrite IH, lower_eqb by done.
  destruct (trim_end_matches c s); simpl; [by destruct (Ascii.eqb a c)|done].
Qed.

Lemma trim_end_matches_idem c s :
  trim_end_matches c (trim_end_matches c s) = trim_end_matches c s.
Proof.
  induction s as [|a s IH]; simpl; [done|].
  destruct (trim_end_matches c s) eqn:E.
  - destruct (Ascii.eqb a c) eqn:Ea; simpl; by rewrite ?Ea.
  - simpl in *. by rewrite IH.
Qed.

Lemma trim_end_matches_snoc c s :
  trim_end_matches c (s +:+ String c "") = trim_end_matches c s.
Proof.
  induction s as [|a s IH]; simpl; [by rewrite Ascii.eqb_refl|]. by rewrite IH.
Qed.

(** Trimming keeps a prefix and drops a run of [c]. *)
Lemma trim_end_matches_split c s :
  exists r, s = trim_end_matches c s +:+ r /\ all_chars (fun a => Ascii.eqb a c) r = true.
Proof.
  induction s as [|a s (r & H & Hr)]; simpl; [by exists ""|].
  destruct (trim_end_matches c s) eqn:E; simpl in H.
  - subst. destruct (Ascii.eqb a c) eqn:Ea; [exists (String a r)|exists r]; simpl.
    + split; [done|]. unfold all_chars in *. simpl. by rewrite Ea.
    + done.
  - exists r. split; [|done]. simpl. by rewrite H at 1.
Qed.

(** ** Lemmas: decimal numbers *)

Lemma to_digit_char r d : 0 <= d < r -> r <= 16 -> to_digit r (digit_char d) = Some d.
Proof.
  intros. unfold to_digit, digit_char, is_ascii_digit.
  destruct (Z.ltb_spec d 10); rewrite byte_of_chr by lia.
  - replace ((48 <=? 48 + d) && (48 + d <=? 57)) with true by lia.
    replace (48 + d - 48) with d by lia. by rewrite (proj2 (Z.ltb_lt d r)) by lia.
  - replace ((48 <=? 87 + d) && (87 + d <=? 57)) with false by lia.
    replace ((97 <=? 87 + d) && (87 + d <=? 102)) with true by lia.
    replace (87 + d - 87) with d by lia. by rewrite (proj2 (Z.ltb_lt d r)) by lia.
Qed.

(** Appending to the accumulator is appending to the result. *)
Lemma to_digit_range r a d : to_digit r a = Some d -> 0 <= d < r.
Proof.
  unfold to_digit, is_ascii_digit. cbv zeta. pose proof (byte_of_range a).
  case_match eqn:E; [|done]. intros [= <-]. apply Z.ltb_lt in E. revert E.
  repeat match goal with |- context [?x <=? ?y] => destruct (Z.leb_spec x y) end; cbn [andb]; lia.
Qed.

Lemma digits_from_app f r n acc :
  digits_from f r n acc = digits_from f r n "" +:+ acc.
Proof.
  revert n acc. induction f as [|f IH]; intros n acc; [done|]. cbn [digits_from].
  destruct (n <? r); [done|].
  rewrite IH, (IH _ (String _ "")), sapp_assoc. done.
Qed.

(** More fuel than bits does not change the digits. *)
Lemma digits_from_fuel f g r n acc :
  2 <= r -> 0 <= n < 2 ^ Z.of_nat f -> 0 <= n < 2 ^ Z.of_nat g ->
  (0 < f)%nat -> (0 < g)%nat ->
  digits_from f r n acc = digits_from g r n acc.
Proof.
  intros Hr. revert g n acc.
  induction f as [|f IH]; intros [|g] n acc Hf Hg Hf' Hg'; try lia.
  cbn [digits_from]. destruct (Z.ltb_spec n r); [done|].
  rewrite !Nat2Z.inj_succ, !Z.pow_succ_r in * by lia.
  assert (n / r <= n / 2) by (apply Z.div_le_compat_l; lia).
  assert (n / 2 < 2 ^ Z.of_nat f) by (apply Z.div_lt_upper_bound; lia).
  assert (n / 2 < 2 ^ Z.of_nat g) by (apply Z.div_lt_upper_bound; lia).
  assert (0 <= n / r) by (apply Z.div_pos; lia).
  assert (0 < n / r) by (apply Z.div_str_pos; lia).
  apply IH; try lia.
  - destruct f; simpl in *; lia.
  - destruct g; simpl in *; lia.
Qed.

Lemma log2_fuel n : 0 <= n -> 0 <= n < 2 ^ Z.of_nat (S (Z.to_nat (Z.log2 n))).
Proof.
  intros. rewrite Nat2Z.inj_succ, Z2Nat.id by apply Z.log2_nonneg.
  destruct (Z.eq_dec n 0) as [->|]; [done|].
  pose proof (Z.log2_spec n). lia.
Qed.

(** The recursive equation of the positional notation. *)
Lemma digits_unfold r n :
  2 <= r -> 0 <= n ->
  digits r n = if n <? r then String (digit_char n) ""
               else digits r (n / r) +:+ String (digit_char (n mod r)) "".
Proof.
  intros Hr Hn. unfold digits at 1. cbn [digits_from].
  destruct (Z.ltb_spec n r); [by rewrite Z.mod_small by lia|].
  rewrite digits_from_app. f_equal.
  pose proof (log2_fuel n Hn) as Hf.
  assert (0 < n / r) by (apply Z.div_str_pos; lia).
  assert (n / r <= n / 2) by (apply Z.div_le_compat_l; lia).
  assert (n / 2 < 2 ^ Z.of_nat (Z.to_nat (Z.log2 n))).
  { rewrite Nat2Z.inj_succ, Z.pow_succ_r in Hf by lia. apply Z.div_lt_upper_bound; lia. }
  unfold digits. apply digits_from_fuel; try lia.
  - apply log2_fuel. lia.
  - destruct (Z.to_nat (Z.log2 n)) eqn:E; [|lia]. simpl in *. lia.
Qed.

(** Induction along the digits of a number. *)
Lemma digits_ind r (P : Z -> Prop) :
  2 <= r ->
  (forall n, 0 <= n < r -> P n) ->
  (forall n, r <= n -> P (n / r) -> P n) ->
  forall n, 0 <= n -> P n.
Proof.
  intros Hr Hb Hs n Hn. revert Hn. pattern n.
  apply (well_founded_induction (Z.lt_wf 0)). clear n. intros n IH Hn.
  destruct (Z.lt_ge_cases n r); [by apply Hb|].
  apply Hs; [done|]. apply IH; [split|]; try apply Z.div_pos; try lia.
  apply Z.div_lt; lia.
Qed.

Definition is_digit_char (a : ascii) : bool := is_ascii_digit (byte_of a).

Lemma all_chars_app p a b : all_chars p (a +:+ b) = all_chars p a && all_chars p b.
Proof.
  unfold all_chars. induction a as [|c a IH]; simpl; [done|].
  by rewrite IH, andb_assoc.
Qed.

Lemma digits_chars r (P : ascii -> bool) n :
  2 <= r -> 0 <= n -> (forall d, 0 <= d < r -> P (digit_char d) = true) ->
  all_chars P (digits r n) = true.
Proof.
  intros Hr Hn HP. revert n Hn. apply (digits_ind r); [done|..]; intros n Hn.
  - rewrite digits_unfold, (proj2 (Z.ltb_lt n r)) by lia.
    unfold all_chars. simpl. by rewrite HP.
  - intros IH. rewrite digits_unfold, (proj2 (Z.ltb_ge n r)), all_chars_app, IH by lia.
    unfold all_chars. simpl. rewrite HP; [done|]. apply Z.mod_pos_bound. lia.
Qed.

Lemma digits_head r n :
  2 <= r -> 0 <= n -> exists d s, digits r n = String (digit_char d) s /\ 0 <= d < r.
Proof.
  intros Hr. revert n. apply (digits_ind r); [done|..]; intros n Hn.
  - rewrite digits_unfold, (proj2 (Z.ltb_lt n r)) by lia. eauto.
  - intros (d & s & Hd & ?).
    rewrite digits_unfold, (proj2 (Z.ltb_ge n r)), Hd by lia. simpl. eauto.
Qed.

Lemma is_digit_digit_char d : 0 <= d < 10 -> is_digit_char (digit_char d) = true.
Proof.
  intros. unfold is_digit_char, digit_char, is_ascii_digit.
  rewrite (proj2 (Z.ltb_lt d 10)), byte_of_chr by lia. lia.
Qed.

Lemma dec_chars n : 0 <= n -> all_chars is_digit_char (dec n) = true.
Proof. intros. apply digits_chars; auto using is_digit_digit_char; lia. Qed.

(** No character of a decimal numeral is [c], when [c] is not a digit. *)
Lemma dec_has_char n c : 0 <= n -> is_digit_char c = false -> has_char c (dec n) = false.
Proof.
  intros Hn Hc. generalize (dec_chars n Hn). generalize (dec n).
  induction s as [|a s IH]; [done|]. unfold all_chars in *. simpl.
  intros [Ha Hs]%andb_true_iff. rewrite IH by done.
  destruct (Ascii.eqb_spec a c) as [->|]; [congruence|done].
Qed.

Lemma parse_digits_app b acc s t :
  parse_digits b acc (s +:+ t) =
  match parse_digits b acc s with Some acc' => parse_digits b acc' t | None => None end.
Proof.
  revert acc. induction s as [|a s IH]; intros acc; simpl; [done|].
  destruct (to_digit 10 a); [|done]. by case_match.
Qed.

Lemma parse_digits_dec b n : 0 <= n < b -> parse_digits b 0 (dec n) = Some n.
Proof.
  intros [Hn Hb]. revert n Hn Hb. apply (digits_ind 10 (fun n => n < b -> _)); [done|..].
  - intros n Hn Hb. unfold dec. rewrite digits_unfold, (proj2 (Z.ltb_lt n 10)) by lia.
    cbn [parse_digits]. rewrite to_digit_char by lia. cbv zeta.
    replace (0 * 10 + n) with n by lia. by rewrite (proj2 (Z.ltb_lt n b)) by lia.
  - intros n Hn IH Hb. unfold dec in *.
    assert (n / 10 <= n) by (apply Z.div_le_upper_bound; lia).
    pose proof (Z.mod_pos_bound n 10 ltac:(lia)). pose proof (Z.div_mod n 10).
    rewrite digits_unfold, (proj2 (Z.ltb_ge n 10)), parse_digits_app, IH by lia.
    cbn [parse_digits]. rewrite to_digit_char by lia. cbv zeta.
    replace (n / 10 * 10 + n mod 10) with n by lia. by rewrite (proj2 (Z.ltb_lt n b)) by lia.
Qed.

(** A number prints as a numeral that parses back. *)
Lemma parse_uint_dec w n : in_width w n -> parse_uint w (dec n) = Some n.
Proof.
  intros Hn. destruct (digits_head 10 n) as (d & s & Hd & ?); [lia|unfold in_width in *; lia|].
  pose proof (parse_digits_dec (2 ^ w) n Hn) as Hp.
  pose proof (is_digit_digit_char d ltac:(lia)) as Hc.
  unfold parse_uint, dec in *. rewrite Hd in *.
  generalize dependent (digit_char d). intros [[] [] [] [] [] [] [] []] Hp Hc; done.
Qed.

Lemma dec_inj m n : 0 <= m -> 0 <= n -> dec m = dec n -> m = n.
Proof.
  intros Hm Hn H.
  pose proof (parse_digits_dec (Z.max m n + 1) m ltac:(lia)) as H1.
  pose proof (parse_digits_dec (Z.max m n + 1) n ltac:(lia)) as H2.
  rewrite H in H1. congruence.
Qed.

(** ** Lemmas: trimming a line *)

Lemma all_chars_cons p a s : all_chars p (String a s) = p a && all_chars p s.
Proof. reflexivity. Qed.

(** A printable ASCII character is not white space. *)
Definition graph_char (a : ascii) : bool := (32 <? byte_of a) && (byte_of a <? 128).

Lemma ws_at_graph a s : graph_char a = true -> ws_at (String a s) = 0%nat.
Proof.
  unfold graph_char, ws_at. intros [H1 H2]%andb_true_iff. apply Z.ltb_lt in H1, H2.
  change (substring 0 3 (String a s)) with (String a (substring 0 2 s)).
  cbn [as_bytes ws_len].
  rewrite (proj2 (Z.leb_gt (byte_of a) 13)), (proj2 (Z.eqb_neq (byte_of a) 32)), andb_false_r by lia.
  cbn [orb]. destruct (byte_of a) as [|p|p]; [lia| |lia].
  do 8 (destruct p as [p|p|]; try reflexivity; try lia).
Qed.

Lemma digit_graph a : is_digit_char a = true -> graph_char a = true.
Proof. unfold is_digit_char, is_ascii_digit, graph_char. lia. Qed.

(** The separators of the system's files *)
Definition blank (a : ascii) : bool := (byte_of a =? 32) || (byte_of a =? 9).

Lemma ws_at_blank a s : blank a = true -> ws_at (String a s) = 1%nat.
Proof.
  unfold blank, ws_at. change (substring 0 3 (String a s)) with (String a (substring 0 2 s)).
  cbn [as_bytes ws_len]. intros [E%Z.eqb_eq|E%Z.eqb_eq]%orb_true_iff; by rewrite E.
Qed.

(** A word of printable characters *)
Definition graph_word (w : string) : Prop := w <> "" /\ all_chars graph_char w = true.

(** Text of printable characters and blanks *)
Definition text_char (a : ascii) : bool := graph_char a || blank a.

Lemma all_ws_text s : all_chars text_char s = true -> all_ws s = all_chars blank s.
Proof.
  unfold all_ws, trim_start. induction s as [|a s IH]; [done|]. rewrite !all_chars_cons.
  intros [Ha Hs]%andb_true_iff. cbn [trim_start_from]. unfold text_char in Ha.
  destruct (blank a) eqn:Eb.
  - rewrite ws_at_blank by done. by apply IH.
  - rewrite orb_false_r in Ha. by rewrite ws_at_graph.
Qed.

(** Trailing blanks are cut off, and nothing else. *)
Lemma trim_end_text s g t :
  all_chars text_char s = true -> graph_char g = true -> all_chars blank t = true ->
  trim_end (s +:+ String g t) = s +:+ String g "".
Proof.
  intros Hs Hg Ht. assert (blank g = false) as Hb by (unfold blank, graph_char in *; lia).
  assert (forall x, all_chars blank x = true -> all_chars text_char x = true) as Htb.
  { induction x as [|a x IH]; [done|]. rewrite !all_chars_cons. unfold text_char.
    intros [-> Hx]%andb_true_iff. rewrite orb_true_r. by apply IH. }
  assert (forall x, all_chars blank x = true -> trim_end x = "") as Hend.
  { intros [|a x] Hx; [done|]. cbn [trim_end]. rewrite all_ws_text by (by apply Htb). by rewrite Hx. }
  induction s as [|a s IH]; cbn [String.append trim_end].
  - rewrite all_ws_text, all_chars_cons, Hb by (rewrite all_chars_cons; unfold text_char at 1; rewrite Hg; by apply Htb).
    cbn [andb]. by rewrite Hend.
  - rewrite all_chars_cons in Hs. apply andb_true_iff in Hs as [Ha Hs].
    rewrite all_ws_text, all_chars_cons, all_chars_app, all_chars_cons, Hb, !andb_false_r.
    + cbv iota. by rewrite IH.
    + rewrite all_chars_cons, Ha, all_chars_app, Hs, all_chars_cons. unfold text_char at 1. rewrite Hg.
      by apply Htb.
Qed.

Lemma graph_text s : all_chars graph_char s = true -> all_chars text_char s = true.
Proof.
  induction s as [|a s IH]; [done|]. rewrite !all_chars_cons. unfold text_char.
  intros [-> Hs]%andb_true_iff. by apply IH.
Qed.

Lemma trim_end_word s w t :
  all_chars text_char s = true -> graph_word w -> all_chars blank t = true ->
  trim_end (s +:+ w +:+ t) = s +:+ w.
Proof.
  intros Hs [Hne Hw] Ht.
  assert (exists w' g, w = w' +:+ String g "") as (w' & g & ->).
  { clear -Hne. induction w as [|a w IH]; [done|]. destruct w as [|b w]; [by exists "", a|].
    destruct IH as (w' & g & E); [done|]. exists (String a w'), g. by rewrite E. }
  rewrite all_chars_app, all_chars_cons in Hw. apply andb_true_iff in Hw as [Hw Hg].
  rewrite andb_true_r in Hg. rewrite (sapp_assoc w'). change (String g "" +:+ t) with (String g t).
  rewrite <- !(sapp_assoc s). apply trim_end_text; [|done|done].
  rewrite all_chars_app, Hs. by apply graph_text.
Qed.

Lemma trim_start_graph a s : graph_char a = true -> trim_start (String a s) = String a s.
Proof. intros Ha. unfold trim_start. cbn [trim_start_from]. by rewrite ws_at_graph. Qed.

Lemma ws_at_digit a s : is_digit_char a = true -> ws_at (String a s) = 0%nat.
Proof. intros. by apply ws_at_graph, digit_graph. Qed.

Lemma split_ws_graph cur w rest :
  all_chars graph_char w = true -> split_ws_from 0 cur (w +:+ rest) = split_ws_from 0 (cur +:+ w) rest.
Proof.
  revert cur. induction w as [|a w IH]; intros cur; [by rewrite sapp_nil_r|].
  rewrite all_chars_cons. intros [Ha Hw]%andb_true_iff.
  change (String a w +:+ rest) with (String a (w +:+ rest)). cbn [split_ws_from].
  rewrite ws_at_graph by done.
  rewrite IH by done. by rewrite sapp_assoc.
Qed.

Lemma app_nonempty (cur w : string) : w <> "" -> is_empty (cur +:+ w) = false.
Proof. intros. by destruct cur, w. Qed.

(** The first word, and what follows its separator *)
Lemma split_whitespace_word w a rest :
  graph_word w -> blank a = true ->
  split_whitespace (w +:+ String a rest) = w :: split_whitespace rest.
Proof.
  intros [Hne Hw] Ha. unfold split_whitespace. rewrite split_ws_graph by done. cbn [split_ws_from].
  rewrite ws_at_blank by done. change ("" +:+ w) with w. destruct w; [done|]. reflexivity.
Qed.

Lemma split_whitespace_last w : graph_word w -> split_whitespace w = [w].
Proof.
  intros [Hne Hw]. unfold split_whitespace. rewrite <- (sapp_nil_r w) at 1.
  rewrite split_ws_graph by done. by destruct w.
Qed.

Lemma split_whitespace_blank a s :
  blank a = true -> split_whitespace (String a s) = split_whitespace s.
Proof. intros Ha. unfold split_whitespace. cbn [split_ws_from]. by rewrite ws_at_blank. Qed.

Lemma split_whitespace_spaces n s : split_whitespace (spaces n +:+ s) = split_whitespace s.
Proof. induction n as [|n IH]; [done|]. cbn [spaces]. by rewrite <- IH, <- split_whitespace_blank with (a := " "%char). Qed.

Lemma dec_graph n : 0 <= n -> graph_word (dec n).
Proof.
  intros Hn. split; [destruct (digits_head 10 n) as (d & t & E & _); [lia|done|]; unfold dec; by rewrite E|].
  pose proof (dec_chars n Hn) as Hd. revert Hd. generalize (dec n).
  induction s as [|a s IH]; [done|]. rewrite !all_chars_cons.
  intros [Ha Hs]%andb_true_iff. rewrite (digit_graph a) by done. by apply IH.
Qed.

Lemma trim_end_digits s : all_chars is_digit_char s = true -> trim_end (s +:+ nl) = s.
Proof.
  induction s as [|a s IH]; [done|]. unfold all_chars in *. cbn [list_ascii_of_string forallb].
  intros [Ha Hs]%andb_true_iff. change (String a s +:+ nl) with (String a (s +:+ nl)).
  cbn [trim_end]. unfold all_ws, trim_start. cbn [trim_start_from].
  rewrite ws_at_digit by done. cbn [is_empty]. by rewrite IH.
Qed.

(** ** Checks of the definitions on small inputs *)
Example split_ex : split "," "a,,b" = ["a"; ""; "b"]. Proof. reflexivity. Qed.
Example splitn_ex : splitn 3 "," "a,b,c,d" = ["a"; "b"; "c,d"]. Proof. reflexivity. Qed.
Example lines_ex :
  lines ("a" +:+ String cr nl +:+ "b" +:+ nl +:+ nl +:+ "c" +:+ String cr "")
  = ["a"; "b"; ""; "c" +:+ String cr ""].
Proof. reflexivity. Qed.
Example trim_ex : trim ("  a b" +:+ tabs +:+ "é" +:+ nl) = "a b" +:+ tabs +:+ "é".
Proof. reflexivity. Qed.
Example words_ex : split_whitespace "  nameserver  10.0.0.1 " = ["nameserver"; "10.0.0.1"].
Proof. reflexivity. Qed.
Example dec_ex : dec 0 = "0" /\ dec 65535 = "65535" /\ hex 48879 = "beef".
Proof. repeat split. Qed.
Example parse_ex :
  parse_uint 16 "65536" = None /\ parse_uint 16 "+53" = Some 53 /\ parse_uint 16 "-1" = None.
Proof. repeat split. Qed.
Example pad_ex : pad_right 4 "é" = "é   ". Proof. reflexivity. Qed.
Example lossy_ex : from_utf8_lossy (String (chr 255) "a") = "�a" /\ from_utf8_lossy "é€" = "é€".
Proof. repeat split. Qed.
