(* ===== verification/Net.v ===== *)
(** * IP and socket addresses of [std::net]

    The data, predicates, printers and parsers of [std::net] that the program
    uses, the reception filter [is_local_ip] of [src/proxy.rs], and the
    round trips between addresses and their text. *)

From S2P Require Import Prelude RustStr.

(** ** Data

    An [Ipv4Addr] is its 32-bit value and an [Ipv6Addr] its 128-bit value. *)
Abbreviation Ipv4Addr := Z (only parsing).
Abbreviation Ipv6Addr := Z (only parsing).

Inductive IpAddr : Type :=
| V4 (a : Ipv4Addr)
| V6 (a : Ipv6Addr).

#[export] Instance IpAddr_eq_dec : EqDecision IpAddr.
Proof. solve_decision. Defined.

#[export] Instance IpAddr_countable : Countable IpAddr.
Proof.
  refine (inj_countable'
    (fun i => match i with V4 a => inl a | V6 a => inr a end)
    (fun s => match s with inl a => V4 a | inr a => V6 a end) _).
  by intros [].
Defined.

Definition ip_wf (ip : IpAddr) : Prop :=
  match ip with V4 a => in_width 32 a | V6 a => in_width 128 a end.

#[export] Instance ip_wf_dec ip : Decision (ip_wf ip).
Proof. destruct ip; unfold ip_wf, in_width; apply _. Defined.

(** [Ord for IpAddr]: IPv4 before IPv6, then by value. *)
Definition ip_leb (x y : IpAddr) : bool :=
  match x, y with
  | V4 a, V4 b => a <=? b
  | V4 _, V6 _ => true
  | V6 _, V4 _ => false
  | V6 a, V6 b => a <=? b
  end.

Definition octet (a : Ipv4Addr) (i : Z) : Z := a / 2 ^ (8 * (3 - i)) mod 2 ^ 8.
Definition v4_new (a b c d : Z) : Ipv4Addr := a * 2 ^ 24 + b * 2 ^ 16 + c * 2 ^ 8 + d.

Definition segment (a : Ipv6Addr) (i : Z) : Z := a / 2 ^ (16 * (7 - i)) mod 2 ^ 16.
Definition segments (a : Ipv6Addr) : list Z := map (segment a) [0; 1; 2; 3; 4; 5; 6; 7].
Definition v6_of_segments (l : list Z) : Ipv6Addr := fold_left (fun acc g => acc * 2 ^ 16 + g) l 0.

(** [Ipv6Addr::to_ipv4_mapped] *)
Definition to_ipv4_mapped (a : Ipv6Addr) : option Ipv4Addr :=
  if a / 2 ^ 32 =? 0xffff then Some (a mod 2 ^ 32) else None.

(** [Ipv4Addr::to_ipv6_mapped] *)
Definition to_ipv6_mapped (a : Ipv4Addr) : Ipv6Addr := 0xffff * 2 ^ 32 + a.

(** ** Classification *)

Definition v4_is_loopback (a : Ipv4Addr) : bool := octet a 0 =? 127.

Definition v4_is_private (a : Ipv4Addr) : bool :=
  (octet a 0 =? 10)
  || ((octet a 0 =? 172) && (16 <=? octet a 1) && (octet a 1 <=? 31))
  || ((octet a 0 =? 192) && (octet a 1 =? 168)).

Definition v4_is_link_local (a : Ipv4Addr) : bool := (octet a 0 =? 169) && (octet a 1 =? 254).

Definition v6_is_loopback (a : Ipv6Addr) : bool := a =? 1.
Definition v6_is_unique_local (a : Ipv6Addr) : bool := Z.land (segment a 0) 0xfe00 =? 0xfc00.
Definition v6_is_unicast_link_local (a : Ipv6Addr) : bool := Z.land (segment a 0) 0xffc0 =? 0xfe80.

(** The reception filter of the DNS proxy ([src/proxy.rs]) *)
Definition is_local_ip (ip : IpAddr) : bool :=
  match ip with
  | V4 ipv4 =>
      v4_is_loopback ipv4
      || v4_is_private ipv4
      || v4_is_link_local ipv4
      || ((octet ipv4 0 =? 198) && ((octet ipv4 1 =? 18) || (octet ipv4 1 =? 19)))
  | V6 ipv6 =>
      v6_is_loopback ipv6 || v6_is_unique_local ipv6 || v6_is_unicast_link_local ipv6
  end.

(** ** Printing *)

Definition v4_to_string (a : Ipv4Addr) : string :=
  dec (octet a 0) +:+ "." +:+ dec (octet a 1) +:+ "." +:+ dec (octet a 2) +:+ "." +:+ dec (octet a 3).

(** The longest run of zero groups: [(start, length)], the first one of
    maximal length.  [i] is the index of the head of the list, [cur] the run
    that ends just before it, [best] the longest run so far. *)
Fixpoint zero_span (i : nat) (cur best : nat * nat) (l : list Z) : nat * nat :=
  match l with
  | [] => best
  | g :: l' =>
      if g =? 0 then
        let cur' := if (cur.2 =? 0)%nat then (i, 1%nat) else (cur.1, S cur.2) in
        zero_span (S i) cur' (if (best.2 <? cur'.2)%nat then cur' else best) l'
      else zero_span (S i) (O, O) best l'
  end.

Definition fmt_subslice (l : list Z) : string := join ":" (map hex l).

Definition v6_to_string (a : Ipv6Addr) : string :=
  match to_ipv4_mapped a with
  | Some v4 => "::ffff:" +:+ v4_to_string v4
  | None =>
      let segs := segments a in
      let '(start, n) := zero_span 0 (O, O) (O, O) segs in
      if (1 <? n)%nat
      then fmt_subslice (firstn start segs) +:+ "::" +:+ fmt_subslice (skipn (start + n) segs)
      else fmt_subslice segs
  end.

Definition ip_to_string (ip : IpAddr) : string :=
  match ip with V4 a => v4_to_string a | V6 a => v6_to_string a end.

(** ** Parsing

    [std::net]'s parser: a reader returns its value and the rest of the input,
    or [None] and consumes nothing. *)
Definition Reader (A : Type) : Type := string -> option (A * string).

Definition read_given_char (c : ascii) : Reader unit := fun s =>
  match s with
  | String a s' => if Ascii.eqb a c then Some (tt, s') else None
  | "" => None
  end.

(** The digits at the head of the input; [None] as soon as there are more than
    [max] of them. *)
Fixpoint read_digits (radix : Z) (max count : nat) (acc : Z) (s : string)
    : option (Z * nat * string) :=
  match s with
  | "" => Some (acc, count, s)
  | String a s' =>
      match to_digit radix a with
      | Some d => if (max <? S count)%nat then None
                  else read_digits radix max (S count) (acc * radix + d) s'
      | None => Some (acc, count, s)
      end
  end.

Definition read_number (radix : Z) (max : nat) (allow_zero_prefix : bool) (bound : Z) : Reader Z :=
  fun s =>
    let has_leading_zero := starts_with "0" s in
    match read_digits radix max 0 0 s with
    | None => None
    | Some (v, count, rest) =>
        if (count =? 0)%nat then None
        else if negb allow_zero_prefix && has_leading_zero && (1 <? count)%nat then None
        else if v <? bound then Some (v, rest) else None
    end.

Definition read_separator {A} (sep : ascii) (first : bool) (inner : Reader A) : Reader A := fun s =>
  if first then inner s
  else match read_given_char sep s with
       | Some (_, s') => inner s'
       | None => None
       end.

Definition read_octet (first : bool) : Reader Z :=
  read_separator "." first (read_number 10 3 false 256).

Definition read_ipv4 : Reader Ipv4Addr := fun s =>
  match read_octet true s with
  | None => None
  | Some (a, s1) =>
      match read_octet false s1 with
      | None => None
      | Some (b, s2) =>
          match read_octet false s2 with
          | None => None
          | Some (c, s3) =>
              match read_octet false s3 with
              | None => None
              | Some (d, s4) => Some (v4_new a b c d, s4)
              end
          end
      end
  end.

(** Up to [n] groups, and whether an embedded IPv4 address ended them. *)
Fixpoint read_groups (n : nat) (first : bool) (s : string) : list Z * bool * string :=
  match n with
  | O => ([], false, s)
  | S n' =>
      match (if (0 <? n')%nat then read_separator ":" first read_ipv4 s else None) with
      | Some (v4, s') => ([v4 / 2 ^ 16; v4 mod 2 ^ 16], true, s')
      | None =>
          match read_separator ":" first (read_number 16 4 true 65536) s with
          | Some (g, s') =>
              let '(gs, b, s'') := read_groups n' false s' in (g :: gs, b, s'')
          | None => ([], false, s)
          end
      end
  end.

Definition read_ipv6 : Reader Ipv6Addr := fun s =>
  let '(head, head_ipv4, s1) := read_groups 8 true s in
  if (List.length head =? 8)%nat then Some (v6_of_segments head, s1)
  else if head_ipv4 : bool then None
  else match strip_prefix "::" s1 with
       | None => None
       | Some s2 =>
           let '(tail, _, s3) := read_groups (8 - (List.length head + 1)) true s2 in
           Some (v6_of_segments
                   (head ++ replicate (8 - List.length head - List.length tail) 0 ++ tail), s3)
       end.

Definition read_ip : Reader IpAddr := fun s =>
  match read_ipv4 s with
  | Some (a, r) => Some (V4 a, r)
  | None => match read_ipv6 s with
            | Some (a, r) => Some (V6 a, r)
            | None => None
            end
  end.

(** The whole input has to be consumed. *)
Definition parse_with {A} (r : Reader A) (s : string) : option A :=
  match r s with
  | Some (a, "") => Some a
  | _ => None
  end.

(** [str::parse] at [Ipv4Addr], [Ipv6Addr] and [IpAddr] *)
Definition parse_ipv4 (s : string) : option Ipv4Addr :=
  if 15 <? len s then None else parse_with read_ipv4 s.
Definition parse_ipv6 (s : string) : option Ipv6Addr := parse_with read_ipv6 s.
Definition parse_ip (s : string) : option IpAddr := parse_with read_ip s.

(** [read_number(10, None, true)]: any number of digits that fit. *)
Definition read_unsigned (bound : Z) : Reader Z := fun s =>
  match read_digits 10 (String.length s) 0 0 s with
  | Some (v, count, rest) =>
      if (count =? 0)%nat then None else if v <? bound then Some (v, rest) else None
  | None => None
  end.

Definition read_port : Reader Z := fun s =>
  match read_given_char ":" s with
  | Some (_, s') => read_unsigned (2 ^ 16) s'
  | None => None
  end.

Definition read_socket_addr_v4 : Reader (IpAddr * Z) := fun s =>
  match read_ipv4 s with
  | None => None
  | Some (a, r) =>
      match read_port r with
      | Some (p, r') => Some ((V4 a, p), r')
      | None => None
      end
  end.

(** An optional scope identifier, whose value the program does not look at *)
Definition skip_scope_id (s : string) : string :=
  match read_given_char "%" s with
  | Some (_, s') => match read_unsigned (2 ^ 32) s' with Some (_, r) => r | None => s end
  | None => s
  end.

Definition read_socket_addr_v6 : Reader (IpAddr * Z) := fun s =>
  match read_given_char "[" s with
  | None => None
  | Some (_, s1) =>
      match read_ipv6 s1 with
      | None => None
      | Some (a, s2) =>
          match read_given_char "]" (skip_scope_id s2) with
          | None => None
          | Some (_, s3) =>
              match read_port s3 with
              | Some (p, r) => Some ((V6 a, p), r)
              | None => None
              end
          end
      end
  end.

Definition read_socket_addr : Reader (IpAddr * Z) := fun s =>
  match read_socket_addr_v4 s with
  | Some x => Some x
  | None => read_socket_addr_v6 s
  end.

(** [str::parse::<SocketAddr>] *)
Definition parse_socket_addr (s : string) : option (IpAddr * Z) := parse_with read_socket_addr s.

Example ip_ex :
  ip_to_string (V4 (v4_new 198 18 0 1)) = "198.18.0.1"
  /\ parse_ip "198.18.0.1" = Some (V4 (v4_new 198 18 0 1))
  /\ parse_ip "198.18.0.01" = None /\ parse_ip "256.0.0.1" = None
  /\ option_map ip_to_string (parse_ip "2001:DB8:0:0:1:0:0:1") = Some "2001:db8::1:0:0:1"
  /\ option_map ip_to_string (parse_ip "::ffff:10.0.0.1") = Some "::ffff:10.0.0.1"
  /\ option_map ip_to_string (parse_ip "::") = Some "::"
  /\ option_map ip_to_string (parse_ip "1:2:3:4:5:6:1.2.3.4") = Some "1:2:3:4:5:6:102:304"
  /\ parse_ip "1:2:3:4:5:6:7::" = parse_ip "1:2:3:4:5:6:7:0"
  /\ parse_ip "fe80::1%eth0" = None
  /\ parse_socket_addr "127.0.0.1:5353" = Some (V4 (v4_new 127 0 0 1), 5353)
  /\ parse_socket_addr "[::1]:53" = Some (V6 1, 53)
  /\ parse_socket_addr "127.0.0.1" = None.
Proof. vm_compute. repeat split. Qed.

(** ** Lemmas: parts of an address *)

(** Computes the exponents [16 * k] of literal [k]. *)
Ltac norm_exp :=
  repeat match goal with
         | |- context [2 ^ (16 * ?k)] =>
             let v := eval compute in (16 * k) in change (16 * k) with v
         end.

(** Arithmetic on literal powers of two: [2 ^ k] is computed, division and
    remainder are turned into equations. *)
Ltac div_mod_lia :=
  unfold in_width in *;
  repeat match goal with
         | |- context [2 ^ ?k] => let v := eval compute in (2 ^ k) in change (2 ^ k) with v
         | H : context [2 ^ ?k] |- _ =>
             let v := eval compute in (2 ^ k) in change (2 ^ k) with v in H
         end;
  Z.to_euclidean_division_equations; lia.

Lemma octet_range a i : 0 <= octet a i < 256.
Proof. unfold octet. apply Z.mod_pos_bound. lia. Qed.

Lemma segment_range a i : 0 <= segment a i < 65536.
Proof. unfold segment. apply Z.mod_pos_bound. lia. Qed.

Lemma v4_octets a : in_width 32 a -> v4_new (octet a 0) (octet a 1) (octet a 2) (octet a 3) = a.
Proof. intros. unfold v4_new, octet. div_mod_lia. Qed.

Lemma octet_v4_new a b c d :
  0 <= a < 256 -> 0 <= b < 256 -> 0 <= c < 256 -> 0 <= d < 256 ->
  octet (v4_new a b c d) 0 = a /\ octet (v4_new a b c d) 1 = b
  /\ octet (v4_new a b c d) 2 = c /\ octet (v4_new a b c d) 3 = d.
Proof. intros. unfold octet, v4_new. repeat split; div_mod_lia. Qed.

Lemma v4_new_wf a b c d :
  0 <= a < 256 -> 0 <= b < 256 -> 0 <= c < 256 -> 0 <= d < 256 -> in_width 32 (v4_new a b c d).
Proof. intros. unfold v4_new. div_mod_lia. Qed.

#[export] Hint Resolve octet_range segment_range v4_new_wf : dockerwall.

Lemma v6_segments a : in_width 128 a -> v6_of_segments (segments a) = a.
Proof.
  intros Ha. unfold v6_of_segments, segments, segment. cbn [map fold_left]. norm_exp.
  rewrite Z.pow_0_r, Z.div_1_r.
  assert (forall k j, j = 16 + k -> 0 <= k ->
            a / 2 ^ j * 2 ^ 16 + a / 2 ^ k mod 2 ^ 16 = a / 2 ^ k) as Hs.
  { intros k j -> Hk. rewrite (Z.add_comm 16 k), Z.pow_add_r, <- Z.div_div by lia.
    pose proof (Z.div_mod (a / 2 ^ k) (2 ^ 16) ltac:(lia)). lia. }
  rewrite Z.mul_0_l, Z.add_0_l.
  rewrite (Z.mod_small (a / 2 ^ 112)).
  2: { split; [apply Z.div_pos; unfold in_width in *; lia|].
       apply Z.div_lt_upper_bound; [lia|]. destruct Ha as [_ Ha]. revert Ha. done. }
  rewrite (Hs 96 112), (Hs 80 96), (Hs 64 80), (Hs 48 64), (Hs 32 48), (Hs 16 32) by lia.
  pose proof (Hs 0 16 eq_refl ltac:(lia)) as H0. rewrite Z.pow_0_r, Z.div_1_r in H0. exact H0.
Qed.

Lemma to_ipv4_mapped_spec a v :
  in_width 128 a -> to_ipv4_mapped a = Some v <-> in_width 32 v /\ a = to_ipv6_mapped v.
Proof.
  intros Ha. unfold to_ipv4_mapped, to_ipv6_mapped.
  destruct (Z.eqb_spec (a / 2 ^ 32) 0xffff) as [E|E].
  - split; [intros [= <-]; split; div_mod_lia|].
    intros [? ->]. f_equal. div_mod_lia.
  - split; [done|]. intros [? ->]. exfalso. apply E. div_mod_lia.
Qed.

(** ** Lemmas: reading numbers *)

(** The input cannot continue a number of base [r]. *)
Definition stops (r : Z) (s : string) : Prop :=
  match s with "" => True | String a _ => to_digit r a = None end.

Lemma read_digits_app r max cnt acc d s :
  0 <= d < r -> r <= 16 -> (cnt < max)%nat ->
  read_digits r max cnt acc (String (digit_char d) s) = read_digits r max (S cnt) (acc * r + d) s.
Proof.
  intros. cbn [read_digits]. rewrite to_digit_char by lia.
  destruct (Nat.ltb_spec max (S cnt)); [lia|done].
Qed.

Lemma read_digits_stops r max cnt acc s :
  stops r s -> read_digits r max cnt acc s = Some (acc, cnt, s).
Proof. destruct s; simpl; [done|]. by intros ->. Qed.

(** A number of fewer than [k] digits is read back whole. *)
Lemma read_digits_digits r n rest :
  2 <= r <= 16 -> 0 <= n ->
  forall k max cnt acc,
    n < r ^ Z.of_nat k -> (0 < k)%nat -> (cnt + k <= max)%nat ->
    exists l, (0 < l <= k)%nat /\
      read_digits r max cnt acc (digits r n +:+ rest) =
      read_digits r max (cnt + l) (acc * r ^ Z.of_nat l + n) rest.
Proof.
  intros Hr Hn. revert rest. revert n Hn.
  refine (digits_ind r _ ltac:(lia) _ _); intros n Hn.
  - intros rest k max cnt acc _ Hk Hmax. exists 1%nat. split; [lia|].
    rewrite digits_unfold, (proj2 (Z.ltb_lt n r)) by lia.
    simpl (String _ _ +:+ _). rewrite read_digits_app by lia.
    f_equal; [lia|]. rewrite Z.pow_1_r. done.
  - intros IH rest k max cnt acc Hk Hk0 Hmax.
    rewrite digits_unfold, (proj2 (Z.ltb_ge n r)), sapp_assoc by lia.
    destruct k as [|k]; [lia|].
    rewrite Nat2Z.inj_succ, Z.pow_succ_r in Hk by lia.
    assert (n / r < r ^ Z.of_nat k) by (apply Z.div_lt_upper_bound; lia).
    assert (0 < n / r) by (apply Z.div_str_pos; lia).
    destruct k as [|k]; [simpl in *; lia|].
    edestruct (IH (String (digit_char (n mod r)) "" +:+ rest) (S k) max cnt acc)
      as (l & Hl & ->); [done|lia..|].
    pose proof (Z.mod_pos_bound n r ltac:(lia)).
    exists (S l). split; [lia|]. simpl (String _ _ +:+ _).
    rewrite read_digits_app by lia. f_equal; [lia|].
    rewrite Nat2Z.inj_succ, Z.pow_succ_r by lia. pose proof (Z.div_mod n r). lia.
Qed.

Lemma digits_leading_zero r n rest :
  2 <= r <= 16 -> 0 <= n -> starts_with "0" (digits r n +:+ rest) = (n =? 0).
Proof.
  intros Hr Hn. revert rest. revert n Hn.
  refine (digits_ind r _ ltac:(lia) _ _); intros n Hn.
  - intros rest. rewrite digits_unfold, (proj2 (Z.ltb_lt n r)) by lia.
    unfold starts_with. cbn [strip_prefix String.append].
    change "0"%char with (digit_char 0).
    destruct (Ascii.eqb_spec (digit_char 0) (digit_char n)) as [E|E].
    + apply (f_equal (to_digit 16)) in E. rewrite !to_digit_char in E by lia.
      simplify_eq. done.
    + destruct (Z.eqb_spec n 0); [by subst|done].
  - intros IH rest. rewrite digits_unfold, (proj2 (Z.ltb_ge n r)), sapp_assoc, IH by lia.
    assert (0 < n / r) by (apply Z.div_str_pos; lia). lia.
Qed.

Lemma read_number_digits r max zero bound n rest :
  2 <= r <= 16 -> (0 < max)%nat -> 0 <= n < bound -> n < r ^ Z.of_nat max -> stops r rest ->
  read_number r max zero bound (digits r n +:+ rest) = Some (n, rest).
Proof.
  intros Hr Hmax Hn Hb Hs. unfold read_number.
  rewrite digits_leading_zero by lia.
  destruct (Z.eqb_spec n 0) as [->|Hnz].
  - rewrite digits_unfold by lia. rewrite (proj2 (Z.ltb_lt 0 r)) by lia.
    simpl (String _ _ +:+ _). rewrite read_digits_app, read_digits_stops by (done || lia).
    change (1 <? 1)%nat with false. change (1 =? 0)%nat with false.
    rewrite andb_false_r. replace (0 * r + 0) with 0 by lia.
    by rewrite (proj2 (Z.ltb_lt 0 bound)) by lia.
  - edestruct (read_digits_digits r n rest) with (k := max) (max := max) (cnt := O) (acc := 0)
      as (l & Hl & ->); [lia..|].
    rewrite read_digits_stops by done.
    destruct (Nat.eqb_spec (0 + l) 0); [lia|]. rewrite andb_false_r. cbv iota.
    replace (0 * r ^ Z.of_nat l + n) with n by lia.
    by rewrite (proj2 (Z.ltb_lt n bound)) by lia.
Qed.

(** ** Lemmas: IPv4 text *)

Lemma read_octet_first d rest :
  0 <= d < 256 -> stops 10 rest -> read_octet true (dec d +:+ rest) = Some (d, rest).
Proof. intros. unfold read_octet, read_separator. apply read_number_digits; simpl; done || lia. Qed.

Lemma read_octet_next d rest :
  0 <= d < 256 -> stops 10 rest -> read_octet false (String "." (dec d +:+ rest)) = Some (d, rest).
Proof. intros. unfold read_octet, read_separator. simpl. apply read_number_digits; simpl; done || lia. Qed.

(** The text of an IPv4 address is read back whole. *)
Lemma read_ipv4_to_string a rest :
  in_width 32 a -> stops 10 rest -> read_ipv4 (v4_to_string a +:+ rest) = Some (a, rest).
Proof.
  intros Ha Hs. unfold read_ipv4, v4_to_string. rewrite !sapp_assoc. simpl String.append.
  rewrite read_octet_first, !read_octet_next by (auto with dockerwall; done).
  by rewrite v4_octets.
Qed.

Lemma v4_to_string_len a : len (v4_to_string a) <= 15.
Proof.
  assert (forall d, 0 <= d < 256 -> (String.length (dec d) <= 3)%nat) as Hl.
  { intros d Hd. unfold dec. assert (0 <= d / 10) by div_mod_lia.
    assert (0 <= d / 10 / 10) by div_mod_lia.
    rewrite (digits_unfold 10 d), (digits_unfold 10 (d / 10)), (digits_unfold 10 (d / 10 / 10)) by lia.
    assert (d / 10 / 10 < 10) by div_mod_lia.
    rewrite (proj2 (Z.ltb_lt (d / 10 / 10) 10)) by lia.
    repeat case_match; rewrite ?length_app_str; simpl; lia. }
  unfold len, v4_to_string. rewrite !length_app_str. simpl (String.length ".").
  pose proof (Hl _ (octet_range a 0)). pose proof (Hl _ (octet_range a 1)).
  pose proof (Hl _ (octet_range a 2)). pose proof (Hl _ (octet_range a 3)). lia.
Qed.

Lemma parse_ipv4_to_string a : in_width 32 a -> parse_ipv4 (v4_to_string a) = Some a.
Proof.
  intros. unfold parse_ipv4, parse_with. pose proof (v4_to_string_len a).
  rewrite (proj2 (Z.ltb_ge _ _)) by lia.
  rewrite <- (sapp_nil_r (v4_to_string a)), read_ipv4_to_string; done.
Qed.

Lemma v4_to_string_inj a b :
  in_width 32 a -> in_width 32 b -> v4_to_string a = v4_to_string b -> a = b.
Proof.
  intros Ha Hb H. apply parse_ipv4_to_string in Ha, Hb. rewrite H in Ha. congruence.
Qed.

(** ** Lemmas: IPv6 text *)

Lemma digits_has_char r n c :
  2 <= r <= 16 -> 0 <= n -> (forall d, 0 <= d < r -> digit_char d <> c) ->
  has_char c (digits r n) = false.
Proof.
  intros Hr Hn Hc. revert n Hn. refine (digits_ind r _ ltac:(lia) _ _); intros n Hn.
  - rewrite digits_unfold, (proj2 (Z.ltb_lt n r)) by lia. simpl.
    rewrite orb_false_r. by apply Ascii.eqb_neq, Hc.
  - intros IH. rewrite digits_unfold, (proj2 (Z.ltb_ge n r)), has_char_app, IH by lia. simpl.
    rewrite orb_false_r. apply Ascii.eqb_neq, Hc, Z.mod_pos_bound. lia.
Qed.

Lemma digit_char_ne c d : 0 <= d < 16 -> to_digit 16 c = None -> digit_char d <> c.
Proof. intros Hd Hc <-. rewrite to_digit_char in Hc by lia. done. Qed.

Lemma hex_no_char g c : 0 <= g -> to_digit 16 c = None -> has_char c (hex g) = false.
Proof. intros. apply digits_has_char; [lia..|]. intros. by apply digit_char_ne. Qed.

Lemma read_digits_suffix r max cnt acc s v n rest :
  read_digits r max cnt acc s = Some (v, n, rest) -> exists p, s = p +:+ rest.
Proof.
  revert cnt acc. induction s as [|a s IH]; simpl; intros cnt acc.
  - intros [= <- <- <-]. by exists "".
  - destruct (to_digit r a) eqn:E.
    + destruct (Nat.ltb max (S cnt)); [done|]. intros H.
      apply IH in H as [p ->]. by exists (String a p).
    + intros [= <- <- <-]. by exists "".
Qed.

Lemma read_ipv4_no_dot s : has_char "." s = false -> read_ipv4 s = None.
Proof.
  intros Hs. unfold read_ipv4, read_octet, read_separator, read_number.
  destruct (read_digits 10 3 0 0 s) as [[[v n] rest]|] eqn:E; [|done].
  apply read_digits_suffix in E as [p ->].
  rewrite has_char_app in Hs. apply orb_false_iff in Hs as [_ Hs].
  assert (read_given_char "." rest = None) as Hr.
  { destruct rest as [|a rest]; simpl in *; [done|].
    apply orb_false_iff in Hs as [-> _]. done. }
  destruct (n =? 0)%nat; [done|].
  destruct (negb false && _ && _); [done|]. destruct (v <? 256); [|done].
  by rewrite Hr.
Qed.

(** The text of groups: separated by colons, and preceded by one unless they
    are the [first]. *)
Fixpoint groups_text (first : bool) (gs : list Z) : string :=
  match gs with
  | [] => ""
  | g :: gs' => (if first then "" else ":") +:+ hex g +:+ groups_text false gs'
  end.

Lemma fmt_subslice_text gs : fmt_subslice gs = groups_text true gs.
Proof.
  unfold fmt_subslice. destruct gs as [|g gs]; [done|]. cbn [map groups_text].
  change (("" +:+ hex g +:+ groups_text false gs)) with (hex g +:+ groups_text false gs).
  revert g. induction gs as [|g' gs IH]; intros g; cbn [map join groups_text].
  - by rewrite sapp_nil_r.
  - f_equal. cbn [map join] in IH. by rewrite IH.
Qed.

Definition group_ok (g : Z) : Prop := 0 <= g < 65536.

Lemma groups_text_no_dot first gs :
  Forall group_ok gs -> has_char "." (groups_text first gs) = false.
Proof.
  intros H. revert first. induction H as [|g gs Hg _ IH]; intros first; [done|].
  unfold group_ok in Hg. cbn [groups_text].
  rewrite !has_char_app, IH, hex_no_char by (done || lia). by destruct first.
Qed.

(** Reading groups: they come back, and the reader stops after them. *)
Lemma read_groups_text n first gs rest :
  Forall group_ok gs -> (List.length gs <= n)%nat ->
  has_char "." rest = false -> stops 16 rest ->
  (List.length gs = n \/
   read_separator ":" (match gs with [] => first | _ => false end)
     (read_number 16 4 true 65536) rest = None) ->
  read_groups n first (groups_text first gs +:+ rest) = (gs, false, rest).
Proof.
  intros Hgs. revert n first. induction Hgs as [|g gs Hg Hgs IH]; intros n first Hn Hd Hs Hstop.
  - destruct n as [|n]; [done|]. destruct Hstop as [|Hstop]; [done|].
    cbn [groups_text read_groups]. change ("" +:+ rest) with rest. rewrite Hstop.
    destruct (0 <? n)%nat; [|done].
    unfold read_separator. destruct first; [by rewrite read_ipv4_no_dot|].
    destruct rest as [|a rest]; [done|]. simpl in *.
    apply orb_false_iff in Hd as [_ Hd]. destruct (Ascii.eqb a ":"); [|done].
    by rewrite read_ipv4_no_dot.
  - destruct n as [|n]; simpl in Hn; [lia|]. unfold group_ok in Hg.
    assert (has_char "." (groups_text false gs +:+ rest) = false) as Hd'.
    { by rewrite has_char_app, groups_text_no_dot. }
    assert (stops 16 (groups_text false gs +:+ rest)) as Hs' by (by destruct gs).
    cbn [groups_text read_groups]. rewrite !sapp_assoc.
    assert (read_separator ":" first (read_number 16 4 true 65536)
              ((if first then "" else ":") +:+ hex g +:+ groups_text false gs +:+ rest)
            = Some (g, groups_text false gs +:+ rest)) as ->.
    { destruct first; unfold read_separator; simpl; apply read_number_digits; simpl; done || lia. }
    assert (read_separator ":" first read_ipv4
              ((if first then "" else ":") +:+ hex g +:+ groups_text false gs +:+ rest) = None) as ->.
    { destruct first; unfold read_separator; simpl;
        apply read_ipv4_no_dot; by rewrite has_char_app, hex_no_char by (done || lia). }
    rewrite IH; [by destruct (0 <? n)%nat|lia|done|done|].
    destruct Hstop as [Hl|Hstop]; [left; simpl in Hl; lia|right; by destruct gs].
Qed.

(** ** Lemmas: zero compression *)

(** A run of zero groups inside [full] *)
Definition zero_run (full : list Z) (r : nat * nat) : Prop :=
  (r.1 + r.2 <= List.length full)%nat
  /\ forall k, (r.1 <= k < r.1 + r.2)%nat -> full !! k = Some 0.

Lemma zero_span_run pre l cur best :
  zero_run (pre ++ l) best -> zero_run (pre ++ l) cur ->
  (cur.2 = 0 \/ cur.1 + cur.2 = List.length pre)%nat ->
  zero_run (pre ++ l) (zero_span (List.length pre) cur best l).
Proof.
  revert pre cur best. induction l as [|g l IH]; intros pre cur best Hb Hc He; [done|].
  cbn [zero_span].
  replace (pre ++ g :: l) with ((pre ++ [g]) ++ l) in * by (by rewrite <- app_assoc).
  replace (S (List.length pre)) with (List.length (pre ++ [g])) by (rewrite length_app; simpl; lia).
  assert (Hl : (List.length (pre ++ [g]) <= List.length ((pre ++ [g]) ++ l))%nat)
    by (rewrite (length_app (pre ++ [g])); lia).
  assert (Hl' : List.length (pre ++ [g]) = S (List.length pre)) by (rewrite length_app; simpl; lia).
  destruct (Z.eqb_spec g 0) as [->|Hg].
  - set (cur' := if (cur.2 =? 0)%nat then _ else _).
    assert (((pre ++ [0]) ++ l) !! List.length pre = Some 0) as Hz.
    { rewrite lookup_app_l by lia. by apply list_lookup_middle. }
    assert (zero_run ((pre ++ [0]) ++ l) cur' /\ (cur'.1 + cur'.2 = S (List.length pre))%nat)
      as [Hr He'].
    { subst cur'. destruct (Nat.eqb_spec cur.2 0) as [E|E]; simpl; (split; [|lia]); split; simpl.
      - lia.
      - intros k Hk. by replace k with (List.length pre) by lia.
      - lia.
      - intros k Hk. destruct (decide (k = List.length pre)) as [->|]; [done|].
        apply Hc. lia. }
    apply IH; [by destruct (best.2 <? cur'.2)%nat|done|right; lia].
  - apply IH; [done| |by left]. split; simpl; [lia|]. intros k Hk. lia.
Qed.

Lemma zero_run_split full s n :
  zero_run full (s, n) -> full = firstn s full ++ replicate n 0 ++ skipn (s + n) full.
Proof.
  intros [Hl Hz]. simpl in *.
  rewrite <- (firstn_skipn s full) at 1. f_equal.
  rewrite <- (firstn_skipn n (skipn s full)) at 1. rewrite skipn_skipn.
  f_equal; [|f_equal; lia].
  apply list_eq. intros k. destruct (decide (k < n)%nat).
  - rewrite lookup_take_lt, lookup_drop by done. rewrite Hz by lia.
    symmetry. by apply lookup_replicate_2.
  - rewrite !lookup_ge_None_2; [done|rewrite length_replicate; lia|rewrite length_take; lia].
Qed.

Lemma segments_ok a : Forall group_ok (segments a).
Proof. repeat constructor; apply segment_range. Qed.

(** What may follow an IPv6 address: the end of the input, or a character that
    continues none of its parts. *)
Definition closes (rest : string) : Prop :=
  has_char "." rest = false
  /\ match rest with "" => True | String a _ => to_digit 16 a = None /\ a <> ":"%char end.

Lemma closes_stops rest : closes rest -> stops 16 rest /\ stops 10 rest.
Proof.
  intros [_ Hr]. destruct rest as [|a rest]; [done|]. destruct Hr as [Ha _]. split; [done|]. simpl.
  unfold to_digit in *. cbv zeta in *. revert Ha.
  repeat match goal with |- context [if ?c then _ else _] => destruct c eqn:? end; intros; try done; lia.
Qed.

Lemma closes_separator b rest :
  closes rest -> read_separator ":" b (read_number 16 4 true 65536) rest = None.
Proof.
  intros Hc. pose proof (closes_stops _ Hc) as [Hs _]. destruct Hc as [_ Hr].
  unfold read_separator. destruct b.
  - unfold read_number. by rewrite read_digits_stops.
  - destruct rest as [|a rest]; [done|]. destruct Hr as [_ Ha]. simpl.
    by rewrite (proj2 (Ascii.eqb_neq a ":")).
Qed.

(** Reading the compressed form puts the zeros back. *)
Lemma read_ipv6_compressed head tail rest :
  Forall group_ok head -> Forall group_ok tail ->
  (List.length head + List.length tail <= 6)%nat -> closes rest ->
  read_ipv6 (groups_text true head +:+ "::" +:+ groups_text true tail +:+ rest)
  = Some (v6_of_segments
            (head ++ replicate (8 - List.length head - List.length tail) 0 ++ tail), rest).
Proof.
  intros Hh Ht Hl Hc. unfold read_ipv6.
  assert (Hd : has_char "." (groups_text true tail +:+ rest) = false)
    by (rewrite has_char_app, groups_text_no_dot by done; apply Hc).
  rewrite read_groups_text; [|done|lia|done|done|right; by destruct head].
  rewrite (proj2 (Nat.eqb_neq _ _)) by lia.
  rewrite strip_prefix_app.
  rewrite read_groups_text;
    [done|done|lia|apply Hc|by apply closes_stops|right; destruct tail; by apply closes_separator].
Qed.

Lemma read_ipv6_plain gs rest :
  Forall group_ok gs -> List.length gs = 8%nat -> closes rest ->
  read_ipv6 (groups_text true gs +:+ rest) = Some (v6_of_segments gs, rest).
Proof.
  intros Hg Hl Hc. unfold read_ipv6.
  rewrite read_groups_text; [|done|lia|apply Hc|by apply closes_stops|by left].
  by rewrite Hl.
Qed.

Lemma read_ipv6_mapped v rest :
  in_width 32 v -> closes rest ->
  read_ipv6 ("::ffff:" +:+ v4_to_string v +:+ rest) = Some (to_ipv6_mapped v, rest).
Proof.
  intros Hv Hc. unfold read_ipv6.
  assert (read_separator ":" false read_ipv4 (String ":" (v4_to_string v +:+ rest)) = Some (v, rest)) as Hr.
  { change (read_ipv4 (v4_to_string v +:+ rest) = Some (v, rest)).
    apply read_ipv4_to_string; [done|by apply closes_stops]. }
  generalize dependent (v4_to_string v +:+ rest). intros t Hr.
  change (read_groups 8 true ("::ffff:" +:+ t)) with (@nil Z, false, "::ffff:" +:+ t).
  change (strip_prefix "::" ("::ffff:" +:+ t)) with (Some ("ffff:" +:+ t)).
  transitivity
    (let '(tail, _, s3) := read_groups 7 true ("ffff:" +:+ t) in
     Some (v6_of_segments (replicate (8 - List.length tail) 0 ++ tail), s3)); [done|].
  change (read_groups 7 true ("ffff:" +:+ t))
    with (let '(gs, b, s) := read_groups 6 false (String ":" t) in (0xffff :: gs, b, s)).
  cbn [read_groups]. change (0 <? 5)%nat with true. cbv iota. rewrite Hr.
  simpl. do 2 f_equal. unfold to_ipv6_mapped, v6_of_segments. simpl fold_left. div_mod_lia.
Qed.

(** Text, then address: every address is read back from its text. *)
Lemma read_ipv6_to_string a rest :
  in_width 128 a -> closes rest -> read_ipv6 (v6_to_string a +:+ rest) = Some (a, rest).
Proof.
  intros Ha Hc. unfold v6_to_string. destruct (to_ipv4_mapped a) as [v|] eqn:E.
  - apply to_ipv4_mapped_spec in E as [? ->]; [|done]. rewrite sapp_assoc. by apply read_ipv6_mapped.
  - pose proof (zero_span_run [] (segments a) (O, O) (O, O)) as Hr.
    destruct (zero_span 0 _ _ (segments a)) as [s n] eqn:Es. cbv iota beta.
    pose proof (segments_ok a) as Hok.
    rewrite !fmt_subslice_text. destruct (Nat.ltb_spec 1 n).
    + assert (zero_run (segments a) (s, n)) as Hz.
      { rewrite <- Es. apply Hr; [| |by left]; (split; simpl; [lia|]); intros; lia. }
      pose proof (proj1 Hz) as Hlen. simpl in Hlen. rewrite !sapp_assoc.
      rewrite read_ipv6_compressed by
        (exact Hc || apply Forall_take, Hok || apply Forall_drop, Hok ||
         (rewrite length_take, length_drop; simpl; lia)).
      rewrite length_take, length_drop. simpl (List.length (segments a)).
      replace (8 - s `min` 8 - (8 - (s + n)))%nat with n by lia.
      rewrite <- zero_run_split by done. by rewrite v6_segments.
    + rewrite read_ipv6_plain by done. by rewrite v6_segments.
Qed.

Lemma parse_ipv6_to_string a : in_width 128 a -> parse_ipv6 (v6_to_string a) = Some a.
Proof.
  intros. unfold parse_ipv6, parse_with.
  by rewrite <- (sapp_nil_r (v6_to_string a)), read_ipv6_to_string.
Qed.

Lemma v6_to_string_not_v4 a : in_width 128 a -> read_ipv4 (v6_to_string a) = None.
Proof.
  intros Ha. unfold v6_to_string. destruct (to_ipv4_mapped a) as [v|]; [done|].
  destruct (zero_span _ _ _ _) as [s n]. pose proof (segments_ok a) as Hok.
  apply read_ipv4_no_dot. rewrite !fmt_subslice_text. destruct (1 <? n)%nat.
  - rewrite !has_char_app, !groups_text_no_dot; [done|by apply Forall_drop|by apply Forall_take].
  - by apply groups_text_no_dot.
Qed.

(** An address prints as text that parses back to it. *)
Lemma parse_ip_to_string ip : ip_wf ip -> parse_ip (ip_to_string ip) = Some ip.
Proof.
  intros Hip. unfold parse_ip, parse_with, read_ip. destruct ip as [a|a]; simpl in *.
  - rewrite <- (sapp_nil_r (v4_to_string a)), read_ipv4_to_string; done.
  - rewrite v6_to_string_not_v4 by done.
    by rewrite <- (sapp_nil_r (v6_to_string a)), read_ipv6_to_string.
Qed.

(** A socket address prints as text that parses back to it, with any port. *)
Definition socket_to_string (ip : IpAddr) (port : Z) : string :=
  match ip with
  | V4 a => v4_to_string a +:+ ":" +:+ dec port
  | V6 a => "[" +:+ v6_to_string a +:+ "]:" +:+ dec port
  end.

Lemma digits_bound r n : 2 <= r -> 0 <= n -> n < r ^ Z.of_nat (String.length (digits r n)).
Proof.
  intros Hr. revert n. refine (digits_ind r _ ltac:(lia) _ _); intros n Hn.
  - rewrite digits_unfold, (proj2 (Z.ltb_lt n r)) by lia. simpl. lia.
  - intros IH. rewrite digits_unfold, (proj2 (Z.ltb_ge n r)), length_app_str by lia.
    change (String.length (String (digit_char (n mod r)) "")) with 1%nat.
    rewrite Nat.add_1_r, Nat2Z.inj_succ, Z.pow_succ_r by lia.
    pose proof (Z.div_mod n r). pose proof (Z.mod_pos_bound n r). nia.
Qed.

Lemma read_port_dec port : in_width 16 port -> read_port (":" +:+ dec port) = Some (port, "").
Proof.
  intros [Hp1 Hp2]. unfold read_port.
  change (read_given_char ":" (":" +:+ dec port)) with (Some (tt, dec port)).
  cbv iota beta. unfold read_unsigned, dec.
  pose proof (digits_bound 10 port ltac:(lia) Hp1) as Hb.
  destruct (digits_head 10 port) as (d & t & Ed & _); [lia|done|].
  assert (0 < String.length (digits 10 port))%nat as Hl by (rewrite Ed; simpl; lia).
  destruct (read_digits_digits 10 port "" ltac:(lia) Hp1 (String.length (digits 10 port))
              (String.length (digits 10 port)) 0 0) as (l & Hl' & E); [done|done|lia|].
  rewrite sapp_nil_r in E. rewrite E. cbn [read_digits].
  destruct (Nat.eqb_spec (0 + l) 0); [lia|]. rewrite Z.mul_0_l, Z.add_0_l.
  by rewrite (proj2 (Z.ltb_lt port (2 ^ 16))).
Qed.

Lemma parse_socket_to_string ip port :
  ip_wf ip -> in_width 16 port -> parse_socket_addr (socket_to_string ip port) = Some (ip, port).
Proof.
  intros Hip Hport. unfold parse_socket_addr, parse_with, read_socket_addr.
  destruct ip as [a|a]; cbn [socket_to_string ip_wf] in *.
  - unfold read_socket_addr_v4. rewrite read_ipv4_to_string by done. by rewrite read_port_dec.
  - unfold read_socket_addr_v4. change (read_ipv4 ("[" +:+ ?s)) with (@None (Ipv4Addr * string)).
    cbv iota. unfold read_socket_addr_v6.
    change (read_given_char "[" ("[" +:+ ?s)) with (Some (tt, s)). cbv iota beta.
    rewrite read_ipv6_to_string; [|done|].
    + unfold skip_scope_id. change (read_given_char "%" ("]:" +:+ dec port)) with (@None (unit * string)).
      cbv iota. change (read_given_char "]" ("]:" +:+ dec port)) with (Some (tt, ":" +:+ dec port)).
      cbv iota beta. by rewrite read_port_dec.
    + split; [|done]. rewrite has_char_app. rewrite dec_has_char; [done|apply Hport|done].
Qed.

(** ** Lemmas: the characters of an address *)

Section ip_chars.
Context (P : ascii -> bool) (Hdigit : forall d, 0 <= d < 16 -> P (digit_char d) = true)
  (Hcolon : P ":"%char = true) (Hdot : P "."%char = true).

Lemma digits_all_chars r n : 2 <= r <= 16 -> 0 <= n -> all_chars P (digits r n) = true.
Proof. intros. apply digits_chars; [lia..|]. intros. apply Hdigit. lia. Qed.

Lemma groups_all_chars first gs : Forall group_ok gs -> all_chars P (groups_text first gs) = true.
Proof.
  intros Hg. revert first. induction Hg as [|g gs Hg _ IH]; intros first; [done|].
  cbn [groups_text]. unfold hex. rewrite !all_chars_app, IH, digits_all_chars by (lia || apply Hg).
  destruct first; [done|]. unfold all_chars. simpl. by rewrite Hcolon.
Qed.

Lemma v4_all_chars a : all_chars P (v4_to_string a) = true.
Proof.
  assert (all_chars P "." = true) as Hd by (unfold all_chars; simpl; by rewrite Hdot).
  unfold v4_to_string, dec.
  by rewrite !all_chars_app, !digits_all_chars, Hd by (lia || apply octet_range).
Qed.

(** Every address is written with hexadecimal digits, colons and dots. *)
Lemma ip_all_chars ip : all_chars P (ip_to_string ip) = true.
Proof.
  destruct ip as [a|a]; [apply v4_all_chars|]. unfold ip_to_string, v6_to_string.
  assert (all_chars P "::" = true) as Hc by (unfold all_chars; simpl; by rewrite Hcolon).
  destruct (to_ipv4_mapped a) as [v|].
  - change ("::ffff:" +:+ v4_to_string v)
      with ("::" +:+ String (digit_char 15) (String (digit_char 15) (String (digit_char 15)
              (String (digit_char 15) (String ":" (v4_to_string v)))))).
    by rewrite all_chars_app, Hc, !all_chars_cons, v4_all_chars, Hcolon, !(Hdigit 15) by lia.
  - destruct (zero_span _ _ _ _) as [s n]. pose proof (segments_ok a) as Hok.
    rewrite !fmt_subslice_text. destruct (1 <? n)%nat.
    + rewrite !all_chars_app, !groups_all_chars, Hc; [done|by apply Forall_drop|by apply Forall_take].
    + by apply groups_all_chars.
Qed.
End ip_chars.

(** ** Lemmas: what is read is an address *)

Lemma read_digits_nonneg r max cnt acc s v n rest :
  0 <= r -> 0 <= acc -> read_digits r max cnt acc s = Some (v, n, rest) -> 0 <= v.
Proof.
  intros Hr. revert cnt acc. induction s as [|a s IH]; intros cnt acc Hacc; simpl.
  - by intros [= <- _ _].
  - destruct (to_digit r a) as [d|] eqn:E; [|by intros [= <- _ _]].
    destruct (max <? S cnt)%nat; [done|]. apply IH.
    pose proof (to_digit_range _ _ _ E). nia.
Qed.

Lemma read_number_range r max zero bound s v rest :
  0 <= r -> read_number r max zero bound s = Some (v, rest) -> 0 <= v < bound.
Proof.
  intros Hr. unfold read_number. destruct (read_digits r max 0 0 s) as [[[v' n] rest']|] eqn:E; [|done].
  apply read_digits_nonneg in E; [|done|done].
  destruct (n =? 0)%nat; [done|]. destruct (_ && _ && _); [done|].
  destruct (Z.ltb_spec v' bound); [|done]. intros [= <- _]. lia.
Qed.

Lemma read_separator_inv {A} sep first (inner : Reader A) s x :
  read_separator sep first inner s = Some x -> exists s', inner s' = Some x.
Proof.
  unfold read_separator. destruct first; [by exists s|].
  destruct (read_given_char sep s) as [[_ s']|]; [by exists s'|done].
Qed.

Lemma read_ipv4_wf s a rest : read_ipv4 s = Some (a, rest) -> in_width 32 a.
Proof.
  assert (forall first s x r, read_octet first s = Some (x, r) -> 0 <= x < 256) as Ho.
  { intros first s' x r Hr. apply read_separator_inv in Hr as (s'' & Hr).
    by apply read_number_range in Hr. }
  unfold read_ipv4.
  destruct (read_octet true s) as [[a' s1]|] eqn:Ea; [|done].
  destruct (read_octet false s1) as [[b s2]|] eqn:Eb; [|done].
  destruct (read_octet false s2) as [[c s3]|] eqn:Ec; [|done].
  destruct (read_octet false s3) as [[d s4]|] eqn:Ed; [|done].
  intros [= <- _]. apply v4_new_wf; by eapply Ho.
Qed.

Lemma read_groups_range n first s gs b rest :
  read_groups n first s = (gs, b, rest) -> Forall group_ok gs /\ (List.length gs <= n)%nat.
Proof.
  revert first s gs b rest. induction n as [|n IH]; intros first s gs b rest; cbn [read_groups].
  - intros [= <- _ _]. split; [constructor|simpl; lia].
  - destruct (if (0 <? n)%nat then read_separator ":" first read_ipv4 s else None) as [[v s']|] eqn:E.
    + intros [= <- _ _]. destruct (Nat.ltb_spec 0 n); [|done].
      apply read_separator_inv in E as (s'' & E). apply read_ipv4_wf in E.
      split; [|simpl; lia]. unfold group_ok.
      repeat (apply Forall_cons_2; [split; div_mod_lia|]). constructor.
    + destruct (read_separator ":" first (read_number 16 4 true 65536) s) as [[g s']|] eqn:E2.
      * destruct (read_groups n false s') as [[gs' b'] s''] eqn:E3. intros [= <- _ _].
        apply IH in E3 as [Hg Hl]. apply read_separator_inv in E2 as (s0 & E2).
        apply read_number_range in E2; [|done]. split; [by constructor|simpl; lia].
      * intros [= <- _ _]. split; [constructor|simpl; lia].
Qed.

Lemma v6_of_segments_wf gs : Forall group_ok gs -> List.length gs = 8%nat -> in_width 128 (v6_of_segments gs).
Proof.
  intros Hg Hl. do 8 (destruct gs as [|? gs]; [done|]). destruct gs; [|done].
  rewrite !Forall_cons in Hg. unfold group_ok, v6_of_segments in *. cbn [fold_left].
  clear Hl. destruct_and!. div_mod_lia.
Qed.

Lemma read_ipv6_wf s a rest : read_ipv6 s = Some (a, rest) -> in_width 128 a.
Proof.
  unfold read_ipv6. destruct (read_groups 8 true s) as [[head b] s1] eqn:E.
  apply read_groups_range in E as [Hh Hl].
  destruct (Nat.eqb_spec (List.length head) 8) as [E8|E8].
  - intros [= <- _]. by apply v6_of_segments_wf.
  - destruct b; [done|]. destruct (strip_prefix "::" s1) as [s2|]; [|done].
    destruct (read_groups _ true s2) as [[tail b'] s3] eqn:E2.
    apply read_groups_range in E2 as [Ht Hl2]. intros [= <- _]. apply v6_of_segments_wf.
    + rewrite !Forall_app. split; [done|]. split; [|done].
      apply Forall_replicate. unfold group_ok. lia.
    + rewrite !length_app, length_replicate. lia.
Qed.

Lemma parse_with_inv {A} (r : Reader A) s a : parse_with r s = Some a -> exists rest, r s = Some (a, rest).
Proof. unfold parse_with. repeat case_match; intros; simplify_eq. eauto. Qed.

Lemma parse_ipv4_wf s a : parse_ipv4 s = Some a -> in_width 32 a.
Proof.
  unfold parse_ipv4. destruct (15 <? len s); [done|]. intros (r & Hr)%parse_with_inv.
  by apply read_ipv4_wf in Hr.
Qed.

Lemma parse_ipv6_wf s a : parse_ipv6 s = Some a -> in_width 128 a.
Proof. intros (r & Hr)%parse_with_inv. by apply read_ipv6_wf in Hr. Qed.

Lemma parse_ip_wf s ip : parse_ip s = Some ip -> ip_wf ip.
Proof.
  intros (r & Hr)%parse_with_inv. unfold read_ip in Hr.
  destruct (read_ipv4 s) as [[a r']|] eqn:E.
  - injection Hr as <- _. by apply read_ipv4_wf in E.
  - destruct (read_ipv6 s) as [[a r']|] eqn:E2; [|done]. injection Hr as <- _.
    by apply read_ipv6_wf in E2.
Qed.

#[export] Hint Resolve parse_ipv4_wf parse_ipv6_wf parse_ip_wf : dockerwall.
