(* ===== verification/State.v ===== *)
(** * Managed ipsets and the domain policy ([src/state.rs])

    The table of networks, which domains a pattern accepts, and the update of the
    table by a response. *)

From S2P Require Import Prelude RustStr Net.

Record ManagedIpset : Type := {
  allowed_domain_patterns : list string;
  ips : gset IpAddr
}.

#[export] Instance ManagedIpset_eq_dec : EqDecision ManagedIpset.
Proof. solve_decision. Defined.

(** [STATE]: the table behind the lock *)
Abbreviation IpsetTable := (gmap string ManagedIpset).

(** ** Domain names and patterns *)

Definition normalize_domain (name : string) : string :=
  to_ascii_lowercase (trim_end_matches "." name).

Definition domain_matches_pattern (domain pattern : string) : bool :=
  let domain := normalize_domain domain in
  let pattern := normalize_domain pattern in
  match strip_prefix "*." pattern with
  | Some suffix => (domain =? suffix)%string || ends_with ("." +:+ suffix) domain
  | None => (domain =? pattern)%string
  end.

Definition any_pattern_matches (domain : string) (patterns : list string) : bool :=
  existsb (fun pattern => domain_matches_pattern domain pattern) patterns.

Definition is_domain_accepted_by_network (state : IpsetTable) (domain network_name : string) : bool :=
  match state !! network_name with
  | Some managed_ipset => any_pattern_matches domain (allowed_domain_patterns managed_ipset)
  | None => false
  end.

(** ** Recording resolved addresses *)

(** The loop over [domains], with its flag *)
Definition matches_current_ipset (managed_ipset : ManagedIpset) (domains : list string) : bool :=
  fold_left (fun flag domain =>
               if any_pattern_matches domain (allowed_domain_patterns managed_ipset)
               then true else flag) domains false.

Definition extend_ips (managed_ipset : ManagedIpset) (resolved_ips : list IpAddr) : ManagedIpset :=
  {| allowed_domain_patterns := allowed_domain_patterns managed_ipset;
     ips := ips managed_ipset ∪ list_to_set resolved_ips |}.

Section apply_resolved_ips.
Context `{HashOrder}.

(** The loop over [state.iter_mut()]; [entries] is what is left to visit. *)
Fixpoint apply_loop (domains : list string) (resolved_ips : list IpAddr)
    (entries : list (string * ManagedIpset)) (state : IpsetTable)
    (changed_sets : list (string * list IpAddr)) : IpsetTable * list (string * list IpAddr) :=
  match entries with
  | [] => (state, changed_sets)
  | (name, managed_ipset) :: entries' =>
      if negb (matches_current_ipset managed_ipset domains)
      then apply_loop domains resolved_ips entries' state changed_sets
      else
        let before_len := size (ips managed_ipset) in
        let managed_ipset' := extend_ips managed_ipset resolved_ips in
        let changed_sets' :=
          if (size (ips managed_ipset') =? before_len)%nat then changed_sets
          else changed_sets ++ [(name, hs_iter (ips managed_ipset'))] in
        apply_loop domains resolved_ips entries' (<[name := managed_ipset']> state) changed_sets'
  end.

Definition apply_resolved_ips (state : IpsetTable) (domains : list string)
    (resolved_ips : list IpAddr) : IpsetTable * list (string * list IpAddr) :=
  match domains, resolved_ips with
  | [], _ | _, [] => (state, [])
  | _, _ => apply_loop domains resolved_ips (hm_iter state) state []
  end.
End apply_resolved_ips.

Example matches_ex :
  domain_matches_pattern "API.Example.com." "*.example.com" = true
  /\ domain_matches_pattern "example.com" "*.example.com" = true
  /\ domain_matches_pattern "badexample.com" "*.example.com" = false
  /\ domain_matches_pattern "www.example.com" "example.com" = false.
Proof. repeat split. Qed.

(** ** Lemmas: normalisation *)

Lemma normalize_idem d : normalize_domain (normalize_domain d) = normalize_domain d.
Proof.
  unfold normalize_domain.
  by rewrite trim_end_matches_lower, trim_end_matches_idem, lower_idem.
Qed.

(** Names that differ in case and in trailing dots only. *)
Definition same_domain (d d' : string) : Prop := normalize_domain d = normalize_domain d'.

#[export] Instance same_domain_equiv : Equivalence same_domain.
Proof. unfold same_domain. split; red; intros; congruence. Qed.

#[export] Instance domain_matches_pattern_proper :
  Proper (same_domain ==> same_domain ==> eq) domain_matches_pattern.
Proof. intros d d' Hd p p' Hp. unfold domain_matches_pattern. by rewrite Hd, Hp. Qed.

Lemma same_domain_normalize d : same_domain (normalize_domain d) d.
Proof. apply normalize_idem. Qed.

Lemma same_domain_lower d : same_domain (to_ascii_lowercase d) d.
Proof. unfold same_domain, normalize_domain. by rewrite trim_end_matches_lower, lower_idem. Qed.

Lemma same_domain_dot d : same_domain (d +:+ ".") d.
Proof. unfold same_domain, normalize_domain. by rewrite trim_end_matches_snoc. Qed.

#[export] Hint Resolve same_domain_normalize same_domain_lower same_domain_dot : dockerwall.

(** ** Lemmas: labels *)

(** The labels of a name, the top-level one last. *)
Definition labels (d : string) : list string := split "." (normalize_domain d).

(** What a pattern means: the list of labels it stands for, and whether any
    labels may come before them. *)
Definition pattern_labels (p : string) : bool * list string :=
  match labels p with
  | w :: ((_ :: _) as suffix) => if (w =? "*")%string then (true, suffix) else (false, w :: suffix)
  | ls => (false, ls)
  end.

Lemma join_app sep k l :
  k <> [] -> l <> [] -> join sep (k ++ l) = join sep k +:+ sep +:+ join sep l.
Proof.
  intros Hk Hl. induction k as [|w k IH]; [done|].
  destruct k as [|w' k]; [by destruct l|].
  change (join sep ((w :: w' :: k) ++ l)) with (w +:+ sep +:+ join sep ((w' :: k) ++ l)).
  change (join sep (w :: w' :: k)) with (w +:+ sep +:+ join sep (w' :: k)).
  rewrite IH by done. by rewrite !sapp_assoc.
Qed.

(** Suffixes at a label boundary are suffixes of the list of labels. *)
Lemma label_suffix d s :
  (d = s \/ exists r, d = r +:+ String "." s) <-> split "." s `suffix_of` split "." d.
Proof.
  split.
  - intros [->|[r ->]]; [done|]. rewrite split_app. by eexists.
  - intros [k Hk]. destruct k as [|w k]; [left; by apply split_inj in Hk|right].
    exists (join "." (w :: k)). rewrite <- (join_split "." d), Hk.
    rewrite join_app by (done || apply split_nonempty). by rewrite join_split.
Qed.

Lemma starts_with_wildcard p s :
  strip_prefix "*." p = Some s <-> split "." p = "*" :: split "." s.
Proof.
  rewrite strip_prefix_spec. split; [intros ->; apply (split_app "." "*" s)|].
  intros H. apply (split_inj "."). rewrite H. symmetry. apply (split_app "." "*" s).
Qed.

Lemma pattern_labels_wildcard p s :
  strip_prefix "*." (normalize_domain p) = Some s -> pattern_labels p = (true, split "." s).
Proof.
  intros H%starts_with_wildcard. unfold pattern_labels, labels. rewrite H.
  generalize (split_nonempty "." s). destruct (split "." s); [by intros []|done].
Qed.

Lemma pattern_labels_literal p :
  strip_prefix "*." (normalize_domain p) = None -> pattern_labels p = (false, labels p).
Proof.
  intros H. unfold pattern_labels. destruct (labels p) as [|w [|w' ls]] eqn:E; try done.
  destruct (String.eqb_spec w "*") as [->|Hw]; [|done]. exfalso.
  pose proof (proj2 (starts_with_wildcard (normalize_domain p) (join "." (w' :: ls)))) as Hs.
  rewrite H in Hs. discriminate Hs. unfold labels in E. rewrite E. f_equal.
  symmetry. apply split_join; [done|].
  pose proof (split_pieces "." (normalize_domain p)) as Hf. rewrite E in Hf.
  by inversion Hf.
Qed.

(** ** Theorems: the policy *)

(** C7. A pattern accepts exactly the names its labels allow: a wildcard
    pattern the names that end with its labels at a label boundary, any other
    pattern the name with the same labels.  No other name passes, in
    particular none that only shares a suffix of characters. *)
Theorem domain_matches_pattern_labels domain pattern :
  domain_matches_pattern domain pattern = true <->
  (let '(wildcard, suffix) := pattern_labels pattern in
   if wildcard : bool then suffix `suffix_of` labels domain else labels domain = suffix).
Proof.
  unfold domain_matches_pattern.
  destruct (strip_prefix "*." (normalize_domain pattern)) as [s|] eqn:E.
  - rewrite (pattern_labels_wildcard _ _ E). cbv iota beta.
    unfold labels. rewrite <- label_suffix, orb_true_iff, String.eqb_eq, ends_with_spec. done.
  - rewrite (pattern_labels_literal _ E). cbv iota beta.
    rewrite String.eqb_eq. unfold labels. split; [by intros ->|apply split_inj].
Qed.

(** Case and trailing dots never matter: replacing the domain or the
    pattern by one that differs in those only gives the same decision. *)
Theorem domain_matches_pattern_normal domain pattern :
  domain_matches_pattern (to_ascii_lowercase domain +:+ ".") pattern
    = domain_matches_pattern domain pattern
  /\ domain_matches_pattern domain (to_ascii_lowercase pattern +:+ ".")
    = domain_matches_pattern domain pattern.
Proof. by rewrite !same_domain_dot, !same_domain_lower. Qed.

(** ** Lemmas: the update loop *)

Lemma matches_current_ipset_spec m domains :
  matches_current_ipset m domains
  = existsb (fun d => any_pattern_matches d (allowed_domain_patterns m)) domains.
Proof.
  unfold matches_current_ipset.
  assert (forall flag, fold_left (fun flag d =>
    if any_pattern_matches d (allowed_domain_patterns m) then true else flag) domains flag
    = flag || existsb (fun d => any_pattern_matches d (allowed_domain_patterns m)) domains) as ->;
    [|done].
  induction domains as [|d ds IH]; intros flag; simpl; [by rewrite orb_false_r|].
  rewrite IH. by destruct (any_pattern_matches _ _), flag.
Qed.

(** ** The specification of the update

    A network is allowed a response when one of its patterns accepts one of the
    domains of the response, wherever these stand in their lists. *)
Definition allowed (domains : list string) (m : ManagedIpset) : Prop :=
  Exists (fun domain => Exists (fun pattern => domain_matches_pattern domain pattern = true)
                          (allowed_domain_patterns m)) domains.

#[export] Instance allowed_dec domains m : Decision (allowed domains m).
Proof. unfold allowed. apply _. Defined.

(** What one response does to one network: one that is allowed the response has
    its addresses afterwards, besides those it had; its patterns stay. *)
Definition updated (domains : list string) (resolved_ips : list IpAddr) (m : ManagedIpset) : ManagedIpset :=
  if decide (allowed domains m)
  then {| allowed_domain_patterns := allowed_domain_patterns m; ips := list_to_set resolved_ips ∪ ips m |}
  else m.

Lemma allowed_inv domains m :
  allowed domains m <->
  exists domain pattern, domain ∈ domains /\ pattern ∈ allowed_domain_patterns m
    /\ domain_matches_pattern domain pattern = true.
Proof.
  unfold allowed. rewrite Exists_exists. setoid_rewrite Exists_exists. naive_solver.
Qed.

(** The loop over the domains decides it. *)
Lemma matches_current_allowed m domains : matches_current_ipset m domains = true <-> allowed domains m.
Proof.
  rewrite matches_current_ipset_spec, allowed_inv, existsb_exists. unfold any_pattern_matches.
  setoid_rewrite existsb_exists. setoid_rewrite list_elem_of_In. naive_solver.
Qed.

Lemma updated_patterns domains resolved_ips m :
  allowed_domain_patterns (updated domains resolved_ips m) = allowed_domain_patterns m.
Proof. unfold updated. by case_decide. Qed.

Lemma updated_ips domains resolved_ips m ip :
  ip ∈ ips (updated domains resolved_ips m) <-> ip ∈ ips m \/ (allowed domains m /\ ip ∈ resolved_ips).
Proof.
  unfold updated. case_decide; cbn [ips]; [|tauto]. rewrite elem_of_union, elem_of_list_to_set. tauto.
Qed.

(** ** Lemmas: the loop against the specification *)

Lemma updated_loop domains resolved_ips m :
  updated domains resolved_ips m = if matches_current_ipset m domains then extend_ips m resolved_ips else m.
Proof.
  pose proof (matches_current_allowed m domains) as Hm. unfold updated, extend_ips.
  destruct (matches_current_ipset m domains); case_decide as Ha; [|naive_solver..].
  f_equal. apply set_eq. set_solver.
Qed.

(** The sets whose content an update changes. *)
Definition grows (domains : list string) (resolved_ips : list IpAddr) (m : ManagedIpset) : bool :=
  matches_current_ipset m domains && bool_decide (ips (extend_ips m resolved_ips) <> ips m).

Lemma extend_size m resolved_ips :
  (size (ips (extend_ips m resolved_ips)) =? size (ips m))%nat
  = negb (bool_decide (ips (extend_ips m resolved_ips) <> ips m)).
Proof.
  destruct (Nat.eqb_spec (size (ips (extend_ips m resolved_ips))) (size (ips m))) as [E|E].
  - rewrite bool_decide_false; [done|]. intros []. symmetry.
    apply set_subseteq_size_eq; [|lia]. simpl. set_solver.
  - rewrite bool_decide_true; [done|]. congruence.
Qed.

Section apply_lemmas.
Context `{HashOrder}.

Definition changed_entry domains resolved_ips '(name, m) : option (string * list IpAddr) :=
  if grows domains resolved_ips m
  then Some (name, hs_iter (ips (extend_ips m resolved_ips))) else None.

Lemma apply_loop_changed domains resolved_ips entries state changed :
  (apply_loop domains resolved_ips entries state changed).2
  = changed ++ omap (changed_entry domains resolved_ips) entries.
Proof.
  revert state changed. induction entries as [|[name m] entries IH]; intros state changed.
  - by rewrite app_nil_r.
  - cbn [apply_loop omap list_omap]. unfold changed_entry at 1, grows.
    destruct (matches_current_ipset m domains); cbn [negb andb]; [|apply IH].
    rewrite IH, extend_size. case_bool_decide; cbn [negb]; [|done].
    by rewrite <- app_assoc.
Qed.

Lemma apply_loop_lookup domains resolved_ips entries state changed n :
  NoDup entries.*1 ->
  (forall k m, (k, m) ∈ entries -> state !! k = Some m) ->
  (apply_loop domains resolved_ips entries state changed).1 !! n
  = if decide (n ∈ entries.*1) then updated domains resolved_ips <$> state !! n else state !! n.
Proof.
  revert state changed. induction entries as [|[name m] entries IH]; intros state changed Hnd Hin.
  - rewrite decide_False; [done|]. set_solver.
  - cbn [apply_loop]. rewrite fmap_cons in Hnd. apply NoDup_cons in Hnd as [Hname Hnd].
    assert (state !! name = Some m) as Hm by (apply Hin; left).
    assert (forall s', (forall k, k <> name -> s' !! k = state !! k) ->
              s' !! name = Some (updated domains resolved_ips m) ->
              forall changed, (apply_loop domains resolved_ips entries s' changed).1 !! n
              = if decide (n ∈ ((name, m) :: entries).*1)
                then updated domains resolved_ips <$> state !! n else state !! n) as Hstep.
    { intros s' Hother Hthis changed'. rewrite IH; [|done|].
      - destruct (decide (n = name)) as [->|Hne].
        + rewrite decide_False, decide_True by set_solver. by rewrite Hm.
        + rewrite Hother, fmap_cons by done.
          repeat case_decide; rewrite ?elem_of_cons in *; naive_solver.
      - intros k m' Hk. rewrite Hother; [apply Hin; by right|].
        intros ->. apply Hname. exact (list_elem_of_fmap_2 fst _ _ Hk). }
    rewrite updated_loop in Hstep.
    destruct (matches_current_ipset m domains); cbn [negb]; apply Hstep; try done.
    + intros. by rewrite lookup_insert_ne.
    + by rewrite lookup_insert_eq.
Qed.
End apply_lemmas.

Lemma updated_nil_domains resolved_ips m : updated [] resolved_ips m = m.
Proof. by rewrite updated_loop. Qed.

Lemma extend_ips_id m resolved_ips :
  ips (extend_ips m resolved_ips) = ips m -> extend_ips m resolved_ips = m.
Proof. destruct m. unfold extend_ips. simpl. by intros ->. Qed.

Lemma updated_nil_ips domains m : updated domains [] m = m.
Proof.
  rewrite updated_loop. destruct (matches_current_ipset m domains); [|done].
  apply extend_ips_id. simpl. set_solver.
Qed.

Lemma grows_nil_ips domains m : grows domains [] m = false.
Proof.
  unfold grows. rewrite bool_decide_false; [apply andb_false_r|].
  intros []. simpl. set_solver.
Qed.

Lemma updated_idem domains resolved_ips m :
  updated domains resolved_ips (updated domains resolved_ips m) = updated domains resolved_ips m
  /\ grows domains resolved_ips (updated domains resolved_ips m) = false.
Proof.
  rewrite !updated_loop. unfold grows.
  destruct (matches_current_ipset m domains) eqn:E.
  - assert (matches_current_ipset (extend_ips m resolved_ips) domains = true) as -> by done.
    assert (ips (extend_ips (extend_ips m resolved_ips) resolved_ips)
            = ips (extend_ips m resolved_ips)) as Hi by (simpl; set_solver).
    split; [by apply extend_ips_id|]. by rewrite bool_decide_false by (rewrite Hi; auto).
  - by rewrite E.
Qed.

Section policy.
Context `{HashOrder}.

(** The table after an update *)
Lemma apply_fst state domains resolved_ips :
  (apply_resolved_ips state domains resolved_ips).1 = updated domains resolved_ips <$> state.
Proof.
  apply map_eq. intros n. rewrite lookup_fmap. unfold apply_resolved_ips.
  destruct domains as [|d ds]; [simpl; destruct (state !! n); simpl; by rewrite ?updated_nil_domains|].
  destruct resolved_ips as [|ip rips].
  { simpl. destruct (state !! n); simpl; by rewrite ?updated_nil_ips. }
  rewrite apply_loop_lookup; [|auto with dockerwall|].
  - case_decide as Hn; [done|]. destruct (state !! n) as [m|] eqn:E; [|done].
    destruct Hn. apply elem_of_hm_iter in E. exact (list_elem_of_fmap_2 fst _ _ E).
  - intros. by apply elem_of_hm_iter.
Qed.

(** C8. Whatever the order of iteration, recording resolved addresses is the
    pointwise update of the table: a network of which some pattern accepts some
    domain of the response, at whatever place in their lists, gets all the
    addresses besides those it had, every other one is left alone, none is
    created or removed and no pattern changes. *)
Theorem apply_resolved_ips_refines state domains resolved_ips :
  (apply_resolved_ips state domains resolved_ips).1 = updated domains resolved_ips <$> state.
Proof. apply apply_fst. Qed.

Lemma apply_changed state domains resolved_ips :
  (apply_resolved_ips state domains resolved_ips).2
  = omap (changed_entry domains resolved_ips) (hm_iter state).
Proof.
  assert (forall l, (forall x, changed_entry domains resolved_ips x = None) ->
            omap (changed_entry domains resolved_ips) l = []) as Hnil.
  { intros l Hl. induction l as [|x l IH]; simpl; [done|]. by rewrite Hl. }
  unfold apply_resolved_ips. destruct domains as [|d ds]; [by rewrite Hnil by by intros []|].
  destruct resolved_ips as [|ip rips]; [|exact (apply_loop_changed _ _ _ _ [])].
  rewrite Hnil; [done|]. intros [name m]. simpl. by rewrite grows_nil_ips.
Qed.

(** What is returned *)
Lemma apply_snd state domains resolved_ips :
  NoDup (apply_resolved_ips state domains resolved_ips).2.*1
  /\ forall name l,
    (name, l) ∈ (apply_resolved_ips state domains resolved_ips).2 <->
    exists m, state !! name = Some m
      /\ allowed domains m
      /\ ips (updated domains resolved_ips m) <> ips m
      /\ l = hs_iter (ips (updated domains resolved_ips m)).
Proof.
  rewrite apply_changed. split.
  - assert (forall l : list (string * ManagedIpset), NoDup l.*1 ->
              NoDup (omap (changed_entry domains resolved_ips) l).*1
              /\ (omap (changed_entry domains resolved_ips) l).*1 ⊆ l.*1) as Hnd.
    { induction l as [|[k m] l IH]; [done|].
      rewrite fmap_cons. intros [Hk Hl]%NoDup_cons. destruct (IH Hl) as [IH1 IH2].
      simpl. destruct (grows _ _ m); simpl; [|split; [done|set_solver]].
      split; [|set_solver]. apply NoDup_cons. set_solver. }
    apply Hnd. auto with dockerwall.
  - intros name l. rewrite list_elem_of_omap. split.
    + intros ([k m] & Hk%elem_of_hm_iter & Hc). simpl in Hc.
      destruct (grows domains resolved_ips m) eqn:E; [|done]. simplify_eq.
      exists m. unfold grows in E. apply andb_true_iff in E as [E1 E2].
      rewrite <- matches_current_allowed, updated_loop, E1. by apply bool_decide_eq_true in E2.
    + intros (m & Hm & Hmatch & Hne & ->). exists (name, m).
      apply matches_current_allowed in Hmatch. rewrite updated_loop, Hmatch in *.
      rewrite elem_of_hm_iter. split; [done|]. unfold changed_entry, grows.
      rewrite Hmatch. by rewrite bool_decide_true.
Qed.

(** C9. The returned list names, once each, exactly the sets that gained an
    address, with the whole new content of each. *)
Theorem apply_resolved_ips_changed state domains resolved_ips :
  NoDup (apply_resolved_ips state domains resolved_ips).2.*1
  /\ forall name l,
    (name, l) ∈ (apply_resolved_ips state domains resolved_ips).2 <->
    exists m, state !! name = Some m
      /\ allowed domains m
      /\ ips (updated domains resolved_ips m) <> ips m
      /\ l = hs_iter (ips (updated domains resolved_ips m)).
Proof. apply apply_snd. Qed.

(** Zero trust: an address that a set holds afterwards was there before,
    or it was resolved now and a pattern of that very set accepts one of the
    domains of the response. *)
Theorem apply_resolved_ips_only_allowed state domains resolved_ips name m' ip
    (Hset : (apply_resolved_ips state domains resolved_ips).1 !! name = Some m')
    (Hip : ip ∈ ips m') :
  exists m, state !! name = Some m
    /\ (ip ∈ ips m
        \/ (ip ∈ resolved_ips
            /\ exists domain pattern, domain ∈ domains
               /\ pattern ∈ allowed_domain_patterns m
               /\ domain_matches_pattern domain pattern = true)).
Proof.
  rewrite apply_fst, lookup_fmap_Some in Hset.
  destruct Hset as (m & <- & Hm). exists m. split; [done|].
  apply updated_ips in Hip as [|[Ha Hip]]; [by left|right]. split; [done|]. by apply allowed_inv.
Qed.

Lemma apply_resolved_ips_only_allowed_witness :
  exists m, ({["net" := {| allowed_domain_patterns := ["*.example.com"]; ips := ∅ |}]} : IpsetTable)
              !! "net" = Some m
    /\ (V4 1 ∈ ips m
        \/ (V4 1 ∈ [V4 1]
            /\ exists domain pattern, domain ∈ ["api.example.com"]
               /\ pattern ∈ allowed_domain_patterns m
               /\ domain_matches_pattern domain pattern = true)).
Proof.
  eapply (apply_resolved_ips_only_allowed _ ["api.example.com"] [V4 1] "net"
           {| allowed_domain_patterns := ["*.example.com"]; ips := {[V4 1]} |}).
  - rewrite apply_fst. vm_compute. reflexivity.
  - simpl. by apply elem_of_singleton.
Defined.

(** Recording the same response again changes nothing and reports no
    set, so a repeated answer causes no firewall update. *)
Theorem apply_resolved_ips_idempotent state domains resolved_ips :
  let state' := (apply_resolved_ips state domains resolved_ips).1 in
  apply_resolved_ips state' domains resolved_ips = (state', []).
Proof.
  intros state'. destruct (apply_resolved_ips state' domains resolved_ips) as [s'' l] eqn:E.
  apply (f_equal fst) in E as E1. apply (f_equal snd) in E as E2. simpl in E1, E2.
  subst s'' l state'. rewrite !apply_fst. f_equal.
  - rewrite <- map_fmap_compose. apply map_fmap_ext. intros. apply updated_idem.
  - rewrite apply_changed.
    assert (forall l : list (string * ManagedIpset),
      (forall k m, (k, m) ∈ l -> grows domains resolved_ips m = false) ->
      omap (changed_entry domains resolved_ips) l = []) as Hnil.
    { induction l as [|[k m] l IH]; intros Hl; [done|]. simpl.
      rewrite (Hl k m) by left. apply IH. intros. eapply Hl. by right. }
    apply Hnil. intros k m Hk. apply elem_of_hm_iter in Hk.
    rewrite lookup_fmap_Some in Hk. destruct Hk as (m0 & <- & _). apply updated_idem.
Qed.

(** After a restart the daemon's table is empty, and then no response of
    any kind opens anything: networks prepared before the restart get no
    address until they are prepared again. *)
Theorem restart_opens_nothing domains resolved_ips :
  apply_resolved_ips ∅ domains resolved_ips = (∅, []).
Proof.
  destruct (apply_resolved_ips ∅ domains resolved_ips) as [s l] eqn:E.
  apply (f_equal fst) in E as E1. apply (f_equal snd) in E as E2. simpl in E1, E2.
  rewrite apply_fst, fmap_empty in E1. rewrite apply_changed in E2.
  pose proof (hm_iter_perm (∅ : IpsetTable)) as Hp.
  rewrite map_to_list_empty in Hp. apply Permutation_nil_r in Hp. rewrite Hp in E2.
  by subst.
Qed.
End policy.
