(* ===== verification/Stats.v ===== *)
(** * Resolution statistics and the network registry ([src/stats.rs])

    The registry of networks and subnets, membership in a subnet, the recording of
    resolutions, and the report. *)

From stdpp Require Import sorting.
From S2P Require Import Prelude RustStr Net State.

Definition MAX_STATS_ENTRIES : Z := 1000000.

(** Times and durations are in nanoseconds; a [SystemTime] counts from the
    epoch. *)
Abbreviation SystemTime := Z (only parsing).
Abbreviation Duration := Z (only parsing).
Definition NANOS : Z := 1000000000.

Record StatEntry : Type := {
  count : Z;
  last_seen : SystemTime;
  network_id : option Z;
  accepted : option bool
}.

Record NetworkInfo : Type := {
  net_name : string;
  subnet : string
}.

(** [STATS] *)
Abbreviation StatsTable := (gmap (string * IpAddr) StatEntry).

(** [NETWORK_REGISTRY], [SUBNET_TO_ID] and [NEXT_NETWORK_ID] *)
Record Registry : Type := {
  network_registry : gmap Z NetworkInfo;
  subnet_to_id : gmap string Z;
  next_network_id : Z
}.

Definition initial_registry : Registry :=
  {| network_registry := ∅; subnet_to_id := ∅; next_network_id := 1 |}.

(** ** Registering a network *)

Definition register_network (r : Registry) (name subnet : string) : Registry :=
  match subnet_to_id r !! subnet with
  | Some id =>
      {| network_registry := <[id := {| net_name := name; subnet := subnet |}]> (network_registry r);
         subnet_to_id := subnet_to_id r;
         next_network_id := next_network_id r |}
  | None =>
      let id := next_network_id r in
      {| network_registry := <[id := {| net_name := name; subnet := subnet |}]> (network_registry r);
         subnet_to_id := <[subnet := id]> (subnet_to_id r);
         next_network_id := wrap 32 (id + 1) |}
  end.

(** ** Which network an address belongs to *)

(** The [w]-bit mask of a prefix length, for [u32] and [u128] *)
Definition prefix_mask (w prefix_len : Z) : Z :=
  if prefix_len =? 0 then 0
  else if w <=? prefix_len then Z.ones w
  else wrap w (Z.shiftl (Z.ones w) (w - prefix_len)).

Definition ip_in_subnet (ip : IpAddr) (subnet : string) : bool :=
  let ip := match ip with
            | V6 v6 => match to_ipv4_mapped v6 with Some v4 => V4 v4 | None => V6 v6 end
            | ip => ip
            end in
  let parts := split "/" subnet in
  let network_ip_str := default "" (parts !! 0%nat) in
  let prefix_len_str := default "" (parts !! 1%nat) in
  match parse_ip network_ip_str with
  | None => false
  | Some network_ip =>
      match parse_uint 32 prefix_len_str with
      | None => false
      | Some prefix_len =>
          match ip, network_ip with
          | V4 ip_v4, V4 net_v4 =>
              let mask := prefix_mask 32 prefix_len in Z.land ip_v4 mask =? Z.land net_v4 mask
          | V6 ip_v6, V6 net_v6 =>
              let mask := prefix_mask 128 prefix_len in Z.land ip_v6 mask =? Z.land net_v6 mask
          | _, _ => false
          end
      end
  end.

(** ** Recording a resolution

    The three critical sections of [record_resolve]: reading the registry,
    asking the policy, and writing [STATS]. *)

(** [now.duration_since(t).unwrap_or(Duration::ZERO)] *)
Definition duration_since (now t : SystemTime) : Duration := if t <=? now then now - t else 0.

Section record_resolve.
Context `{HashOrder}.

Definition find_network (r : Registry) (origin : IpAddr) : option Z * option string :=
  match List.find (fun '(subnet, _) => ip_in_subnet origin subnet) (hm_iter (subnet_to_id r)) with
  | Some (_, id) => (Some id, net_name <$> network_registry r !! id)
  | None => (None, None)
  end.

Definition acceptance (state : IpsetTable) (domain : string) (network_name : option string)
    : option bool :=
  match network_name with
  | Some name => Some (is_domain_accepted_by_network state domain name)
  | None => None
  end.

Definition retained (now : SystemTime) (ttl : Duration) (entry : StatEntry) : bool :=
  duration_since now (last_seen entry) <? ttl.

Definition write_stats (stats : StatsTable) (domain : string) (origin : IpAddr)
    (now : SystemTime) (ttl : Duration) (network_id : option Z) (accepted : option bool)
    : StatsTable :=
  let stats := filter (fun '(_, entry) => retained now ttl entry = true) stats in
  let key := (domain, origin) in
  if bool_decide (stats !! key = None) && (MAX_STATS_ENTRIES <=? Z.of_nat (size stats))
  then stats
  else
    let entry := default {| count := 0; last_seen := now;
                            network_id := network_id; accepted := accepted |} (stats !! key) in
    <[key := {| count := wrap 64 (count entry + 1); last_seen := now;
                network_id := network_id; accepted := accepted |}]> stats.

Definition record_resolve (r : Registry) (state : IpsetTable) (stats : StatsTable)
    (domain : string) (origin : IpAddr) (now : SystemTime) (ttl : Duration) : StatsTable :=
  let '(network_id, network_name) := find_network r origin in
  let accepted := acceptance state domain network_name in
  write_stats stats domain origin now ttl network_id accepted.
End record_resolve.

(** ** The report *)

Definition format_duration (d : Duration) : string :=
  let secs := d / NANOS in
  if secs <? 60 then dec secs +:+ "s ago"
  else if secs <? 3600 then dec (secs / 60) +:+ "m ago"
  else if secs <? 86400 then dec (secs / 3600) +:+ "h ago"
  else dec (secs / 86400) +:+ "d ago".

(** What is pushed on the report, in order *)
Definition push_all (l : list string) : string := foldr String.append "" l.

Definition status_text (entry : StatEntry) : string :=
  let allowed_count := match accepted entry with Some true => Some (count entry) | _ => None end in
  let denied_count := match accepted entry with Some false => Some (count entry) | _ => None end in
  push_all
    [match allowed_count with
     | Some c => if 0 <? c then dec c +:+ "✅ " else ""
     | None => ""
     end;
     match denied_count with
     | Some c => if 0 <? c then dec c +:+ "❌ " else ""
     | None => ""
     end].

Definition last_ago (now : SystemTime) (entry : StatEntry) : string :=
  format_duration (duration_since now (last_seen entry)).

(** The line of one entry of a known network *)
Definition entry_line (now : SystemTime) (single_ip : bool) (ip : IpAddr)
    '(domain, entry) : string :=
  if single_ip
  then "  " +:+ pad_right 15 (ip_to_string ip) +:+ " " +:+ pad_right 30 domain +:+ " "
       +:+ pad_right 10 (status_text entry) +:+ " " +:+ last_ago now entry +:+ nl
  else "    " +:+ pad_right 30 domain +:+ " " +:+ pad_right 10 (status_text entry) +:+ " "
       +:+ last_ago now entry +:+ nl.

(** The line of one entry of no known network *)
Definition unknown_line (now : SystemTime) '(domain, entry) : string :=
  "    " +:+ pad_right 30 domain +:+ " " +:+ pad_right 10 (dec (count entry) +:+ " resolves") +:+ " "
  +:+ last_ago now entry +:+ nl.

Section report.
Context `{HashOrder}.

Abbreviation Groups := (gmap (option Z * IpAddr) (list (string * StatEntry))).

(** [grouped_stats.entry(..).or_default().push(..)] for one entry of [STATS] *)
Definition push_group (g : Groups) '((domain, origin, entry) : string * IpAddr * StatEntry) : Groups :=
  let key := (network_id entry, origin) in
  <[key := default [] (g !! key) ++ [(domain, entry)]]> g.

Definition grouped_stats (stats : StatsTable) : Groups := fold_left push_group (hm_iter stats) ∅.

Definition group_ips (g : Groups) (id : option Z) : list IpAddr :=
  merge_sort (fun x y => Is_true (ip_leb x y))
    (List.map (fun '((_, ip), _) => ip)
       (List.filter (fun '((net_id, _), _) => bool_decide (net_id = id)) (hm_iter g))).

(** The lines of one address; [None] is the panic of [unwrap]. *)
Definition ip_lines (g : Groups) (now : SystemTime) (id : Z) (single_ip : bool) (ip : IpAddr)
    : option (list string) :=
  entries ← g !! (Some id, ip);
  Some ((if single_ip then [] else ["  IP: " +:+ ip_to_string ip +:+ nl])
        ++ List.map (entry_line now single_ip ip) entries).

Definition network_lines (g : Groups) (reg : gmap Z NetworkInfo) (now : SystemTime) (id : Z)
    : option (list string) :=
  info ← reg !! id;
  let header := "Network: " +:+ net_name info +:+ " (" +:+ subnet info +:+ ")" +:+ nl in
  let ips_in_network := group_ips g (Some id) in
  if (List.length ips_in_network =? 0)%nat
  then Some [header; "  No activity" +:+ nl +:+ nl]
  else
    let single_ip := (List.length ips_in_network =? 1)%nat in
    ls ← mapM (ip_lines g now id single_ip) ips_in_network;
    Some (header :: concat ls ++ [nl]).

Definition unknown_ip_lines (g : Groups) (now : SystemTime) (ip : IpAddr) : option (list string) :=
  entries ← g !! (None, ip);
  Some (("  IP: " +:+ ip_to_string ip +:+ nl) :: List.map (unknown_line now) entries).

Definition unknown_header : string :=
  "Unknown Networks (created before the daemon was restarted — still fully functional, but with limited info):" +:+ nl.

Definition unknown_lines (g : Groups) (now : SystemTime) : option (list string) :=
  let unknown_ips := group_ips g None in
  if (List.length unknown_ips =? 0)%nat then Some []
  else ls ← mapM (unknown_ip_lines g now) unknown_ips; Some (unknown_header :: concat ls).

Definition report_lines (reg : gmap Z NetworkInfo) (stats : StatsTable) (now : SystemTime)
    : option (list string) :=
  let g := grouped_stats stats in
  let network_ids := merge_sort Z.le (hm_iter reg).*1 in
  known ← mapM (network_lines g reg now) network_ids;
  unknown ← unknown_lines g now;
  Some (concat known ++ unknown).

Definition get_stats_report (reg : gmap Z NetworkInfo) (stats : StatsTable) (now : SystemTime)
    : option string := push_all <$> report_lines reg stats now.
End report.

Example subnet_ex :
  ip_in_subnet (V4 (v4_new 172 30 5 9)) "172.30.5.0/28" = true
  /\ ip_in_subnet (V4 (v4_new 172 30 5 17)) "172.30.5.0/28" = false
  /\ ip_in_subnet (V6 (to_ipv6_mapped (v4_new 10 1 2 3))) "10.0.0.0/8" = true
  /\ ip_in_subnet (V4 (v4_new 10 1 2 3)) "0.0.0.0/0" = true
  /\ ip_in_subnet (V4 (v4_new 10 1 2 3)) "10.0.0.0" = false
  /\ ip_in_subnet (V6 (2 ^ 127 + 5)) "8000::/64" = true.
Proof. vm_compute. repeat split. Qed.

Example report_ex :
  @get_stats_report tree_order
    {[1 := {| net_name := "secure-net"; subnet := "172.30.113.0/28" |};
      2 := {| net_name := "idle"; subnet := "172.30.7.0/28" |}]}
    {[("api.github.com", V4 (v4_new 172 30 113 5)) :=
        {| count := 12; last_seen := 0; network_id := Some 1; accepted := Some true |}]}
    (5 * NANOS)
  = Some ("Network: secure-net (172.30.113.0/28)" +:+ nl
          +:+ "  172.30.113.5    api.github.com                 12✅        5s ago" +:+ nl +:+ nl
          +:+ "Network: idle (172.30.7.0/28)" +:+ nl +:+ "  No activity" +:+ nl +:+ nl).
Proof. vm_compute. reflexivity. Qed.

(** ** Lemmas: masks *)

Lemma prefix_mask_bits w p i :
  0 <= p -> 0 < w -> 0 <= i ->
  Z.testbit (prefix_mask w p) i = (w - p <=? i) && (i <? w).
Proof.
  intros Hp Hw Hi. unfold prefix_mask, wrap.
  destruct (Z.eqb_spec p 0); [rewrite Z.bits_0; lia|].
  destruct (Z.leb_spec w p).
  - destruct (Z.ltb_spec i w).
    + rewrite Z.ones_spec_low by lia. lia.
    + rewrite Z.ones_spec_high by lia. lia.
  - destruct (Z.ltb_spec i w).
    + rewrite Z.mod_pow2_bits_low, Z.shiftl_spec by lia.
      destruct (Z.leb_spec (w - p) i).
      * rewrite Z.ones_spec_low by lia. done.
      * rewrite Z.testbit_neg_r by lia. done.
    + rewrite Z.mod_pow2_bits_high by lia. by rewrite andb_false_r.
Qed.

Lemma land_prefix_mask w p x :
  0 <= p <= w -> 0 < w -> in_width w x ->
  Z.land x (prefix_mask w p) = Z.shiftl (x / 2 ^ (w - p)) (w - p).
Proof.
  intros Hp Hw Hx. apply Z.bits_inj'. intros i Hi.
  rewrite Z.land_spec, prefix_mask_bits, Z.shiftl_spec, <- Z.shiftr_div_pow2 by lia.
  destruct (Z.leb_spec (w - p) i); cbn [andb].
  - rewrite Z.shiftr_spec by lia. replace (i - (w - p) + (w - p)) with i by lia.
    destruct (Z.ltb_spec i w); [by rewrite andb_true_r|].
    rewrite <- (wrap_id w x), andb_false_r by done. unfold wrap.
    by rewrite Z.mod_pow2_bits_high by lia.
  - rewrite andb_false_r. by rewrite Z.testbit_neg_r by lia.
Qed.

Lemma prefix_mask_large w p q : 0 < w -> w <= p -> w <= q -> prefix_mask w p = prefix_mask w q.
Proof.
  intros. unfold prefix_mask. rewrite !(proj2 (Z.eqb_neq _ _)) by lia.
  by rewrite !(proj2 (Z.leb_le _ _)) by lia.
Qed.

(** Masked values agree exactly when the first [p] of the [w] bits do. *)
Lemma mask_eqb w p x y :
  0 <= p -> 0 < w -> in_width w x -> in_width w y ->
  (Z.land x (prefix_mask w p) =? Z.land y (prefix_mask w p))
  = (x / 2 ^ (w - Z.min p w) =? y / 2 ^ (w - Z.min p w)).
Proof.
  intros Hp Hw Hx Hy.
  assert (prefix_mask w p = prefix_mask w (Z.min p w)) as ->.
  { destruct (Z.le_ge_cases p w); [by rewrite Z.min_l|].
    rewrite Z.min_r by done. by apply prefix_mask_large; lia. }
  rewrite !land_prefix_mask by (done || lia). rewrite !Z.shiftl_mul_pow2 by lia.
  assert (0 < 2 ^ (w - Z.min p w)) by (apply Z.pow_pos_nonneg; lia).
  destruct (Z.eqb_spec (x / 2 ^ (w - Z.min p w)) (y / 2 ^ (w - Z.min p w))) as [->|Hne];
    [by rewrite Z.eqb_refl|]. apply Z.eqb_neq. intros E. apply Hne.
  apply Z.mul_reg_r in E; lia.
Qed.

(** The text [<address>/<length>] *)
Definition cidr (net : IpAddr) (p : Z) : string := ip_to_string net +:+ "/" +:+ dec p.

Lemma no_slash_hex g : 0 <= g -> has_char "/" (hex g) = false.
Proof. intros. by apply hex_no_char. Qed.

Lemma groups_text_no_slash first gs :
  Forall group_ok gs -> has_char "/" (groups_text first gs) = false.
Proof.
  intros Hg. revert first. induction Hg as [|g gs Hg _ IH]; intros first; [done|].
  cbn [groups_text]. rewrite !has_char_app, no_slash_hex, IH by (apply Hg).
  by destruct first.
Qed.

Lemma v4_no_slash a : has_char "/" (v4_to_string a) = false.
Proof.
  unfold v4_to_string. rewrite !has_char_app, !dec_has_char; auto with dockerwall; apply octet_range.
Qed.

Lemma ip_no_slash ip : has_char "/" (ip_to_string ip) = false.
Proof.
  destruct ip as [a|a]; [apply v4_no_slash|]. unfold ip_to_string, v6_to_string.
  destruct (to_ipv4_mapped a).
  - rewrite has_char_app, v4_no_slash. done.
  - destruct (zero_span _ _ _ _) as [s n]. pose proof (segments_ok a) as Hok.
    rewrite !fmt_subslice_text. destruct (1 <? n)%nat.
    + rewrite !has_char_app, !groups_text_no_slash; [done|by apply Forall_drop|by apply Forall_take].
    + by apply groups_text_no_slash.
Qed.

Lemma split_cidr net p : 0 <= p -> split "/" (cidr net p) = [ip_to_string net; dec p].
Proof.
  intros. unfold cidr. change ("/" +:+ dec p) with (String "/" (dec p)).
  rewrite split_app, (split_no_char "/" (ip_to_string net)), (split_no_char "/" (dec p)); auto using ip_no_slash.
  by apply dec_has_char.
Qed.

(** ** Theorems: membership in a subnet *)

(** The value of the test on a written subnet *)
Lemma ip_in_subnet_cidr ip net p :
  ip_wf ip -> ip_wf net -> in_width 32 p ->
  ip_in_subnet ip (cidr net p) =
  match ip, net with
  | V4 a, V4 n => a / 2 ^ (32 - Z.min p 32) =? n / 2 ^ (32 - Z.min p 32)
  | V6 a, V4 n =>
      match to_ipv4_mapped a with
      | Some a' => a' / 2 ^ (32 - Z.min p 32) =? n / 2 ^ (32 - Z.min p 32)
      | None => false
      end
  | V6 a, V6 n =>
      match to_ipv4_mapped a with
      | Some _ => false
      | None => a / 2 ^ (128 - Z.min p 128) =? n / 2 ^ (128 - Z.min p 128)
      end
  | V4 _, V6 _ => false
  end.
Proof.
  intros Hip Hnet Hp. unfold ip_in_subnet. rewrite split_cidr by (unfold in_width in *; lia). cbv zeta.
  change (default "" ([ip_to_string net; dec p] !! 0%nat)) with (ip_to_string net).
  change (default "" ([ip_to_string net; dec p] !! 1%nat)) with (dec p).
  rewrite parse_ip_to_string, parse_uint_dec by done. destruct Hp as [Hp _].
  destruct ip as [a|a], net as [n|n]; simpl in Hip, Hnet; try done.
  - by apply mask_eqb.
  - destruct (to_ipv4_mapped a) as [a'|] eqn:E; [|done].
    apply to_ipv4_mapped_spec in E as [? _]; [|done]. by apply mask_eqb.
  - destruct (to_ipv4_mapped a) as [a'|] eqn:E; [done|]. by apply mask_eqb.
Qed.

(** C29. Membership in a written subnet is agreement on the prefix: the first
    [p] bits for an address of the same family (all of them for a longer
    prefix length), with IPv4-mapped IPv6 clients counted as IPv4, and never
    across families. *)
Theorem ip_in_subnet_prefix ip net p
    (Hip : ip_wf ip) (Hnet : ip_wf net) (Hp : in_width 32 p) :
  ip_in_subnet ip (cidr net p) =
  match ip, net with
  | V4 a, V4 n => a / 2 ^ (32 - Z.min p 32) =? n / 2 ^ (32 - Z.min p 32)
  | V6 a, V4 n =>
      match to_ipv4_mapped a with
      | Some a' => a' / 2 ^ (32 - Z.min p 32) =? n / 2 ^ (32 - Z.min p 32)
      | None => false
      end
  | V6 a, V6 n =>
      match to_ipv4_mapped a with
      | Some _ => false
      | None => a / 2 ^ (128 - Z.min p 128) =? n / 2 ^ (128 - Z.min p 128)
      end
  | V4 _, V6 _ => false
  end.
Proof. by apply ip_in_subnet_cidr. Qed.

Lemma ip_in_subnet_prefix_witness :
  ip_in_subnet (V4 (v4_new 172 30 5 9)) (cidr (V4 (v4_new 172 30 5 0)) 28) = true.
Proof.
  rewrite (ip_in_subnet_prefix (V4 (v4_new 172 30 5 9)) (V4 (v4_new 172 30 5 0)) 28);
    [reflexivity|simpl; unfold in_width; vm_compute; split; congruence..].
Defined.

(** ** The registry *)

(** The two tables of the registry are inverse to each other, and every
    identifier in use is below the next one. *)
Record registry_ok (r : Registry) : Prop := {
  ok_forward s id : subnet_to_id r !! s = Some id ->
    exists name, network_registry r !! id = Some {| net_name := name; subnet := s |};
  ok_backward id info : network_registry r !! id = Some info ->
    subnet_to_id r !! subnet info = Some id;
  ok_below id : is_Some (network_registry r !! id) -> 1 <= id < next_network_id r;
  ok_next : 1 <= next_network_id r < 2 ^ 32
}.

Lemma initial_registry_ok : registry_ok initial_registry.
Proof. split; simpl; try done. intros id [? H]. by rewrite lookup_empty in H. Qed.

Lemma register_network_ok r name s :
  registry_ok r -> next_network_id r + 1 < 2 ^ 32 -> registry_ok (register_network r name s).
Proof.
  intros [Hf Hb Hl Hn] Hnext. unfold register_network.
  destruct (subnet_to_id r !! s) as [id|] eqn:E.
  - destruct (Hf _ _ E) as [old Hold]. split; simpl; [| | |done].
    + intros s' id' Hs'. destruct (Hf _ _ Hs') as [name' Hid'].
      destruct (decide (id = id')) as [->|Hne]; [|rewrite lookup_insert_ne by done; eauto].
      rewrite lookup_insert_eq. exists name. by simplify_eq.
    + intros id' info. rewrite lookup_insert. case_decide; [|by apply Hb].
      subst. by intros [= <-].
    + intros id'. rewrite lookup_insert. case_decide; [|by apply Hl]. intros _. subst. eauto.
  - assert (network_registry r !! next_network_id r = None) as Hfresh.
    { apply eq_None_not_Some. intros Hs. apply Hl in Hs. lia. }
    assert (wrap 32 (next_network_id r + 1) = next_network_id r + 1) as Hw
      by (apply wrap_id; unfold in_width; lia).
    split; simpl; rewrite ?Hw; [| | |lia].
    + intros s' id'. rewrite lookup_insert. case_decide; intros H'; simplify_eq.
      * rewrite lookup_insert_eq. by exists name.
      * destruct (Hf _ _ H') as [name' Hid']. rewrite lookup_insert_ne; [by exists name'|].
        intros <-. congruence.
    + intros id' info. rewrite lookup_insert. case_decide; intros H'; [injection H' as <-; subst|].
      * apply lookup_insert_eq.
      * apply Hb in H' as Hs'. rewrite lookup_insert_ne; [done|]. intros ?. congruence.
    + intros id'. rewrite lookup_insert. case_decide; intros H'; simplify_eq; [lia|].
      apply Hl in H'. lia.
Qed.

#[export] Hint Resolve initial_registry_ok register_network_ok : dockerwall.

Lemma register_network_next r name s :
  registry_ok r -> next_network_id r + 1 < 2 ^ 32 ->
  next_network_id (register_network r name s) <= next_network_id r + 1.
Proof.
  intros Hr Hn. unfold register_network. destruct (subnet_to_id r !! s); simpl; [lia|].
  destruct (ok_next r Hr). rewrite wrap_id by (unfold in_width; lia). lia.
Qed.

(** The registry after a sequence of registrations *)
Definition register_all (regs : list (string * string)) (r : Registry) : Registry :=
  fold_left (fun r '(name, s) => register_network r name s) regs r.

Lemma register_all_ok regs r :
  registry_ok r -> next_network_id r + Z.of_nat (List.length regs) < 2 ^ 32 ->
  registry_ok (register_all regs r).
Proof.
  revert r. induction regs as [|[name s] regs IH]; intros r Hr Hn; [done|].
  simpl in *. pose proof (register_network_next r name s Hr ltac:(lia)).
  apply IH; [apply register_network_ok; [done|lia]|lia].
Qed.

(** The abstract view: the name each subnet is shown under. *)
Definition shown_name (r : Registry) (s : string) : option string :=
  id ← subnet_to_id r !! s; net_name <$> network_registry r !! id.

(** The reference: the last registration of a subnet decides. *)
Definition last_name (regs : list (string * string)) : gmap string string :=
  fold_left (fun m '(name, s) => <[s := name]> m) regs ∅.

Lemma shown_name_register r name s s' :
  registry_ok r -> next_network_id r + 1 < 2 ^ 32 ->
  shown_name (register_network r name s) s'
  = if decide (s = s') then Some name else shown_name r s'.
Proof.
  intros Hr Hn. unfold shown_name, register_network.
  destruct (subnet_to_id r !! s) as [id|] eqn:E; simpl.
  - case_decide as Hs; [subst; rewrite E; simpl; by rewrite lookup_insert_eq|].
    destruct (subnet_to_id r !! s') as [id'|] eqn:E'; [|done]. simpl.
    rewrite lookup_insert_ne; [done|]. intros ->.
    destruct (ok_forward r Hr _ _ E), (ok_forward r Hr _ _ E'). congruence.
  - rewrite lookup_insert. case_decide as Hs; simpl; [by rewrite lookup_insert_eq|].
    destruct (subnet_to_id r !! s') as [id'|] eqn:E'; [|done]. simpl.
    rewrite lookup_insert_ne; [done|]. intros <-.
    destruct (ok_forward r Hr _ _ E') as [? Hid]. pose proof (ok_below r Hr _ (mk_is_Some _ _ Hid)). lia.
Qed.

(** C30. As long as fewer than 2^32 - 1 subnets are registered, the registry
    stays consistent and shows every subnet under the name of its last
    registration: re-registering renames, and never affects another subnet. *)
Theorem register_all_refines regs (Hlen : Z.of_nat (List.length regs) < 2 ^ 32 - 1) :
  registry_ok (register_all regs initial_registry)
  /\ forall s, shown_name (register_all regs initial_registry) s = last_name regs !! s.
Proof.
  split; [apply register_all_ok; [auto with dockerwall|simpl; lia]|].
  induction regs as [|[name s'] regs IH] using rev_ind; intros s; [done|].
  rewrite length_app in Hlen. simpl in Hlen.
  unfold register_all, last_name in *. rewrite !fold_left_app. simpl.
  assert (next_network_id (fold_left (fun r '(name, s) => register_network r name s) regs initial_registry)
          <= 1 + Z.of_nat (List.length regs)) as Hle.
  { clear IH. assert (Z.of_nat (List.length regs) < 2 ^ 32 - 1) as Hl by lia. clear Hlen.
    induction regs as [|[n0 s0] regs IH] using rev_ind; [done|].
    rewrite length_app in *. simpl in *. rewrite fold_left_app. simpl.
    etransitivity; [apply register_network_next|]; [| |].
    - apply (register_all_ok regs); [auto with dockerwall|simpl; lia].
    - specialize (IH ltac:(lia)). lia.
    - specialize (IH ltac:(lia)). lia. }
  rewrite shown_name_register, lookup_insert, IH; [done|lia| |lia].
  apply (register_all_ok regs); [auto with dockerwall|simpl; lia].
Qed.

Lemma register_all_refines_witness :
  shown_name (register_all [("a", "10.0.0.0/8"); ("b", "172.30.0.0/28"); ("c", "10.0.0.0/8")]
                initial_registry) "10.0.0.0/8" = Some "c".
Proof.
  rewrite (proj2 (register_all_refines
    [("a", "10.0.0.0/8"); ("b", "172.30.0.0/28"); ("c", "10.0.0.0/8")] ltac:(simpl; lia))).
  vm_compute. reflexivity.
Defined.

(** ** Recording *)

Section recording.
Context `{HashOrder}.

(** Classification: an address is given a network exactly when some
    registered subnet contains it, and then the identifier and the name are
    those of one such subnet. *)
Theorem find_network_sound r origin (Hr : registry_ok r) :
  match find_network r origin with
  | (Some id, name) =>
      exists s, subnet_to_id r !! s = Some id /\ ip_in_subnet origin s = true
        /\ is_Some name /\ name = shown_name r s
  | (None, name) =>
      name = None /\ forall s, is_Some (subnet_to_id r !! s) -> ip_in_subnet origin s = false
  end.
Proof.
  unfold find_network.
  destruct (List.find _ (hm_iter (subnet_to_id r))) as [[s id]|] eqn:E.
  - apply find_some in E as [Hin Hs]. apply list_elem_of_In, elem_of_hm_iter in Hin.
    exists s. unfold shown_name. rewrite Hin. simpl.
    destruct (ok_forward r Hr _ _ Hin) as [name ->]. simpl. eauto.
  - split; [done|]. intros s [id Hs]. apply elem_of_hm_iter, list_elem_of_In in Hs.
    exact (find_none _ _ E _ Hs).
Qed.

(** The entries that have not expired *)
Definition fresh (stats : StatsTable) (now ttl : Z) : StatsTable :=
  filter (fun '(_, entry) => retained now ttl entry = true) stats.

Lemma fresh_lookup stats now ttl k e :
  fresh stats now ttl !! k = Some e <-> stats !! k = Some e /\ retained now ttl e = true.
Proof. unfold fresh. by rewrite map_lookup_filter_Some. Qed.

Lemma fresh_size stats now ttl : (size (fresh stats now ttl) <= size stats)%nat.
Proof.
  rewrite <- !size_dom. apply subseteq_size, dom_filter_subseteq.
Qed.

(** One recorded resolution: expired entries disappear, other live
    entries are untouched, a live entry of the key is counted once more and
    re-classified, and a new one starts at 1 unless the table is full. *)
Theorem write_stats_lookup stats domain origin now ttl nid acc k :
  write_stats stats domain origin now ttl nid acc !! k =
  if decide (k = (domain, origin)) then
    match fresh stats now ttl !! k with
    | Some e => Some {| count := wrap 64 (count e + 1); last_seen := now;
                        network_id := nid; accepted := acc |}
    | None => if MAX_STATS_ENTRIES <=? Z.of_nat (size (fresh stats now ttl)) then None
              else Some {| count := 1; last_seen := now; network_id := nid; accepted := acc |}
    end
  else fresh stats now ttl !! k.
Proof.
  unfold write_stats. fold (fresh stats now ttl).
  destruct (fresh stats now ttl !! (domain, origin)) as [e|] eqn:E.
  - rewrite bool_decide_false by done. simpl. rewrite lookup_insert.
    repeat case_decide; subst; try done. by rewrite E.
  - rewrite bool_decide_true by done. simpl.
    destruct (MAX_STATS_ENTRIES <=? Z.of_nat (size (fresh stats now ttl))).
    + case_decide; subst; [by rewrite E|done].
    + rewrite lookup_insert. repeat case_decide; subst; try done. by rewrite E.
Qed.

(** C31. Recording bounds the table and forgets what has expired: the table never
    grows past its limit, an entry of another key is an old one that has not
    expired, and every such one is kept. *)
Theorem record_resolve_bounded r state stats domain origin now ttl
    (Hsize : Z.of_nat (size stats) <= MAX_STATS_ENTRIES) :
  let stats' := record_resolve r state stats domain origin now ttl in
  Z.of_nat (size stats') <= MAX_STATS_ENTRIES
  /\ forall k e, k <> (domain, origin) ->
       (stats' !! k = Some e <-> stats !! k = Some e /\ retained now ttl e = true).
Proof.
  cbv zeta. unfold record_resolve. destruct (find_network r origin) as [nid name]. split.
  - unfold write_stats. fold (fresh stats now ttl).
    pose proof (fresh_size stats now ttl). unfold MAX_STATS_ENTRIES in *.
    case_bool_decide as E; simpl.
    + destruct (Z.leb_spec 1000000 (Z.of_nat (size (fresh stats now ttl)))); [lia|].
      rewrite map_size_insert_None by done. lia.
    + apply not_eq_None_Some in E. rewrite map_size_insert_Some by done. lia.
  - intros k e Hk. rewrite write_stats_lookup, decide_False by done. apply fresh_lookup.
Qed.

(** Every entry is classified under a registered network. *)
Definition stats_ok (r : Registry) (stats : StatsTable) : Prop :=
  forall k e id, stats !! k = Some e -> network_id e = Some id -> is_Some (network_registry r !! id).

Lemma stats_ok_register r stats name s :
  stats_ok r stats -> stats_ok (register_network r name s) stats.
Proof.
  intros Hs k e id Hk He. specialize (Hs k e id Hk He).
  unfold register_network. destruct (subnet_to_id r !! s); simpl;
    rewrite lookup_insert; case_decide; eauto.
Qed.

(** An identifier that is found, or written, is one of the registry. *)
Lemma find_network_known r origin id name :
  registry_ok r -> find_network r origin = (Some id, name) -> is_Some (network_registry r !! id).
Proof.
  intros Hr E. pose proof (find_network_sound r origin Hr) as Hf. rewrite E in Hf.
  destruct Hf as (s & Hs & _). destruct (ok_forward r Hr _ _ Hs) as [n ->]. by eexists.
Qed.

Lemma stats_ok_write r stats domain origin now ttl nid acc :
  stats_ok r stats -> (forall id, nid = Some id -> is_Some (network_registry r !! id)) ->
  stats_ok r (write_stats stats domain origin now ttl nid acc).
Proof.
  intros Hs Hn k e id. rewrite write_stats_lookup. case_decide as Hk.
  - intros He Hid. apply Hn.
    destruct (fresh _ _ _ !! k); [|destruct (MAX_STATS_ENTRIES <=? _)]; simplify_eq/=; done.
  - intros [He _]%fresh_lookup. by apply (Hs _ _ _ He).
Qed.
End recording.

Lemma record_resolve_bounded_witness :
  let stats' := @record_resolve tree_order initial_registry ∅ ∅ "example.com" (V4 1) 5 7 in
  Z.of_nat (size stats') <= 1000000
  /\ forall k e, k <> ("example.com", V4 1) ->
       (stats' !! k = Some e <-> (∅ : StatsTable) !! k = Some e /\ retained 5 7 e = true).
Proof.
  apply (@record_resolve_bounded tree_order initial_registry ∅ ∅ "example.com" (V4 1) 5 7).
  rewrite map_size_empty. by vm_compute.
Defined.

(** A registry with one network *)
Definition one_network : Registry := register_network initial_registry "net" "10.0.0.0/8".

Lemma one_network_ok : registry_ok one_network.
Proof. apply register_network_ok; [auto with dockerwall|simpl; lia]. Qed.

Lemma find_network_sound_witness :
  exists s, subnet_to_id one_network !! s = Some 1
    /\ ip_in_subnet (V4 (v4_new 10 1 2 3)) s = true
    /\ is_Some (Some "net") /\ Some "net" = shown_name one_network s.
Proof.
  pose proof (@find_network_sound tree_order one_network (V4 (v4_new 10 1 2 3)) one_network_ok) as Hf.
  assert (@find_network tree_order one_network (V4 (v4_new 10 1 2 3)) = (Some 1, Some "net")) as E
    by (vm_compute; reflexivity).
  rewrite E in Hf. exact Hf.
Defined.

(** ** The report is total and complete *)

Lemma contains_push_all x l : x ∈ l -> contains x (push_all l) = true.
Proof.
  intros Hx. apply contains_spec. induction l as [|y l IH]; [by apply elem_of_nil in Hx|].
  unfold push_all in *. simpl.
  apply elem_of_cons in Hx as [->|Hx].
  - by exists "", (foldr String.append "" l).
  - destruct (IH Hx) as (a & b & E). exists (y +:+ a), b. by rewrite E, sapp_assoc.
Qed.

Lemma mapM_elem {A B} (f : A -> option B) l k x :
  mapM f l = Some k -> x ∈ l -> exists y, f x = Some y /\ y ∈ k.
Proof.
  intros Hm%mapM_Some_1 Hx. apply list_elem_of_lookup in Hx as [i Hi].
  destruct (Forall2_lookup_l _ _ _ _ _ Hm Hi) as (y & Hy & Hf).
  exists y. split; [done|]. apply list_elem_of_lookup. eauto.
Qed.

Lemma elem_of_concat_list {A} (x : A) l ls : x ∈ l -> l ∈ ls -> x ∈ concat ls.
Proof. intros Hx Hl. rewrite list_elem_of_In, in_concat. exists l. by rewrite <- !list_elem_of_In. Qed.

(** The entries of one group, in the order of the table *)
Definition in_group (id : option Z) (ip : IpAddr) '((domain, origin, entry) : string * IpAddr * StatEntry)
    : option (string * StatEntry) :=
  if decide (network_id entry = id /\ origin = ip) then Some (domain, entry) else None.

Lemma push_group_lookup (l : list (string * IpAddr * StatEntry)) id ip :
  fold_left push_group l ∅ !! (id, ip)
  = match omap (in_group id ip) l with [] => None | es => Some es end.
Proof.
  induction l as [|[[d o] e] l IH] using rev_ind; [simpl; by rewrite lookup_empty|].
  rewrite fold_left_app, omap_app. cbn [fold_left].
  set (g := fold_left push_group l ∅) in *.
  change (push_group g (d, o, e)) with
    (<[(network_id e, o) := default [] (g !! (network_id e, o)) ++ [(d, e)]]> g).
  rewrite lookup_insert.
  assert (omap (in_group id ip) [(d, o, e)]
          = if decide (network_id e = id /\ o = ip) then [(d, e)] else []) as ->
    by (simpl; by case_decide).
  case_decide as E.
  - injection E as <- <-. rewrite decide_True, IH by done.
    by destruct (omap _ l).
  - rewrite decide_False, app_nil_r, IH; [done|]. intros [<- <-]. by apply E.
Qed.

#[local] Arguments entry_line : simpl never.
#[local] Arguments unknown_line : simpl never.
#[local] Arguments String.append : simpl never.

Section report_lemmas.
Context `{HashOrder}.

Lemma grouped_stats_lookup stats id ip :
  match grouped_stats stats !! (id, ip) with
  | Some es => es <> [] /\ forall d e, (d, e) ∈ es <-> stats !! (d, ip) = Some e /\ network_id e = id
  | None => forall d e, stats !! (d, ip) = Some e -> network_id e <> id
  end.
Proof.
  unfold grouped_stats. rewrite push_group_lookup.
  assert (forall d e, (d, e) ∈ omap (in_group id ip) (hm_iter stats) <->
            stats !! (d, ip) = Some e /\ network_id e = id) as Hin.
  { intros d e. rewrite list_elem_of_omap. split.
    - intros ([[d' o] e'] & Hk%elem_of_hm_iter & Hg). unfold in_group in Hg.
      case_decide as E; simplify_eq. destruct E as [? ->]. done.
    - intros [Hk Hid]. exists (d, ip, e). rewrite elem_of_hm_iter. split; [done|].
      unfold in_group. by rewrite decide_True. }
  destruct (omap (in_group id ip) (hm_iter stats)) as [|x l]; [|done].
  intros d e Hk Hid. by apply (not_elem_of_nil (d, e)), Hin.
Qed.

Lemma group_ips_spec g id ip : ip ∈ group_ips g id <-> is_Some (g !! (id, ip)).
Proof.
  unfold group_ips. rewrite merge_sort_Permutation, list_elem_of_In, in_map_iff. split.
  - intros ([[id' ip'] es] & <- & Hin). apply filter_In in Hin as [Hin Hid].
    apply bool_decide_eq_true in Hid as ->.
    apply list_elem_of_In, elem_of_hm_iter in Hin. by eexists.
  - intros [es Hes]. exists (id, ip, es). split; [done|]. apply filter_In. split.
    + by apply list_elem_of_In, elem_of_hm_iter.
    + by apply bool_decide_eq_true.
Qed.

Lemma group_ips_stats stats d ip e :
  stats !! (d, ip) = Some e -> ip ∈ group_ips (grouped_stats stats) (network_id e).
Proof.
  intros He. apply group_ips_spec. pose proof (grouped_stats_lookup stats (network_id e) ip) as Hg.
  destruct (grouped_stats stats !! (network_id e, ip)); [by eexists|]. by destruct (Hg d e He).
Qed.

Lemma ip_lines_total g now id single ip :
  ip ∈ group_ips g (Some id) -> is_Some (ip_lines g now id single ip).
Proof. intros [es Hes]%group_ips_spec. unfold ip_lines. rewrite Hes. by eexists. Qed.

Lemma unknown_ip_lines_total g now ip :
  ip ∈ group_ips g None -> is_Some (unknown_ip_lines g now ip).
Proof. intros [es Hes]%group_ips_spec. unfold unknown_ip_lines. rewrite Hes. by eexists. Qed.

Lemma mapM_total {A B} (f : A -> option B) l :
  (forall x, x ∈ l -> is_Some (f x)) -> exists k, mapM f l = Some k.
Proof.
  intros Hf. destruct (mapM_is_Some_2 f l) as [k Hk]; [|by exists k]. by apply Forall_forall.
Qed.

Lemma network_lines_total g reg now id :
  is_Some (reg !! id) -> is_Some (network_lines g reg now id).
Proof.
  intros [info Hi]. unfold network_lines. rewrite Hi. simpl.
  destruct (_ =? 0)%nat; [by eexists|].
  destruct (mapM_total (ip_lines g now id (List.length (group_ips g (Some id)) =? 1)%nat)
              (group_ips g (Some id))) as [ls Hls]; [by intros; apply ip_lines_total|].
  rewrite Hls. by eexists.
Qed.

Lemma network_ids_spec (reg : gmap Z NetworkInfo) id :
  id ∈ merge_sort Z.le (hm_iter reg).*1 <-> is_Some (reg !! id).
Proof.
  rewrite merge_sort_Permutation, list_elem_of_fmap. split.
  - intros ([id' info] & -> & Hin%elem_of_hm_iter). by eexists.
  - intros [info Hi]. exists (id, info). by rewrite elem_of_hm_iter.
Qed.

Lemma report_lines_total reg stats now :
  exists known unknown,
    mapM (network_lines (grouped_stats stats) reg now) (merge_sort Z.le (hm_iter reg).*1) = Some known
    /\ unknown_lines (grouped_stats stats) now = Some unknown
    /\ report_lines reg stats now = Some (concat known ++ unknown).
Proof.
  destruct (mapM_total (network_lines (grouped_stats stats) reg now)
              (merge_sort Z.le (hm_iter reg).*1)) as [known Hk].
  { intros id Hid. by apply network_lines_total, network_ids_spec. }
  destruct (mapM_total (unknown_ip_lines (grouped_stats stats) now)
              (group_ips (grouped_stats stats) None)) as [ls Hls];
    [by intros; apply unknown_ip_lines_total|].
  assert (exists unknown, unknown_lines (grouped_stats stats) now = Some unknown) as [unknown Hu].
  { unfold unknown_lines. destruct (_ =? 0)%nat; [by eexists|]. rewrite Hls. by eexists. }
  exists known, unknown. unfold report_lines. by rewrite Hk, Hu.
Qed.

(** The line that the report has for an entry *)
Definition line_of (now : Z) (ip : IpAddr) (d : string) (e : StatEntry) (line : string) : Prop :=
  match network_id e with
  | Some _ => exists single_ip, line = entry_line now single_ip ip (d, e)
  | None => line = unknown_line now (d, e)
  end.

Lemma known_line stats reg now known d ip e id :
  mapM (network_lines (grouped_stats stats) reg now) (merge_sort Z.le (hm_iter reg).*1) = Some known ->
  stats !! (d, ip) = Some e -> network_id e = Some id -> is_Some (reg !! id) ->
  exists single_ip, entry_line now single_ip ip (d, e) ∈ concat known.
Proof.
  intros Hm He Hid Hreg.
  destruct (mapM_elem _ _ _ id Hm) as (ls & Hls & Hin); [by apply network_ids_spec|].
  assert (Hip : ip ∈ group_ips (grouped_stats stats) (Some id))
    by (rewrite <- Hid; by apply (group_ips_stats stats d)).
  unfold network_lines in Hls. destruct Hreg as [info Hreg]. rewrite Hreg in Hls. simpl in Hls.
  destruct (Nat.eqb_spec (List.length (group_ips (grouped_stats stats) (Some id))) 0) as [E|_].
  { apply nil_length_inv in E. rewrite E in Hip. by apply elem_of_nil in Hip. }
  destruct (mapM _ (group_ips _ _)) as [ls'|] eqn:Em; simplify_eq/=.
  destruct (mapM_elem _ _ _ ip Em Hip) as (l & Hl & Hl').
  unfold ip_lines in Hl. pose proof (grouped_stats_lookup stats (Some id) ip) as Hg.
  destruct (grouped_stats stats !! (Some id, ip)) as [es|]; simplify_eq/=.
  exists (List.length (group_ips (grouped_stats stats) (Some id)) =? 1)%nat.
  eapply elem_of_concat_list; [|exact Hin].
  right. apply elem_of_app. left. eapply elem_of_concat_list; [|exact Hl'].
  apply elem_of_app. right. rewrite list_elem_of_In. apply (in_map (entry_line now _ ip)).
  apply list_elem_of_In, Hg. done.
Qed.

Lemma unknown_entry_line stats now unknown d ip e :
  unknown_lines (grouped_stats stats) now = Some unknown ->
  stats !! (d, ip) = Some e -> network_id e = None -> unknown_line now (d, e) ∈ unknown.
Proof.
  intros Hu He Hid. unfold unknown_lines in Hu.
  assert (Hip : ip ∈ group_ips (grouped_stats stats) None)
    by (rewrite <- Hid; by apply (group_ips_stats stats d)).
  destruct (Nat.eqb_spec (List.length (group_ips (grouped_stats stats) None)) 0) as [E|_].
  { apply nil_length_inv in E. rewrite E in Hip. by apply elem_of_nil in Hip. }
  destruct (mapM _ (group_ips _ _)) as [ls|] eqn:Em; simplify_eq/=.
  destruct (mapM_elem _ _ _ ip Em Hip) as (l & Hl & Hl').
  unfold unknown_ip_lines in Hl. pose proof (grouped_stats_lookup stats None ip) as Hg.
  destruct (grouped_stats stats !! (None, ip)) as [es|]; simplify_eq/=.
  right. eapply elem_of_concat_list; [|exact Hl']. right.
  rewrite list_elem_of_In. apply (in_map (unknown_line now)). apply list_elem_of_In, Hg. done.
Qed.

(** The report never panics (its [unwrap]s always find their key), and
    every recorded resolution whose network is registered or unknown has its
    own line, whatever the iteration orders. *)
Lemma get_stats_report_complete r stats now (Hs : stats_ok r stats) :
  exists report, get_stats_report (network_registry r) stats now = Some report
    /\ forall d ip e, stats !! (d, ip) = Some e ->
         exists line, line_of now ip d e line /\ contains line report = true.
Proof.
  destruct (report_lines_total (network_registry r) stats now) as (known & unknown & Hk & Hu & Hr).
  exists (push_all (concat known ++ unknown)). unfold get_stats_report. rewrite Hr.
  split; [done|]. intros d ip e He. unfold line_of.
  destruct (network_id e) as [id|] eqn:Hid.
  - destruct (known_line stats (network_registry r) now known d ip e id) as [single Hl]; eauto.
    exists (entry_line now single ip (d, e)). split; [eauto|].
    apply contains_push_all, elem_of_app. by left.
  - exists (unknown_line now (d, e)). split; [done|].
    apply contains_push_all, elem_of_app. right. by eapply unknown_entry_line.
Qed.
End report_lemmas.
