(* ===== verification/Host.v ===== *)
(** * The host: commands, files, and which binaries are trusted

    The effects of the command-line side are reads and writes of a host [W]:
    running commands, reading files, talking to the daemon, sleeping and
    printing.  Their implementation is the operating system's, so they are the
    fields of a class; everything built from them below is the program's
    ([src/trust.rs], the command helpers of [src/helper.rs]). *)

From S2P Require Import Prelude RustStr.

(** ** The interface *)

(** What [std::fs::Metadata] says about a path *)
Record Metadata : Type := {
  is_file : bool;
  uid : Z;
  mode : Z
}.

(** [std::process::Output]; [success] is [status.success()]. *)
Record Output : Type := {
  success : bool;
  stdout : string;
  stderr : string
}.

(** The command could not be run, or reports a failure. *)
Definition failed (r : Result Output) : Prop :=
  match r with Ok output => success output = false | Err _ => True end.

Class Host (W : Type) := {
  (** [Command::new(binary).args(args).output()], with a cleared environment,
      no standard input and the root as working directory *)
  exec : string -> list string -> W -> W * Result Output;
  (** the same with bytes written to its standard input *)
  exec_stdin : string -> list string -> string -> W -> W * Result Output;
  (** spawning a command that is left running; its process identifier *)
  exec_detached : string -> list string -> W -> W * Result (option Z);
  (** [tokio::fs::metadata]; [None] for any error *)
  metadata : string -> W -> option Metadata;
  (** [std::fs::read_to_string] *)
  read_to_string : string -> W -> Result string;
  (** [std::env::current_exe] *)
  current_exe : W -> Result string;
  (** connecting to the control socket, sending the bytes, and reading one
      line of the answer (without waiting forever); [Err] for any failure *)
  control_exchange : string -> W -> W * Result string;
  sleep_ms : Z -> W -> W;
  println : string -> W -> W;
  eprintln : string -> W -> W
}.

(** ** Computations

    A computation threads the host and returns a [Result]; [None] is a loop
    that has used up its fuel. *)
Definition M (W A : Type) : Type := W -> option (W * Result A).

Section monad.
Context {W : Type}.

Definition ret {A} (a : A) : M W A := fun w => Some (w, Ok a).
Definition fail {A} (e : string) : M W A := fun w => Some (w, Err e).
Definition lift {A} (r : Result A) : M W A := fun w => Some (w, r).
Definition out_of_fuel {A} : M W A := fun _ => None.

(** [m?], then the rest *)
Definition bind {A B} (m : M W A) (k : A -> M W B) : M W B := fun w =>
  match m w with
  | Some (w', Ok a) => k a w'
  | Some (w', Err e) => Some (w', Err e)
  | None => None
  end.

(** [match m { .. }]: the result is looked at, not propagated. *)
Definition attempt {A} (m : M W A) : M W (Result A) := fun w =>
  match m w with
  | Some (w', r) => Some (w', Ok r)
  | None => None
  end.

(** An operation that reads the host, and one that changes it *)
Definition ask {A} (f : W -> A) : M W A := fun w => Some (w, Ok (f w)).
Definition tell (f : W -> W) : M W unit := fun w => Some (f w, Ok tt).
Definition call {A} (f : W -> W * Result A) : M W A := fun w => Some (f w).

(** The computation returns, with or without an error. *)
Definition returns {A} (m : M W A) (w : W) : Prop := is_Some (m w).

Lemma bind_returns {A B} (m : M W A) (k : A -> M W B) w :
  returns m w -> (forall w' a, m w = Some (w', Ok a) -> returns (k a) w') -> returns (bind m k) w.
Proof.
  unfold returns, bind. intros [[w' [a|e]] Hm] Hk; rewrite Hm; [by apply Hk|by eexists].
Qed.

Lemma bind_assoc {A B C} (m : M W A) (k : A -> M W B) (h : B -> M W C) w :
  bind (bind m k) h w = bind m (fun a => bind (k a) h) w.
Proof. unfold bind. destruct (m w) as [[w' [a|e]]|]; done. Qed.

Lemma bind_Some {A B} (m : M W A) (k : A -> M W B) w w' b :
  bind m k w = Some (w', Ok b) <->
  exists w1 a, m w = Some (w1, Ok a) /\ k a w1 = Some (w', Ok b).
Proof.
  unfold bind. split.
  - destruct (m w) as [[w1 [a|e]]|]; [eauto|done..].
  - by intros (w1 & a & -> & ->).
Qed.

Lemma bind_eq {A B} (m : M W A) (k : A -> M W B) w w1 a r :
  m w = Some (w1, Ok a) -> k a w1 = r -> bind m k w = r.
Proof. unfold bind. by intros -> ->. Qed.
End monad.

Notation "'let!' x ':=' m 'in' k" := (bind m (fun x => k))
  (at level 10, x binder, m at level 100, k at level 200) : dockerwall_scope.

#[export] Hint Resolve bind_returns : dockerwall.

(** ** Commands ([src/helper.rs]) *)

Section commands.
Context `{Host W}.

Definition run_command_allow_failure (binary : string) (args : list string) : M W Output :=
  call (exec binary args).

Definition command_failure_message (output : Output) : string :=
  let stderr := trim (from_utf8_lossy (stderr output)) in
  let stdout := trim (from_utf8_lossy (stdout output)) in
  if is_empty stderr && is_empty stdout then "command failed"
  else if is_empty stdout then "command failed: " +:+ stderr
  else if is_empty stderr then "command failed: stdout: " +:+ stdout
  else "command failed: " +:+ stderr +:+ "; stdout: " +:+ stdout.

Definition run_command_checked (binary : string) (args : list string) : M W Output :=
  let! output := run_command_allow_failure binary args in
  if success output then ret output else fail (command_failure_message output).

(** A checked command succeeds exactly when the command ran and its exit
    status was a success. *)
Lemma run_command_checked_ok binary args w w' out :
  exec binary args w = (w', Ok out) -> success out = true ->
  run_command_checked binary args w = Some (w', Ok out).
Proof.
  intros He Hs. unfold run_command_checked, run_command_allow_failure, bind, call.
  by rewrite He, Hs.
Qed.

Lemma run_command_checked_inv binary args w w' out :
  run_command_checked binary args w = Some (w', Ok out) ->
  exec binary args w = (w', Ok out) /\ success out = true.
Proof.
  unfold run_command_checked, run_command_allow_failure, bind, call.
  destruct (exec binary args w) as [w1 [o|e]]; [|done]. unfold ret, fail.
  destruct (success o) eqn:E; intros ?; simplify_eq/=; done.
Qed.

Lemma run_command_checked_failed binary args w w' r :
  exec binary args w = (w', r) -> failed r -> exists e, run_command_checked binary args w = Some (w', Err e).
Proof.
  intros He Hf. unfold run_command_checked, run_command_allow_failure, bind, call. rewrite He.
  destruct r as [out|e]; [|by eexists]. cbn [failed] in Hf. rewrite Hf. by eexists.
Qed.

Lemma run_command_checked_returns binary args w : returns (run_command_checked binary args) w.
Proof.
  unfold returns, run_command_checked, run_command_allow_failure, bind, call.
  destruct (exec binary args w) as [w' [out|e]]; [|by eexists].
  destruct (success out); by eexists.
Qed.
End commands.

(** ** Trusted binaries ([src/trust.rs]) *)

Section trust.
Context `{Host W}.

(** The mask [0o022] *)
Definition GROUP_OTHER_WRITE : Z := 2 * 8 + 2.

Definition is_trusted_binary (path : string) : M W bool :=
  let! md := ask (metadata path) in
  match md with
  | None => ret false
  | Some metadata =>
      if negb (is_file metadata) then ret false
      else if negb (uid metadata =? 0) then ret false
      else if negb (Z.land (mode metadata) GROUP_OTHER_WRITE =? 0) then ret false
      else ret true
  end.

(** [resolve_binary] of [src/helper.rs]: the first trusted candidate *)
Fixpoint resolve_binary (candidates : list string) : M W string :=
  match candidates with
  | [] => fail "trusted binary not found"
  | candidate :: candidates' =>
      let! trusted := is_trusted_binary candidate in
      if trusted : bool then ret candidate else resolve_binary candidates'
  end.

(** The file is a regular one of root's that neither its group nor others
    can write. *)
Definition trusted (w : W) (path : string) : Prop :=
  exists md, metadata path w = Some md /\ is_file md = true /\ uid md = 0
    /\ Z.testbit (mode md) 4 = false /\ Z.testbit (mode md) 1 = false.

Lemma write_bits m : Z.land m GROUP_OTHER_WRITE = 0 <-> Z.testbit m 4 = false /\ Z.testbit m 1 = false.
Proof.
  split.
  - intros Hm. split.
    + apply (f_equal (fun x => Z.testbit x 4)) in Hm. rewrite Z.land_spec in Hm.
      simpl in Hm. by rewrite andb_true_r in Hm.
    + apply (f_equal (fun x => Z.testbit x 1)) in Hm. rewrite Z.land_spec in Hm.
      simpl in Hm. by rewrite andb_true_r in Hm.
  - intros [H4 H1]. apply Z.bits_inj'. intros i Hi. rewrite Z.land_spec, Z.bits_0.
    destruct (decide (i = 4)) as [->|]; [by rewrite H4|].
    destruct (decide (i = 1)) as [->|]; [by rewrite H1|].
    replace (Z.testbit GROUP_OTHER_WRITE i) with false; [apply andb_false_r|].
    destruct (decide (i < 5)); [|by rewrite Z.bits_above_log2 by (change (Z.log2 GROUP_OTHER_WRITE) with 4; unfold GROUP_OTHER_WRITE; lia)].
    assert (i = 0 \/ i = 2 \/ i = 3) as [->|[->| ->]] by lia; done.
Qed.

Lemma is_trusted_binary_eq path w :
  exists b, is_trusted_binary path w = Some (w, Ok b) /\ (b = true <-> trusted w path).
Proof.
  unfold is_trusted_binary, bind, ask, trusted, ret.
  destruct (metadata path w) as [md|];
    [|exists false; split; [done|split; [done|by intros (? & [=] & _)]]].
  destruct (is_file md) eqn:Ef; cbn [negb];
    [|exists false; split; [done|split; [done|intros (? & [= <-] & ? & _); congruence]]].
  destruct (Z.eqb_spec (uid md) 0); cbn [negb];
    [|exists false; split; [done|split; [done|by intros (? & [= <-] & _ & ? & _)]]].
  destruct (Z.eqb_spec (Z.land (mode md) GROUP_OTHER_WRITE) 0) as [E|E]; cbn [negb];
    rewrite write_bits in E.
  - exists true. split; [done|]. split; [by exists md|done].
  - exists false. split; [done|]. split; [done|]. intros (? & [= <-] & _ & _ & Hbits). by destruct E.
Qed.

(** C14. A binary is run as trusted exactly when it is a regular file owned by
    root that is writable by neither group nor others; the test has no other
    outcome and changes nothing. *)
Theorem is_trusted_binary_spec path w :
  exists b, is_trusted_binary path w = Some (w, Ok b) /\ (b = true <-> trusted w path).
Proof. apply is_trusted_binary_eq. Qed.

#[export] Instance trusted_dec w path : Decision (trusted w path).
Proof.
  unfold trusted. destruct (metadata path w) as [md|]; [|right; by intros (? & [=] & _)].
  destruct (decide (is_file md = true /\ uid md = 0
                    /\ Z.testbit (mode md) 4 = false /\ Z.testbit (mode md) 1 = false)) as [Ht|Ht].
  - left. by exists md.
  - right. by intros (? & [= <-] & ?).
Defined.

Lemma resolve_binary_eq candidates w :
  resolve_binary candidates w =
  Some (w, match List.find (fun path => bool_decide (trusted w path)) candidates with
           | Some path => Ok path
           | None => Err "trusted binary not found"
           end).
Proof.
  induction candidates as [|c cs IH]; [done|]. simpl. unfold bind.
  destruct (is_trusted_binary_eq c w) as (b & -> & Hb).
  rewrite (bool_decide_ext _ _ (symmetry Hb)). by destruct b.
Qed.

(** Resolution gives the first trusted candidate, and fails exactly when
    no candidate is trusted. *)
Theorem resolve_binary_spec candidates w :
  resolve_binary candidates w =
  Some (w, match List.find (fun path => bool_decide (trusted w path)) candidates with
           | Some path => Ok path
           | None => Err "trusted binary not found"
           end).
Proof. apply resolve_binary_eq. Qed.

Lemma resolve_binary_trusted candidates w w' b :
  resolve_binary candidates w = Some (w', Ok b) -> w' = w /\ trusted w b /\ b ∈ candidates.
Proof.
  rewrite resolve_binary_eq. destruct (List.find _ _) eqn:E; intros ?; simplify_eq.
  apply find_some in E as [Hin Ht]. apply bool_decide_eq_true in Ht.
  by rewrite list_elem_of_In.
Qed.
End trust.
