(* ===== verification/Ipset.v ===== *)
(** * Pushing addresses to the kernel's sets ([src/ipset.rs])

    The script that [update_ipset] writes, what [ipset restore] promises about
    scripts ([IpsetTool]), and what a push does to the sets. *)

From S2P Require Import Prelude RustStr Net Host.

Definition IPSET_CANDIDATES : list string := ["/usr/sbin/ipset"; "/sbin/ipset"; "/usr/bin/ipset"].

Definition ipv6_ipset_name (name : string) : string := name +:+ "-v6".

(** The input of [ipset restore] *)
Definition restore_payload (name : string) (ips : list IpAddr) : string :=
  let ipv6_name := ipv6_ipset_name name in
  fold_left (fun payload ip =>
      let ipset := match ip with V4 _ => name | V6 _ => ipv6_name end in
      payload +:+ ("add " +:+ ipset +:+ " " +:+ ip_to_string ip +:+ " -exist" +:+ nl))
    ips ("flush " +:+ name +:+ nl +:+ "flush " +:+ ipv6_name +:+ nl).

Section ipset.
Context `{Host W}.

Fixpoint resolve_ipset_from (candidates : list string) : M W string :=
  match candidates with
  | [] => fail "trusted ipset binary not found"
  | candidate :: candidates' =>
      let! trusted := is_trusted_binary candidate in
      if trusted : bool then ret candidate else resolve_ipset_from candidates'
  end.

Definition resolve_ipset_binary : M W string := resolve_ipset_from IPSET_CANDIDATES.

Definition update_ipset (name : string) (ips : list IpAddr) : M W unit :=
  let! ipset_binary := resolve_ipset_binary in
  let! output := call (exec_stdin ipset_binary ["restore"] (restore_payload name ips)) in
  if negb (success output)
  then
    let stderr := trim (from_utf8_lossy (stderr output)) in
    let stdout := trim (from_utf8_lossy (stdout output)) in
    fail ("ipset restore failed: " +:+ stderr +:+ "; stdout: " +:+ stdout)
  else ret tt.
End ipset.

(** ** What [ipset restore] promises *)

(** A kernel set: of IPv6 addresses ([family inet6]) or of IPv4 ones *)
Record KernelSet : Type := {
  inet6 : bool;
  members : gset IpAddr
}.

Definition is_v6 (ip : IpAddr) : bool := match ip with V4 _ => false | V6 _ => true end.

Abbreviation KernelSets := (gmap string KernelSet).

(** The zero-valued address, which a set of type [hash:ip] cannot store *)
Definition zero_ip (ip : IpAddr) : bool := match ip with V4 a | V6 a => a =? 0 end.

(** An address that a set can store *)
Definition storable (ip : IpAddr) : Prop := ip_wf ip /\ zero_ip ip = false.

#[export] Instance storable_dec ip : Decision (storable ip).
Proof. unfold storable. apply _. Defined.

(** One command of the restore language, as its manual describes it *)
Definition restore_command (words : list string) (sets : KernelSets) : option KernelSets :=
  match words with
  | ["flush"; n] =>
      s ← sets !! n; Some (<[n := {| inet6 := inet6 s; members := ∅ |}]> sets)
  | ["add"; n; entry; "-exist"] =>
      s ← sets !! n;
      ip ← parse_ip entry;
      if Bool.eqb (is_v6 ip) (inet6 s) && negb (zero_ip ip)
      then Some (<[n := {| inet6 := inet6 s; members := {[ip]} ∪ members s |}]> sets)
      else None
  | _ => None
  end.

Fixpoint restore_commands (cmds : list (list string)) (sets : KernelSets) : option KernelSets :=
  match cmds with
  | [] => Some sets
  | c :: cmds' => sets' ← restore_command c sets; restore_commands cmds' sets'
  end.

Definition restore_script (payload : string) : list (list string) :=
  map split_ascii_whitespace (lines payload).

(** The set exists, and is of this family. *)
Definition has_set (name : string) (six : bool) (sets : KernelSets) : Prop :=
  exists s, sets !! name = Some s /\ inet6 s = six.

#[export] Instance has_set_dec name six sets : Decision (has_set name six sets).
Proof.
  unfold has_set. destruct (sets !! name) as [s|]; [|right; by intros (? & [=] & _)].
  destruct (decide (inet6 s = six)) as [E|E]; [left; by exists s|right; by intros (? & [= <-] & ?)].
Defined.

(** The promises of an [ipset] that is there: a script without an erroneous
    command is carried out; one that comes to adding the zero-valued address
    fails, after some of the commands before. *)
Class IpsetTool (W : Type) `{Host W} := {
  kernel_sets : W -> KernelSets;
  restore_runs b payload w sets' :
    b ∈ IPSET_CANDIDATES -> trusted w b ->
    restore_commands (restore_script payload) (kernel_sets w) = Some sets' ->
    exists w' out, exec_stdin b ["restore"] payload w = (w', Ok out)
      /\ success out = true /\ kernel_sets w' = sets';
  restore_refuses_zero b payload w cmds n entry ip rest sets :
    b ∈ IPSET_CANDIDATES -> trusted w b ->
    restore_script payload = cmds ++ ["add"; n; entry; "-exist"] :: rest ->
    restore_commands cmds (kernel_sets w) = Some sets -> is_Some (sets !! n) ->
    parse_ip entry = Some ip -> zero_ip ip = true ->
    exists w' r cmds', exec_stdin b ["restore"] payload w = (w', r)
      /\ failed r
      /\ cmds' `prefix_of` cmds /\ restore_commands cmds' (kernel_sets w) = Some (kernel_sets w')
}.

(** ** Lemmas: words and lines *)

Definition word (s : string) : Prop :=
  s <> "" /\ all_chars (fun a => negb (is_ascii_whitespace a)) s = true.

#[export] Instance word_dec s : Decision (word s).
Proof. unfold word. apply _. Defined.

Lemma split_aws_word cur w rest :
  word w ->
  split_aws_from cur (w +:+ String " " rest) = (cur +:+ w) :: split_aws_from "" rest.
Proof.
  intros [Hne Hw]. revert cur. induction w as [|a w IH]; intros cur; [done|].
  unfold all_chars in Hw. simpl in Hw. apply andb_true_iff in Hw as [Ha Hw].
  simpl. destruct (is_ascii_whitespace a); [done|].
  destruct w as [|b w].
  - simpl. assert (is_empty (cur +:+ String a "") = false) as ->; [|done].
    by destruct cur.
  - rewrite IH by done. by rewrite sapp_assoc.
Qed.

Lemma split_aws_last cur w : word w -> split_aws_from cur w = [cur +:+ w].
Proof.
  intros [Hne Hw]. revert cur. induction w as [|a w IH]; intros cur; [done|].
  unfold all_chars in Hw. simpl in Hw. apply andb_true_iff in Hw as [Ha Hw].
  simpl. destruct (is_ascii_whitespace a); [done|].
  destruct w as [|b w].
  - simpl. assert (is_empty (cur +:+ String a "") = false) as ->; [|done].
    by destruct cur.
  - rewrite IH by done. by rewrite sapp_assoc.
Qed.

(** The words of words joined by spaces *)
Lemma split_aws_join ws : Forall word ws -> split_ascii_whitespace (join " " ws) = ws.
Proof.
  unfold split_ascii_whitespace. induction 1 as [|w ws Hw Hws IH]; [done|].
  destruct ws as [|w' ws]; [by apply split_aws_last|].
  change (join " " (w :: w' :: ws)) with (w +:+ String " " (join " " (w' :: ws))).
  rewrite split_aws_word by done. by rewrite IH.
Qed.

Lemma word_no_char w c : word w -> is_ascii_whitespace c = true -> has_char c w = false.
Proof.
  intros [_ Hw] Hc. induction w as [|a w IH]; [done|]. unfold all_chars in *. simpl in *.
  apply andb_true_iff in Hw as [Ha Hw]. rewrite IH by done.
  destruct (Ascii.eqb_spec a c) as [->|]; [|done]. by rewrite Hc in Ha.
Qed.

Lemma join_no_char ws c :
  Forall word ws -> is_ascii_whitespace c = true -> c <> " "%char -> has_char c (join " " ws) = false.
Proof.
  intros Hws Hc Hsp. induction Hws as [|w ws Hw Hws IH]; [done|].
  destruct ws as [|w' ws]; [by apply word_no_char|].
  change (join " " (w :: w' :: ws)) with (w +:+ String " " (join " " (w' :: ws))).
  rewrite has_char_app, word_no_char by done. cbn [has_char orb].
  rewrite (proj2 (Ascii.eqb_neq " " c)) by congruence. exact IH.
Qed.

Lemma split_inclusive_line l rest :
  has_char newline l = false ->
  split_inclusive_nl (l +:+ nl +:+ rest) = (l, true) :: split_inclusive_nl rest.
Proof.
  induction l as [|a l IH]; intros Hl; [done|].
  cbn [has_char] in Hl. apply orb_false_iff in Hl as [Ha Hl].
  change (String a l +:+ nl +:+ rest) with (String a (l +:+ nl +:+ rest)).
  cbn [split_inclusive_nl]. by rewrite Ha, IH.
Qed.

(** A line without carriage return, then the rest *)
Lemma lines_line l rest :
  has_char newline l = false -> has_char cr l = false -> lines (l +:+ nl +:+ rest) = l :: lines rest.
Proof.
  intros Hl Hc. unfold lines. rewrite split_inclusive_line by done. cbn [map].
  destruct (strip_suffix (String cr "") l) as [l'|] eqn:E; [|done].
  apply strip_suffix_spec in E as ->. rewrite has_char_app in Hc.
  apply orb_false_iff in Hc as [_ Hc]. done.
Qed.

Lemma word_app a b : word a -> all_chars (fun a => negb (is_ascii_whitespace a)) b = true -> word (a +:+ b).
Proof.
  intros [Ha1 Ha2] Hb. split; [by destruct a|]. by rewrite all_chars_app, Ha2, Hb.
Qed.

Lemma ip_not_ws ip : all_chars (fun a => negb (is_ascii_whitespace a)) (ip_to_string ip) = true.
Proof.
  apply ip_all_chars; [|done|done]. intros d Hd. unfold is_ascii_whitespace, digit_char.
  destruct (Z.ltb_spec d 10); rewrite byte_of_chr by lia; lia.
Qed.

Lemma ip_word ip : ip_wf ip -> word (ip_to_string ip).
Proof.
  intros Hip. split; [|apply ip_not_ws]. intros E.
  pose proof (parse_ip_to_string ip Hip) as Hp. by rewrite E in Hp.
Qed.

Lemma ipv6_name_word name : word name -> word (ipv6_ipset_name name).
Proof. intros. by apply word_app. Qed.

Lemma ipv6_name_ne name : ipv6_ipset_name name <> name.
Proof.
  unfold ipv6_ipset_name. intros E. apply (f_equal String.length) in E.
  rewrite length_app_str in E. simpl in E. lia.
Qed.

#[export] Hint Resolve ip_word ipv6_name_word ipv6_name_ne : dockerwall.

(** ** Lemmas: the script *)

(** A script written line by line *)
Definition script (cmds : list (list string)) : string :=
  foldr (fun c rest => join " " c +:+ nl +:+ rest) "" cmds.

Lemma script_cons c cs : script (c :: cs) = join " " c +:+ nl +:+ script cs.
Proof. done. Qed.

Lemma script_app a b : script (a ++ b) = script a +:+ script b.
Proof.
  induction a as [|c a IH]; [done|]. simpl. fold (script (a ++ b)) (script a).
  by rewrite IH, !sapp_assoc.
Qed.

Lemma restore_script_script cmds :
  Forall (Forall word) cmds -> restore_script (script cmds) = cmds.
Proof.
  unfold restore_script. induction 1 as [|c cmds Hc _ IH]; [done|].
  change (script (c :: cmds)) with (join " " c +:+ nl +:+ script cmds).
  rewrite lines_line by (by apply join_no_char).
  cbn [map]. by rewrite split_aws_join, IH.
Qed.

Definition family_set (name : string) (ip : IpAddr) : string :=
  match ip with V4 _ => name | V6 _ => ipv6_ipset_name name end.

Definition restore_cmds (name : string) (ips : list IpAddr) : list (list string) :=
  ["flush"; name] :: ["flush"; ipv6_ipset_name name]
  :: map (fun ip => ["add"; family_set name ip; ip_to_string ip; "-exist"]) ips.

(** The payload is that script. *)
Lemma restore_payload_script name ips : restore_payload name ips = script (restore_cmds name ips).
Proof.
  unfold restore_payload, restore_cmds.
  change (["flush"; name] :: ["flush"; ipv6_ipset_name name]
    :: map (fun ip => ["add"; family_set name ip; ip_to_string ip; "-exist"]) ips)
    with ([["flush"; name]; ["flush"; ipv6_ipset_name name]]
          ++ map (fun ip => ["add"; family_set name ip; ip_to_string ip; "-exist"]) ips).
  rewrite script_app.
  assert ("flush " +:+ name +:+ nl +:+ "flush " +:+ ipv6_ipset_name name +:+ nl
          = script [["flush"; name]; ["flush"; ipv6_ipset_name name]]) as ->.
  { simpl. by rewrite ?sapp_assoc. }
  generalize (script [["flush"; name]; ["flush"; ipv6_ipset_name name]]).
  induction ips as [|ip ips IH]; intros p; [symmetry; apply sapp_nil_r|].
  cbn [fold_left map]. rewrite IH, sapp_assoc. f_equal.
  rewrite script_cons.
  cbn [join]. rewrite !sapp_assoc. by destruct ip.
Qed.

Lemma storable_wf ips : Forall storable ips -> Forall ip_wf ips.
Proof. intros H. eapply Forall_impl; [exact H|]. by intros ip [? _]. Qed.
#[export] Hint Resolve storable_wf : dockerwall.

Lemma restore_cmds_words name ips :
  word name -> Forall ip_wf ips -> Forall (Forall word) (restore_cmds name ips).
Proof.
  intros Hn Hips. unfold restore_cmds.
  assert (word "flush" /\ word "add" /\ word "-exist") as (? & ? & ?) by (by repeat split).
  repeat first [apply Forall_nil_2 | apply Forall_cons_2]; auto with dockerwall.
  rewrite List.Forall_map. eapply Forall_impl; [exact Hips|]. intros ip Hip. simpl.
  assert (word (family_set name ip)) by (destruct ip; simpl; auto with dockerwall).
  repeat first [apply Forall_nil_2 | apply Forall_cons_2]; auto with dockerwall.
Qed.

(** ** Theorems: pushing *)

(** The addresses of one family *)
Definition of_family (v6 : bool) (ips : list IpAddr) : gset IpAddr :=
  list_to_set (List.filter (fun ip => Bool.eqb (is_v6 ip) v6) ips).

Lemma of_family_snoc v6 ips ip :
  of_family v6 (ips ++ [ip])
  = if Bool.eqb (is_v6 ip) v6 then {[ip]} ∪ of_family v6 ips else of_family v6 ips.
Proof.
  unfold of_family. rewrite List.filter_app, list_to_set_app_L. simpl.
  destruct (Bool.eqb _ _); simpl; set_solver.
Qed.

Lemma restore_commands_app a b sets :
  restore_commands (a ++ b) sets = restore_commands a sets ≫= restore_commands b.
Proof.
  revert sets. induction a as [|c a IH]; intros sets; [done|]. simpl.
  destruct (restore_command c sets); [apply IH|done].
Qed.

(** The sets after the script: both sets of the network hold the addresses of
    their family and nothing else. *)
Definition pushed (name : string) (ips : list IpAddr) (sets : KernelSets) : KernelSets :=
  <[ipv6_ipset_name name := {| inet6 := true; members := of_family true ips |}]>
    (<[name := {| inet6 := false; members := of_family false ips |}]> sets).

Lemma restore_cmds_pushed name ips sets s4 s6 :
  Forall storable ips ->
  sets !! name = Some s4 -> inet6 s4 = false ->
  sets !! ipv6_ipset_name name = Some s6 -> inet6 s6 = true ->
  restore_commands (restore_cmds name ips) sets = Some (pushed name ips sets).
Proof.
  intros Hips H4 Hf4 H6 Hf6. pose proof (ipv6_name_ne name) as Hne.
  induction ips as [|ip ips IH] using rev_ind.
  - simpl. rewrite H4. simpl. rewrite lookup_insert_ne, H6 by done. simpl.
    unfold pushed. by rewrite Hf4, Hf6.
  - apply Forall_app in Hips as [Hips [[Hip Hz] _]%Forall_cons].
    unfold restore_cmds in *. rewrite map_app, !app_comm_cons, restore_commands_app, IH by done.
    simpl. unfold family_set, pushed.
    destruct ip as [a|a]; simpl (is_v6 _).
    + rewrite lookup_insert_ne, lookup_insert_eq by done. simpl.
      pose proof (parse_ip_to_string (V4 a) Hip) as Hp. simpl in Hp, Hz. rewrite Hp. simpl. rewrite Hz. simpl.
      rewrite !of_family_snoc. simpl. f_equal.
      rewrite (insert_insert_ne _ name) by done. by rewrite insert_insert_eq.
    + rewrite lookup_insert_eq. simpl.
      pose proof (parse_ip_to_string (V6 a) Hip) as Hp. simpl in Hp, Hz. rewrite Hp. simpl. rewrite Hz. simpl.
      rewrite !of_family_snoc. simpl. by rewrite insert_insert_eq.
Qed.

Section push.
Context `{IpsetTool W}.

Lemma resolve_ipset_binary_eq (w : W) :
  (exists b, b ∈ IPSET_CANDIDATES /\ trusted w b) ->
  exists b, b ∈ IPSET_CANDIDATES /\ trusted w b /\ resolve_ipset_binary w = Some (w, Ok b).
Proof.
  intros (b & Hb & Ht). unfold resolve_ipset_binary.
  induction IPSET_CANDIDATES as [|c cs IH]; [by apply elem_of_nil in Hb|].
  simpl. unfold bind. destruct (is_trusted_binary_eq c w) as (bc & -> & Hc).
  destruct bc.
  - exists c. split; [by left|]. split; [by apply Hc|done].
  - destruct IH as (b' & Hb' & Ht' & E).
    + apply elem_of_cons in Hb as [->|]; [|done]. by apply Hc in Ht.
    + exists b'. split; [by right|done].
Qed.

Lemma update_ipset_pushed name ips (w : W) s4 s6 :
  (exists b, b ∈ IPSET_CANDIDATES /\ trusted w b) -> word name -> Forall storable ips ->
  kernel_sets w !! name = Some s4 -> inet6 s4 = false ->
  kernel_sets w !! ipv6_ipset_name name = Some s6 -> inet6 s6 = true ->
  exists w', update_ipset name ips w = Some (w', Ok tt)
    /\ kernel_sets w' = pushed name ips (kernel_sets w)
    /\ exists b, w' = (exec_stdin b ["restore"] (restore_payload name ips) w).1.
Proof.
  intros Hbin Hname Hips H4 Hf4 H6 Hf6.
  destruct (resolve_ipset_binary_eq w Hbin) as (b & Hb & Ht & Hr).
  destruct (restore_runs b (restore_payload name ips) w (pushed name ips (kernel_sets w)))
    as (w' & out & He & Hs & Hk); [done|done| |].
  { rewrite restore_payload_script, restore_script_script by (apply restore_cmds_words; auto with dockerwall).
    by eapply restore_cmds_pushed. }
  exists w'. split; [|split; [done|exists b; by rewrite He]].
  unfold update_ipset, bind, call. by rewrite Hr, He, Hs.
Qed.

(** C10. Pushing replaces the content: when a trusted [ipset] exists, the two
    sets of the network exist with their families, and no address is the
    zero-valued one, the update succeeds, the IPv4 set then holds exactly the
    IPv4 addresses given, the IPv6 set exactly the IPv6 ones, and every other
    set is as before. *)
Theorem update_ipset_pushes name ips (w : W) s4 s6
    (Hbin : exists b, b ∈ IPSET_CANDIDATES /\ trusted w b)
    (Hname : word name) (Hips : Forall storable ips)
    (H4 : kernel_sets w !! name = Some s4) (Hf4 : inet6 s4 = false)
    (H6 : kernel_sets w !! ipv6_ipset_name name = Some s6) (Hf6 : inet6 s6 = true) :
  exists w', update_ipset name ips w = Some (w', Ok tt)
    /\ kernel_sets w' = pushed name ips (kernel_sets w).
Proof.
  destruct (update_ipset_pushed name ips w s4 s6) as (w' & Hw & Hk & _); [done..|]. by exists w'.
Qed.
(** A list with the zero-valued address, up to the first one *)
Lemma first_zero ips :
  Forall ip_wf ips -> Exists (fun ip => zero_ip ip = true) ips ->
  exists pre z post, ips = pre ++ z :: post /\ Forall storable pre /\ ip_wf z /\ zero_ip z = true.
Proof.
  induction 1 as [|ip ips Hip Hips IH]; intros Hz; [by apply Exists_nil in Hz|].
  destruct (zero_ip ip) eqn:E; [by exists [], ip, ips|].
  apply Exists_cons in Hz as [Hz|Hz]; [congruence|].
  destruct (IH Hz) as (pre & z & post & -> & Hpre & Hwf & Ez). exists (ip :: pre), z, post.
  split; [done|]. split; [by apply Forall_cons_2|done].
Qed.

(** The push of such a list fails, after a part of its script. *)
Lemma update_ipset_zero name ips (w : W) s4 s6 :
  (exists b, b ∈ IPSET_CANDIDATES /\ trusted w b) -> word name -> Forall ip_wf ips ->
  Exists (fun ip => zero_ip ip = true) ips ->
  kernel_sets w !! name = Some s4 -> inet6 s4 = false ->
  kernel_sets w !! ipv6_ipset_name name = Some s6 -> inet6 s6 = true ->
  exists w' e, update_ipset name ips w = Some (w', Err e)
    /\ exists cmds, cmds `prefix_of` restore_cmds name ips
         /\ restore_commands cmds (kernel_sets w) = Some (kernel_sets w').
Proof.
  intros Hbin Hname Hips Hz H4 Hf4 H6 Hf6.
  destruct (first_zero ips Hips Hz) as (pre & z & post & E & Hpre & Hwf & Ez).
  destruct (resolve_ipset_binary_eq w Hbin) as (b & Hb & Ht & Hr).
  assert (restore_cmds name ips = restore_cmds name pre
    ++ ["add"; family_set name z; ip_to_string z; "-exist"]
    :: map (fun ip => ["add"; family_set name ip; ip_to_string ip; "-exist"]) post) as Ec.
  { unfold restore_cmds. by rewrite E, map_app. }
  destruct (restore_refuses_zero b (restore_payload name ips) w (restore_cmds name pre) (family_set name z)
              (ip_to_string z) z (map (fun ip => ["add"; family_set name ip; ip_to_string ip; "-exist"]) post)
              (pushed name pre (kernel_sets w))) as (w' & r & cmds & He & Hs & Hc & Hk); try done.
  - by rewrite restore_payload_script, restore_script_script by (by apply restore_cmds_words).
  - by eapply restore_cmds_pushed.
  - unfold pushed. destruct z; cbn [family_set]; rewrite ?lookup_insert_eq; [|by eexists].
    rewrite lookup_insert_ne, lookup_insert_eq by apply ipv6_name_ne. by eexists.
  - by apply parse_ip_to_string.
  - assert (exists e, update_ipset name ips w = Some (w', Err e)) as [e Hu].
    { unfold update_ipset, bind, call. rewrite Hr, He. destruct r as [out|e]; [cbn [failed] in Hs; rewrite Hs|]; by eexists. }
    exists w', e. split; [done|]. exists cmds. split; [|done]. rewrite Ec. by apply prefix_app_r.
Qed.
End push.

(** The names of the two sets can collide across networks: a network whose
    name is another network's name with the IPv6 suffix has the other one's
    IPv6 set as its IPv4 set, and pushing to the first one flushes it. *)
Theorem ipset_name_collision :
  exists name name', name <> name' /\ name' = ipv6_ipset_name name
    /\ ["flush"; name'] ∈ restore_script (restore_payload name [V4 1])
    /\ ["flush"; name'] ∈ restore_script (restore_payload name' [V4 2]).
Proof.
  exists "a", "a-v6". split; [done|]. split; [done|].
  split; apply list_elem_of_In; vm_compute; auto.
Qed.
