(* ===== verification/Firewall.v ===== *)
(** * Firewall rules ([src/helper.rs])

    The argument vectors of every rule that the program installs, the
    idempotent installation [ensure_rule_present] and its parts, what the
    packet filter promises to it and when it refuses a rule ([Netfilter]), and the
    installation of whole rule lists as a refinement of a pure update of the
    chains, or an error. *)

From S2P Require Import Prelude RustStr Net Host Ipset.

(** ** Installing one rule *)

Definition is_operation (arg : string) : bool := (arg =? "-I")%string || (arg =? "-A")%string.

(** [Iterator::position] *)
Fixpoint position (p : string -> bool) (args : list string) : option nat :=
  match args with
  | [] => None
  | a :: args' => if p a then Some O else S <$> position p args'
  end.

Definition delete_args (insert_args : list string) : list string :=
  match position is_operation insert_args with
  | None => insert_args
  | Some operation_index =>
      let args := <[operation_index := "-D"]> insert_args in
      let position_index := (operation_index + 2)%nat in
      match args !! position_index with
      | Some position =>
          match parse_uint 32 position with
          | Some _ => take position_index args ++ drop (S position_index) args
          | None => args
          end
      | None => args
      end
  end.

Section install.
Context `{Host W}.

(** The loop of [remove_rule_all]; [fuel] bounds its rounds. *)
Fixpoint remove_rule_all (fuel : nat) (binary : string) (args : list string) : M W unit :=
  match fuel with
  | O => out_of_fuel
  | S fuel' =>
      let! output := run_command_allow_failure binary args in
      if negb (success output) then ret tt else remove_rule_all fuel' binary args
  end.

Definition ensure_rule_present (fuel : nat) (binary : string) (args : list string) : M W unit :=
  let! _ := remove_rule_all fuel binary (delete_args args) in
  let! _ := run_command_checked binary args in
  ret tt.

(** Consecutive calls of [ensure_rule_present] *)
Fixpoint ensure_rules (fuel : nat) (binary : string) (rules : list (list string)) : M W unit :=
  match rules with
  | [] => ret tt
  | args :: rules' =>
      let! _ := ensure_rule_present fuel binary args in
      ensure_rules fuel binary rules'
  end.

Definition ensure_chain (binary name : string) : M W unit :=
  let! create_result := run_command_allow_failure binary ["-N"; name] in
  if success create_result then ret tt
  else
    let! exists_result := run_command_allow_failure binary ["-S"; name] in
    if success exists_result then ret tt
    else fail ("failed to create iptables chain " +:+ name +:+ ": "
               +:+ command_failure_message create_result).
End install.

(** ** The rules of a Docker network *)

(** [NetworkPlan] *)
Record NetworkPlan : Type := {
  plan_name : string;
  plan_subnet : string;
  plan_gateway : string;
  plan_dns_port : Z
}.

Definition docker_established_args : list string :=
  ["-I"; "DOCKER-USER"; "1"; "-m"; "comment"; "--comment"; "dockerwall:established";
   "-m"; "conntrack"; "--ctstate"; "ESTABLISHED,RELATED"; "-j"; "ACCEPT"].

Definition docker_allow_args (plan : NetworkPlan) : list string :=
  ["-I"; "DOCKER-USER"; "2"; "-m"; "comment"; "--comment";
   "dockerwall:" +:+ plan_name plan +:+ ":allow"; "-s"; plan_subnet plan;
   "-m"; "set"; "--match-set"; plan_name plan; "dst"; "-j"; "ACCEPT"].

Definition docker_allow_local_args (plan : NetworkPlan) : list string :=
  ["-I"; "DOCKER-USER"; "3"; "-m"; "comment"; "--comment";
   "dockerwall:" +:+ plan_name plan +:+ ":allow-local"; "-s"; plan_subnet plan;
   "-d"; "172.16.0.0/12"; "-j"; "ACCEPT"].

Definition docker_drop_args (plan : NetworkPlan) : list string :=
  ["-I"; "DOCKER-USER"; "4"; "-m"; "comment"; "--comment";
   "dockerwall:" +:+ plan_name plan +:+ ":drop"; "-s"; plan_subnet plan; "-j"; "DROP"].

Definition docker_dns_args (plan : NetworkPlan) (protocol : string) : list string :=
  ["-t"; "nat"; "-I"; "PREROUTING"; "-m"; "comment"; "--comment";
   "dockerwall:" +:+ plan_name plan +:+ ":dns-" +:+ protocol; "-s"; plan_subnet plan;
   "-p"; protocol; "--dport"; "53"; "-j"; "DNAT"; "--to-destination";
   plan_gateway plan +:+ ":" +:+ dec (plan_dns_port plan)].

(** ** The rules of a rootless Podman policy *)

Definition PODMAN_OUTPUT_CHAIN : string := "DOCKERWALL-OUTPUT".
Definition ROOTLESS_DNS_CIDR : string := "198.18.0.1/32".
Definition ROOTLESS_DNS_REDIRECT_CIDR : string := "127.0.0.1/32".

Definition podman_hook_args (name source_cidr : string) : list string :=
  ["-I"; "OUTPUT"; "1"; "-s"; source_cidr; "-m"; "comment"; "--comment";
   "dockerwall:" +:+ name +:+ ":output-hook"; "-j"; PODMAN_OUTPUT_CHAIN].

Definition podman_established_args (name source_cidr : string) : list string :=
  ["-I"; PODMAN_OUTPUT_CHAIN; "1"; "-s"; source_cidr; "-m"; "comment"; "--comment";
   "dockerwall:" +:+ name +:+ ":established"; "-m"; "conntrack"; "--ctstate";
   "ESTABLISHED,RELATED"; "-j"; "ACCEPT"].

(** The UDP rule at position 2, the TCP rule at position 3 *)
Definition podman_dns_args (name source_cidr dns_destination : string) (dns_port : Z)
    (position protocol : string) : list string :=
  ["-I"; PODMAN_OUTPUT_CHAIN; position; "-s"; source_cidr; "-d"; dns_destination;
   "-p"; protocol; "--dport"; dec dns_port; "-m"; "comment"; "--comment";
   "dockerwall:" +:+ name +:+ ":dns-" +:+ protocol; "-j"; "ACCEPT"].

Definition podman_allow_args (name source_cidr ipset : string) : list string :=
  ["-I"; PODMAN_OUTPUT_CHAIN; "4"; "-s"; source_cidr; "-m"; "comment"; "--comment";
   "dockerwall:" +:+ name +:+ ":allow"; "-m"; "set"; "--match-set"; ipset; "dst"; "-j"; "ACCEPT"].

Definition podman_drop_args (name source_cidr : string) : list string :=
  ["-I"; PODMAN_OUTPUT_CHAIN; "5"; "-s"; source_cidr; "-m"; "comment"; "--comment";
   "dockerwall:" +:+ name +:+ ":drop"; "-j"; "DROP"].

Definition podman_masquerade_args (name source_cidr interface : string) : list string :=
  ["-t"; "nat"; "-I"; "POSTROUTING"; "1"; "-s"; source_cidr; "-o"; interface;
   "-m"; "comment"; "--comment"; "dockerwall:" +:+ name +:+ ":masquerade"; "-j"; "MASQUERADE"].

Definition podman_redirect_args (name source_cidr : string) (dns_port : Z) (chain protocol : string)
    : list string :=
  ["-t"; "nat"; "-I"; chain; "1"; "-s"; source_cidr; "-d"; ROOTLESS_DNS_CIDR; "-p"; protocol;
   "--dport"; "53"; "-m"; "comment"; "--comment";
   "dockerwall:" +:+ name +:+ ":dns-" +:+ chain +:+ "-" +:+ protocol;
   "-j"; "REDIRECT"; "--to-ports"; dec dns_port].

Definition podman_icmp_args (name source_cidr position icmp_type : string) : list string :=
  ["-I"; PODMAN_OUTPUT_CHAIN; position; "-s"; source_cidr; "-p"; "ipv6-icmp"; "-m"; "icmp6";
   "--icmpv6-type"; icmp_type; "-m"; "comment"; "--comment";
   "dockerwall:" +:+ name +:+ ":" +:+ icmp_type; "-j"; "ACCEPT"].

Section rule_lists.
Context `{Host W}.

Definition ensure_docker_iptables_rules (fuel : nat) (binary : string) (plan : NetworkPlan) : M W unit :=
  ensure_rules fuel binary
    [docker_established_args; docker_allow_args plan; docker_allow_local_args plan;
     docker_drop_args plan; docker_dns_args plan "udp"; docker_dns_args plan "tcp"].

Definition ensure_rootless_dns_redirects (fuel : nat) (binary name source_cidr : string)
    (dns_port : Z) : M W unit :=
  ensure_rules fuel binary
    (map (fun '(chain, protocol) => podman_redirect_args name source_cidr dns_port chain protocol)
       [("OUTPUT", "udp"); ("OUTPUT", "tcp"); ("PREROUTING", "udp"); ("PREROUTING", "tcp")]).

Definition ensure_rootless_podman_ipv6_rules (fuel : nat) (binary name source_cidr : string) : M W unit :=
  let! _ := ensure_chain binary PODMAN_OUTPUT_CHAIN in
  ensure_rules fuel binary
    ([podman_hook_args name source_cidr; podman_established_args name source_cidr]
     ++ map (fun '(position, icmp_type) => podman_icmp_args name source_cidr position icmp_type)
          [("2", "neighbor-solicitation"); ("3", "neighbor-advertisement")]
     ++ [podman_allow_args name source_cidr (ipv6_ipset_name name); podman_drop_args name source_cidr]).

Definition ensure_rootless_podman_rules (fuel : nat) (binary ip6tables_binary name source_cidr : string)
    (source_ipv6_cidr : option string) (interface : string) (dns_port : Z) : M W unit :=
  let! _ := ensure_chain binary PODMAN_OUTPUT_CHAIN in
  let dns_destination := if dns_port =? 53 then ROOTLESS_DNS_CIDR else ROOTLESS_DNS_REDIRECT_CIDR in
  let! _ := ensure_rules fuel binary
    [podman_hook_args name source_cidr; podman_established_args name source_cidr;
     podman_dns_args name source_cidr dns_destination dns_port "2" "udp";
     podman_dns_args name source_cidr dns_destination dns_port "3" "tcp";
     podman_allow_args name source_cidr name; podman_drop_args name source_cidr] in
  let! _ := if negb (dns_port =? 53)
            then ensure_rootless_dns_redirects fuel binary name source_cidr dns_port
            else ret tt in
  let! _ := ensure_rule_present fuel binary (podman_masquerade_args name source_cidr interface) in
  match source_ipv6_cidr with
  | Some source_ipv6_cidr =>
      ensure_rootless_podman_ipv6_rules fuel ip6tables_binary name source_ipv6_cidr
  | None => ret tt
  end.
End rule_lists.

(** ** What the packet filter promises

    The chains of a packet filter, per binary ([iptables] or [ip6tables]),
    table and chain; a rule is the list of its match and target arguments. *)
Abbreviation rule := (list string).
Abbreviation chain_key := (string * string * string)%type.
Abbreviation Chains := (gmap (string * string * string) (list (list string))).

(** A rule to insert: [-t table] unless it is the filter table, [-I chain],
    the position (1 when absent), and the rule. *)
Record Insert : Type := {
  i_table : string;
  i_chain : string;
  i_pos : option Z;
  i_spec : rule
}.

Definition table_args (t : string) : list string := if (t =? "filter")%string then [] else ["-t"; t].

Definition insert_args (i : Insert) : list string :=
  table_args (i_table i) ++ ["-I"; i_chain i]
  ++ match i_pos i with Some n => [dec n] | None => [] end ++ i_spec i.

Definition delete_rule_args (i : Insert) : list string :=
  table_args (i_table i) ++ ["-D"; i_chain i] ++ i_spec i.

Definition key_of (binary : string) (i : Insert) : chain_key := (binary, i_table i, i_chain i).

Definition insert_at {A} (n : nat) (x : A) (l : list A) : list A := take n l ++ x :: drop n l.

(** Removal of the first copy *)
Fixpoint remove_first (r : rule) (rs : list rule) : list rule :=
  match rs with
  | [] => []
  | r' :: rs' => if decide (r' = r) then rs' else r' :: remove_first r rs'
  end.

Definition insert_index (i : Insert) : nat := Z.to_nat (default 1 (i_pos i) - 1).

(** The options of the rules, each with one argument, but [--match-set], which
    has two *)
Definition OPTIONS : list string :=
  ["-m"; "--comment"; "--ctstate"; "-s"; "-d"; "-o"; "-p"; "--dport"; "--icmpv6-type";
   "-j"; "--to-destination"; "--to-ports"].

Fixpoint option_words (r : rule) : bool :=
  match r with
  | [] => true
  | o :: a :: r' =>
      if (o =? "--match-set")%string
      then match r' with _ :: r'' => option_words r'' | [] => false end
      else bool_decide (o ∈ OPTIONS) && option_words r'
  | _ => false
  end.

(** The sets that such a rule refers to *)
Fixpoint match_sets (r : rule) : list string :=
  match r with
  | o :: a :: r' =>
      if (o =? "--match-set")%string
      then a :: match r' with _ :: r'' => match_sets r'' | [] => [] end
      else match_sets r'
  | _ => []
  end.

(** The argument of its [-j] *)
Fixpoint jump_target (r : rule) : option string :=
  match r with
  | o :: a :: r' =>
      if (o =? "-j")%string then Some a
      else if (o =? "--match-set")%string
           then match r' with _ :: r'' => jump_target r'' | [] => None end
           else jump_target r'
  | _ => None
  end.

(** An insertion that means what it says: a table in use, a position of 32
    bits, and a rule of the options above, which does not begin with a number,
    since that would be read as a position. *)
Record insert_ok (i : Insert) : Prop := {
  ok_table : i_table i = "filter" \/ i_table i = "nat";
  ok_pos : match i_pos i with Some n => 1 <= n < 2 ^ 32 | None => True end;
  ok_head : parse_uint 32 (default "" (head (i_spec i))) = None;
  ok_words : option_words (i_spec i) = true
}.

(** The targets that are no chains *)
Definition TARGETS : list string := ["ACCEPT"; "DROP"; "DNAT"; "REDIRECT"; "MASQUERADE"].

(** What a rule refers to is there: its sets exist and are of the filter's
    family, and its target is a built-in one or a chain of the same table. *)
Definition refers (six : bool) (sets : KernelSets) (m : Chains) (b : string) (i : Insert) : bool :=
  forallb (fun n => bool_decide (has_set n six sets)) (match_sets (i_spec i))
  && match jump_target (i_spec i) with
     | Some t => bool_decide (t ∈ TARGETS) || bool_decide (is_Some (m !! (b, i_table i, t)))
     | None => true
     end.

(** A name that [iptables] takes for a new chain *)
Definition chain_name (c : string) : bool :=
  negb (is_empty c) && (String.length c <=? 28)%nat && negb (starts_with "-" c) && negb (starts_with "!" c)
  && negb (bool_decide (c ∈ TARGETS)).

(** The manual of [iptables]: [-I] inserts at a position of an existing chain,
    [-D] deletes the first copy and fails when there is none, [-N] creates a
    chain and fails when it exists, [-S] lists an existing chain; each leaves
    every other chain alone, and all leave the kernel's sets alone.  A rule
    whose words the filter does not understand ([valid_rule]; an address of the
    other family, a comment that is too long, ...) or that refers to what does not
    exist is refused.  [chains] is about one name per packet filter: two paths of the
    same filter are not both in it; and a binary with an [OUTPUT] chain is a
    packet filter. *)
Class Netfilter (W : Type) `{IpsetTool W} := {
  chains : W -> Chains;
  (** the filter is about IPv6 *)
  filter_v6 : string -> bool;
  (** the filter understands the words of the rule *)
  valid_rule : string -> Insert -> bool;
  nf_insert b i w rs :
    insert_ok i -> valid_rule b i = true -> refers (filter_v6 b) (kernel_sets w) (chains w) b i = true ->
    chains w !! key_of b i = Some rs -> (insert_index i <= List.length rs)%nat ->
    exists w' out, exec b (insert_args i) w = (w', Ok out) /\ success out = true
      /\ chains w' = <[key_of b i := insert_at (insert_index i) (i_spec i) rs]> (chains w)
      /\ kernel_sets w' = kernel_sets w;
  nf_delete b i w rs :
    insert_ok i -> valid_rule b i = true -> refers (filter_v6 b) (kernel_sets w) (chains w) b i = true ->
    chains w !! key_of b i = Some rs ->
    exists w' out, exec b (delete_rule_args i) w = (w', Ok out)
      /\ success out = bool_decide (i_spec i ∈ rs)
      /\ chains w' = <[key_of b i := remove_first (i_spec i) rs]> (chains w)
      /\ kernel_sets w' = kernel_sets w;
  nf_refuses b i w args :
    insert_ok i -> valid_rule b i && refers (filter_v6 b) (kernel_sets w) (chains w) b i = false ->
    is_Some (chains w !! key_of b i) -> args = insert_args i \/ args = delete_rule_args i ->
    exists w' r, exec b args w = (w', r) /\ failed r
      /\ chains w' = chains w /\ kernel_sets w' = kernel_sets w;
  nf_new_chain b c w :
    is_Some (chains w !! (b, "filter", "OUTPUT")) -> chain_name c = true ->
    exists w' out, exec b ["-N"; c] w = (w', Ok out)
      /\ success out = bool_decide (chains w !! (b, "filter", c) = None)
      /\ chains w' = (if decide (chains w !! (b, "filter", c) = None)
                      then <[(b, "filter", c) := []]> (chains w) else chains w)
      /\ kernel_sets w' = kernel_sets w;
  nf_show_chain b c w :
    is_Some (chains w !! (b, "filter", "OUTPUT")) -> chain_name c = true ->
    exists w' out, exec b ["-S"; c] w = (w', Ok out)
      /\ success out = bool_decide (is_Some (chains w !! (b, "filter", c)))
      /\ chains w' = chains w /\ kernel_sets w' = kernel_sets w;
  (** the daemon's own commands and messages are not about chains *)
  nf_restore b payload w : b ∈ IPSET_CANDIDATES -> chains (exec_stdin b ["restore"] payload w).1 = chains w;
  nf_eprintln s w : chains (eprintln s w) = chains w
}.

(** The filter accepts the rule. *)
Definition rule_ready `{Netfilter W} (b : string) (i : Insert) (w : W) : bool :=
  valid_rule b i && refers (filter_v6 b) (kernel_sets w) (chains w) b i.

(** ** Lemmas: argument vectors *)

Lemma delete_args_insert i : insert_ok i -> delete_args (insert_args i) = delete_rule_args i.
Proof.
  intros [Ht Hp Hh _]. unfold insert_args, delete_rule_args.
  assert (forall pre, (pre = [] \/ pre = ["-t"; "nat"]) ->
    delete_args (pre ++ ["-I"; i_chain i]
                 ++ match i_pos i with Some n => [dec n] | None => [] end ++ i_spec i)
    = pre ++ ["-D"; i_chain i] ++ i_spec i) as Hd.
  { intros pre Hpre. destruct (i_pos i) as [n|]; destruct (i_spec i) as [|s spec];
      destruct Hpre as [-> | ->]; unfold delete_args; simpl in *;
      rewrite ?parse_uint_dec, ?Hh by (unfold in_width; lia); done. }
  apply Hd. destruct Ht as [-> | ->]; [by left|by right].
Qed.

(** ** Lemmas: removal *)

(** The chain without any copy of a rule *)
Definition without (r : rule) (rs : list rule) : list rule := List.filter (fun r' => negb (bool_decide (r' = r))) rs.

Definition copies (r : rule) (rs : list rule) : nat :=
  List.length (List.filter (fun r' => bool_decide (r' = r)) rs).

Lemma without_absent r rs : r ∉ without r rs.
Proof.
  unfold without. rewrite list_elem_of_In, filter_In. intros [_ H].
  by rewrite bool_decide_true in H.
Qed.

Lemma without_not_in r rs : r ∉ rs -> without r rs = rs.
Proof.
  unfold without. induction rs as [|r' rs IH]; simpl; [done|].
  intros [Hne Hr]%not_elem_of_cons. rewrite bool_decide_false by congruence. simpl. by rewrite IH.
Qed.

Lemma without_remove_first r rs : without r (remove_first r rs) = without r rs.
Proof.
  unfold without. induction rs as [|r' rs IH]; simpl; [done|].
  case_decide as E; simpl; [by rewrite bool_decide_true|]. by rewrite IH.
Qed.

Lemma remove_first_absent r rs : r ∉ rs -> remove_first r rs = rs.
Proof.
  induction rs as [|r' rs IH]; simpl; [done|].
  intros [Hne Hr]%not_elem_of_cons. rewrite decide_False by congruence. by rewrite IH.
Qed.

Lemma copies_remove_first r rs : r ∈ rs -> copies r rs = S (copies r (remove_first r rs)).
Proof.
  unfold copies. induction rs as [|r' rs IH]; simpl; [by intros ?%elem_of_nil|].
  intros Hr. case_decide as E; simpl; [by rewrite bool_decide_true|].
  rewrite bool_decide_false by done. apply elem_of_cons in Hr as [->|Hr]; [done|]. by apply IH.
Qed.

Lemma copies_length r rs : (copies r rs <= List.length rs)%nat.
Proof. apply filter_length_le. Qed.

Lemma without_length r rs : (List.length (without r rs) <= List.length rs)%nat.
Proof. apply filter_length_le. Qed.

Lemma without_cons r r' rs :
  without r (r' :: rs) = if bool_decide (r' = r) then without r rs else r' :: without r rs.
Proof. unfold without. simpl. by case_bool_decide. Qed.

Lemma elem_of_without r r' rs : r' ∈ without r rs <-> r' ∈ rs /\ r' <> r.
Proof.
  unfold without. rewrite !list_elem_of_In, filter_In. split; intros [? Hn]; (split; [done|]).
  - by case_bool_decide.
  - by rewrite bool_decide_false.
Qed.

Lemma without_comm a b rs : without a (without b rs) = without b (without a rs).
Proof.
  unfold without. induction rs as [|r rs IH]; simpl; [done|].
  destruct (bool_decide (r = b)) eqn:Eb, (bool_decide (r = a)) eqn:Ea; simpl; rewrite ?Eb, ?Ea; simpl;
    by rewrite ?IH.
Qed.

Section removal.
Context `{Netfilter W}.

(** Acceptance depends on the sets and on which chains there are. *)
Lemma rule_ready_same b i (w w' : W) :
  kernel_sets w' = kernel_sets w -> dom (chains w') = dom (chains w) ->
  rule_ready b i w' = rule_ready b i w.
Proof.
  intros Hk Hd. unfold rule_ready, refers. rewrite Hk. f_equal. f_equal.
  destruct (jump_target (i_spec i)) as [t|]; [|done]. f_equal. apply bool_decide_ext.
  by rewrite <- !elem_of_dom, Hd.
Qed.

Lemma dom_insert_same (m : Chains) k rs rs' : m !! k = Some rs -> dom (<[k := rs']> m) = dom m.
Proof. intros Hk. apply dom_insert_lookup_L. by eexists. Qed.

(** Deleting a rule that is refused ends at once, with or without an error. *)
Lemma remove_rule_all_refused fuel b i (w : W) :
  insert_ok i -> rule_ready b i w = false -> is_Some (chains w !! key_of b i) ->
  exists w' r, remove_rule_all (S fuel) b (delete_rule_args i) w = Some (w', r)
    /\ chains w' = chains w /\ kernel_sets w' = kernel_sets w.
Proof.
  intros Hi Hr Hk. destruct (nf_refuses b i w (delete_rule_args i)) as (w1 & r & He & Hf & Hc & Hs);
    [done..|by right|].
  exists w1. cbn [remove_rule_all]. unfold bind, run_command_allow_failure, call. rewrite He.
  destruct r as [out|e]; [|by eexists]. cbn [failed] in Hf. rewrite Hf. by eexists.
Qed.

(** Deleting until the filter refuses removes every copy, within as many
    rounds as there are copies, and one more. *)
Lemma remove_rule_all_spec fuel b i (w : W) rs :
  insert_ok i -> rule_ready b i w = true -> chains w !! key_of b i = Some rs ->
  (copies (i_spec i) rs < fuel)%nat ->
  exists w', remove_rule_all fuel b (delete_rule_args i) w = Some (w', Ok tt)
    /\ chains w' = <[key_of b i := without (i_spec i) rs]> (chains w)
    /\ kernel_sets w' = kernel_sets w.
Proof.
  intros Hi. revert w rs. induction fuel as [|fuel IH]; intros w rs Hr Hrs Hf; [lia|].
  pose proof Hr as [Hv Href]%andb_true_iff.
  destruct (nf_delete b i w rs Hi Hv Href Hrs) as (w1 & out & He & Hs & Hc & Hk).
  cbn [remove_rule_all]. unfold bind, run_command_allow_failure, call. rewrite He, Hs.
  case_bool_decide as Hin; cbn [negb].
  - rewrite (copies_remove_first _ _ Hin) in Hf.
    destruct (IH w1 (remove_first (i_spec i) rs)) as (w2 & Hr2 & Hc2 & Hk2); [| |lia|].
    { rewrite <- Hr. apply rule_ready_same; [done|]. rewrite Hc. by eapply dom_insert_same. }
    { rewrite Hc. apply lookup_insert_eq. }
    exists w2. split; [done|]. rewrite Hk2, Hk. split; [|done].
    by rewrite Hc2, Hc, insert_insert_eq, without_remove_first.
  - exists w1. split; [done|]. split; [|done]. rewrite Hc. f_equal.
    by rewrite (without_not_in _ _ Hin), (remove_first_absent _ _ Hin).
Qed.
End removal.

(** ** Lemmas: insertion *)

Lemma insert_at_lookup {A} n (x : A) l : (n <= List.length l)%nat -> insert_at n x l !! n = Some x.
Proof. intros. unfold insert_at. apply list_lookup_middle. rewrite length_take. lia. Qed.

Lemma without_insert_at r n rs : r ∉ rs -> without r (insert_at n r rs) = rs.
Proof.
  intros Hr. unfold insert_at. rewrite <- (take_drop n rs) in Hr.
  apply not_elem_of_app in Hr as [H1 H2].
  unfold without. rewrite List.filter_app. simpl. rewrite bool_decide_true by done. simpl.
  fold (without r (take n rs)) (without r (drop n rs)).
  rewrite !without_not_in by done. apply take_drop.
Qed.

Lemma copies_absent r rs : r ∉ rs -> copies r rs = 0%nat.
Proof.
  intros Hr. unfold copies. induction rs as [|r' rs IH]; [done|]. simpl.
  apply not_elem_of_cons in Hr as [Hne Hr]. rewrite bool_decide_false by congruence. by apply IH.
Qed.

Lemma copies_insert_at r n rs : r ∉ rs -> copies r (insert_at n r rs) = 1%nat.
Proof.
  intros Hr. unfold insert_at. rewrite <- (take_drop n rs) in Hr.
  apply not_elem_of_app in Hr as [H1 H2].
  unfold copies. rewrite List.filter_app, length_app. simpl. rewrite bool_decide_true by done. simpl.
  fold (copies r (take n rs)) (copies r (drop n rs)). by rewrite !copies_absent.
Qed.

(** ** The specification of an installation *)

(** What installing a rule means for the chains: no other copy of the rule is
    left in its chain, and there is one at its position.  [None]: the chain does
    not exist or is too short for the position. *)
Definition install (b : string) (i : Insert) (m : Chains) : option Chains :=
  rs ← m !! key_of b i;
  let rest := without (i_spec i) rs in
  if (insert_index i <=? List.length rest)%nat
  then Some (<[key_of b i := insert_at (insert_index i) (i_spec i) rest]> m)
  else None.

Fixpoint install_all (b : string) (ins : list Insert) (m : Chains) : option Chains :=
  match ins with
  | [] => Some m
  | i :: ins' => m' ← install b i m; install_all b ins' m'
  end.

Lemma install_all_app b ins ins' m :
  install_all b (ins ++ ins') m = install_all b ins m ≫= install_all b ins'.
Proof.
  revert m. induction ins as [|i ins IH]; intros m; [done|]. simpl.
  destruct (install b i m); [apply IH|done].
Qed.

(** No chain of [m] has more than [n] rules. *)
Definition chains_within (n : nat) (m : Chains) : Prop :=
  forall k rs, m !! k = Some rs -> (List.length rs <= n)%nat.

Lemma install_within n b i m m' :
  chains_within n m -> install b i m = Some m' -> chains_within (S n) m'.
Proof.
  unfold install. intros Hn Hi k rs Hk.
  destruct (m !! key_of b i) as [rs0|] eqn:E; simplify_eq/=.
  destruct (_ <=? _)%nat; simplify_eq. rewrite lookup_insert in Hk. case_decide; simplify_eq.
  - specialize (Hn _ _ E). pose proof (without_length (i_spec i) rs0).
    unfold insert_at. rewrite length_app. simpl. rewrite length_take, length_drop. lia.
  - specialize (Hn _ _ Hk). lia.
Qed.

Lemma install_dom b i m m' : install b i m = Some m' -> dom m' = dom m.
Proof.
  unfold install. destruct (m !! key_of b i) as [rs|] eqn:E; [|done]. simpl.
  destruct (_ <=? _)%nat; [|done]. intros [= <-]. by eapply dom_insert_same.
Qed.

Section ensure.
Context `{Netfilter W}.

Lemma ensure_rule_chain fuel b i (w : W) rs :
  insert_ok i -> rule_ready b i w = true -> chains w !! key_of b i = Some rs ->
  (insert_index i <= List.length (without (i_spec i) rs))%nat ->
  (copies (i_spec i) rs < fuel)%nat ->
  exists w', ensure_rule_present fuel b (insert_args i) w = Some (w', Ok tt)
    /\ chains w' = <[key_of b i := insert_at (insert_index i) (i_spec i) (without (i_spec i) rs)]>
                     (chains w)
    /\ kernel_sets w' = kernel_sets w.
Proof.
  intros Hi Hready Hrs Hpos Hfuel.
  destruct (remove_rule_all_spec fuel b i w rs Hi Hready Hrs Hfuel) as (w1 & Hr & Hc1 & Hk1).
  assert (rule_ready b i w1 = true) as [Hv Href]%andb_true_iff.
  { rewrite <- Hready. apply rule_ready_same; [done|]. rewrite Hc1. by eapply dom_insert_same. }
  destruct (nf_insert b i w1 (without (i_spec i) rs)) as (w2 & out & He & Hs & Hc2 & Hk2);
    [done|done|done|rewrite Hc1; apply lookup_insert_eq|done|].
  exists w2. split.
  - unfold ensure_rule_present. rewrite delete_args_insert by done.
    eapply bind_eq; [exact Hr|]. eapply bind_eq; [by apply run_command_checked_ok|done].
  - by rewrite Hc2, Hc1, insert_insert_eq, Hk2, Hk1.
Qed.

(** A rule that is refused is not installed, and that is reported. *)
Lemma ensure_rule_refused fuel b i (w : W) :
  insert_ok i -> rule_ready b i w = false -> is_Some (chains w !! key_of b i) -> (0 < fuel)%nat ->
  exists w' e, ensure_rule_present fuel b (insert_args i) w = Some (w', Err e)
    /\ chains w' = chains w /\ kernel_sets w' = kernel_sets w.
Proof.
  intros Hi Hr Hk Hf. destruct fuel as [|fuel]; [lia|].
  destruct (remove_rule_all_refused fuel b i w Hi Hr Hk) as (w1 & r1 & E1 & Hc1 & Hk1).
  unfold ensure_rule_present. rewrite delete_args_insert by done.
  destruct r1 as [[]|e]; [|exists w1, e; unfold bind; by rewrite E1].
  destruct (nf_refuses b i w1 (insert_args i)) as (w2 & r2 & E2 & Hf2 & Hc2 & Hk2);
    [done| |by rewrite Hc1|by left|].
  { change (rule_ready b i w1 = false). rewrite <- Hr. apply rule_ready_same; [done|by rewrite Hc1]. }
  destruct (run_command_checked_failed _ _ _ _ _ E2 Hf2) as (e & E).
  exists w2, e. rewrite Hc2, Hk2. split; [|done]. eapply bind_eq; [exact E1|]. unfold bind. by rewrite E.
Qed.

(** C11. Installing a rule terminates and is idempotent in effect: with fuel for
    the copies that exist, [ensure_rule_present] succeeds for a rule that the
    filter accepts, leaves exactly one copy of it in its chain, at the position
    asked for, keeps the order of the other rules and touches no other chain;
    a rule that the filter does not accept is reported, and no chain changes. *)
Theorem ensure_rule_present_spec fuel b i (w : W) rs
    (Hi : insert_ok i) (Hrs : chains w !! key_of b i = Some rs)
    (Hpos : (insert_index i <= List.length (without (i_spec i) rs))%nat)
    (Hfuel : (List.length rs < fuel)%nat) :
  exists w' r, ensure_rule_present fuel b (insert_args i) w = Some (w', r)
    /\ if rule_ready b i w
       then r = Ok tt /\ exists rs', chains w' !! key_of b i = Some rs'
         /\ rs' !! insert_index i = Some (i_spec i) /\ copies (i_spec i) rs' = 1%nat
         /\ without (i_spec i) rs' = without (i_spec i) rs
         /\ forall k, k <> key_of b i -> chains w' !! k = chains w !! k
       else (exists e, r = Err e) /\ chains w' = chains w.
Proof.
  destruct (rule_ready b i w) eqn:Hready.
  2: { destruct (ensure_rule_refused fuel b i w Hi Hready) as (w' & e & He & Hc & _); [by eexists|lia|].
       exists w', (Err e). eauto. }
  pose proof (copies_length (i_spec i) rs).
  destruct (ensure_rule_chain fuel b i w rs Hi Hready Hrs Hpos ltac:(lia)) as (w' & He & Hc & _).
  exists w', (Ok tt). split; [done|]. split; [done|].
  eexists. rewrite Hc, lookup_insert_eq. split; [done|].
  split; [by apply insert_at_lookup|].
  split; [apply copies_insert_at, without_absent|].
  split; [apply without_insert_at, without_absent|].
  intros k Hk. by rewrite lookup_insert_ne.
Qed.

Lemma ensure_install fuel b i (w : W) m' n :
  insert_ok i -> install b i (chains w) = Some m' ->
  chains_within n (chains w) -> (n < fuel)%nat ->
  exists w' r, ensure_rule_present fuel b (insert_args i) w = Some (w', r)
    /\ kernel_sets w' = kernel_sets w
    /\ if rule_ready b i w then r = Ok tt /\ chains w' = m' else exists e, r = Err e.
Proof.
  unfold install. intros Hi Hm Hn Hf.
  destruct (chains w !! key_of b i) as [rs|] eqn:E; [|done]. simpl in Hm.
  destruct (Nat.leb_spec (insert_index i) (List.length (without (i_spec i) rs))); [|done].
  injection Hm as <-. specialize (Hn _ _ E). pose proof (copies_length (i_spec i) rs).
  destruct (rule_ready b i w) eqn:Hready.
  - destruct (ensure_rule_chain fuel b i w rs) as (w' & ? & ? & ?); [done || lia..|]. eauto 6.
  - destruct (ensure_rule_refused fuel b i w) as (w' & e & ? & ? & ?); [done|done|by eexists|lia|]. eauto 6.
Qed.

(** Refinement: a list of calls carries out the list of installations when the
    filter accepts all the rules, and fails otherwise. *)
Lemma ensure_rules_refines fuel b ins (w : W) m' n :
  Forall insert_ok ins -> install_all b ins (chains w) = Some m' ->
  chains_within n (chains w) -> (n + List.length ins <= fuel)%nat ->
  exists w' r, ensure_rules fuel b (map insert_args ins) w = Some (w', r)
    /\ kernel_sets w' = kernel_sets w
    /\ if forallb (fun i => rule_ready b i w) ins then r = Ok tt /\ chains w' = m' else exists e, r = Err e.
Proof.
  intros His. revert w n. induction His as [|i ins Hi _ IH]; intros w n Hm Hn Hf.
  - simpl in *. simplify_eq. by exists w, (Ok tt).
  - simpl in Hm. destruct (install b i (chains w)) as [m1|] eqn:E; [|done]. simpl in Hm, Hf.
    destruct (ensure_install fuel b i w m1 n Hi E Hn ltac:(lia)) as (w1 & r1 & Hw1 & Hk1 & Hr1).
    cbn [ensure_rules map forallb]. destruct (rule_ready b i w); cbn [andb].
    2: { destruct Hr1 as [e ->]. exists w1, (Err e). unfold bind. rewrite Hw1. eauto. }
    destruct Hr1 as [-> Hc1].
    destruct (IH w1 (S n)) as (w2 & r2 & Hw2 & Hk2 & Hr2); [by rewrite Hc1| |lia|].
    { rewrite Hc1. by eapply install_within. }
    exists w2, r2. split; [by eapply bind_eq|]. split; [by rewrite Hk2|].
    assert (forall j, rule_ready b j w1 = rule_ready b j w) as Hsame.
    { intros j. apply rule_ready_same; [done|]. rewrite Hc1. by eapply install_dom. }
    assert (forallb (fun j => rule_ready b j w1) ins = forallb (fun j => rule_ready b j w) ins) as <-; [|done].
    clear -Hsame. induction ins as [|j ins IH]; [done|]. cbn [forallb]. by rewrite Hsame, IH.
Qed.
End ensure.
