(* ===== verification/Policy.v ===== *)
(** * What the installed rules do to packets

    The rule lists of [src/helper.rs] as installations ([docker_inserts], [podman_inserts], ...),
    when the filter accepts them, the chains they lead to, and the verdict of those
    chains on every packet: the default-deny policy. *)

From S2P Require Import Prelude RustStr Net Stats Host Ipset Firewall.

(** ** Blocks of rules *)

Definition without_all (specs : list rule) (rs : list rule) : list rule :=
  fold_left (fun rs r => without r rs) specs rs.

(** Installing rules at consecutive positions of one chain puts them there as
    a block, in order, before what is left of the rest. *)
Lemma install_block b k ins pre rs m :
  (forall j i, ins !! j = Some i -> key_of b i = k /\ insert_index i = (List.length pre + j)%nat) ->
  NoDup (pre ++ map i_spec ins) ->
  install_all b ins (<[k := pre ++ rs]> m)
  = Some (<[k := pre ++ map i_spec ins ++ without_all (map i_spec ins) rs]> m).
Proof.
  revert pre rs. induction ins as [|i ins IH]; intros pre rs Hk Hnd; [done|].
  destruct (Hk 0%nat i eq_refl) as [Hki Hpos]. rewrite Nat.add_0_r in Hpos.
  cbn [install_all map]. unfold install. rewrite Hki, lookup_insert_eq. simpl.
  assert (i_spec i ∉ pre) as Hpre.
  { cbn [map] in Hnd. apply NoDup_app in Hnd as (_ & Hd & _). intros Hin.
    apply (Hd _ Hin). by left. }
  assert (without (i_spec i) (pre ++ rs) = pre ++ without (i_spec i) rs) as ->.
  { unfold without. rewrite List.filter_app. f_equal. by apply without_not_in. }
  rewrite (proj2 (Nat.leb_le _ _)) by (rewrite Hpos, length_app; lia). simpl.
  assert (insert_at (insert_index i) (i_spec i) (pre ++ without (i_spec i) rs)
          = (pre ++ [i_spec i]) ++ without (i_spec i) rs) as ->.
  { unfold insert_at. rewrite Hpos, take_app_length, drop_app_length. by rewrite <- app_assoc. }
  rewrite insert_insert_eq, IH.
  - by rewrite <- !app_assoc.
  - intros j i' Hj. destruct (Hk (S j) i' Hj) as [-> ->]. split; [done|].
    rewrite length_app. simpl. lia.
  - by rewrite <- app_assoc.
Qed.

(** Installing a rule at the front of its chain *)
Lemma install_front b i m rs :
  insert_index i = 0%nat -> m !! key_of b i = Some rs ->
  install b i m = Some (<[key_of b i := i_spec i :: without (i_spec i) rs]> m).
Proof. intros Hi Hrs. unfold install. rewrite Hrs, Hi. done. Qed.

Lemma elem_of_without_all r specs rs : r ∈ without_all specs rs <-> r ∈ rs /\ r ∉ specs.
Proof.
  unfold without_all. revert rs. induction specs as [|s specs IH]; intros rs; simpl.
  - split; [|by intros []]. split; [done|]. apply not_elem_of_nil.
  - rewrite IH, elem_of_without, not_elem_of_cons. naive_solver.
Qed.

(** ** The Docker rules *)

Definition DOCKER_USER (b : string) : chain_key := (b, "filter", "DOCKER-USER").
Definition PREROUTING (b : string) : chain_key := (b, "nat", "PREROUTING").

Definition docker_user_inserts (plan : NetworkPlan) : list Insert :=
  [{| i_table := "filter"; i_chain := "DOCKER-USER"; i_pos := Some 1;
      i_spec := drop 3 docker_established_args |};
   {| i_table := "filter"; i_chain := "DOCKER-USER"; i_pos := Some 2;
      i_spec := drop 3 (docker_allow_args plan) |};
   {| i_table := "filter"; i_chain := "DOCKER-USER"; i_pos := Some 3;
      i_spec := drop 3 (docker_allow_local_args plan) |};
   {| i_table := "filter"; i_chain := "DOCKER-USER"; i_pos := Some 4;
      i_spec := drop 3 (docker_drop_args plan) |}].

(** *** Which rules are accepted

    The rules of a network are accepted when their words are and the set that they
    match exists with the filter's family. *)
Definition block_ready `{Netfilter W} (b set_name : string) (ins : list Insert) (w : W) : bool :=
  bool_decide (has_set set_name (filter_v6 b) (kernel_sets w)) && forallb (valid_rule b) ins.

Lemma rules_ready `{Netfilter W} b set_name ins (w : W) :
  forallb (refers (filter_v6 b) (kernel_sets w) (chains w) b) ins
    = bool_decide (has_set set_name (filter_v6 b) (kernel_sets w)) ->
  forallb (fun i => rule_ready b i w) ins = block_ready b set_name ins w.
Proof.
  intros Hr. unfold block_ready. rewrite <- Hr. clear Hr.
  induction ins as [|i ins IH]; [done|]. cbn [forallb]. rewrite IH. unfold rule_ready.
  destruct (valid_rule b i), (refers _ _ _ b i); cbn [andb]; by rewrite ?andb_false_r, ?andb_true_r.
Qed.

Definition docker_dns_insert (plan : NetworkPlan) (protocol : string) : Insert :=
  {| i_table := "nat"; i_chain := "PREROUTING"; i_pos := None;
     i_spec := drop 4 (docker_dns_args plan protocol) |}.

(** The target is built in. *)
Definition built_in (i : Insert) : bool :=
  match jump_target (i_spec i) with Some t => bool_decide (t ∈ TARGETS) | None => false end.

Lemma refers_nothing six sets m b i : match_sets (i_spec i) = [] -> built_in i = true -> refers six sets m b i = true.
Proof.
  unfold built_in, refers. intros ->. destruct (jump_target (i_spec i)); [|done]. by intros ->.
Qed.

Lemma refers_set six sets m b i n :
  match_sets (i_spec i) = [n] -> built_in i = true -> refers six sets m b i = bool_decide (has_set n six sets).
Proof.
  unfold built_in, refers. intros ->. destruct (jump_target (i_spec i)); [|done]. intros ->. cbn.
  by rewrite !andb_true_r.
Qed.

Lemma refers_chain six sets m b i t :
  match_sets (i_spec i) = [] -> jump_target (i_spec i) = Some t -> is_Some (m !! (b, i_table i, t)) ->
  refers six sets m b i = true.
Proof. unfold refers. intros -> -> Ht. rewrite (bool_decide_true (is_Some _)) by done. by rewrite orb_true_r. Qed.

(** Goes through the rules of a list, of which one matches a set. *)
Ltac rules_refer :=
  repeat first [ rewrite refers_nothing by reflexivity
               | erewrite refers_set by reflexivity
               | erewrite refers_chain by (reflexivity || assumption) ];
  cbn [andb]; rewrite ?andb_true_r; reflexivity.

(** All the rules of a network *)
Definition docker_inserts (plan : NetworkPlan) : list Insert :=
  docker_user_inserts plan ++ [docker_dns_insert plan "udp"; docker_dns_insert plan "tcp"].

(** The four rules of the network in the filter table *)
Definition docker_block (plan : NetworkPlan) : list rule := map i_spec (docker_user_inserts plan).

Lemma docker_block_NoDup plan : NoDup (docker_block plan).
Proof.
  unfold docker_block. simpl.
  repeat (apply NoDup_cons; split; [rewrite ?not_elem_of_cons; repeat split; (discriminate || apply not_elem_of_nil)|]).
  apply NoDup_nil_2.
Qed.

Lemma docker_inserts_args plan :
  map insert_args (docker_inserts plan)
  = [docker_established_args; docker_allow_args plan; docker_allow_local_args plan;
     docker_drop_args plan; docker_dns_args plan "udp"; docker_dns_args plan "tcp"].
Proof. reflexivity. Qed.

Lemma docker_inserts_ok plan :
  Forall insert_ok (docker_inserts plan).
Proof.
  unfold docker_inserts.
  repeat (apply Forall_cons_2; [split; simpl; [auto|lia || done|reflexivity|reflexivity]|]). apply Forall_nil_2.
Qed.

(** The chains after the installation *)
Definition docker_chains (b : string) (plan : NetworkPlan) (rs nat_rs : list rule) (m : Chains) : Chains :=
  <[PREROUTING b := [drop 4 (docker_dns_args plan "tcp"); drop 4 (docker_dns_args plan "udp")]
                    ++ without_all [drop 4 (docker_dns_args plan "udp"); drop 4 (docker_dns_args plan "tcp")] nat_rs]>
  (<[DOCKER_USER b := docker_block plan ++ without_all (docker_block plan) rs]> m).

Lemma docker_install b plan m rs nat_rs :
  m !! DOCKER_USER b = Some rs -> m !! PREROUTING b = Some nat_rs ->
  install_all b (docker_inserts plan) m
  = Some (docker_chains b plan rs nat_rs m).
Proof.
  intros Hrs Hnat. unfold docker_inserts. rewrite install_all_app.
  assert (install_all b (docker_user_inserts plan) m
          = Some (<[DOCKER_USER b := docker_block plan ++ without_all (docker_block plan) rs]> m)) as ->.
  { rewrite <- (insert_id m _ _ Hrs) at 1.
    apply (install_block b (DOCKER_USER b) (docker_user_inserts plan) [] rs m).
    - intros j i Hj. do 4 (destruct j as [|j]; [injection Hj as <-; split; reflexivity|]).
      discriminate Hj.
    - apply docker_block_NoDup. }
  cbn [option_bind mbind].
  cbn [install_all].
  rewrite (install_front b (docker_dns_insert plan "udp") _ nat_rs);
    [|done|by rewrite lookup_insert_ne].
  cbn [option_bind mbind].
  rewrite (install_front b (docker_dns_insert plan "tcp") _
             (drop 4 (docker_dns_args plan "udp") :: without (drop 4 (docker_dns_args plan "udp")) nat_rs));
    [|done|apply lookup_insert_eq].
  cbn [option_bind mbind].
  change (key_of b (docker_dns_insert plan ?p)) with (PREROUTING b).
  rewrite insert_insert_eq, without_cons, bool_decide_false by done. done.
Qed.

Section docker.
Context `{Netfilter W}.

Lemma docker_rules_ready b plan (w : W) :
  forallb (fun i => rule_ready b i w) (docker_inserts plan)
  = block_ready b (plan_name plan) (docker_inserts plan) w.
Proof. apply rules_ready. cbn [docker_inserts docker_user_inserts app forallb]. rules_refer. Qed.

(** Preparing a Docker network terminates and, if the filter accepts the rules,
    installs the policy: the [DOCKER-USER] chain begins with established, allow, allow-local and drop,
    in this order; [PREROUTING] begins with the two DNS redirections; all
    other rules stay behind them in their order, without older copies. *)
Theorem docker_rules_installed fuel b plan (w : W) rs nat_rs n
    (Hrs : chains w !! DOCKER_USER b = Some rs) (Hnat : chains w !! PREROUTING b = Some nat_rs)
    (Hn : chains_within n (chains w)) (Hfuel : (n + 6 <= fuel)%nat) :
  exists w' r, ensure_docker_iptables_rules fuel b plan w = Some (w', r)
    /\ kernel_sets w' = kernel_sets w
    /\ if block_ready b (plan_name plan) (docker_inserts plan) w
       then r = Ok tt /\ chains w' = docker_chains b plan rs nat_rs (chains w)
       else exists e, r = Err e.
Proof.
  unfold ensure_docker_iptables_rules. rewrite <- docker_inserts_args, <- docker_rules_ready.
  eapply ensure_rules_refines; [apply docker_inserts_ok|by apply docker_install|done|simpl; lia].
Qed.
End docker.

(** ** Packets and verdicts *)

Record Packet : Type := {
  pkt_src : IpAddr;
  pkt_dst : IpAddr;
  pkt_established : bool;
  pkt_proto : string;
  pkt_dport : Z;
  pkt_icmp_type : string
}.

(** Which addresses the kernel's sets hold *)
Abbreviation SetView := (string -> IpAddr -> bool).

(** The meaning of the match options that the program uses, as the manuals of
    [iptables] and its extensions give it: a rule matches when all its options
    do, and a comment always does. *)
Class RuleSemantics := {
  matches : SetView -> rule -> Packet -> bool;
  matches_comment sets c r p :
    matches sets ("-m" :: "comment" :: "--comment" :: c :: r) p = matches sets r p;
  matches_src sets cidr r p :
    matches sets ("-s" :: cidr :: r) p = ip_in_subnet (pkt_src p) cidr && matches sets r p;
  matches_dst sets cidr r p :
    matches sets ("-d" :: cidr :: r) p = ip_in_subnet (pkt_dst p) cidr && matches sets r p;
  matches_established sets r p :
    matches sets ("-m" :: "conntrack" :: "--ctstate" :: "ESTABLISHED,RELATED" :: r) p
    = pkt_established p && matches sets r p;
  matches_set sets n r p :
    matches sets ("-m" :: "set" :: "--match-set" :: n :: "dst" :: r) p
    = sets n (pkt_dst p) && matches sets r p;
  matches_port sets proto port r p :
    matches sets ("-p" :: proto :: "--dport" :: port :: r) p
    = (pkt_proto p =? proto)%string && (dec (pkt_dport p) =? port)%string && matches sets r p;
  matches_icmp sets t r p :
    matches sets ("-p" :: "ipv6-icmp" :: "-m" :: "icmp6" :: "--icmpv6-type" :: t :: r) p
    = (pkt_proto p =? "ipv6-icmp")%string && (pkt_icmp_type p =? t)%string && matches sets r p;
  matches_target sets t p : matches sets ["-j"; t] p = true
}.

#[export] Hint Rewrite @matches_comment @matches_src @matches_dst @matches_established
  @matches_set @matches_port @matches_icmp @matches_target : dockerwall.

Inductive Verdict : Type := Accept | Drop | Continue.

(** The target of a filter rule, which the program writes last *)
Definition target (r : rule) : option string :=
  match rev r with
  | t :: j :: _ => if (j =? "-j")%string then Some t else None
  | _ => None
  end.

(** The first rule that matches decides; [jump] is the verdict of another
    chain, and a chain that decides nothing hands the packet back. *)
Fixpoint run_chain `{RuleSemantics} (sets : SetView) (jump : string -> Packet -> Verdict)
    (rs : list rule) (p : Packet) : Verdict :=
  match rs with
  | [] => Continue
  | r :: rs' =>
      if matches sets r p then
        match target r with
        | Some t =>
            if (t =? "ACCEPT")%string then Accept
            else if (t =? "DROP")%string then Drop
            else match jump t p with
                 | Continue => run_chain sets jump rs' p
                 | v => v
                 end
        | None => run_chain sets jump rs' p
        end
      else run_chain sets jump rs' p
  end.

Section verdicts.
Context `{RuleSemantics}.

(** A rule that does not match can be removed. *)
Lemma run_chain_without sets jump r rs p :
  matches sets r p = false -> run_chain sets jump (without r rs) p = run_chain sets jump rs p.
Proof.
  intros Hr. induction rs as [|r' rs IH]; [done|]. rewrite without_cons.
  case_bool_decide as E; cbn [run_chain].
  - subst. by rewrite Hr.
  - by rewrite IH.
Qed.

Lemma run_chain_accept sets jump r rs p :
  target r = Some "ACCEPT" ->
  run_chain sets jump (r :: rs) p = if matches sets r p then Accept else run_chain sets jump rs p.
Proof. intros Ht. cbn [run_chain]. by rewrite Ht. Qed.

Lemma run_chain_drop sets jump r rs p :
  target r = Some "DROP" ->
  run_chain sets jump (r :: rs) p = if matches sets r p then Drop else run_chain sets jump rs p.
Proof. intros Ht. cbn [run_chain]. by rewrite Ht. Qed.

(** The verdict depends on the other chains only through their verdicts. *)
Lemma run_chain_jump sets jump jump' rs p :
  (forall t, jump t p = jump' t p) -> run_chain sets jump rs p = run_chain sets jump' rs p.
Proof.
  intros Hj. induction rs as [|r rs IH]; [done|]. cbn [run_chain]. rewrite IH.
  destruct (matches sets r p); [|done]. destruct (target r) as [t|]; [|done]. by rewrite Hj.
Qed.

Lemma run_chain_without_all sets jump specs rs p :
  Forall (fun r => matches sets r p = false) specs ->
  run_chain sets jump (without_all specs rs) p = run_chain sets jump rs p.
Proof.
  intros Hs. unfold without_all. revert rs. induction Hs as [|r specs Hr _ IH]; intros rs; [done|].
  simpl. by rewrite IH, run_chain_without.
Qed.

Definition LOCAL_RANGE : string := "172.16.0.0/12".

(** The policy of a Docker network, for the packets it is about *)
Definition docker_policy (sets : SetView) (plan : NetworkPlan) (p : Packet) : Verdict :=
  if sets (plan_name plan) (pkt_dst p) || ip_in_subnet (pkt_dst p) LOCAL_RANGE then Accept else Drop.

Lemma docker_block_matches sets plan p :
  matches sets (drop 3 docker_established_args) p = pkt_established p
  /\ matches sets (drop 3 (docker_allow_args plan)) p
    = ip_in_subnet (pkt_src p) (plan_subnet plan) && sets (plan_name plan) (pkt_dst p)
  /\ matches sets (drop 3 (docker_allow_local_args plan)) p
    = ip_in_subnet (pkt_src p) (plan_subnet plan) && ip_in_subnet (pkt_dst p) LOCAL_RANGE
  /\ matches sets (drop 3 (docker_drop_args plan)) p = ip_in_subnet (pkt_src p) (plan_subnet plan).
Proof.
  unfold docker_established_args, docker_allow_args, docker_allow_local_args, docker_drop_args.
  cbn [drop].
  rewrite !matches_comment, !matches_established, !matches_src, !matches_set, !matches_dst,
    !matches_target. by rewrite !andb_true_r.
Qed.

Lemma docker_block_verdict sets jump plan rest p :
  run_chain sets jump (docker_block plan ++ rest) p =
  if pkt_established p then Accept
  else if ip_in_subnet (pkt_src p) (plan_subnet plan) then docker_policy sets plan p
  else run_chain sets jump rest p.
Proof.
  destruct (docker_block_matches sets plan p) as (H1 & H2 & H3 & H4).
  change (docker_block plan ++ rest)
    with (drop 3 docker_established_args :: drop 3 (docker_allow_args plan)
          :: drop 3 (docker_allow_local_args plan) :: drop 3 (docker_drop_args plan) :: rest).
  do 3 (rewrite run_chain_accept by reflexivity). rewrite run_chain_drop by reflexivity.
  rewrite H1, H2, H3, H4. unfold docker_policy.
  destruct (pkt_established p), (ip_in_subnet (pkt_src p) (plan_subnet plan)),
    (sets (plan_name plan) (pkt_dst p)), (ip_in_subnet (pkt_dst p) LOCAL_RANGE); reflexivity.
Qed.

(** The verdicts of the installed rules *)
Lemma docker_rules_verdict `{Netfilter W} fuel b plan (w : W) rs nat_rs n
    (Hrs : chains w !! DOCKER_USER b = Some rs) (Hnat : chains w !! PREROUTING b = Some nat_rs)
    (Hn : chains_within n (chains w)) (Hfuel : (n + 6 <= fuel)%nat) :
  exists w' r, ensure_docker_iptables_rules fuel b plan w = Some (w', r)
    /\ if block_ready b (plan_name plan) (docker_inserts plan) w
       then r = Ok tt /\ exists rs', chains w' !! DOCKER_USER b = Some rs'
         /\ forall sets jump p,
              run_chain sets jump rs' p =
              if pkt_established p then Accept
              else if ip_in_subnet (pkt_src p) (plan_subnet plan) then docker_policy sets plan p
              else run_chain sets jump rs p
       else exists e, r = Err e.
Proof.
  unfold ensure_docker_iptables_rules. rewrite <- docker_inserts_args, <- docker_rules_ready.
  destruct (ensure_rules_refines fuel b (docker_inserts plan) w (docker_chains b plan rs nat_rs (chains w)) n)
    as (w' & r & He & _ & Hr); [apply docker_inserts_ok|by apply docker_install|done|simpl; lia|].
  exists w', r. split; [done|]. destruct (forallb _ _); [|done]. destruct Hr as [-> Hc].
  split; [done|]. exists (docker_block plan ++ without_all (docker_block plan) rs).
  split; [rewrite Hc; unfold docker_chains; by rewrite lookup_insert_ne, lookup_insert_eq|].
  intros sets jump p. rewrite docker_block_verdict.
  destruct (pkt_established p) eqn:Ee; [done|].
  destruct (ip_in_subnet (pkt_src p) (plan_subnet plan)) eqn:Es; [done|].
  apply run_chain_without_all.
  destruct (docker_block_matches sets plan p) as (Hm1 & Hm2 & Hm3 & Hm4).
  rewrite Ee in Hm1. rewrite Es in Hm2, Hm3, Hm4. repeat (apply Forall_cons_2; [done|]). apply Forall_nil_2.
Qed.

(** C4. Default deny: the installation of the rules of a Docker network ends,
    and it succeeds exactly if the filter accepts the rules, that is if their
    words are valid and the network's set exists.  Then every packet that a
    container of its subnet sends and that belongs to no established
    connection is dropped, unless its destination is in the network's set or
    in 172.16.0.0/12.  Packets of other sources that are not established meet
    the rules there were before, so preparing a network changes nothing for
    the others. *)
Theorem docker_default_deny `{Netfilter W} fuel b plan (w : W) rs nat_rs n
    (Hrs : chains w !! DOCKER_USER b = Some rs) (Hnat : chains w !! PREROUTING b = Some nat_rs)
    (Hn : chains_within n (chains w)) (Hfuel : (n + 6 <= fuel)%nat) :
  exists w' r, ensure_docker_iptables_rules fuel b plan w = Some (w', r)
    /\ if block_ready b (plan_name plan) (docker_inserts plan) w
       then r = Ok tt /\ exists rs', chains w' !! DOCKER_USER b = Some rs'
         /\ forall sets jump p,
              run_chain sets jump rs' p =
              if pkt_established p then Accept
              else if ip_in_subnet (pkt_src p) (plan_subnet plan) then docker_policy sets plan p
              else run_chain sets jump rs p
       else exists e, r = Err e.
Proof. by eapply docker_rules_verdict. Qed.
End verdicts.

(** ** The rootless Podman rules *)

Definition PODMAN_CHAIN (b : string) : chain_key := (b, "filter", PODMAN_OUTPUT_CHAIN).
Definition OUTPUT (b : string) : chain_key := (b, "filter", "OUTPUT").
Definition NAT_OUTPUT (b : string) : chain_key := (b, "nat", "OUTPUT").
Definition POSTROUTING (b : string) : chain_key := (b, "nat", "POSTROUTING").

Definition filter_insert (chain : string) (n : Z) (args : list string) : Insert :=
  {| i_table := "filter"; i_chain := chain; i_pos := Some n; i_spec := drop 3 args |}.
Definition nat_insert (chain : string) (args : list string) : Insert :=
  {| i_table := "nat"; i_chain := chain; i_pos := Some 1; i_spec := drop 5 args |}.

Definition podman_hook (name src : string) : Insert := filter_insert "OUTPUT" 1 (podman_hook_args name src).

Definition podman_inserts (name src dns_destination : string) (dns_port : Z) : list Insert :=
  [filter_insert PODMAN_OUTPUT_CHAIN 1 (podman_established_args name src);
   filter_insert PODMAN_OUTPUT_CHAIN 2 (podman_dns_args name src dns_destination dns_port "2" "udp");
   filter_insert PODMAN_OUTPUT_CHAIN 3 (podman_dns_args name src dns_destination dns_port "3" "tcp");
   filter_insert PODMAN_OUTPUT_CHAIN 4 (podman_allow_args name src name);
   filter_insert PODMAN_OUTPUT_CHAIN 5 (podman_drop_args name src)].

Definition podman_v6_inserts (name src : string) : list Insert :=
  [filter_insert PODMAN_OUTPUT_CHAIN 1 (podman_established_args name src);
   filter_insert PODMAN_OUTPUT_CHAIN 2 (podman_icmp_args name src "2" "neighbor-solicitation");
   filter_insert PODMAN_OUTPUT_CHAIN 3 (podman_icmp_args name src "3" "neighbor-advertisement");
   filter_insert PODMAN_OUTPUT_CHAIN 4 (podman_allow_args name src (ipv6_ipset_name name));
   filter_insert PODMAN_OUTPUT_CHAIN 5 (podman_drop_args name src)].

Definition redirect_inserts (name src : string) (dns_port : Z) : list Insert :=
  map (fun '(chain, protocol) => nat_insert chain (podman_redirect_args name src dns_port chain protocol))
    [("OUTPUT", "udp"); ("OUTPUT", "tcp"); ("PREROUTING", "udp"); ("PREROUTING", "tcp")].

Definition masquerade_insert (name src interface : string) : Insert :=
  nat_insert "POSTROUTING" (podman_masquerade_args name src interface).

(** The well-formedness of a literal list of insertions *)
Ltac inserts_ok :=
  repeat (apply Forall_cons_2; [split; simpl; [auto|lia|reflexivity|reflexivity]|]); apply Forall_nil_2.

(** Distinctness of a literal list of rules *)
Ltac rules_NoDup :=
  repeat (apply NoDup_cons; split;
    [rewrite ?not_elem_of_cons; repeat split; (discriminate || apply not_elem_of_nil)|]);
  apply NoDup_nil_2.

Lemma podman_inserts_ok name src dst port : Forall insert_ok (podman_hook name src :: podman_inserts name src dst port).
Proof. inserts_ok. Qed.

Lemma podman_v6_inserts_ok name src : Forall insert_ok (podman_hook name src :: podman_v6_inserts name src).
Proof. inserts_ok. Qed.

Lemma redirect_inserts_ok name src port : Forall insert_ok (redirect_inserts name src port).
Proof. inserts_ok. Qed.

Lemma podman_block_NoDup name src dst port : NoDup (map i_spec (podman_inserts name src dst port)).
Proof. simpl. rules_NoDup. Qed.

Lemma podman_v6_block_NoDup name src : NoDup (map i_spec (podman_v6_inserts name src)).
Proof. simpl. rules_NoDup. Qed.

(** The hook and a block of five rules in the Podman chain *)
Lemma podman_install b name src ins m rs prs :
  List.length ins = 5%nat ->
  (forall j i, ins !! j = Some i -> key_of b i = PODMAN_CHAIN b /\ insert_index i = j) ->
  NoDup (map i_spec ins) ->
  m !! OUTPUT b = Some rs -> m !! PODMAN_CHAIN b = Some prs ->
  install_all b (podman_hook name src :: ins) m
  = Some (<[PODMAN_CHAIN b := map i_spec ins ++ without_all (map i_spec ins) prs]>
           (<[OUTPUT b := i_spec (podman_hook name src) :: without (i_spec (podman_hook name src)) rs]> m)).
Proof.
  intros _ Hk Hnd Hrs Hprs. cbn [install_all].
  rewrite (install_front b (podman_hook name src) m rs) by done. cbn [option_bind mbind].
  change (key_of b (podman_hook name src)) with (OUTPUT b).
  set (m1 := <[OUTPUT b := _]> m).
  assert (m1 !! PODMAN_CHAIN b = Some prs) as H1 by (subst m1; by rewrite lookup_insert_ne).
  rewrite <- (insert_id m1 _ _ H1) at 1.
  exact (install_block b (PODMAN_CHAIN b) ins [] prs m1 Hk Hnd).
Qed.

(** Insertions at the front of existing chains succeed and leave the other
    chains alone. *)
Lemma install_fronts b ins m :
  Forall (fun i => insert_index i = 0%nat /\ is_Some (m !! key_of b i)) ins ->
  exists m', install_all b ins m = Some m'
    /\ (forall k, k ∉ map (key_of b) ins -> m' !! k = m !! k)
    /\ (forall k, is_Some (m !! k) -> is_Some (m' !! k)).
Proof.
  revert m. induction ins as [|i ins IH]; intros m Hf; [by exists m|].
  apply Forall_cons in Hf as [[Hi [rs Hrs]] Hf].
  cbn [install_all map]. rewrite (install_front b i m rs) by done. cbn [option_bind mbind].
  destruct (IH (<[key_of b i := i_spec i :: without (i_spec i) rs]> m)) as (m' & Hm & Ho & Hs).
  { eapply Forall_impl; [exact Hf|]. intros j [Hj Hkj]. split; [done|].
    rewrite lookup_insert. case_decide; [by eexists|done]. }
  exists m'. split; [done|]. split.
  - intros k [Hk Hk']%not_elem_of_cons. rewrite Ho by done. by rewrite lookup_insert_ne.
  - intros k Hk. apply Hs. rewrite lookup_insert. case_decide; [by eexists|done].
Qed.

Section podman.
Context `{Netfilter W}.

(** The chains after [ensure_chain] *)
Definition with_chain (k : chain_key) (m : Chains) : Chains :=
  if decide (m !! k = None) then <[k := []]> m else m.

Lemma ensure_chain_spec b c (w : W) :
  is_Some (chains w !! OUTPUT b) -> chain_name c = true ->
  exists w', ensure_chain b c w = Some (w', Ok tt)
    /\ chains w' = with_chain (b, "filter", c) (chains w) /\ kernel_sets w' = kernel_sets w.
Proof.
  intros Hb Hn. unfold ensure_chain, with_chain, bind, run_command_allow_failure, call.
  destruct (nf_new_chain b c w Hb Hn) as (w1 & out & -> & -> & Hc & Hk).
  case_bool_decide as E; [rewrite decide_True in * by done; eauto|].
  rewrite decide_False in * by done.
  destruct (nf_show_chain b c w1) as (w2 & out2 & -> & -> & Hc2 & Hk2); [by rewrite Hc|done|].
  rewrite bool_decide_true; [|by rewrite Hc; apply not_eq_None_Some].
  exists w2. by rewrite Hc2, Hc, Hk2, Hk.
Qed.

Lemma with_chain_lookup k m k' :
  with_chain k m !! k' = if decide (k = k') then Some (default [] (m !! k)) else m !! k'.
Proof.
  unfold with_chain. destruct (m !! k) as [rs|] eqn:E.
  - rewrite decide_False by done. case_decide; subst; [by rewrite E|done].
  - rewrite decide_True by done. rewrite lookup_insert. by case_decide.
Qed.

Lemma with_chain_within n k m : chains_within n m -> chains_within n (with_chain k m).
Proof.
  intros Hn k' rs. rewrite with_chain_lookup. case_decide as E; [|apply Hn].
  intros [= <-]. subst. destruct (m !! k') as [rs|] eqn:E; simpl; [by apply (Hn k')|lia].
Qed.
End podman.

Section podman_verdicts.
Context `{RuleSemantics}.

(** The Podman chain as seen from [OUTPUT], beside other chains *)
Definition with_podman (sets : SetView) (prs : list rule) (other : string -> Packet -> Verdict)
    (t : string) (p : Packet) : Verdict :=
  if (t =? PODMAN_OUTPUT_CHAIN)%string then run_chain sets (fun _ _ => Continue) prs p else other t p.

Definition dns_packet (dst : string) (port : Z) (p : Packet) : bool :=
  ip_in_subnet (pkt_dst p) dst
  && ((pkt_proto p =? "udp")%string || (pkt_proto p =? "tcp")%string)
  && (dec (pkt_dport p) =? dec port)%string.

Definition podman_policy (sets : SetView) (name dst : string) (port : Z) (p : Packet) : Verdict :=
  if pkt_established p || dns_packet dst port p || sets name (pkt_dst p) then Accept else Drop.

Definition neighbor_discovery (p : Packet) : bool :=
  (pkt_proto p =? "ipv6-icmp")%string
  && ((pkt_icmp_type p =? "neighbor-solicitation")%string
      || (pkt_icmp_type p =? "neighbor-advertisement")%string).

Definition podman_v6_policy (sets : SetView) (name : string) (p : Packet) : Verdict :=
  if pkt_established p || neighbor_discovery p || sets (ipv6_ipset_name name) (pkt_dst p)
  then Accept else Drop.

Lemma hook_matches sets name src p :
  matches sets (i_spec (podman_hook name src)) p = ip_in_subnet (pkt_src p) src.
Proof.
  simpl. rewrite !matches_src, !matches_comment, !matches_target. by rewrite andb_true_r.
Qed.

Lemma podman_matches sets name src dst port p :
  Forall2 (fun r m => matches sets r p = ip_in_subnet (pkt_src p) src && m)
    (map i_spec (podman_inserts name src dst port))
    [pkt_established p;
     ip_in_subnet (pkt_dst p) dst && ((pkt_proto p =? "udp")%string && (dec (pkt_dport p) =? dec port)%string);
     ip_in_subnet (pkt_dst p) dst && ((pkt_proto p =? "tcp")%string && (dec (pkt_dport p) =? dec port)%string);
     sets name (pkt_dst p); true].
Proof.
  repeat constructor; cbn [i_spec filter_insert podman_established_args podman_dns_args
    podman_allow_args podman_drop_args drop];
    rewrite ?matches_src, ?matches_comment, ?matches_established, ?matches_dst, ?matches_port,
      ?matches_set, ?matches_comment, ?matches_target, ?andb_true_r; reflexivity.
Qed.

Lemma podman_v6_matches sets name src p :
  Forall2 (fun r m => matches sets r p = ip_in_subnet (pkt_src p) src && m)
    (map i_spec (podman_v6_inserts name src))
    [pkt_established p;
     (pkt_proto p =? "ipv6-icmp")%string && (pkt_icmp_type p =? "neighbor-solicitation")%string;
     (pkt_proto p =? "ipv6-icmp")%string && (pkt_icmp_type p =? "neighbor-advertisement")%string;
     sets (ipv6_ipset_name name) (pkt_dst p); true].
Proof.
  repeat constructor; cbn [i_spec filter_insert podman_established_args podman_icmp_args
    podman_allow_args podman_drop_args drop];
    rewrite ?matches_src, ?matches_comment, ?matches_established, ?matches_icmp, ?matches_comment,
      ?matches_set, ?matches_target, ?andb_true_r; reflexivity.
Qed.

(** Four accepting rules, then a dropping one, all for one source: the
    verdict for packets of the source, and none for the others. *)
Lemma block_verdict sets jump r1 r2 r3 r4 r5 m1 m2 m3 m4 rest p (s : bool) :
  Forall2 (fun r m => matches sets r p = s && m) [r1; r2; r3; r4; r5] [m1; m2; m3; m4; true] ->
  map target [r1; r2; r3; r4; r5]
    = [Some "ACCEPT"; Some "ACCEPT"; Some "ACCEPT"; Some "ACCEPT"; Some "DROP"] ->
  run_chain sets jump ([r1; r2; r3; r4; r5] ++ rest) p =
  if s then (if m1 || (m2 || m3) || m4 then Accept else Drop) else run_chain sets jump rest p.
Proof.
  intros Hm Ht. rewrite !Forall2_cons in Hm. destruct Hm as (Hm1 & Hm2 & Hm3 & Hm4 & Hm5 & _).
  injection Ht as Ht1 Ht2 Ht3 Ht4 Ht5. cbn [app].
  rewrite 4!run_chain_accept, run_chain_drop, Hm1, Hm2, Hm3, Hm4, Hm5 by done.
  by destruct s, m1, m2, m3, m4.
Qed.

Lemma podman_block_verdict sets jump name src dst port rest p :
  run_chain sets jump (map i_spec (podman_inserts name src dst port) ++ rest) p =
  if ip_in_subnet (pkt_src p) src then podman_policy sets name dst port p
  else run_chain sets jump rest p.
Proof.
  rewrite (block_verdict _ _ _ _ _ _ _ _ _ _ _ rest _ _ (podman_matches sets name src dst port p))
    by reflexivity.
  unfold podman_policy, dns_packet.
  by destruct (ip_in_subnet (pkt_src p) src), (ip_in_subnet (pkt_dst p) dst),
    (pkt_proto p =? "udp")%string, (pkt_proto p =? "tcp")%string, (dec (pkt_dport p) =? dec port)%string.
Qed.

Lemma podman_v6_block_verdict sets jump name src rest p :
  run_chain sets jump (map i_spec (podman_v6_inserts name src) ++ rest) p =
  if ip_in_subnet (pkt_src p) src then podman_v6_policy sets name p
  else run_chain sets jump rest p.
Proof.
  rewrite (block_verdict _ _ _ _ _ _ _ _ _ _ _ rest _ _ (podman_v6_matches sets name src p))
    by reflexivity.
  unfold podman_v6_policy, neighbor_discovery.
  by destruct (ip_in_subnet (pkt_src p) src), (pkt_proto p =? "ipv6-icmp")%string.
Qed.

(** The verdict of [OUTPUT] when its hook comes first, for any block that
    decides the packets of the source. *)
Lemma hooked_verdict sets other name src ins rs prs p policy :
  (forall jump rest, run_chain sets jump (map i_spec ins ++ rest) p
     = if ip_in_subnet (pkt_src p) src then policy else run_chain sets jump rest p) ->
  Forall (fun r => ip_in_subnet (pkt_src p) src = false -> matches sets r p = false) (map i_spec ins) ->
  (ip_in_subnet (pkt_src p) src = true -> policy <> Continue) ->
  run_chain sets (with_podman sets (map i_spec ins ++ without_all (map i_spec ins) prs) other)
    (i_spec (podman_hook name src) :: without (i_spec (podman_hook name src)) rs) p
  = if ip_in_subnet (pkt_src p) src then policy
    else run_chain sets (with_podman sets prs other) rs p.
Proof.
  intros Hb Hn Hp. cbn [run_chain]. rewrite hook_matches.
  destruct (ip_in_subnet (pkt_src p) src) eqn:Es.
  - change (target (i_spec (podman_hook name src))) with (Some PODMAN_OUTPUT_CHAIN). cbv iota.
    change (PODMAN_OUTPUT_CHAIN =? "ACCEPT")%string with false.
    change (PODMAN_OUTPUT_CHAIN =? "DROP")%string with false. cbv iota.
    unfold with_podman at 1. rewrite String.eqb_refl, Hb.
    specialize (Hp eq_refl). by destruct policy.
  - rewrite run_chain_without by (by rewrite hook_matches).
    apply run_chain_jump. intros t. unfold with_podman. destruct (t =? _)%string; [|done].
    rewrite Hb. apply run_chain_without_all. eapply Forall_impl; [exact Hn|]. auto.
Qed.

Lemma matches_of_source sets src p rs ms :
  Forall2 (fun r m => matches sets r p = ip_in_subnet (pkt_src p) src && m) rs ms ->
  Forall (fun r => ip_in_subnet (pkt_src p) src = false -> matches sets r p = false) rs.
Proof. induction 1 as [|r m rs ms Hm _ IH]; constructor; [|done]. intros Hs. by rewrite Hm, Hs. Qed.
End podman_verdicts.

Section podman_install.
Context `{Netfilter W}.

(** All the rules of one policy that [iptables] gets, in order *)
Definition podman_all_inserts (name src dst interface : string) (port : Z) : list Insert :=
  (podman_hook name src :: podman_inserts name src dst port)
  ++ ((if port =? 53 then [] else redirect_inserts name src port)
      ++ [masquerade_insert name src interface]).

Lemma ensure_rules_app fuel b l1 l2 (w : W) :
  ensure_rules fuel b (l1 ++ l2) w = bind (ensure_rules fuel b l1) (fun _ => ensure_rules fuel b l2) w.
Proof.
  revert w. induction l1 as [|a l1 IH]; intros w; [done|]. cbn [ensure_rules app].
  unfold bind in *. destruct (ensure_rule_present fuel b a w) as [[w' [[]|e]]|]; [apply IH|done..].
Qed.

Lemma ensure_rules_single fuel b a (w : W) : ensure_rules fuel b [a] w = ensure_rule_present fuel b a w.
Proof.
  cbn [ensure_rules]. unfold bind. by destruct (ensure_rule_present fuel b a w) as [[w' [[]|e]]|].
Qed.

(** The separate installations are one of the whole list. *)
Lemma podman_rules_flat fuel b b6 name src v6 interface port (w w' : W) :
  let dst := if port =? 53 then ROOTLESS_DNS_CIDR else ROOTLESS_DNS_REDIRECT_CIDR in
  ensure_chain b PODMAN_OUTPUT_CHAIN w = Some (w', Ok tt) ->
  ensure_rootless_podman_rules fuel b b6 name src v6 interface port w =
  bind (ensure_rules fuel b (map insert_args (podman_all_inserts name src dst interface port)))
    (fun _ => match v6 with
              | Some cidr => ensure_rootless_podman_ipv6_rules fuel b6 name cidr
              | None => ret tt
              end) w'.
Proof.
  intros dst Hc. unfold ensure_rootless_podman_rules. fold dst. rewrite (bind_eq _ _ _ _ _ _ Hc eq_refl).
  unfold podman_all_inserts. rewrite !map_app. unfold bind at 4. rewrite ensure_rules_app. unfold bind at 4.
  change (map insert_args (podman_hook name src :: podman_inserts name src dst port))
    with [podman_hook_args name src; podman_established_args name src;
          podman_dns_args name src dst port "2" "udp"; podman_dns_args name src dst port "3" "tcp";
          podman_allow_args name src name; podman_drop_args name src].
  unfold bind at 1. destruct (ensure_rules fuel b _ w') as [[w1 [[]|e]]|]; [|done..].
  rewrite ensure_rules_app. unfold bind at 3, bind at 1.
  assert ((if negb (port =? 53) then ensure_rootless_dns_redirects fuel b name src port else ret tt) w1
          = ensure_rules fuel b (map insert_args (if port =? 53 then [] else redirect_inserts name src port)) w1)
    as -> by (by destruct (port =? 53)).
  destruct (ensure_rules fuel b _ w1) as [[w2 [[]|e]]|]; [|done..].
  cbn [map]. rewrite ensure_rules_single. change (insert_args (masquerade_insert name src interface))
    with (podman_masquerade_args name src interface).
  unfold bind. by destruct (ensure_rule_present fuel b _ w2) as [[w3 [[]|e]]|].
Qed.

Lemma podman_all_install b name src dst interface port m rs prs :
  m !! OUTPUT b = Some rs -> m !! PODMAN_CHAIN b = Some prs ->
  is_Some (m !! NAT_OUTPUT b) -> is_Some (m !! PREROUTING b) -> is_Some (m !! POSTROUTING b) ->
  let specs := map i_spec (podman_inserts name src dst port) in
  exists m', install_all b (podman_all_inserts name src dst interface port) m = Some m'
    /\ m' !! OUTPUT b = Some (i_spec (podman_hook name src) :: without (i_spec (podman_hook name src)) rs)
    /\ m' !! PODMAN_CHAIN b = Some (specs ++ without_all specs prs).
Proof.
  intros Hrs Hprs Hno Hpre Hpost specs. unfold podman_all_inserts. rewrite install_all_app.
  rewrite (podman_install b name src (podman_inserts name src dst port) m rs prs);
    [|done| |apply podman_block_NoDup|done|done].
  2: { intros j i Hj. do 5 (destruct j as [|j]; [injection Hj as <-; split; reflexivity|]).
       discriminate Hj. }
  cbn [option_bind mbind]. set (m1 := <[PODMAN_CHAIN b := _]> _).
  assert (forall k, is_Some (m !! k) -> is_Some (m1 !! k)) as Hm1.
  { intros k Hk. subst m1. rewrite !lookup_insert. by repeat case_decide. }
  destruct (install_fronts b ((if port =? 53 then [] else redirect_inserts name src port)
              ++ [masquerade_insert name src interface]) m1) as (m' & Hm' & Ho & _).
  { apply Forall_app. split; [destruct (port =? 53)|]; [apply Forall_nil_2| |];
      repeat (apply Forall_cons_2; [split; [reflexivity|by apply Hm1]|]); apply Forall_nil_2. }
  exists m'. split; [done|].
  assert (forall c, (b, "filter", c) ∉ map (key_of b) ((if port =? 53 then [] else redirect_inserts name src port)
              ++ [masquerade_insert name src interface])) as Hf.
  { intros c. destruct (port =? 53); cbn; rewrite !not_elem_of_cons; repeat split;
      (discriminate || apply not_elem_of_nil). }
  rewrite !Ho by apply Hf. subst m1.
  rewrite lookup_insert_eq, lookup_insert_ne, lookup_insert_eq by done. done.
Qed.

Lemma podman_all_ok name src dst interface port :
  Forall insert_ok (podman_all_inserts name src dst interface port).
Proof.
  unfold podman_all_inserts. rewrite !Forall_app. split; [apply podman_inserts_ok|].
  split; [destruct (port =? 53); [apply Forall_nil_2|apply redirect_inserts_ok]|inserts_ok].
Qed.

Lemma podman_all_length name src dst interface port :
  (List.length (podman_all_inserts name src dst interface port) <= 11)%nat.
Proof. unfold podman_all_inserts. destruct (port =? 53); simpl; lia. Qed.

Lemma podman_rules_ready b name src dst interface port (w : W) :
  is_Some (chains w !! PODMAN_CHAIN b) ->
  forallb (fun i => rule_ready b i w) (podman_all_inserts name src dst interface port)
  = block_ready b name (podman_all_inserts name src dst interface port) w.
Proof.
  intros Hc. unfold PODMAN_CHAIN in Hc. apply rules_ready. unfold podman_all_inserts.
  destruct (port =? 53); cbn [podman_inserts redirect_inserts map app forallb]; rules_refer.
Qed.

Lemma podman_v6_rules_ready b name src (w : W) :
  is_Some (chains w !! PODMAN_CHAIN b) ->
  forallb (fun i => rule_ready b i w) (podman_hook name src :: podman_v6_inserts name src)
  = block_ready b (ipv6_ipset_name name) (podman_hook name src :: podman_v6_inserts name src) w.
Proof.
  intros Hc. unfold PODMAN_CHAIN in Hc. apply rules_ready. cbn [podman_v6_inserts forallb]. rules_refer.
Qed.

Lemma block_ready_same b set_name ins (w w' : W) :
  kernel_sets w' = kernel_sets w -> block_ready b set_name ins w' = block_ready b set_name ins w.
Proof. unfold block_ready. by intros ->. Qed.

(** C5. Default deny for rootless Podman: the installation of the IPv4 rules of
    a policy ends, and it succeeds exactly if the filter accepts the rules, that
    is if their words are valid and the policy's set exists.  Then a packet from
    the policy's source address is accepted when it is established, a DNS query to the
    redirected resolver or for an address in the policy's set, and dropped
    otherwise; the packets of every other source get the verdict they got
    before. *)
Theorem podman_default_deny `{RuleSemantics} fuel b b6 name src interface port (w : W) rs n
    (Hrs : chains w !! OUTPUT b = Some rs)
    (Hno : is_Some (chains w !! NAT_OUTPUT b)) (Hpre : is_Some (chains w !! PREROUTING b))
    (Hpost : is_Some (chains w !! POSTROUTING b))
    (Hn : chains_within n (chains w)) (Hfuel : (n + 11 <= fuel)%nat) :
  let dst := if port =? 53 then ROOTLESS_DNS_CIDR else ROOTLESS_DNS_REDIRECT_CIDR in
  exists w' r,
    ensure_rootless_podman_rules fuel b b6 name src None interface port w = Some (w', r)
    /\ if block_ready b name (podman_all_inserts name src dst interface port) w
       then r = Ok tt /\ exists rs' prs',
         chains w' !! OUTPUT b = Some rs' /\ chains w' !! PODMAN_CHAIN b = Some prs'
         /\ forall sets other p,
           run_chain sets (with_podman sets prs' other) rs' p =
           if ip_in_subnet (pkt_src p) src then podman_policy sets name dst port p
           else run_chain sets
                  (with_podman sets (default [] (chains w !! PODMAN_CHAIN b)) other) rs p
       else exists e, r = Err e.
Proof.
  intros dst. destruct (ensure_chain_spec b PODMAN_OUTPUT_CHAIN w) as (w0 & He0 & Hc0 & Hk0); [by eexists|done|].
  assert (forall k, k <> PODMAN_CHAIN b -> chains w0 !! k = chains w !! k) as Hk.
  { intros k Hk. rewrite Hc0, with_chain_lookup. by rewrite decide_False. }
  assert (chains w0 !! PODMAN_CHAIN b = Some (default [] (chains w !! PODMAN_CHAIN b))) as Hp0.
  { rewrite Hc0, with_chain_lookup. by rewrite decide_True. }
  destruct (podman_all_install b name src dst interface port (chains w0) rs (default [] (chains w !! PODMAN_CHAIN b)))
    as (m' & Hm & Ho & Hp); [by rewrite Hk|exact Hp0|by rewrite Hk..|].
  destruct (ensure_rules_refines fuel b (podman_all_inserts name src dst interface port) w0 m' n)
    as (w1 & r1 & He1 & _ & Hr1); [apply podman_all_ok|done|rewrite Hc0; by apply with_chain_within| |].
  { pose proof (podman_all_length name src dst interface port). lia. }
  rewrite podman_rules_ready, (block_ready_same _ _ _ _ _ Hk0) in Hr1 by (by eexists).
  rewrite (podman_rules_flat _ _ _ _ _ None _ _ _ _ He0). fold dst. unfold bind. rewrite He1.
  destruct (block_ready _ _ _ _); [destruct Hr1 as [-> Hc1]|destruct Hr1 as [e ->]; eauto].
  exists w1, (Ok tt). split; [done|]. split; [done|]. rewrite Hc1.
  eexists _, _. split; [done|]. split; [done|]. intros sets other p. apply hooked_verdict.
  - intros. apply podman_block_verdict.
  - eapply matches_of_source, podman_matches.
  - intros _. unfold podman_policy. by destruct (_ || _ || _).
Qed.

(** C6. The same for IPv6, whose rules also let neighbour discovery through. *)
Theorem podman_v6_default_deny `{RuleSemantics} fuel b name src (w : W) rs n
    (Hrs : chains w !! OUTPUT b = Some rs)
    (Hn : chains_within n (chains w)) (Hfuel : (n + 6 <= fuel)%nat) :
  exists w' r,
    ensure_rootless_podman_ipv6_rules fuel b name src w = Some (w', r)
    /\ if block_ready b (ipv6_ipset_name name) (podman_hook name src :: podman_v6_inserts name src) w
       then r = Ok tt /\ exists rs' prs',
         chains w' !! OUTPUT b = Some rs' /\ chains w' !! PODMAN_CHAIN b = Some prs'
         /\ forall sets other p,
           run_chain sets (with_podman sets prs' other) rs' p =
           if ip_in_subnet (pkt_src p) src then podman_v6_policy sets name p
           else run_chain sets
                  (with_podman sets (default [] (chains w !! PODMAN_CHAIN b)) other) rs p
       else exists e, r = Err e.
Proof.
  destruct (ensure_chain_spec b PODMAN_OUTPUT_CHAIN w) as (w0 & He0 & Hc0 & Hk0); [by eexists|done|].
  assert (chains w0 !! OUTPUT b = Some rs) as Hrs0.
  { rewrite Hc0, with_chain_lookup. by rewrite decide_False. }
  assert (chains w0 !! PODMAN_CHAIN b = Some (default [] (chains w !! PODMAN_CHAIN b))) as Hp0.
  { rewrite Hc0, with_chain_lookup. by rewrite decide_True. }
  destruct (ensure_rules_refines fuel b (podman_hook name src :: podman_v6_inserts name src) w0
    (<[PODMAN_CHAIN b := map i_spec (podman_v6_inserts name src)
         ++ without_all (map i_spec (podman_v6_inserts name src)) (default [] (chains w !! PODMAN_CHAIN b))]>
      (<[OUTPUT b := i_spec (podman_hook name src) :: without (i_spec (podman_hook name src)) rs]>
        (chains w0))) n) as (w1 & r1 & He1 & _ & Hr1);
    [apply podman_v6_inserts_ok| |rewrite Hc0; by apply with_chain_within|simpl; lia|].
  { apply podman_install; [done| |apply podman_v6_block_NoDup|done|done].
    intros j i Hj. do 5 (destruct j as [|j]; [injection Hj as <-; split; reflexivity|]).
    discriminate Hj. }
  rewrite podman_v6_rules_ready, (block_ready_same _ _ _ _ _ Hk0) in Hr1 by (by eexists).
  exists w1, r1. split; [unfold ensure_rootless_podman_ipv6_rules; by eapply bind_eq|].
  destruct (block_ready _ _ _ _); [destruct Hr1 as [-> Hc1]|done]. split; [done|]. eexists _, _.
  rewrite Hc1, lookup_insert_eq, lookup_insert_ne, lookup_insert_eq by done.
  split; [done|]. split; [done|]. intros sets other p. apply hooked_verdict.
  - intros. apply podman_v6_block_verdict.
  - eapply matches_of_source, podman_v6_matches.
  - intros _. unfold podman_v6_policy. by destruct (_ || _ || _).
Qed.
End podman_install.
