(* ===== verification/Address.v ===== *)
(** * Names and addresses of a network ([src/helper.rs])

    The pure functions behind the preparation of a network: interface names,
    the addresses derived from a network's name, and what is read back from
    firewall rules. *)

From S2P Require Import Prelude RustStr Net Stats Ipset Firewall.

(** ** Interface names *)

Definition interface_byte (byte : Z) : bool :=
  is_ascii_alphanumeric byte || (byte =? 46) || (byte =? 95) || (byte =? 45).

Definition validate_interface_name (interface : string) : Result string :=
  if is_empty interface || (15 <? len interface) || negb (forallb interface_byte (as_bytes interface))
  then Err "interface name must be 1-15 ASCII alphanumeric, '.', '_', or '-' characters"
  else Ok interface.

(** ** Addresses in rules *)

(** The word after the first ["-s"] *)
Fixpoint source_field (fields : list string) : option string :=
  match fields with
  | [] => None
  | field :: fields' => if (field =? "-s")%string then head fields' else source_field fields'
  end.

Definition output_rule_source_ip (rule : string) : option Ipv4Addr :=
  field ← source_field (split_ascii_whitespace rule);
  ip ← strip_suffix "/32" field;
  parse_ipv4 ip.

Definition output_rule_source_ipv6 (rule : string) : option Ipv6Addr :=
  field ← source_field (split_ascii_whitespace rule);
  ip ← strip_suffix "/128" field;
  parse_ipv6 ip.

(** ** Addresses from names *)

(** FNV-1a with 64 bits *)
Definition fnv1a (name : string) : Z :=
  fold_left (fun hash byte => wrap 64 (Z.lxor hash byte * 0x100000001b3))
    (as_bytes name) 0xcbf29ce484222325.

(** The number of managed IPv4 source addresses *)
Definition SOURCE_IP_SLOTS : Z := 131069.

Definition rootless_podman_source_ip (name : string) (attempt : Z) : Ipv4Addr :=
  let hash := fnv1a name in
  let offset := wrap 32 (wrap 32 (hash mod SOURCE_IP_SLOTS) + attempt) mod SOURCE_IP_SLOTS + 2 in
  let base := v4_new 198 18 0 0 in
  wrap 32 (base + offset).

Definition rootless_podman_source_ipv6 (prefix : Ipv6Addr) (name : string) (attempt : Z) : Ipv6Addr :=
  let hash := wrap 64 (fnv1a name + attempt) in
  Z.lor (Z.land prefix (wrap 128 (Z.shiftl (Z.ones 128) 64))) hash.

(** ** The plan of a Docker network *)

Definition NETWORK_BASE_OCTET : Z := 30.
Definition NETWORK_PREFIX_OCTET : Z := 172.
Definition NETWORK_PREFIX_LENGTH : Z := 28.
Definition USABLE_HOSTS_PER_SUBNET : Z := 14.
Definition SUBNET_SLOTS : Z := 256 * USABLE_HOSTS_PER_SUBNET.

Section plan.
(** [DefaultHasher]'s value for a name and an attempt; its algorithm is not
    specified, so it is any function. *)
Context (finish : string -> Z -> Z).

Definition slot_of (name : string) (attempt : Z) : Z := wrap 16 (finish name attempt mod SUBNET_SLOTS).

Definition subnet_and_gateway (name : string) (attempt : Z) : string * string :=
  let slot := slot_of name attempt in
  let third := wrap 8 (slot / USABLE_HOSTS_PER_SUBNET) in
  let fourth := wrap 8 (slot mod USABLE_HOSTS_PER_SUBNET) in
  let subnet := dec NETWORK_PREFIX_OCTET +:+ "." +:+ dec NETWORK_BASE_OCTET +:+ "." +:+ dec third
                +:+ ".0/" +:+ dec NETWORK_PREFIX_LENGTH in
  let gateway := dec NETWORK_PREFIX_OCTET +:+ "." +:+ dec NETWORK_BASE_OCTET +:+ "." +:+ dec third
                 +:+ "." +:+ dec (wrap 8 (fourth + 1)) in
  (subnet, gateway).

Definition network_plan (name : string) (dns_port attempt : Z) : NetworkPlan :=
  let '(subnet, gateway) := subnet_and_gateway name attempt in
  {| plan_name := name; plan_subnet := subnet; plan_gateway := gateway; plan_dns_port := dns_port |}.
End plan.

(** ** Checks of the definitions on small inputs *)

Example validate_ex :
  validate_interface_name "enp0s3.100" = Ok "enp0s3.100"
  /\ is_ok (validate_interface_name "bad/interface") = false
  /\ is_ok (validate_interface_name "non-ascii-é") = false.
Proof. repeat split. Qed.
Example fnv_ex : fnv1a "" = 0xcbf29ce484222325 /\ fnv1a "a" = 0xaf63dc4c8601ec8c.
Proof. repeat split. Qed.
Example rule_ex :
  output_rule_source_ipv6 "-A OUTPUT -s 2001:db8::1234/128 -m comment -j DOCKERWALL-OUTPUT"
  = parse_ipv6 "2001:db8::1234"
  /\ output_rule_source_ipv6 "-A OUTPUT -s 2001:db8::1234/64 -j DOCKERWALL-OUTPUT" = None.
Proof. vm_compute. done. Qed.
Example plan_ex :
  subnet_and_gateway (fun _ _ => 3583) "n" 0 = ("172.30.255.0/28", "172.30.255.14").
Proof. vm_compute. done. Qed.

(** ** Theorems: interface names *)

(** A valid name survives being an argument or a field of a rule: it is one
    word, it is no option and no path. *)
Lemma validate_interface_name_inv s i :
  validate_interface_name s = Ok i ->
  i = s /\ s <> "" /\ len s <= 15 /\ Forall (fun b => interface_byte b = true) (as_bytes s).
Proof.
  unfold validate_interface_name. destruct (is_empty s) eqn:E1; [done|].
  destruct (Z.ltb_spec 15 (len s)); [done|].
  destruct (forallb interface_byte (as_bytes s)) eqn:E2; [|done]. intros [= <-].
  split; [done|]. split; [by intros ->|]. split; [done|].
  apply Forall_forall. intros b Hb. rewrite forallb_forall in E2. by apply E2, list_elem_of_In.
Qed.

Lemma interface_word s i : validate_interface_name s = Ok i -> word i.
Proof.
  intros (-> & Hne & _ & Hb)%validate_interface_name_inv. split; [done|].
  clear Hne. unfold all_chars. induction s as [|a s IH]; [done|].
  cbn [as_bytes] in Hb. apply Forall_cons in Hb as [Ha Hs].
  change (negb (is_ascii_whitespace a) && all_chars (fun a => negb (is_ascii_whitespace a)) s = true).
  unfold all_chars. rewrite IH by done. rewrite andb_true_r.
  unfold is_ascii_whitespace, interface_byte, is_ascii_alphanumeric, is_ascii_digit in *. lia.
Qed.

(** ** Theorems: source addresses *)

Lemma source_ip_eq name attempt :
  0 <= attempt < SOURCE_IP_SLOTS ->
  rootless_podman_source_ip name attempt
  = v4_new 198 18 0 2 + (fnv1a name + attempt) mod SOURCE_IP_SLOTS.
Proof.
  intros Ha. unfold rootless_podman_source_ip, SOURCE_IP_SLOTS in *.
  pose proof (Z.mod_pos_bound (fnv1a name) 131069 ltac:(lia)).
  rewrite (wrap_id 32 (fnv1a name mod 131069)) by (unfold in_width; lia).
  rewrite (wrap_id 32 (_ + attempt)) by (unfold in_width; lia).
  rewrite Zplus_mod_idemp_l.
  pose proof (Z.mod_pos_bound (fnv1a name + attempt) 131069 ltac:(lia)).
  rewrite wrap_id; unfold in_width, v4_new; lia.
Qed.

(** The managed addresses: all of 198.18.0.0/15 but the network's own, the
    resolver's and the broadcast one *)
Definition managed (ip : Ipv4Addr) : Prop := v4_new 198 18 0 2 <= ip <= v4_new 198 19 255 254.

Lemma source_ip_managed name attempt :
  0 <= attempt < SOURCE_IP_SLOTS -> managed (rootless_podman_source_ip name attempt).
Proof.
  intros Ha. rewrite source_ip_eq by done. unfold managed, SOURCE_IP_SLOTS in *.
  pose proof (Z.mod_pos_bound (fnv1a name + attempt) 131069 ltac:(lia)). unfold v4_new. lia.
Qed.

Lemma source_ip_surjective name ip :
  managed ip -> exists attempt, 0 <= attempt < SOURCE_IP_SLOTS
    /\ rootless_podman_source_ip name attempt = ip.
Proof.
  intros Hip. unfold managed, v4_new in Hip.
  exists ((ip - v4_new 198 18 0 2 - fnv1a name) mod SOURCE_IP_SLOTS).
  assert (0 <= (ip - v4_new 198 18 0 2 - fnv1a name) mod SOURCE_IP_SLOTS < SOURCE_IP_SLOTS) as Ha
    by (apply Z.mod_pos_bound; unfold SOURCE_IP_SLOTS; lia).
  split; [done|]. rewrite source_ip_eq by done. rewrite Zplus_mod_idemp_r.
  replace (fnv1a name + (ip - v4_new 198 18 0 2 - fnv1a name)) with (ip - v4_new 198 18 0 2) by lia.
  unfold SOURCE_IP_SLOTS, v4_new in *. rewrite Z.mod_small; lia.
Qed.

(** C27. The attempts of a name run through the managed addresses, each exactly
    once: every attempt gives an address of 198.18.0.2 to 198.19.255.254, so
    never the resolver's 198.18.0.1, and each of these addresses is the one of
    exactly one attempt. *)
Theorem source_ip_pool name :
  (forall attempt, 0 <= attempt < SOURCE_IP_SLOTS -> managed (rootless_podman_source_ip name attempt))
  /\ forall ip, managed ip ->
       exists! attempt, 0 <= attempt < SOURCE_IP_SLOTS /\ rootless_podman_source_ip name attempt = ip.
Proof.
  split; [apply source_ip_managed|]. intros ip Hip.
  destruct (source_ip_surjective name ip Hip) as (a & Ha & <-).
  exists a. split; [done|]. intros b [Hb E]. rewrite !source_ip_eq in E by done.
  assert ((fnv1a name + b) mod SOURCE_IP_SLOTS = (fnv1a name + a) mod SOURCE_IP_SLOTS) as E' by lia.
  unfold SOURCE_IP_SLOTS in *.
  pose proof (Z.div_mod (fnv1a name + a) 131069 ltac:(lia)).
  pose proof (Z.div_mod (fnv1a name + b) 131069 ltac:(lia)). lia.
Qed.

Lemma source_ipv6_eq prefix name attempt :
  in_width 128 prefix ->
  rootless_podman_source_ipv6 prefix name attempt
  = prefix / 2 ^ 64 * 2 ^ 64 + wrap 64 (fnv1a name + attempt).
Proof.
  intros Hp. unfold rootless_podman_source_ipv6.
  change (wrap 128 (Z.shiftl (Z.ones 128) 64)) with (prefix_mask 128 64).
  rewrite land_prefix_mask by (unfold in_width in *; lia). change (128 - 64) with 64.
  pose proof (wrap_in_width 64 (fnv1a name + attempt) ltac:(lia)) as Hh.
  rewrite <- Z.shiftl_mul_pow2 by lia.
  assert (Z.land (Z.shiftl (prefix / 2 ^ 64) 64) (wrap 64 (fnv1a name + attempt)) = 0) as Hd.
  { apply Z.bits_inj'. intros i Hi. rewrite Z.land_spec, Z.shiftl_spec, Z.bits_0 by lia.
    destruct (decide (i < 64)); [by rewrite Z.testbit_neg_r by lia|].
    unfold wrap. rewrite Z.mod_pow2_bits_high by lia. apply andb_false_r. }
  by rewrite (Z.add_nocarry_lxor _ _ Hd), (Z.lxor_lor _ _ Hd).
Qed.

Lemma source_ipv6_prefix prefix name attempt :
  in_width 128 prefix ->
  rootless_podman_source_ipv6 prefix name attempt / 2 ^ 64 = prefix / 2 ^ 64.
Proof.
  intros Hp. rewrite source_ipv6_eq by done.
  pose proof (wrap_in_width 64 (fnv1a name + attempt) ltac:(lia)) as Hh.
  rewrite Z.div_add_l by lia. rewrite (Z.div_small (wrap _ _)) by done. lia.
Qed.

Lemma source_ipv6_wf prefix name attempt :
  in_width 128 prefix -> in_width 128 (rootless_podman_source_ipv6 prefix name attempt).
Proof.
  intros Hp. rewrite source_ipv6_eq by done.
  pose proof (wrap_in_width 64 (fnv1a name + attempt) ltac:(lia)) as Hh.
  unfold in_width in *.
  assert (0 <= prefix / 2 ^ 64 < 2 ^ 64) by (split; [apply Z.div_pos; lia|apply Z.div_lt_upper_bound; lia]).
  lia.
Qed.

(** The first four segments are the upper 64 bits. *)
Lemma segments_prefix a b :
  in_width 128 a -> in_width 128 b ->
  take 4 (segments a) = take 4 (segments b) <-> a / 2 ^ 64 = b / 2 ^ 64.
Proof.
  intros Ha Hb.
  assert (forall x i, 0 <= i <= 3 -> segment x i = x / 2 ^ 64 / 2 ^ (16 * (3 - i)) mod 2 ^ 16) as Hseg.
  { intros x i Hi. unfold segment. rewrite Z.div_div, <- Z.pow_add_r by lia. do 2 f_equal. f_equal. lia. }
  unfold segments. cbn [map take]. rewrite !Hseg by lia.
  split; [|by intros ->]. intros [= H0 H1 H2 H3].
  assert (0 <= a / 2 ^ 64 < 2 ^ 64 /\ 0 <= b / 2 ^ 64 < 2 ^ 64) as [Hqa Hqb].
  { unfold in_width in *. change (2 ^ 128) with (2 ^ 64 * 2 ^ 64) in *.
    split; (split; [apply Z.div_pos; lia|apply Z.div_lt_upper_bound; lia]). }
  revert Hqa Hqb H0 H1 H2 H3. generalize (a / 2 ^ 64) (b / 2 ^ 64). intros x y.
  change (16 * (3 - 0)) with 48. change (16 * (3 - 1)) with 32.
  change (16 * (3 - 2)) with 16. change (16 * (3 - 3)) with 0. clear.
  intros. div_mod_lia.
Qed.

(** The IPv6 source addresses of a name keep the upper 64 bits of the
    interface's address, and 2^64 consecutive attempts (far more than the code
    makes) give different addresses. *)
Theorem source_ipv6_spec prefix name (Hp : in_width 128 prefix) :
  (forall attempt, in_width 128 (rootless_podman_source_ipv6 prefix name attempt)
     /\ take 4 (segments (rootless_podman_source_ipv6 prefix name attempt)) = take 4 (segments prefix))
  /\ forall a b, in_width 64 a -> in_width 64 b ->
       rootless_podman_source_ipv6 prefix name a = rootless_podman_source_ipv6 prefix name b -> a = b.
Proof.
  assert (forall attempt, in_width 128 (rootless_podman_source_ipv6 prefix name attempt)) as Hw
    by (intros; by apply source_ipv6_wf).
  split.
  - intros attempt. split; [done|]. apply segments_prefix; [done..|]. by apply source_ipv6_prefix.
  - intros a b Ha Hb E. rewrite !source_ipv6_eq in E by done. unfold wrap in E.
    unfold in_width in *.
    pose proof (Z.div_mod (fnv1a name + a) (2 ^ 64) ltac:(lia)).
    pose proof (Z.div_mod (fnv1a name + b) (2 ^ 64) ltac:(lia)).
    assert ((fnv1a name + a) mod 2 ^ 64 = (fnv1a name + b) mod 2 ^ 64) by lia.
    change (2 ^ 64) with 18446744073709551616 in *. nia.
Qed.

Lemma source_ipv6_spec_witness :
  take 4 (segments (rootless_podman_source_ipv6 (v6_of_segments [0x2001; 0xdb8; 1; 2; 0; 0; 0; 1]) "net" 3))
  = [0x2001; 0xdb8; 1; 2].
Proof.
  destruct (source_ipv6_spec (v6_of_segments [0x2001; 0xdb8; 1; 2; 0; 0; 0; 1]) "net") as [Hw _].
  { split; vm_compute; congruence. }
  rewrite (proj2 (Hw 3)). vm_compute. reflexivity.
Defined.

(** ** Theorems: the subnet and its gateway *)

Section gateway.
Context (finish : string -> Z -> Z).

Lemma slot_range name attempt : 0 <= slot_of finish name attempt < SUBNET_SLOTS.
Proof.
  unfold slot_of, SUBNET_SLOTS, USABLE_HOSTS_PER_SUBNET.
  pose proof (Z.mod_pos_bound (finish name attempt) (256 * 14) ltac:(lia)).
  rewrite wrap_id by (unfold in_width; lia). lia.
Qed.

(** The third octet, and the number of the gateway's host *)
Definition plan_third (name : string) (attempt : Z) : Z :=
  slot_of finish name attempt / USABLE_HOSTS_PER_SUBNET.
Definition plan_host (name : string) (attempt : Z) : Z :=
  slot_of finish name attempt mod USABLE_HOSTS_PER_SUBNET + 1.

Lemma plan_octets name attempt :
  0 <= plan_third name attempt < 256 /\ 1 <= plan_host name attempt <= 14.
Proof.
  pose proof (slot_range name attempt) as Hs. unfold plan_third, plan_host, SUBNET_SLOTS in *.
  change USABLE_HOSTS_PER_SUBNET with 14 in *. Z.to_euclidean_division_equations. lia.
Qed.

Lemma subnet_and_gateway_eq name attempt :
  subnet_and_gateway finish name attempt
  = (cidr (V4 (v4_new 172 30 (plan_third name attempt) 0)) 28,
     ip_to_string (V4 (v4_new 172 30 (plan_third name attempt) (plan_host name attempt)))).
Proof.
  pose proof (plan_octets name attempt) as [Ht Hh]. unfold plan_third, plan_host in *.
  unfold subnet_and_gateway. change USABLE_HOSTS_PER_SUBNET with 14 in *.
  rewrite (wrap_id 8 (_ / 14)), (wrap_id 8 (_ mod 14)), (wrap_id 8 (_ + 1))
    by (unfold in_width; lia).
  unfold cidr, ip_to_string, v4_to_string.
  destruct (octet_v4_new 172 30 (slot_of finish name attempt / 14) 0) as (-> & -> & -> & ->); [lia..|].
  destruct (octet_v4_new 172 30 (slot_of finish name attempt / 14) (slot_of finish name attempt mod 14 + 1))
    as (-> & -> & -> & ->); [lia..|].
  rewrite !sapp_assoc. done.
Qed.

(** C28. Every plan is usable: its gateway is an address of its subnet, other
    than the subnet's first and last; it lies in the range that the network's
    rules leave open, so that the resolver behind it can be reached; and so
    does every address of the subnet. *)
Theorem plan_gateway_usable name dns_port attempt :
  let plan := network_plan finish name dns_port attempt in
  exists gateway, parse_ip (plan_gateway plan) = Some (V4 gateway)
    /\ ip_in_subnet (V4 gateway) (plan_subnet plan) = true
    /\ 1 <= gateway mod 16 <= 14
    /\ forall ip, in_width 32 ip -> ip_in_subnet (V4 ip) (plan_subnet plan) = true ->
         ip_in_subnet (V4 ip) "172.16.0.0/12" = true.
Proof.
  unfold network_plan. rewrite subnet_and_gateway_eq. cbn [plan_gateway plan_subnet].
  destruct (plan_octets name attempt) as [Ht Hh].
  revert Ht Hh. generalize (plan_third name attempt) (plan_host name attempt). intros t h Ht Hh.
  assert (in_width 32 (v4_new 172 30 t h)) by (apply v4_new_wf; lia).
  assert (in_width 32 (v4_new 172 30 t 0)) by (apply v4_new_wf; lia).
  exists (v4_new 172 30 t h). split; [by apply parse_ip_to_string|].
  change "172.16.0.0/12" with (cidr (V4 (v4_new 172 16 0 0)) 12).
  assert (in_width 32 (v4_new 172 16 0 0)) by (apply v4_new_wf; lia).
  split; [|split].
  - rewrite ip_in_subnet_cidr by done. unfold v4_new. apply Z.eqb_eq. div_mod_lia.
  - unfold v4_new. div_mod_lia.
  - intros ip Hip. rewrite !ip_in_subnet_cidr by done. unfold v4_new. rewrite !Z.eqb_eq.
    div_mod_lia.
Qed.
End gateway.
