(* ===== verification/Control.v ===== *)
(** * The control socket ([src/control.rs], [src/manage.rs], [src/stats.rs])

    The daemon's handler of one connection, and the client's functions that
    talk to it. *)

From S2P Require Import Prelude RustStr Net State Stats Host.

(** ** The daemon *)

(** What the daemon keeps in memory *)
Record Daemon : Type := {
  state : IpsetTable;
  stats : StatsTable;
  registry : Registry
}.

Definition initial_daemon : Daemon := {| state := ∅; stats := ∅; registry := initial_registry |}.

(** The bytes up to and including the first newline *)
Fixpoint take_line (s : string) : string :=
  match s with
  | "" => ""
  | String a s' => if Ascii.eqb a newline then String a "" else String a (take_line s')
  end.

(** [read_line] into an empty string whose error is not looked at: a line that
    is not UTF-8 leaves the string empty. *)
Definition read_line (input : string) : string :=
  let line := take_line input in
  if is_utf8 line then line else "".

Definition parse_domains (raw_domains : string) : list string :=
  List.filter (fun domain => negb (is_empty domain)) (map trim (split "," raw_domains)).

(** What the handler does: the new daemon, the bytes it writes (if any), and
    its result when writing them has the result [written]. *)
Abbreviation Handled := (Daemon * option string * Result unit)%type.

Section handler.
Context `{HashOrder}.

Definition handle_create (d : Daemon) (rest : string) (written : Result unit) : Handled :=
  match splitn 3 tab rest with
  | [] => (d, None, Err "missing ipset name")
  | [_] => (d, None, Err "missing subnet")
  | [_; _] => (d, None, Err "missing domains")
  | name :: subnet :: raw_domains :: _ =>
      let name := trim name in
      let subnet := trim subnet in
      if is_empty name then (d, Some ("ERR" +:+ tabs +:+ "missing ipset name" +:+ nl), written)
      else
        let registry' := if negb (is_empty subnet)
                         then register_network (registry d) name subnet else registry d in
        let managed := {| allowed_domain_patterns := parse_domains raw_domains; ips := ∅ |} in
        ({| state := <[name := managed]> (state d); stats := stats d; registry := registry' |},
         Some ("OK" +:+ tabs +:+ "created" +:+ nl), written)
  end.

Definition handle_remove (d : Daemon) (name : string) (written : Result unit) : Handled :=
  let name := trim name in
  if is_empty name then (d, Some ("ERR" +:+ tabs +:+ "missing ipset name" +:+ nl), written)
  else ({| state := delete name (state d); stats := stats d; registry := registry d |},
        Some ("OK" +:+ tabs +:+ "removed" +:+ nl), written).

Definition handle_command (d : Daemon) (command : string) (dns_port : Z) (now : Z)
    (written : Result unit) : Handled :=
  if (command =? "STATS")%string then
    match get_stats_report (network_registry (registry d)) (stats d) now with
    | Some report => (d, Some report, written)
    | None => (d, None, Err "panicked")
    end
  else if (command =? "INFO")%string then
    (d, Some ("OK" +:+ tabs +:+ dec dns_port +:+ nl), written)
  else match strip_prefix ("CREATE" +:+ tabs) command with
       | Some rest => handle_create d rest written
       | None =>
           match strip_prefix ("REMOVE" +:+ tabs) command with
           | Some name => handle_remove d name written
           | None => (d, Some ("ERR" +:+ tabs +:+ "unknown command" +:+ nl), written)
           end
       end.

(** [input] is what the client sends; [None]: no line within 5 seconds. *)
Definition handle_control_connection (d : Daemon) (input : option string) (dns_port : Z) (now : Z)
    (written : Result unit) : Handled :=
  match input with
  | None => (d, None, Err "control connection timed out waiting for command")
  | Some input =>
      let command := trim_end_matches newline (read_line input) in
      handle_command d command dns_port now written
  end.
End handler.

(** *** The critical sections of a connection

    Each connection is handled by a task of its own.  It changes the daemon in
    critical sections, each under its locks, between which other tasks may run: [register_network],
    [state.insert], [state.remove].  The report is read under the locks of the
    registry and of the statistics at once. *)
Inductive CriticalSection : Type :=
| Register (name subnet : string)
| InsertNetwork (name : string) (patterns : list string)
| DeleteNetwork (name : string).

Definition run_section (d : Daemon) (c : CriticalSection) : Daemon :=
  match c with
  | Register name subnet =>
      {| state := state d; stats := stats d; registry := register_network (registry d) name subnet |}
  | InsertNetwork name patterns =>
      {| state := <[name := {| allowed_domain_patterns := patterns; ips := ∅ |}]> (state d);
         stats := stats d; registry := registry d |}
  | DeleteNetwork name =>
      {| state := delete name (state d); stats := stats d; registry := registry d |}
  end.

(** The sections that a connection with this input enters, in order *)
Definition control_sections (input : option string) : list CriticalSection :=
  match input with
  | None => []
  | Some input =>
      let command := trim_end_matches newline (read_line input) in
      if (command =? "STATS")%string || (command =? "INFO")%string then []
      else match strip_prefix ("CREATE" +:+ tabs) command with
           | Some rest =>
               match splitn 3 tab rest with
               | name :: subnet :: raw_domains :: _ =>
                   if is_empty (trim name) then []
                   else (if is_empty (trim subnet) then [] else [Register (trim name) (trim subnet)])
                        ++ [InsertNetwork (trim name) (parse_domains raw_domains)]
               | _ => []
               end
           | None =>
               match strip_prefix ("REMOVE" +:+ tabs) command with
               | Some name => if is_empty (trim name) then [] else [DeleteNetwork (trim name)]
               | None => []
               end
           end
  end.

(** ** The client *)

Section client.
Context `{Host W}.

(** The meaning of the answer's first line *)
Definition command_result (response : string) : Result unit :=
  if starts_with ("OK" +:+ tabs) response then Ok tt
  else match strip_prefix ("ERR" +:+ tabs) (trim_end response) with
       | Some message => Err message
       | None => Err "invalid daemon response"
       end.

Definition send_control_command (payload : string) : M W unit :=
  let! response := call (control_exchange payload) in
  lift (command_result response).

(** The text of [ParseIntError] for an unsigned integer *)
Fixpoint digits_error (bound acc : Z) (s : string) : string :=
  match s with
  | "" => ""
  | String a s' =>
      match to_digit 10 a with
      | Some d => let acc' := acc * 10 + d in
                  if acc' <? bound then digits_error bound acc' s'
                  else "number too large to fit in target type"
      | None => "invalid digit found in string"
      end
  end.
Definition parse_error (w : Z) (s : string) : string :=
  match s with
  | "" => "cannot parse integer from empty string"
  | String "+" "" => "invalid digit found in string"
  | String "+" s' => digits_error (2 ^ w) 0 s'
  | _ => digits_error (2 ^ w) 0 s
  end.

Definition port_result (response : string) : Result Z :=
  match strip_prefix ("OK" +:+ tabs) response with
  | Some rest => ok_or (parse_uint 16 (trim_end rest)) (parse_error 16 (trim_end rest))
  | None =>
      match strip_prefix ("ERR" +:+ tabs) (trim_end response) with
      | Some message => Err message
      | None => Err "invalid daemon response"
      end
  end.

Definition get_dns_port : M W Z :=
  let! response := call (control_exchange ("INFO" +:+ nl)) in
  lift (port_result response).

(** *** [src/manage.rs] *)

Definition create_payload (name : string) (subnet : option string) (allowed_domains : list string) : string :=
  let subnet := default "" subnet in
  "CREATE" +:+ tabs +:+ name +:+ tabs +:+ subnet +:+ tabs +:+ join "," allowed_domains +:+ nl.

Definition send_create (name : string) (subnet : option string) (allowed_domains : list string) : M W unit :=
  let! _ := send_control_command (create_payload name subnet allowed_domains) in
  tell (println ("requested creation of ipset '" +:+ name +:+ "'")).

Definition remove_payload (name : string) : string := "REMOVE" +:+ tabs +:+ name +:+ nl.

Definition send_remove (name : string) : M W unit :=
  let! _ := send_control_command (remove_payload name) in
  tell (println ("requested removal of ipset '" +:+ name +:+ "'")).
End client.

(** ** Lemmas: lines and fields *)

Lemma take_line_app l rest : has_char newline l = false -> take_line (l +:+ String newline rest) = l +:+ nl.
Proof.
  induction l as [|a l IH]; intros Hl; [done|].
  cbn [has_char] in Hl. apply orb_false_iff in Hl as [Ha Hl].
  change (String a l +:+ String newline rest) with (String a (l +:+ String newline rest)).
  cbn [take_line]. by rewrite Ha, IH.
Qed.

Lemma trim_end_matches_none c s : has_char c s = false -> trim_end_matches c s = s.
Proof.
  induction s as [|a s IH]; [done|]. cbn [has_char]. intros [Ha Hs]%orb_false_iff.
  simpl. rewrite IH by done. destruct s; [by rewrite Ha|done].
Qed.

(** A line that is sent whole is the command that is handled. *)
Lemma command_of_line l :
  has_char newline l = false -> is_utf8 (l +:+ nl) = true ->
  trim_end_matches newline (read_line (l +:+ nl)) = l.
Proof.
  intros Hl Hu. unfold read_line, nl in *. rewrite take_line_app by done. unfold nl. rewrite Hu.
  by rewrite trim_end_matches_snoc, trim_end_matches_none.
Qed.

(** A field of a command: no tab, no line break, nothing to trim. *)
Definition field_ok (s : string) : bool :=
  negb (has_char tab s) && negb (has_char newline s) && (trim s =? s)%string.

(** A domain pattern of a [CREATE] command *)
Definition domain_ok (s : string) : bool :=
  negb (is_empty s) && negb (has_char "," s) && negb (has_char newline s) && (trim s =? s)%string.

Lemma field_ok_spec s :
  field_ok s = true -> has_char tab s = false /\ has_char newline s = false /\ trim s = s.
Proof.
  unfold field_ok. rewrite !andb_true_iff, !negb_true_iff, String.eqb_eq. tauto.
Qed.

Lemma domain_ok_spec s :
  domain_ok s = true ->
  is_empty s = false /\ has_char "," s = false /\ has_char newline s = false /\ trim s = s.
Proof.
  unfold domain_ok. rewrite !andb_true_iff, !negb_true_iff, String.eqb_eq. tauto.
Qed.

Lemma join_has_char sep c l :
  has_char c sep = false -> Forall (fun s => has_char c s = false) l -> has_char c (join sep l) = false.
Proof.
  intros Hsep. induction 1 as [|w l Hw Hl IH]; [done|].
  destruct l as [|w' l]; [done|].
  change (join sep (w :: w' :: l)) with (w +:+ sep +:+ join sep (w' :: l)).
  by rewrite !has_char_app, Hw, Hsep, IH.
Qed.

(** The list of patterns survives being joined and parsed. *)
Lemma parse_domains_join l : Forall (fun s => domain_ok s = true) l -> parse_domains (join "," l) = l.
Proof.
  intros Hl. unfold parse_domains. destruct l as [|w l]; [done|].
  change (join "," (w :: l)) with (join (String "," "") (w :: l)). rewrite split_join; [|done|].
  - induction Hl as [|s l' Hs _ IH]; [done|]. apply domain_ok_spec in Hs as (He & _ & _ & Ht).
    cbn [map List.filter]. rewrite Ht, He. cbn [negb]. by rewrite IH.
  - eapply Forall_impl; [exact Hl|]. intros s Hs. by apply domain_ok_spec in Hs as (_ & ? & _).
Qed.

Lemma splitn_fields a b rest :
  has_char tab a = false -> has_char tab b = false ->
  splitn 3 tab (a +:+ tabs +:+ b +:+ tabs +:+ rest) = [a; b; rest].
Proof.
  intros Ha Hb. change (tabs +:+ b +:+ tabs +:+ rest) with (String tab (b +:+ String tab rest)).
  cbn [splitn]. by rewrite split_once_app, split_once_app.
Qed.

(** ** Theorems: commands *)

Section commands.
Context `{HashOrder}.

(** What the daemon decodes from the payload of [send_create] *)
Lemma create_payload_handled d name subnet domains dns_port now
    (Hne : is_empty name = false) (Hname : field_ok name = true)
    (Hsubnet : field_ok (default "" subnet) = true)
    (Hdomains : Forall (fun s => domain_ok s = true) domains)
    (Hutf8 : is_utf8 (create_payload name subnet domains) = true) :
  handle_control_connection d (Some (create_payload name subnet domains)) dns_port now (Ok tt) =
  ({| state := <[name := {| allowed_domain_patterns := domains; ips := ∅ |}]> (state d);
      stats := stats d;
      registry := if is_empty (default "" subnet) then registry d
                  else register_network (registry d) name (default "" subnet) |},
   Some ("OK" +:+ tabs +:+ "created" +:+ nl), Ok tt).
Proof.
  apply field_ok_spec in Hname as (Hn1 & Hn2 & Hn3), Hsubnet as (Hs1 & Hs2 & Hs3).
  set (line := "CREATE" +:+ tabs +:+ name +:+ tabs +:+ default "" subnet +:+ tabs +:+ join "," domains).
  assert (create_payload name subnet domains = line +:+ nl) as E.
  { unfold create_payload, line. by rewrite !sapp_assoc. }
  rewrite E in *. unfold handle_control_connection. rewrite command_of_line; [|subst line|done].
  2: { rewrite !has_char_app, Hn2, Hs2, join_has_char; [done..|].
       eapply Forall_impl; [exact Hdomains|]. intros s Hs. by apply domain_ok_spec in Hs as (_ & _ & ? & _). }
  unfold handle_command. subst line.
  change (_ =? "STATS")%string with false. change (_ =? "INFO")%string with false. cbv iota.
  rewrite <- (sapp_assoc "CREATE" tabs), strip_prefix_app. unfold handle_create.
  rewrite splitn_fields by done.
  rewrite Hn3, Hs3, Hne, parse_domains_join by done.
  by destruct (is_empty (default "" subnet)).
Qed.

(** When no other task runs in between, the sections are the handler. *)
Lemma sections_handle d input dns_port now written :
  fold_left run_section (control_sections input) d
  = (handle_control_connection d input dns_port now written).1.1.
Proof.
  destruct input as [input|]; [|done]. unfold control_sections, handle_control_connection.
  generalize (trim_end_matches newline (read_line input)). intros command. unfold handle_command.
  destruct (command =? "STATS")%string; [by destruct (get_stats_report _ _ _)|].
  destruct (command =? "INFO")%string; [done|]. cbn [orb].
  destruct (strip_prefix _ command) as [rest|]; [|destruct (strip_prefix _ command) as [name|]; [|done]].
  - unfold handle_create. destruct (splitn 3 tab rest) as [|name [|subnet [|domains l]]]; [done..|].
    destruct (is_empty (trim name)); [done|]. by destruct (is_empty (trim subnet)).
  - unfold handle_remove. by destruct (is_empty (trim name)).
Qed.

(** The same for [send_remove] *)
Lemma remove_payload_handled d name dns_port now
    (Hne : is_empty name = false) (Hname : field_ok name = true)
    (Hutf8 : is_utf8 (remove_payload name) = true) :
  handle_control_connection d (Some (remove_payload name)) dns_port now (Ok tt) =
  ({| state := delete name (state d); stats := stats d; registry := registry d |},
   Some ("OK" +:+ tabs +:+ "removed" +:+ nl), Ok tt).
Proof.
  apply field_ok_spec in Hname as (Hn1 & Hn2 & Hn3).
  assert (remove_payload name = ("REMOVE" +:+ tabs +:+ name) +:+ nl) as E.
  { unfold remove_payload. by rewrite !sapp_assoc. }
  rewrite E in *. unfold handle_control_connection.
  rewrite command_of_line; [|by rewrite !has_char_app, Hn2|done].
  unfold handle_command. change (_ =? "STATS")%string with false.
  change (_ =? "INFO")%string with false. cbv iota.
  change (strip_prefix ("CREATE" +:+ tabs) _) with (@None string). cbv iota.
  rewrite <- (sapp_assoc "REMOVE" tabs), strip_prefix_app. unfold handle_remove.
  by rewrite Hn3, Hne.
Qed.

(** The answer to [INFO], and what the client reads in it *)
Lemma info_handled d dns_port now :
  in_width 16 dns_port -> exists answer,
    handle_control_connection d (Some ("INFO" +:+ nl)) dns_port now (Ok tt) = (d, Some answer, Ok tt)
    /\ take_line answer = answer /\ port_result answer = Ok dns_port.
Proof.
  intros [Hp1 Hp2]. exists ("OK" +:+ tabs +:+ dec dns_port +:+ nl). split; [done|].
  pose proof (dec_chars dns_port Hp1) as Hd.
  pose proof (dec_has_char dns_port newline Hp1 eq_refl) as Hnl.
  pose proof (parse_uint_dec 16 dns_port (conj Hp1 Hp2)) as Hparse.
  generalize dependent (dec dns_port). intros t Hd Hnl Hparse. split.
  - rewrite <- (sapp_assoc tabs), <- (sapp_assoc "OK"). apply take_line_app.
    by rewrite !has_char_app, Hnl.
  - unfold port_result. rewrite <- (sapp_assoc "OK" tabs), strip_prefix_app.
    by rewrite trim_end_digits, Hparse.
Qed.

(** What a command can do to the daemon: one network's entry is replaced by
    one with no addresses, or deleted; or nothing. *)
Inductive Effect (d : Daemon) : Daemon -> Prop :=
| effect_none : Effect d d
| effect_create name patterns registry' :
    registry' = registry d \/ (exists subnet, registry' = register_network (registry d) name subnet) ->
    Effect d {| state := <[name := {| allowed_domain_patterns := patterns; ips := ∅ |}]> (state d);
                stats := stats d; registry := registry' |}
| effect_remove name :
    Effect d {| state := delete name (state d); stats := stats d; registry := registry d |}.

Lemma handle_effect d input dns_port now written :
  Effect d (handle_control_connection d input dns_port now written).1.1.
Proof.
  destruct input as [input|]; [|apply effect_none]. unfold handle_control_connection.
  generalize (trim_end_matches newline (read_line input)). intros command. unfold handle_command.
  destruct (_ =? "STATS")%string; [destruct (get_stats_report _ _ _); apply effect_none|].
  destruct (_ =? "INFO")%string; [apply effect_none|].
  destruct (strip_prefix _ command) as [rest|]; [|destruct (strip_prefix _ command) as [name|]].
  - unfold handle_create. destruct (splitn 3 tab rest) as [|name [|subnet [|domains l]]]; try apply effect_none.
    destruct (is_empty (trim name)); [apply effect_none|].
    apply effect_create. destruct (is_empty (trim subnet)); [by left|right; by eexists].
  - unfold handle_remove. destruct (is_empty (trim name)); [apply effect_none|apply effect_remove].
  - apply effect_none.
Qed.

(** What a command leaves of the table *)
Lemma commands_keep d input dns_port now written :
  let d' := (handle_control_connection d input dns_port now written).1.1 in
  stats d' = stats d /\
  forall name m, state d' !! name = Some m -> state d !! name = Some m \/ ips m = ∅.
Proof.
  intros d'. destruct (handle_effect d input dns_port now written) as [|name ps r _|name]; subst d'; simpl.
  - split; eauto.
  - split; [done|]. intros n m. rewrite lookup_insert. case_decide; [|by left].
    intros [= <-]. by right.
  - split; [done|]. intros n m. rewrite lookup_delete. case_decide; [done|by left].
Qed.

(** C16. No command over the socket opens an address: whatever bytes arrive,
    an entry of the new state either was there before, or has no addresses;
    and the recorded resolutions are the same. *)
Theorem commands_open_nothing d input dns_port now written :
  let d' := (handle_control_connection d input dns_port now written).1.1 in
  stats d' = stats d /\
  forall name m, state d' !! name = Some m -> state d !! name = Some m \/ ips m = ∅.
Proof. apply commands_keep. Qed.

(** The daemon's data are coherent. *)
Definition daemon_ok (d : Daemon) : Prop := registry_ok (registry d) /\ stats_ok (registry d) (stats d).

Lemma initial_daemon_ok : daemon_ok initial_daemon.
Proof. split; [auto with dockerwall|]. intros k e id Hk. cbn [initial_daemon stats] in Hk. by rewrite lookup_empty in Hk. Qed.

Lemma effect_ok d d' :
  Effect d d' -> daemon_ok d -> next_network_id (registry d) + 1 < 2 ^ 32 ->
  daemon_ok d' /\ next_network_id (registry d') <= next_network_id (registry d) + 1.
Proof.
  unfold daemon_ok. intros [|name ps r [-> |[s ->]]|name] [Hr Hs] Hn; simpl;
    try (split; [by split|lia]).
  split; [|by apply register_network_next].
  split; [by apply register_network_ok|by apply stats_ok_register].
Qed.

(** A line that is none of the commands *)
Definition unknown_command (command : string) : Prop :=
  command <> "STATS" /\ command <> "INFO"
  /\ strip_prefix ("CREATE" +:+ tabs) command = None
  /\ strip_prefix ("REMOVE" +:+ tabs) command = None.

(** Every other line is answered with an error that the client reports,
    and changes nothing. *)
Theorem unknown_command_rejected d input dns_port now
    (Hcmd : unknown_command (trim_end_matches newline (read_line input))) :
  exists answer,
    handle_control_connection d (Some input) dns_port now (Ok tt) = (d, Some answer, Ok tt)
    /\ command_result answer = Err "unknown command".
Proof.
  destruct Hcmd as (H1 & H2 & H3 & H4). exists ("ERR" +:+ tabs +:+ "unknown command" +:+ nl).
  split; [|by vm_compute]. unfold handle_control_connection, handle_command.
  rewrite (proj2 (String.eqb_neq _ _) H1), (proj2 (String.eqb_neq _ _) H2). by rewrite H3, H4.
Qed.
End commands.

(** ** The two sides together *)

(** A host whose control socket is served by the daemon: an exchange runs the
    handler at some time, and the client gets the first line of its answer. *)
Class DaemonPeer (W : Type) `{Host W, HashOrder} := {
  daemon : W -> Daemon;
  peer_port : W -> Z;
  peer_exchange payload w : exists now w',
    let '(d', answer, _) := handle_control_connection (daemon w) (Some payload) (peer_port w) now (Ok tt) in
    control_exchange payload w = (w', Ok (take_line (default "" answer)))
    /\ daemon w' = d' /\ peer_port w' = peer_port w;
  peer_println s w : daemon (println s w) = daemon w /\ peer_port (println s w) = peer_port w
}.

Section peer.
Context `{DaemonPeer W}.


(** Removing it leaves the daemon without the network's entry, and with
    everything else as it was. *)
Theorem send_remove_effect name (w : W)
    (Hne : is_empty name = false) (Hname : field_ok name = true)
    (Hutf8 : is_utf8 (remove_payload name) = true) :
  exists w', send_remove name w = Some (w', Ok tt)
    /\ daemon w' = {| state := delete name (state (daemon w));
                      stats := stats (daemon w); registry := registry (daemon w) |}.
Proof.
  destruct (peer_exchange (remove_payload name) w) as (now & w' & Hx).
  rewrite remove_payload_handled in Hx by done. destruct Hx as (Hx & Hd & _).
  eexists. split.
  - unfold send_remove, send_control_command, bind, call, lift, tell. by rewrite Hx.
  - rewrite <- Hd. apply peer_println.
Qed.

(** C37. The command-line side learns the port the daemon listens on. *)
Theorem get_dns_port_effect (w : W) (Hport : in_width 16 (peer_port w)) :
  exists w', get_dns_port w = Some (w', Ok (peer_port w)) /\ daemon w' = daemon w.
Proof.
  destruct (peer_exchange ("INFO" +:+ nl) w) as (now & w' & Hx).
  destruct (info_handled (daemon w) (peer_port w) now Hport) as (answer & Ha & Hr & Hl).
  rewrite Ha in Hx. destruct Hx as (Hx & Hd & _).
  exists w'. split; [|done]. unfold get_dns_port, bind, call, lift.
  rewrite Hx. change (default "" (Some answer)) with answer. cbv beta iota.
  by rewrite Hr, Hl.
Qed.
End peer.
