(* ===== verification/Prepare.v ===== *)
(** * Preparing a network ([src/helper.rs])

    The commands that set a network up: kernel sets, the Docker network, source
    addresses, firewall rules, and the daemon's table; for Docker and for
    rootless Podman. *)

From S2P Require Import Prelude RustStr Net Stats Host Ipset Firewall Address Control.

Definition DOCKER_CANDIDATES : list string := ["/usr/bin/docker"; "/bin/docker"; "/usr/local/bin/docker"].
Definition IPTABLES_CANDIDATES : list string := ["/usr/sbin/iptables"; "/sbin/iptables"].
Definition IP6TABLES_CANDIDATES : list string := ["/usr/sbin/ip6tables"; "/sbin/ip6tables"].
Definition IP_CANDIDATES : list string := ["/usr/sbin/ip"; "/sbin/ip"; "/usr/bin/ip"].

(** [ContainerRuntime] of [src/cli.rs] *)
Inductive ContainerRuntime : Type := Docker | Podman.

(** ** Kernel sets *)

Definition create_set_args (name family : string) : list string :=
  ["create"; name; "hash:ip"; "family"; family; "maxelem"; "1000000000"].

Section sets.
Context `{Host W}.

Definition destroy_ipsets (binary name : string) : M W unit :=
  let! _ := attempt (run_command_allow_failure binary ["destroy"; name]) in
  let! _ := attempt (run_command_allow_failure binary ["destroy"; ipv6_ipset_name name]) in
  ret tt.

Definition create_ipset (binary name family : string) : M W unit :=
  let! result := run_command_allow_failure binary (create_set_args name family ++ ["-exist"]) in
  if success result then ret tt
  else
    let tmp_name := name +:+ "-tmp" in
    let! _ := attempt (run_command_allow_failure binary ["destroy"; tmp_name]) in
    let! _ := run_command_checked binary (create_set_args tmp_name family) in
    let! swap_result := run_command_allow_failure binary ["swap"; name; tmp_name] in
    let! _ := if success swap_result
              then run_command_checked binary ["destroy"; tmp_name]
              else run_command_checked binary ["rename"; tmp_name; name] in
    ret tt.

Definition create_ipsets (binary name : string) : M W unit :=
  let! _ := create_ipset binary name "inet" in
  create_ipset binary (ipv6_ipset_name name) "inet6".
End sets.

(** ** Docker *)

Section docker.
Context `{Host W} (finish : string -> Z -> Z) (fuel : nat).

Definition remove_docker_network (binary name : string) : M W unit :=
  let! _ := attempt (run_command_allow_failure binary ["network"; "rm"; name]) in
  ret tt.

Definition create_docker_network (binary : string) (plan : NetworkPlan) : M W unit :=
  let! _ := run_command_checked binary
    ["network"; "create"; "--driver"; "bridge"; "--subnet"; plan_subnet plan;
     "--ip-range"; plan_subnet plan; "--gateway"; plan_gateway plan; plan_name plan] in
  ret tt.

Definition setup_docker_resources (plan : NetworkPlan) : M W unit :=
  let! ipset_binary := resolve_binary IPSET_CANDIDATES in
  let! docker_binary := resolve_binary DOCKER_CANDIDATES in
  let! iptables_binary := resolve_binary IPTABLES_CANDIDATES in
  let! _ := destroy_ipsets ipset_binary (plan_name plan) in
  let! _ := create_ipsets ipset_binary (plan_name plan) in
  let! _ := remove_docker_network docker_binary (plan_name plan) in
  let! _ := create_docker_network docker_binary plan in
  ensure_docker_iptables_rules fuel iptables_binary plan.

Definition DOCKER_ATTEMPTS : nat := 50.

(** The loop over the attempts, [n] of which are left *)
Fixpoint docker_attempts (n : nat) (attempt_no : Z) (last_err : option string)
    (name : string) (domain_patterns : list string) (dns_port : Z) : M W unit :=
  match n with
  | O => fail (default "failed to allocate network after 50 attempts" last_err)
  | S n' =>
      let plan := network_plan finish name dns_port attempt_no in
      let! result := attempt (setup_docker_resources plan) in
      match result with
      | Ok _ =>
          let! _ := send_create name (Some (plan_subnet plan)) domain_patterns in
          ret tt
      | Err err =>
          let! _ := tell (eprintln ("network setup attempt " +:+ dec attempt_no +:+ " failed: "
                                    +:+ err +:+ ", retrying...")) in
          let! _ := tell (sleep_ms 100) in
          docker_attempts n' (attempt_no + 1) (Some err) name domain_patterns dns_port
      end
  end.

Definition prepare_docker_network (name : string) (domain_patterns : list string) : M W unit :=
  let! dns_port := get_dns_port in
  docker_attempts DOCKER_ATTEMPTS 0 None name domain_patterns dns_port.
End docker.

(** ** Rootless Podman *)

(** The effective user in [/proc/self/status], and the host's user that the
    first mapping of [/proc/self/uid_map] leads to *)
Definition effective_uid (status : string) : Result string :=
  try! uid_line := ok_or (List.find (starts_with "Uid:") (lines status)) "could not determine effective UID" in
  ok_or (split_whitespace uid_line !! 2%nat) "could not determine effective UID".

Definition host_uid (uid_map : string) : Result string :=
  ok_or (line ← head (lines uid_map); split_whitespace line !! 1%nat)
    "could not determine host UID mapping".

(** What one line of [ip route show default] says: nothing, or a result. *)
Fixpoint route_device (fields : list string) : option (Result string) :=
  match fields with
  | [] => None
  | field :: fields' =>
      if (field =? "dev")%string
      then Some (try! interface := ok_or (head fields') "default route has no interface" in
                 validate_interface_name interface)
      else route_device fields'
  end.

Fixpoint route_interface (routes : list string) : Result string :=
  match routes with
  | [] => Err "could not determine the default-route interface"
  | route :: routes' =>
      match split_ascii_whitespace route with
      | first :: fields =>
          if (first =? "default")%string then
            match route_device fields with
            | Some result => result
            | None => route_interface routes'
            end
          else route_interface routes'
      | [] => route_interface routes'
      end
  end.

(** The first source address in a rule with the marker *)
Fixpoint own_source {A} (source : string -> option A) (marker : string) (rules : list string) : option A :=
  match rules with
  | [] => None
  | line :: rules' =>
      if contains marker line then
        match source line with
        | Some ip => Some ip
        | None => own_source source marker rules'
        end
      else own_source source marker rules'
  end.

Definition own_marker (name : string) : string := "dockerwall:" +:+ name +:+ ":output-hook".

(** The word after the first ["inet6"] *)
Fixpoint inet6_field (fields : list string) : option string :=
  match fields with
  | [] => None
  | field :: fields' => if (field =? "inet6")%string then head fields' else inet6_field fields'
  end.

Definition line_prefix (line : string) : option Ipv6Addr :=
  cidr ← inet6_field (split_ascii_whitespace line);
  '(address, prefix_length) ← split_once "/" cidr;
  if (prefix_length =? "64")%string then parse_ipv6 address else None.

Fixpoint first_prefix (lines : list string) : option Ipv6Addr :=
  match lines with
  | [] => None
  | line :: lines' =>
      match line_prefix line with
      | Some address => Some address
      | None => first_prefix lines'
      end
  end.

Section podman.
Context `{Host W} (fuel : nat).

Definition ensure_host_root : M W unit :=
  let! status := bind (ask (read_to_string "/proc/self/status")) lift in
  let! effective_uid := lift (effective_uid status) in
  if negb (effective_uid =? "0")%string
  then fail "rootless Podman preparation must run as host root"
  else
    let! uid_map := bind (ask (read_to_string "/proc/self/uid_map")) lift in
    let! host_uid := lift (host_uid uid_map) in
    if negb (host_uid =? "0")%string
    then fail "rootless Podman preparation must run as host root, not a user namespace root"
    else ret tt.

Definition ensure_rootless_dns_alias (ip_binary : string) : M W unit :=
  let! _ := run_command_checked ip_binary ["addr"; "replace"; ROOTLESS_DNS_CIDR; "dev"; "lo"] in
  ret tt.

Definition DAEMON_POLLS : nat := 50.

(** Waiting for the daemon to answer *)
Fixpoint wait_for_daemon (n : nat) : M W Z :=
  match n with
  | O => fail "external host Dockerwall daemon did not become ready"
  | S n' =>
      let! result := attempt get_dns_port in
      match result with
      | Ok port => ret port
      | Err _ =>
          let! _ := tell (sleep_ms 100) in
          wait_for_daemon n'
      end
  end.

Definition ensure_rootless_dns_daemon : M W Z :=
  let! result := attempt get_dns_port in
  match result with
  | Ok port => ret port
  | Err _ =>
      let! executable := bind (ask current_exe) lift in
      let! child := call (exec_detached executable ["daemon"]) in
      let! pid := lift (ok_or child "could not determine external daemon PID") in
      let! _ := tell (println ("started external host Dockerwall daemon (pid " +:+ dec pid +:+ ")")) in
      wait_for_daemon DAEMON_POLLS
  end.

Definition default_route_interface : M W string :=
  let! ip_binary := resolve_binary IP_CANDIDATES in
  let! output := run_command_checked ip_binary ["route"; "show"; "default"] in
  lift (route_interface (lines (from_utf8_lossy (stdout output)))).

(** [ip -o -4 addr show to <cidr>], or with [-6] *)
Definition addr_show_args (family cidr : string) : list string :=
  ["-o"; family; "addr"; "show"; "to"; cidr].

(** The loop over the attempts, [n] of which are left *)
Fixpoint source_ip_attempts (n : nat) (attempt_no : Z) (ip_binary name : string)
    (rules : list string) : M W Ipv4Addr :=
  match n with
  | O => fail "all managed rootless Podman source addresses are in use"
  | S n' =>
      let source_ip := rootless_podman_source_ip name attempt_no in
      let source_cidr := v4_to_string source_ip +:+ "/32" in
      if existsb (contains source_cidr) rules
      then source_ip_attempts n' (attempt_no + 1) ip_binary name rules
      else
        let! output := run_command_checked ip_binary (addr_show_args "-4" source_cidr) in
        if is_empty (stdout output) then ret source_ip
        else source_ip_attempts n' (attempt_no + 1) ip_binary name rules
  end.

Definition allocate_rootless_podman_source_ip (iptables_binary ip_binary name : string) : M W Ipv4Addr :=
  let! output := run_command_checked iptables_binary ["-S"; "OUTPUT"] in
  let rules := lines (from_utf8_lossy (stdout output)) in
  match own_source output_rule_source_ip (own_marker name) rules with
  | Some source_ip => ret source_ip
  | None => source_ip_attempts (Z.to_nat SOURCE_IP_SLOTS) 0 ip_binary name rules
  end.

Definition rootless_podman_ipv6_prefix (ip_binary interface : string) : M W (option Ipv6Addr) :=
  let! output := run_command_checked ip_binary
    ["-o"; "-6"; "addr"; "show"; "dev"; interface; "scope"; "global"] in
  ret (first_prefix (lines (from_utf8_lossy (stdout output)))).

Definition IPV6_ATTEMPTS : nat := 50.

Fixpoint source_ipv6_attempts (n : nat) (attempt_no : Z) (ip_binary name : string)
    (prefix : Ipv6Addr) : M W (option Ipv6Addr) :=
  match n with
  | O => fail "all managed rootless Podman IPv6 source addresses are in use"
  | S n' =>
      let source_ip := rootless_podman_source_ipv6 prefix name attempt_no in
      let source_cidr := v6_to_string source_ip +:+ "/128" in
      let! output := run_command_checked ip_binary (addr_show_args "-6" source_cidr) in
      if is_empty (stdout output) then ret (Some source_ip)
      else source_ipv6_attempts n' (attempt_no + 1) ip_binary name prefix
  end.

(** The source address of a rule when it has the interface's prefix *)
Definition own_source_ipv6 (prefix : Ipv6Addr) (line : string) : option Ipv6Addr :=
  source_ip ← output_rule_source_ipv6 line;
  if decide (take 4 (segments source_ip) = take 4 (segments prefix)) then Some source_ip else None.

Definition allocate_rootless_podman_source_ipv6 (ip6tables_binary ip_binary interface name : string)
    : M W (option Ipv6Addr) :=
  let! prefix := rootless_podman_ipv6_prefix ip_binary interface in
  match prefix with
  | None => ret None
  | Some prefix =>
      let! output := run_command_checked ip6tables_binary ["-S"; "OUTPUT"] in
      let rules := lines (from_utf8_lossy (stdout output)) in
      match own_source (own_source_ipv6 prefix) (own_marker name) rules with
      | Some source_ip => ret (Some source_ip)
      | None => source_ipv6_attempts IPV6_ATTEMPTS 0 ip_binary name prefix
      end
  end.

Definition configure_rootless_podman_source_ipv6 (ip_binary interface : string)
    (source_ipv6 : Ipv6Addr) : M W unit :=
  let! _ := run_command_checked ip_binary
    ["-6"; "addr"; "replace"; v6_to_string source_ipv6 +:+ "/64"; "dev"; interface;
     "preferred_lft"; "0"; "valid_lft"; "forever"] in
  ret tt.

Definition ROOTLESS_DNS_IP : Ipv4Addr := v4_new 198 18 0 1.

Definition print_podman (interface : string) (source_ip : Ipv4Addr) (source_ipv6 : option Ipv6Addr) : M W unit :=
  let! _ := tell (println ("rootless Podman source IP: " +:+ v4_to_string source_ip)) in
  let! _ := tell (println ("rootless Podman interface: " +:+ interface)) in
  match source_ipv6 with
  | Some source_ipv6 =>
      let! _ := tell (println ("rootless Podman source IPv6: " +:+ v6_to_string source_ipv6)) in
      tell (println ("podman run --network pasta:--outbound," +:+ v4_to_string source_ip
        +:+ ",--address," +:+ v6_to_string source_ipv6 +:+ ",--outbound," +:+ v6_to_string source_ipv6
        +:+ " --dns " +:+ v4_to_string ROOTLESS_DNS_IP +:+ " <image> <command>"))
  | None =>
      let! _ := tell (println ("rootless Podman IPv6 unavailable: no global /64 on " +:+ interface)) in
      tell (println ("podman run --network pasta:--outbound," +:+ v4_to_string source_ip
        +:+ " --dns " +:+ v4_to_string ROOTLESS_DNS_IP +:+ " <image> <command>"))
  end.

Definition prepare_rootless_podman_network (name : string) (domain_patterns : list string)
    (requested_interface : option string) : M W unit :=
  let! _ := ensure_host_root in
  let! ip_binary := resolve_binary IP_CANDIDATES in
  let! _ := ensure_rootless_dns_alias ip_binary in
  let! dns_port := ensure_rootless_dns_daemon in
  let! interface := match requested_interface with
                    | Some interface => lift (validate_interface_name interface)
                    | None => default_route_interface
                    end in
  let! ipset_binary := resolve_binary IPSET_CANDIDATES in
  let! iptables_binary := resolve_binary IPTABLES_CANDIDATES in
  let! ip6tables_binary := resolve_binary IP6TABLES_CANDIDATES in
  let! source_ip := allocate_rootless_podman_source_ip iptables_binary ip_binary name in
  let source_cidr := v4_to_string source_ip +:+ "/32" in
  let! source_ipv6 := allocate_rootless_podman_source_ipv6 ip6tables_binary ip_binary interface name in
  let source_ipv6_cidr := (fun ip => v6_to_string ip +:+ "/128") <$> source_ipv6 in
  let! _ := run_command_checked ip_binary ["addr"; "replace"; source_cidr; "dev"; interface] in
  let! _ := match source_ipv6 with
            | Some source_ipv6 => configure_rootless_podman_source_ipv6 ip_binary interface source_ipv6
            | None => ret tt
            end in
  let! _ := destroy_ipsets ipset_binary name in
  let! _ := create_ipsets ipset_binary name in
  let! _ := ensure_rootless_podman_rules fuel iptables_binary ip6tables_binary name source_cidr
              source_ipv6_cidr interface dns_port in
  let! _ := send_create name (Some source_cidr) domain_patterns in
  print_podman interface source_ip source_ipv6.
End podman.

Definition prepare_network `{Host W} (finish : string -> Z -> Z) (fuel : nat) (name : string)
    (domain_patterns : list string) (runtime : ContainerRuntime) (interface : option string) : M W unit :=
  match runtime with
  | Docker =>
      match interface with
      | Some _ => fail "--interface is only valid with --runtime podman"
      | None => prepare_docker_network finish fuel name domain_patterns
      end
  | Podman => prepare_rootless_podman_network fuel name domain_patterns interface
  end.

(** ** What the set commands promise *)

(** The other commands of [ipset], as its manual describes them: [create] makes
    an empty set and fails when the name is taken, unless [-exist] is given and
    the set is of the same kind; [swap] needs two sets of the same kind;
    [rename] needs a free name. *)
Definition set_command (args : list string) (sets : KernelSets) : option KernelSets :=
  match args with
  | ["destroy"; n] => _ ← sets !! n; Some (delete n sets)
  | ["swap"; n; m] =>
      s ← sets !! n; t ← sets !! m;
      if Bool.eqb (inet6 s) (inet6 t) then Some (<[m := s]> (<[n := t]> sets)) else None
  | ["rename"; n; m] =>
      s ← sets !! n;
      match sets !! m with
      | Some _ => None
      | None => Some (<[m := s]> (delete n sets))
      end
  | "create" :: n :: "hash:ip" :: "family" :: family :: "maxelem" :: _ :: options =>
      let six := (family =? "inet6")%string in
      match sets !! n with
      | None => Some (<[n := {| inet6 := six; members := ∅ |}]> sets)
      | Some s => match options with
                  | ["-exist"] => if Bool.eqb (inet6 s) six then Some sets else None
                  | _ => None
                  end
      end
  | _ => None
  end.

(** The name after the command is not taken for an option. *)
Definition plain_name (args : list string) : Prop := starts_with "-" (default "" (args !! 1%nat)) = false.

(** A command that reports success has had its effect, one that fails has had
    none, and one whose outcome is unknown either; so the tool may refuse any
    name, for instance one that is too long. *)
Class SetCommands (W : Type) `{IpsetTool W} := {
  set_runs b args w :
    b ∈ IPSET_CANDIDATES -> plain_name args ->
    let '(w', r) := exec b args w in
    match r with
    | Ok out => if success out then set_command args (kernel_sets w) = Some (kernel_sets w')
                else kernel_sets w' = kernel_sets w
    | Err _ => set_command args (kernel_sets w) = Some (kernel_sets w') \/ kernel_sets w' = kernel_sets w
    end
}.

Section sets_theorems.
Context `{SetCommands W}.

Definition family_name (six : bool) : string := if six then "inet6" else "inet".

Lemma attempt_inv {A} (m : M W A) w w' r :
  attempt m w = Some (w', r) -> exists r0, m w = Some (w', r0) /\ r = Ok r0.
Proof. unfold attempt. destruct (m w) as [[w1 r0]|]; [|done]. intros [= <- <-]. eauto. Qed.

Lemma allow_failure_inv b args (w w' : W) out :
  b ∈ IPSET_CANDIDATES -> plain_name args -> run_command_allow_failure b args w = Some (w', Ok out) ->
  if success out then set_command args (kernel_sets w) = Some (kernel_sets w')
  else kernel_sets w' = kernel_sets w.
Proof. intros Hb Hp [= E]. pose proof (set_runs b args w Hb Hp) as Hr. by rewrite E in Hr. Qed.

Lemma checked_inv b args (w w' : W) out :
  b ∈ IPSET_CANDIDATES -> plain_name args -> run_command_checked b args w = Some (w', Ok out) ->
  set_command args (kernel_sets w) = Some (kernel_sets w').
Proof.
  intros Hb Hp [E Hs]%run_command_checked_inv. pose proof (set_runs b args w Hb Hp) as Hr.
  rewrite E, Hs in Hr. exact Hr.
Qed.

Lemma destroy_sets n sets sets' :
  set_command ["destroy"; n] sets = Some sets' -> sets' = delete n sets.
Proof. simpl. destruct (sets !! n); [|done]. by intros [= <-]. Qed.

(** Destroying a set whatever comes of it *)
Lemma attempt_destroy_inv b n (w w' : W) r :
  b ∈ IPSET_CANDIDATES -> starts_with "-" n = false ->
  attempt (run_command_allow_failure b ["destroy"; n]) w = Some (w', r) ->
  kernel_sets w' = kernel_sets w \/ kernel_sets w' = delete n (kernel_sets w).
Proof.
  intros Hb Hp (r0 & E & _)%attempt_inv. injection E as E.
  pose proof (set_runs b ["destroy"; n] w Hb Hp) as Hr. rewrite E in Hr.
  destruct r0 as [out|e]; [destruct (success out)|]; [| |destruct Hr as [Hr|]]; auto;
    right; by apply destroy_sets.
Qed.

Lemma create_set name six options sets sets' :
  set_command (create_set_args name (family_name six) ++ options) sets = Some sets' ->
  has_set name six sets' /\ forall n, n <> name -> sets' !! n = sets !! n.
Proof.
  unfold has_set. cbn [create_set_args app set_command].
  assert ((family_name six =? "inet6")%string = six) as -> by (by destruct six).
  destruct (sets !! name) as [s|] eqn:E.
  - intros Hs. assert (sets' = sets /\ inet6 s = six) as [-> Hf]; [|eauto].
    revert Hs. repeat case_match; intros; simplify_eq. split; [done|by apply eqb_prop].
  - intros [= <-]. split; [|by intros; rewrite lookup_insert_ne].
    eexists. by rewrite lookup_insert_eq.
Qed.

Lemma plain_name_app name suffix :
  is_empty name = false -> starts_with "-" name = false -> starts_with "-" (name +:+ suffix) = false.
Proof.
  destruct name as [|a name]; [done|]. change (String a name +:+ suffix) with (String a (name +:+ suffix)).
  unfold starts_with. cbn [strip_prefix]. by destruct (Ascii.eqb "-" a).
Qed.

Lemma tmp_ne name : name +:+ "-tmp" <> name.
Proof.
  intros E. apply (f_equal String.length) in E. rewrite length_app_str in E. simpl in E. lia.
Qed.

Lemma swap_set n m t sets sets' :
  sets !! m = Some t -> set_command ["swap"; n; m] sets = Some sets' ->
  exists s, sets !! n = Some s /\ sets' = <[m := s]> (<[n := t]> sets).
Proof.
  intros Ht. cbn [set_command]. rewrite Ht. destruct (sets !! n) as [s|]; [|done]. simpl.
  destruct (Bool.eqb _ _); [|done]. intros [= <-]. eauto.
Qed.

(** When [create_ipset] succeeds, the set exists with its family, and no set
    but it and its temporary one is different. *)
Lemma create_ipset_has b name six (w w' : W) :
  b ∈ IPSET_CANDIDATES -> is_empty name = false -> starts_with "-" name = false ->
  create_ipset b name (family_name six) w = Some (w', Ok tt) ->
  has_set name six (kernel_sets w')
  /\ forall n, n <> name -> n <> name +:+ "-tmp" -> kernel_sets w' !! n = kernel_sets w !! n.
Proof.
  intros Hb Hne Hp. pose proof (plain_name_app name "-tmp" Hne Hp) as Hpt.
  unfold create_ipset. intros (w1 & out & E & Hk)%bind_Some.
  apply allow_failure_inv in E; [|done|done]. destruct (success out).
  - injection Hk as <-. apply create_set in E as [? Ho]. split; [done|]. intros n Hn _. by apply Ho.
  - apply bind_Some in Hk as (w2 & r2 & E2 & Hk). apply attempt_destroy_inv in E2; [|done|done].
    apply bind_Some in Hk as (w3 & out3 & E3 & Hk). apply checked_inv in E3; [|done|done].
    apply create_set in E3 as [(s & Ht & Hs) Ho].
    apply bind_Some in Hk as (w4 & out4 & E4 & Hk). apply allow_failure_inv in E4; [|done|done].
    apply bind_Some in Hk as (w5 & out5 & E5 & Hk). injection Hk as <-.
    assert (forall n, n <> name +:+ "-tmp" -> kernel_sets w3 !! n = kernel_sets w !! n) as Ho3.
    { intros n Hn. rewrite Ho, <- E by done. destruct E2 as [-> | ->]; [done|].
      by rewrite lookup_delete_ne. }
    destruct (success out4).
    + apply checked_inv, destroy_sets in E5; [|done|done].
      apply (swap_set name _ s) in E4 as (s' & Hs' & E4); [|done].
      rewrite E5, E4. split.
      * exists s. rewrite lookup_delete_ne, lookup_insert_ne, lookup_insert_eq by apply tmp_ne.
        naive_solver.
      * intros n Hn Hnt. rewrite lookup_delete_ne, !lookup_insert_ne by done. by apply Ho3.
    + apply checked_inv in E5; [|done|done]. rewrite E4 in E5. cbn [set_command] in E5.
      rewrite Ht in E5. cbn in E5. destruct (kernel_sets w3 !! name); [done|].
      injection E5 as E5. rewrite <- E5. split.
      * exists s. by rewrite lookup_insert_eq.
      * intros n Hn Hnt. rewrite lookup_insert_ne, lookup_delete_ne by done. by apply Ho3.
Qed.

Lemma create_ipsets_have b name (w w' : W) :
  b ∈ IPSET_CANDIDATES -> is_empty name = false -> starts_with "-" name = false ->
  create_ipsets b name w = Some (w', Ok tt) ->
  has_set name false (kernel_sets w') /\ has_set (ipv6_ipset_name name) true (kernel_sets w').
Proof.
  intros Hb Hne Hp (w1 & [] & E1 & E2)%bind_Some.
  apply (create_ipset_has b name false) in E1 as [(s & Hs & Hf) _]; [|done..].
  apply (create_ipset_has b _ true) in E2 as [H6 Ho]; [|done|by destruct name|by apply plain_name_app].
  split; [|done]. exists s. rewrite Ho; [done|apply not_eq_sym, ipv6_name_ne|].
  unfold ipv6_ipset_name. intros E. apply (f_equal String.length) in E.
  rewrite !length_app_str in E. simpl in E. lia.
Qed.

(** C18. What preparation establishes is what the daemon's pushes need: whatever
    kernel sets there were, if [create_ipsets] reports success for a name that
    is one word and no option, then a push of addresses (none of them the
    zero-valued one) to the network succeeds and makes its two sets hold exactly
    these addresses. *)
Theorem prepared_sets_accept_pushes b name ips (w w' : W)
    (Hb : b ∈ IPSET_CANDIDATES) (Hcreate : create_ipsets b name w = Some (w', Ok tt))
    (Hbin : exists b, b ∈ IPSET_CANDIDATES /\ trusted w' b)
    (Hname : word name) (Hplain : starts_with "-" name = false) (Hips : Forall storable ips) :
  exists w'', update_ipset name ips w' = Some (w'', Ok tt)
    /\ kernel_sets w'' = pushed name ips (kernel_sets w').
Proof.
  apply create_ipsets_have in Hcreate as [(s4 & H4 & Hf4) (s6 & H6 & Hf6)];
    [|done|destruct Hname as [Hne _]; by destruct name|done].
  destruct (update_ipset_pushed name ips w' s4 s6) as (w'' & Hw & Hk & _); [done..|]. by exists w''.
Qed.
End sets_theorems.

(** ** Theorems: Docker *)

Section docker_theorems.
Context `{Host W} (finish : string -> Z -> Z) (fuel : nat).

Lemma docker_attempts_ok n k err name domains port (w w' : W) :
  docker_attempts finish fuel n k err name domains port w = Some (w', Ok tt) ->
  exists i w1 w2, k <= i < k + Z.of_nat n
    /\ setup_docker_resources fuel (network_plan finish name port i) w1 = Some (w2, Ok tt)
    /\ send_create name (Some (plan_subnet (network_plan finish name port i))) domains w2 = Some (w', Ok tt).
Proof.
  revert k err w. induction n as [|n IH]; intros k err w; cbn [docker_attempts]; [done|].
  intros (w1 & r & E & Hk)%bind_Some. apply attempt_inv in E as (r0 & E & [= ->]).
  destruct r0 as [[]|e].
  - apply bind_Some in Hk as (w2 & [] & E2 & Hk). injection Hk as <-.
    exists k, w, w1. split; [lia|done].
  - apply bind_Some in Hk as (w2 & [] & _ & Hk). apply bind_Some in Hk as (w3 & [] & _ & Hk).
    apply IH in Hk as (i & w4 & w5 & Hi & Hk). exists i, w4, w5. split; [lia|done].
Qed.

(** C19. The daemon learns of a Docker network only when it is ready: if the
    preparation succeeds, then one of the 50 plans was set up completely (its
    sets, its Docker network and all its firewall rules), with no failure, and
    immediately afterwards that plan's subnet and the patterns were sent to
    the daemon, which was the last thing done. *)
Theorem prepare_docker_network_ok name domains (w w' : W)
    (Hok : prepare_docker_network finish fuel name domains w = Some (w', Ok tt)) :
  exists port attempt w0 w1 w2,
    get_dns_port w = Some (w0, Ok port) /\ 0 <= attempt < 50
    /\ let plan := network_plan finish name port attempt in
       setup_docker_resources fuel plan w1 = Some (w2, Ok tt)
       /\ send_create name (Some (plan_subnet plan)) domains w2 = Some (w', Ok tt).
Proof.
  apply bind_Some in Hok as (w0 & port & Hp & Hok).
  apply docker_attempts_ok in Hok as (i & w1 & w2 & Hi & Hs & Hc).
  change (Z.of_nat DOCKER_ATTEMPTS) with 50 in Hi. exists port, i, w0, w1, w2. split; [done|].
  split; [lia|done].
Qed.
End docker_theorems.
