(* ===== verification/Trust.v ===== *)
(** * Which binaries are run

    The program runs as root, so it must not run a binary that someone else
    could have replaced.  The computations of [Prepare] and [Ipset] are run on a
    host that logs every binary; the logs hold trusted ones only. *)

From S2P Require Import Prelude RustStr Net Host Ipset Firewall Address Control Prepare.

(** ** The logging host *)

Section logging.
Context `{Host W}.

Definition logged {A} (b : string) (run : W -> W * Result A) (wl : W * list string)
    : (W * list string) * Result A :=
  let '(w', r) := run wl.1 in ((w', wl.2 ++ [b]), r).

(** The same host, with the list of the binaries run so far *)
#[export] Instance logging_host : Host (W * list string) := {|
  exec b args := logged b (exec b args);
  exec_stdin b args input := logged b (exec_stdin b args input);
  exec_detached b args := logged b (exec_detached b args);
  metadata path wl := metadata path wl.1;
  read_to_string path wl := read_to_string path wl.1;
  current_exe wl := current_exe wl.1;
  control_exchange payload wl := let '(w', r) := control_exchange payload wl.1 in ((w', wl.2), r);
  sleep_ms ms wl := (sleep_ms ms wl.1, wl.2);
  println s wl := (println s wl.1, wl.2);
  eprintln s wl := (eprintln s wl.1, wl.2)
|}.
End logging.

(** The paths of all the binaries that the program looks for *)
Definition BINARIES : list string :=
  IPSET_CANDIDATES ++ DOCKER_CANDIDATES ++ IPTABLES_CANDIDATES ++ IP6TABLES_CANDIDATES ++ IP_CANDIDATES.

(** Two worlds with the same binaries (their types, owners and modes), and the
    same program; other files may differ. *)
Definition same_files `{Host W} (w w' : W) : Prop :=
  (forall path, path ∈ BINARIES -> metadata path w' = metadata path w) /\ current_exe w' = current_exe w.

(** Nobody replaces the binaries, or changes their owners and modes, while the
    program runs. *)
Class StableFiles (W : Type) `{Host W} := {
  stable_exec b args w : same_files w (exec b args w).1;
  stable_stdin b args input w : same_files w (exec_stdin b args input w).1;
  stable_detached b args w : same_files w (exec_detached b args w).1;
  stable_control payload w : same_files w (control_exchange payload w).1;
  stable_sleep ms w : same_files w (sleep_ms ms w);
  stable_println s w : same_files w (println s w);
  stable_eprintln s w : same_files w (eprintln s w)
}.

#[export] Instance same_files_preorder `{Host W} : PreOrder (@same_files W _).
Proof.
  split; [by split|]. intros w1 w2 w3 [Hm He] [Hm' He'].
  split; [intros path Hp; by rewrite Hm', Hm|congruence].
Qed.

Lemma trusted_same_files `{Host W} (w w' : W) b :
  b ∈ BINARIES -> same_files w w' -> trusted w b -> trusted w' b.
Proof. intros Hb [Hm _] (md & Hmd & Ht). exists md. by rewrite Hm. Qed.

Lemma binaries_listed :
  Forall (.∈ BINARIES) IPSET_CANDIDATES /\ Forall (.∈ BINARIES) DOCKER_CANDIDATES
  /\ Forall (.∈ BINARIES) IPTABLES_CANDIDATES /\ Forall (.∈ BINARIES) IP6TABLES_CANDIDATES
  /\ Forall (.∈ BINARIES) IP_CANDIDATES.
Proof. unfold BINARIES. rewrite !Forall_forall. repeat split; intros x Hx; rewrite !elem_of_app; tauto. Qed.

Lemma ipset_listed b : b ∈ IPSET_CANDIDATES -> b ∈ BINARIES.
Proof. destruct binaries_listed as (H & _). rewrite Forall_forall in H. apply H. Qed.
Lemma iptables_listed b : b ∈ IPTABLES_CANDIDATES -> b ∈ BINARIES.
Proof. destruct binaries_listed as (_ & _ & H & _). rewrite Forall_forall in H. apply H. Qed.
Lemma ip6tables_listed b : b ∈ IP6TABLES_CANDIDATES -> b ∈ BINARIES.
Proof. destruct binaries_listed as (_ & _ & _ & H & _). rewrite Forall_forall in H. apply H. Qed.
Lemma ip_listed b : b ∈ IP_CANDIDATES -> b ∈ BINARIES.
Proof. destruct binaries_listed as (_ & _ & _ & _ & H). rewrite Forall_forall in H. apply H. Qed.

#[export] Hint Resolve ipset_listed iptables_listed ip6tables_listed ip_listed : dockerwall.

(** ** Runs that log only what they may *)

Section safety.
Context `{StableFiles W} (w0 : W).

(** What may be run: a trusted binary, or the program itself *)
Definition may_run (b : string) : Prop := trusted w0 b \/ current_exe w0 = Ok b.

(** From a world with [w0]'s files, the computation logs only binaries that may
    be run, and its result, if it is no error, has [Q]. *)
Definition safe {A} (m : M (W * list string) A) (Q : A -> Prop) : Prop :=
  forall w log w' log' r,
    same_files w0 w -> m (w, log) = Some ((w', log'), r) ->
    same_files w0 w' /\ (exists new, log' = log ++ new /\ Forall may_run new)
    /\ match r with Ok a => Q a | Err _ => True end.

Lemma safe_stop {A} (Q : A -> Prop) r :
  match r with Ok a => Q a | Err _ => True end -> safe (lift r) Q.
Proof.
  intros Hq w log w' log' r' Hw [= <- <- <-]. split; [done|]. split; [|done].
  exists []. by rewrite app_nil_r.
Qed.

Lemma safe_ret {A} (Q : A -> Prop) a : Q a -> safe (ret a) Q.
Proof. intros. by apply (safe_stop Q (Ok a)). Qed.

Lemma safe_fail {A} (Q : A -> Prop) e : safe (fail e) Q.
Proof. by apply (safe_stop Q (Err e)). Qed.

Lemma safe_fuel {A} (Q : A -> Prop) : safe out_of_fuel Q.
Proof. by intros ? ? ? ? ? ?. Qed.

Lemma safe_bind {A B} (P : A -> Prop) (Q : B -> Prop) m k :
  safe m P -> (forall a, P a -> safe (k a) Q) -> safe (bind m k) Q.
Proof.
  intros Hm Hk w log w' log' r Hw. unfold bind.
  destruct (m (w, log)) as [[[w1 log1] [a|e]]|] eqn:E; [| |done].
  - apply Hm in E as (Hw1 & (new & -> & Hnew) & Ha); [|done]. intros E2.
    apply (Hk a Ha) in E2 as (Hw2 & (new2 & -> & Hnew2) & Hr); [|done].
    split; [done|]. split; [|done]. exists (new ++ new2).
    rewrite app_assoc. split; [done|]. by apply Forall_app.
  - apply Hm in E as (Hw1 & Hl & _); [|done]. by intros [= <- <- <-].
Qed.

Lemma safe_weaken {A} (P Q : A -> Prop) m : safe m P -> (forall a, P a -> Q a) -> safe m Q.
Proof.
  intros Hm Hpq w log w' log' r Hw E. apply Hm in E as (? & ? & Hr); [|done].
  split; [done|]. split; [done|]. destruct r; auto.
Qed.

Lemma safe_attempt {A} (P : A -> Prop) m : safe m P -> safe (attempt m) (fun _ => True).
Proof.
  intros Hm w log w' log' r Hw. unfold attempt.
  destruct (m (w, log)) as [[[w1 log1] r1]|] eqn:E; [|done]. intros [= <- <- <-].
  apply Hm in E as (? & ? & _); done.
Qed.

Lemma safe_ask {A} (f : W * list string -> A) : safe (ask f) (fun _ => True).
Proof.
  intros w log w' log' r Hw [= <- <- <-]. split; [done|]. split; [|done].
  exists []. by rewrite app_nil_r.
Qed.

Lemma safe_tell f :
  (forall w log, exists w', f (w, log) = (w', log) /\ same_files w w') -> safe (tell f) (fun _ => True).
Proof.
  intros Hf w log w' log' r Hw [= E <-]. destruct (Hf w log) as (w1 & E1 & Hw1).
  rewrite E1 in E. injection E as <- <-. split; [by transitivity w|]. split; [|done].
  exists []. by rewrite app_nil_r.
Qed.

(** A command that is run, however *)
Lemma safe_logged {A} b (run : W -> W * Result A) :
  may_run b -> (forall w, same_files w (run w).1) -> safe (call (logged b run)) (fun _ => True).
Proof.
  intros Hb Hs w log w' log' r Hw. unfold call, logged. simpl.
  specialize (Hs w). destruct (run w) as [w1 r1]. intros [= <- <- <-].
  split; [by transitivity w|]. split; [|by destruct r1].
  exists [b]. split; [done|]. by apply Forall_cons_2.
Qed.

Lemma safe_command b args : may_run b -> safe (run_command_allow_failure b args) (fun _ => True).
Proof. intros. apply safe_logged; [done|]. intros. apply stable_exec. Qed.

Lemma safe_checked b args : may_run b -> safe (run_command_checked b args) (fun _ => True).
Proof.
  intros. eapply safe_bind; [by apply safe_command|]. intros out _.
  destruct (success out); [by apply safe_ret|apply safe_fail].
Qed.

Lemma safe_control payload : safe (call (control_exchange payload)) (fun _ => True).
Proof.
  intros w log w' log' r Hw. unfold call. simpl.
  pose proof (stable_control payload w) as Hs. destruct (control_exchange payload w) as [w1 r1].
  intros [= <- <- <-]. split; [by transitivity w|]. split; [|by destruct r1].
  exists []. by rewrite app_nil_r.
Qed.

Lemma safe_println s : safe (tell (println s)) (fun _ => True).
Proof. apply safe_tell. intros w log. eexists. split; [done|]. apply stable_println. Qed.
Lemma safe_eprintln s : safe (tell (eprintln s)) (fun _ => True).
Proof. apply safe_tell. intros w log. eexists. split; [done|]. apply stable_eprintln. Qed.
Lemma safe_sleep ms : safe (tell (sleep_ms ms)) (fun _ => True).
Proof. apply safe_tell. intros w log. eexists. split; [done|]. apply stable_sleep. Qed.

Lemma safe_is_trusted path :
  path ∈ BINARIES -> safe (is_trusted_binary path) (fun b => b = true -> may_run path).
Proof.
  intros Hp w log w' log' r Hw E.
  destruct (is_trusted_binary_eq path (w, log)) as (b & Eb & Hb). rewrite Eb in E.
  injection E as <- <- <-. split; [done|]. split; [exists []; by rewrite app_nil_r|].
  intros Ht. left. apply Hb in Ht as (md & Hmd & Ht). exists md. split; [|done].
  rewrite <- Hmd. symmetry. by apply Hw.
Qed.

Lemma safe_resolve candidates : Forall (.∈ BINARIES) candidates -> safe (resolve_binary candidates) may_run.
Proof.
  induction 1 as [|c cs Hc _ IH]; [apply safe_fail|].
  eapply safe_bind; [by apply safe_is_trusted|]. intros b Hb. destruct b; [|exact IH].
  by apply safe_ret, Hb.
Qed.

Lemma safe_resolve_binaries :
  safe (resolve_binary IPSET_CANDIDATES) may_run /\ safe (resolve_binary DOCKER_CANDIDATES) may_run
  /\ safe (resolve_binary IPTABLES_CANDIDATES) may_run /\ safe (resolve_binary IP6TABLES_CANDIDATES) may_run
  /\ safe (resolve_binary IP_CANDIDATES) may_run.
Proof. destruct binaries_listed as (? & ? & ? & ? & ?). by split_and!; apply safe_resolve. Qed.

Lemma safe_resolve_ipset : safe resolve_ipset_binary may_run.
Proof.
  unfold resolve_ipset_binary. destruct binaries_listed as [Hl _].
  induction Hl as [|c cs Hc _ IH]; [apply safe_fail|].
  eapply safe_bind; [by apply safe_is_trusted|]. intros b Hb. destruct b; [|exact IH].
  by apply safe_ret, Hb.
Qed.

Lemma safe_current_exe : safe (bind (ask current_exe) lift) may_run.
Proof.
  intros w log w' log' r Hw. unfold bind, ask, lift. simpl. intros [= <- <- <-].
  split; [done|]. split; [exists []; by rewrite app_nil_r|].
  destruct (current_exe w) as [exe|] eqn:E; [|done]. right. rewrite <- E. symmetry. apply Hw.
Qed.

(** Without a condition on the result *)
Definition safe_run {A} (m : M (W * list string) A) : Prop := safe m (fun _ => True).

Lemma run_bind {A B} (m : M _ A) (k : A -> M _ B) :
  safe_run m -> (forall a, safe_run (k a)) -> safe_run (bind m k).
Proof. intros Hm Hk. eapply safe_bind; [exact Hm|]. intros a _. apply Hk. Qed.

Lemma run_bind_binary {B} (m : M _ string) (k : string -> M _ B) :
  safe m may_run -> (forall b, may_run b -> safe_run (k b)) -> safe_run (bind m k).
Proof. apply safe_bind. Qed.

Lemma run_lift {A} (r : Result A) : safe_run (lift r).
Proof. apply safe_stop. by destruct r. Qed.

Lemma run_ret {A} (a : A) : safe_run (ret a).
Proof. by apply safe_ret. Qed.

Lemma run_attempt {A} (m : M _ A) : safe_run m -> safe_run (attempt m).
Proof. apply safe_attempt. Qed.

Lemma run_detached b args : may_run b -> safe_run (call (exec_detached b args)).
Proof. intros. apply safe_logged; [done|]. intros. apply stable_detached. Qed.

Lemma run_stdin b args input : may_run b -> safe_run (call (exec_stdin b args input)).
Proof. intros. apply safe_logged; [done|]. intros. apply stable_stdin. Qed.
End safety.

Create HintDb safe.
#[export] Hint Resolve run_lift run_ret run_attempt run_detached run_stdin safe_fail safe_fuel safe_command safe_checked
  safe_control safe_println safe_eprintln safe_sleep safe_ask safe_resolve_ipset safe_current_exe : safe.
#[export] Hint Extern 1 (safe _ (resolve_binary _) _) => apply safe_resolve_binaries : safe.

(** Goes through a computation: the binary of a resolution may be run, and so
    may what is run with it. *)
Ltac run_safe :=
  repeat first
    [ solve [eauto with safe]
    | solve [unfold safe_run; eauto with safe]
    | match goal with
      | |- safe_run _ (bind _ _) => apply run_bind_binary; [solve [eauto with safe]|intros ? ?]
      | |- safe_run _ (bind _ _) => apply run_bind; [|intros ?]
      | |- safe_run _ (attempt _) => apply run_attempt
      | |- safe_run _ (match ?x with _ => _ end) => destruct x
      end ].

Section runs.
Context `{StableFiles W} (w0 : W).

Lemma run_sets_destroy b name : may_run w0 b -> safe_run w0 (destroy_ipsets b name).
Proof. intros. unfold destroy_ipsets. run_safe. Qed.

Lemma run_sets_create b name : may_run w0 b -> safe_run w0 (create_ipsets b name).
Proof. intros. unfold create_ipsets, create_ipset. run_safe. Qed.

Lemma run_rule fuel b args : may_run w0 b -> safe_run w0 (ensure_rule_present fuel b args).
Proof.
  intros. unfold ensure_rule_present.
  assert (forall args, safe_run w0 (remove_rule_all fuel b args)) as Hr.
  { induction fuel as [|fuel IH]; intros; cbn [remove_rule_all]; run_safe. }
  run_safe.
Qed.

Lemma run_rules fuel b rules : may_run w0 b -> safe_run w0 (ensure_rules fuel b rules).
Proof.
  intros. induction rules as [|r rules IH]; cbn [ensure_rules]; [run_safe|].
  apply run_bind; [by apply run_rule|]. done.
Qed.

Lemma run_chain_setup b c : may_run w0 b -> safe_run w0 (ensure_chain b c).
Proof. intros. unfold ensure_chain. run_safe. Qed.

Lemma run_send_create name subnet domains : safe_run w0 (send_create name subnet domains).
Proof. unfold send_create, send_control_command. run_safe. Qed.

Lemma run_get_dns_port : safe_run w0 get_dns_port.
Proof. unfold get_dns_port. run_safe. Qed.
End runs.

#[export] Hint Resolve run_sets_destroy run_sets_create run_rule run_rules run_chain_setup
  run_send_create run_get_dns_port : safe.

Section preparation.
Context `{StableFiles W} (w0 : W) (finish : string -> Z -> Z) (fuel : nat).

Lemma run_docker_setup plan : safe_run w0 (setup_docker_resources fuel plan).
Proof.
  unfold setup_docker_resources, remove_docker_network, create_docker_network,
    ensure_docker_iptables_rules. run_safe.
Qed.

Lemma run_docker name domains : safe_run w0 (prepare_docker_network finish fuel name domains).
Proof.
  unfold prepare_docker_network. apply run_bind; [run_safe|]. intros port.
  generalize 0 (@None string). induction DOCKER_ATTEMPTS as [|n IH]; intros k err;
    cbn [docker_attempts]; [run_safe|].
  apply run_bind; [apply run_attempt, run_docker_setup|]. intros []; run_safe.
Qed.

Lemma run_wait_for_daemon n : safe_run w0 (wait_for_daemon n).
Proof. induction n as [|n IH]; cbn [wait_for_daemon]; run_safe. Qed.

Lemma run_daemon_start : safe_run w0 ensure_rootless_dns_daemon.
Proof. unfold ensure_rootless_dns_daemon. pose proof run_wait_for_daemon. run_safe. Qed.

Lemma run_source_ip b4 b name :
  may_run w0 b4 -> may_run w0 b -> safe_run w0 (allocate_rootless_podman_source_ip b4 b name).
Proof.
  intros. unfold allocate_rootless_podman_source_ip. apply run_bind; [run_safe|]. intros out.
  destruct (own_source _ _ _); [run_safe|]. generalize (lines (from_utf8_lossy (stdout out))).
  intros rules. generalize 0. induction (Z.to_nat SOURCE_IP_SLOTS) as [|n IH]; intros k;
    cbn [source_ip_attempts]; run_safe.
Qed.

Lemma run_source_ipv6 b6 b interface name :
  may_run w0 b6 -> may_run w0 b -> safe_run w0 (allocate_rootless_podman_source_ipv6 b6 b interface name).
Proof.
  intros. unfold allocate_rootless_podman_source_ipv6, rootless_podman_ipv6_prefix.
  assert (forall n k prefix, safe_run w0 (source_ipv6_attempts n k b name prefix)) as Ha.
  { induction n as [|n IH]; intros k prefix; cbn [source_ipv6_attempts]; run_safe. }
  run_safe.
Qed.

Lemma run_podman_rules b b6 name cidr cidr6 interface port :
  may_run w0 b -> may_run w0 b6 ->
  safe_run w0 (ensure_rootless_podman_rules fuel b b6 name cidr cidr6 interface port).
Proof.
  intros. unfold ensure_rootless_podman_rules, ensure_rootless_dns_redirects,
    ensure_rootless_podman_ipv6_rules. run_safe.
Qed.

Lemma run_podman name domains interface :
  safe_run w0 (prepare_rootless_podman_network fuel name domains interface).
Proof.
  pose proof run_daemon_start. pose proof run_source_ip. pose proof run_source_ipv6.
  pose proof run_podman_rules.
  unfold prepare_rootless_podman_network, ensure_host_root, ensure_rootless_dns_alias,
    default_route_interface, configure_rootless_podman_source_ipv6, print_podman.
  run_safe.
Qed.

(** C12. Preparing a network runs only trusted binaries: on a host whose
    binaries' owners and modes do not change meanwhile, every binary that a preparation
    runs, whether it succeeds or not, for either runtime and with any
    arguments and answers, is a regular file of root that nobody else can
    write, or the program itself. *)
Theorem prepare_network_runs_trusted name domains runtime interface w' log r
    (Hrun : prepare_network finish fuel name domains runtime interface (w0, []) = Some ((w', log), r)) :
  Forall (fun b => trusted w0 b \/ current_exe w0 = Ok b) log.
Proof.
  assert (safe_run w0 (prepare_network finish fuel name domains runtime interface)) as Hs.
  { unfold prepare_network. destruct runtime; [|apply run_podman].
    destruct interface; [run_safe|apply run_docker]. }
  apply Hs in Hrun as (_ & (new & -> & Hnew) & _); [done|reflexivity].
Qed.

(** So does the daemon when it pushes addresses. *)
Theorem update_ipset_runs_trusted name ips w' log r
    (Hrun : update_ipset name ips (w0, []) = Some ((w', log), r)) :
  Forall (fun b => trusted w0 b \/ current_exe w0 = Ok b) log.
Proof.
  assert (safe_run w0 (update_ipset name ips)) as Hs by (unfold update_ipset; run_safe).
  apply Hs in Hrun as (_ & (new & -> & Hnew) & _); [done|reflexivity].
Qed.
End preparation.
