(* ===== verification/Allocate.v ===== *)
(** * Source addresses of rootless Podman policies ([src/helper.rs])

    What the allocation functions of [Prepare] promise: a free managed address
    whenever there is one, an address of the interface's prefix, and the same
    address again for a policy whose hook rule is listed, as [iptables-save] writes
    it with its quotation marks. *)

From S2P Require Import Prelude RustStr Net Stats Host Ipset Firewall Policy Address Prepare Trust.

(** ** What the tools promise *)

(** [-4] and the /32 of the address, or [-6] and its /128 *)
Definition show_args (ip : IpAddr) : list string :=
  match ip with
  | V4 a => addr_show_args "-4" (v4_to_string a +:+ "/32")
  | V6 a => addr_show_args "-6" (v6_to_string a +:+ "/128")
  end.

(** What the tools print when they are there: [ip addr show to] nothing exactly
    for an address that no interface has, [ip addr show dev] the addresses of a
    device that exists, and an error for one that does not; these and the
    listing of rules change nothing. *)
Class AddressTool (W : Type) `{Host W} := {
  assigned : W -> gset IpAddr;
  (** what [-S OUTPUT] prints, and what [ip addr show dev] prints of a device *)
  output_listing : string -> W -> string;
  dev_listing : string -> W -> option string;
  tool_show b ip w : b ∈ IP_CANDIDATES -> trusted w b -> ip_wf ip ->
    exists w' out, exec b (show_args ip) w = (w', Ok out) /\ success out = true
      /\ (stdout out = "" <-> ip ∉ assigned w) /\ assigned w' = assigned w
      /\ forall b', output_listing b' w' = output_listing b' w;
  tool_rules b w : b ∈ IPTABLES_CANDIDATES ++ IP6TABLES_CANDIDATES -> trusted w b ->
    exists w' out, exec b ["-S"; "OUTPUT"] w = (w', Ok out) /\ success out = true
      /\ stdout out = output_listing b w /\ assigned w' = assigned w;
  tool_dev b interface w :
    b ∈ IP_CANDIDATES -> trusted w b -> validate_interface_name interface = Ok interface ->
    exists w' r,
      exec b ["-o"; "-6"; "addr"; "show"; "dev"; interface; "scope"; "global"] w = (w', r)
      /\ match dev_listing interface w with
         | Some listing => exists out, r = Ok out /\ success out = true /\ stdout out = listing
         | None => failed r
         end
      /\ assigned w' = assigned w /\ forall b', output_listing b' w' = output_listing b' w
}.

(** The lines that the program looks at *)
Definition text_lines (text : string) : list string := lines (from_utf8_lossy text).

Section allocation.
Context `{AddressTool W} `{!StableFiles W}.

Lemma show_checked b ip (w : W) :
  b ∈ IP_CANDIDATES -> trusted w b -> ip_wf ip ->
  exists w' out, run_command_checked b (show_args ip) w = Some (w', Ok out)
    /\ (stdout out = "" <-> ip ∉ assigned w) /\ assigned w' = assigned w /\ trusted w' b.
Proof.
  intros Hb Ht Hip. destruct (tool_show b ip w Hb Ht Hip) as (w' & out & He & Hs & Ho & Ha & _).
  exists w', out. split; [by apply run_command_checked_ok|]. split; [done|]. split; [done|].
  pose proof (stable_exec b (show_args ip) w) as Hf. rewrite He in Hf.
  eapply trusted_same_files; eauto with dockerwall.
Qed.

Lemma rules_checked b (w : W) :
  b ∈ IPTABLES_CANDIDATES ++ IP6TABLES_CANDIDATES -> trusted w b ->
  exists w' out, run_command_checked b ["-S"; "OUTPUT"] w = Some (w', Ok out)
    /\ stdout out = output_listing b w /\ assigned w' = assigned w /\ same_files w w'.
Proof.
  intros Hb Ht. destruct (tool_rules b w Hb Ht) as (w' & out & He & Hs & Ho & Ha).
  exists w', out. split; [by apply run_command_checked_ok|]. split; [done|]. split; [done|].
  pose proof (stable_exec b ["-S"; "OUTPUT"] w) as Hf. by rewrite He in Hf.
Qed.

Lemma prefix_checked b interface (w : W) :
  b ∈ IP_CANDIDATES -> trusted w b -> validate_interface_name interface = Ok interface ->
  exists w' r, rootless_podman_ipv6_prefix b interface w = Some (w', r)
    /\ match dev_listing interface w with
       | Some listing => r = Ok (first_prefix (text_lines listing))
       | None => exists e, r = Err e
       end
    /\ assigned w' = assigned w /\ same_files w w' /\ forall b', output_listing b' w' = output_listing b' w.
Proof.
  intros Hb Ht Hv. destruct (tool_dev b interface w Hb Ht Hv) as (w' & r & He & Hr & Ha & Hl).
  pose proof (stable_exec b ["-o"; "-6"; "addr"; "show"; "dev"; interface; "scope"; "global"] w) as Hf.
  rewrite He in Hf. unfold rootless_podman_ipv6_prefix. destruct (dev_listing interface w) as [listing|].
  - destruct Hr as (out & -> & Hs & <-). eexists w', _. split; [|done].
    eapply bind_eq; [by apply run_command_checked_ok|done].
  - destruct (run_command_checked_failed _ _ _ _ _ He Hr) as [e E]. exists w', (Err e).
    split; [unfold bind; by rewrite E|]. eauto.
Qed.

(** ** IPv4 *)

(** No rule mentions the address and no interface has it. *)
Definition free (rules : list string) (used : gset IpAddr) (a : Ipv4Addr) : Prop :=
  existsb (contains (v4_to_string a +:+ "/32")) rules = false /\ V4 a ∉ used.

Lemma source_ip_attempts_spec n k b name rules (w : W) :
  b ∈ IP_CANDIDATES -> trusted w b ->
  exists w' r, source_ip_attempts n k b name rules w = Some (w', r)
    /\ match r with
       | Ok a => exists i, k <= i < k + Z.of_nat n /\ a = rootless_podman_source_ip name i
                 /\ free rules (assigned w) a
       | Err e => e = "all managed rootless Podman source addresses are in use"
                  /\ forall i, k <= i < k + Z.of_nat n ->
                       ~ free rules (assigned w) (rootless_podman_source_ip name i)
       end.
Proof.
  intros Hb. revert k w. induction n as [|n IH]; intros k w Ht.
  { eexists w, _. split; [done|]. split; [done|]. lia. }
  cbn [source_ip_attempts]. set (a := rootless_podman_source_ip name k).
  (* what the rest of the loop gives, when this attempt's address is not free *)
  assert (forall w1, assigned w1 = assigned w -> trusted w1 b -> ~ free rules (assigned w) a ->
    exists w' r, source_ip_attempts n (k + 1) b name rules w1 = Some (w', r)
      /\ match r with
         | Ok a => exists i, k <= i < k + Z.of_nat (S n) /\ a = rootless_podman_source_ip name i
                   /\ free rules (assigned w) a
         | Err e => e = "all managed rootless Podman source addresses are in use"
                    /\ forall i, k <= i < k + Z.of_nat (S n) ->
                         ~ free rules (assigned w) (rootless_podman_source_ip name i)
         end) as Hrest.
  { intros w1 Hw1 Ht1 Hn. destruct (IH (k + 1) w1 Ht1) as (w' & r & Hr & Hspec).
    exists w', r. split; [done|]. rewrite Hw1 in Hspec. destruct r as [a'|e].
    - destruct Hspec as (i & Hi & Hspec). exists i. split; [lia|done].
    - destruct Hspec as [-> Hall]. split; [done|]. intros i Hi.
      destruct (decide (i = k)) as [->|]; [done|]. apply Hall. lia. }
  destruct (existsb (contains (v4_to_string a +:+ "/32")) rules) eqn:Ex.
  { apply Hrest; [done|done|]. intros [Hf _]. congruence. }
  destruct (show_checked b (V4 a) w Hb Ht) as (w1 & out & He & Ho & Ha & Ht1).
  { unfold a, rootless_podman_source_ip. apply wrap_in_width. lia. }
  unfold bind. cbn [show_args] in He. rewrite He. destruct (is_empty (stdout out)) eqn:Eo.
  - apply String.eqb_eq in Eo. exists w1, (Ok a). split; [done|].
    exists k. split; [lia|]. split; [done|]. split; [done|]. by apply Ho.
  - apply Hrest; [done|done|]. intros [_ Hf]. apply Ho in Hf. rewrite Hf in Eo. done.
Qed.

(** C24. The allocation of an IPv4 source address: a policy whose hook rule is
    listed keeps the address of that rule; for any other one the allocation gives a
    managed address that no rule mentions and no interface has, as long as there
    is one, and it fails only when all 131069 managed addresses are taken. *)
Theorem allocate_source_ip_complete b b4 name (w : W)
    (Hb : b ∈ IP_CANDIDATES) (Hb4 : b4 ∈ IPTABLES_CANDIDATES) (Ht : trusted w b) (Ht4 : trusted w b4) :
  exists w' r, allocate_rootless_podman_source_ip b4 b name w = Some (w', r)
    /\ let rules := text_lines (output_listing b4 w) in
       match own_source output_rule_source_ip (own_marker name) rules with
       | Some a => r = Ok a
       | None =>
           match r with
           | Ok a => managed a /\ free rules (assigned w) a
           | Err _ => forall a, managed a -> ~ free rules (assigned w) a
           end
       end.
Proof.
  destruct (rules_checked b4 w) as (w1 & out & He & Ho & Ha & Hf); [by apply elem_of_app; left|done|].
  unfold allocate_rootless_podman_source_ip. rewrite (bind_eq _ _ _ _ _ _ He eq_refl).
  rewrite Ho. fold (text_lines (output_listing b4 w)). cbv zeta.
  destruct (own_source _ _ _) as [a|]; [by exists w1, (Ok a)|].
  destruct (source_ip_attempts_spec (Z.to_nat SOURCE_IP_SLOTS) 0 b name
              (text_lines (output_listing b4 w)) w1 Hb) as (w2 & r & Hr & Hspec);
    [eapply trusted_same_files; eauto with dockerwall|].
  exists w2, r. split; [exact Hr|].
  rewrite Z2Nat.id, Ha in Hspec by done. destruct r as [a|e].
  - destruct Hspec as (i & Hi & -> & Hfree). split; [|done]. by apply source_ip_managed.
  - intros a Hm. destruct Hspec as [_ Hspec].
    destruct (source_ip_surjective name a Hm) as (i & Hi & <-). by apply Hspec.
Qed.

(** ** IPv6 *)

Lemma source_ipv6_attempts_spec n k b name prefix (w : W) :
  b ∈ IP_CANDIDATES -> trusted w b -> in_width 128 prefix ->
  exists w' r, source_ipv6_attempts n k b name prefix w = Some (w', r)
    /\ match r with
       | Ok o => exists i, k <= i < k + Z.of_nat n
                 /\ o = Some (rootless_podman_source_ipv6 prefix name i)
                 /\ V6 (rootless_podman_source_ipv6 prefix name i) ∉ assigned w
       | Err e => forall i, k <= i < k + Z.of_nat n ->
                    V6 (rootless_podman_source_ipv6 prefix name i) ∈ assigned w
       end.
Proof.
  intros Hb Ht Hp. revert k w Ht. induction n as [|n IH]; intros k w Ht.
  { eexists w, _. split; [done|]. intros i Hi. lia. }
  cbn [source_ipv6_attempts]. set (a := rootless_podman_source_ipv6 prefix name k).
  destruct (show_checked b (V6 a) w Hb Ht) as (w1 & out & He & Ho & Ha & Ht1); [by apply source_ipv6_wf|].
  unfold bind. cbn [show_args] in He. rewrite He. destruct (is_empty (stdout out)) eqn:Eo.
  - apply String.eqb_eq in Eo. exists w1, (Ok (Some a)). split; [done|].
    exists k. split; [lia|]. split; [done|]. by apply Ho.
  - destruct (IH (k + 1) w1 Ht1) as (w' & r & Hr & Hspec). exists w', r. split; [done|].
    rewrite Ha in Hspec. destruct r as [o|e].
    + destruct Hspec as (i & Hi & Hspec). exists i. split; [lia|done].
    + intros i Hi. destruct (decide (i = k)) as [->|]; [|apply Hspec; lia].
      destruct (decide (V6 a ∈ assigned w)) as [|Hn]; [done|]. apply Ho in Hn.
      rewrite Hn in Eo. done.
Qed.

Lemma own_source_ipv6_inv prefix line ip :
  own_source_ipv6 prefix line = Some ip ->
  in_width 128 ip /\ take 4 (segments ip) = take 4 (segments prefix).
Proof.
  unfold own_source_ipv6, output_rule_source_ipv6.
  destruct (source_field _) as [f|]; [|done]. simpl.
  destruct (strip_suffix _ f) as [t|]; [|done]. simpl.
  destruct (parse_ipv6 t) as [a|] eqn:E; [|done]. simpl.
  case_decide; [|done]. intros [= <-]. split; [by eapply parse_ipv6_wf|done].
Qed.

Lemma own_source_inv {A} (source : string -> option A) marker rules a :
  own_source source marker rules = Some a ->
  exists line, line ∈ rules /\ contains marker line = true /\ source line = Some a.
Proof.
  induction rules as [|l rules IH]; [done|]. cbn [own_source].
  destruct (contains marker l) eqn:Ec; [destruct (source l) as [a'|] eqn:Es|]; intros Hs.
  - injection Hs as <-. exists l. split; [by left|done].
  - destruct (IH Hs) as (l' & ? & ?). exists l'. split; [by right|done].
  - destruct (IH Hs) as (l' & ? & ?). exists l'. split; [by right|done].
Qed.

Lemma first_prefix_wf ls p : first_prefix ls = Some p -> in_width 128 p.
Proof.
  induction ls as [|l ls IH]; [done|]. cbn [first_prefix].
  destruct (line_prefix l) as [a|] eqn:E; [|done]. intros [= <-].
  unfold line_prefix in E. destruct (inet6_field _) as [f|]; [|done]. simpl in E.
  destruct (split_once "/" f) as [[x y]|]; [|done]. simpl in E.
  destruct (y =? "64")%string; [by eapply parse_ipv6_wf|done].
Qed.

(** C26. The IPv6 source address, for an interface with a valid name: the
    function fails for an interface that does not exist; without a global /64 on
    the interface there is no address; otherwise the result is in that /64, and it is the
    policy's own address or one that no interface has, or the function fails
    because all 50 candidates are taken. *)
Theorem allocate_source_ipv6_spec b b6 interface name (w : W)
    (Hb : b ∈ IP_CANDIDATES) (Hb6 : b6 ∈ IP6TABLES_CANDIDATES) (Ht : trusted w b) (Ht6 : trusted w b6)
    (Hinterface : validate_interface_name interface = Ok interface) :
  exists w' r, allocate_rootless_podman_source_ipv6 b6 b interface name w = Some (w', r)
    /\ match (fun listing => first_prefix (text_lines listing)) <$> dev_listing interface w with
       | None => exists e, r = Err e
       | Some None => r = Ok None
       | Some (Some prefix) =>
           match r with
           | Ok o => exists ip, o = Some ip /\ in_width 128 ip
               /\ take 4 (segments ip) = take 4 (segments prefix)
               /\ (V6 ip ∉ assigned w
                   \/ exists line, line ∈ text_lines (output_listing b6 w)
                        /\ contains (own_marker name) line = true
                        /\ output_rule_source_ipv6 line = Some ip)
           | Err _ => forall i, 0 <= i < 50 ->
                        V6 (rootless_podman_source_ipv6 prefix name i) ∈ assigned w
           end
       end.
Proof.
  destruct (prefix_checked b interface w Hb Ht Hinterface) as (w1 & r1 & He1 & Hr1 & Ha1 & Hf1 & Hl1).
  unfold allocate_rootless_podman_source_ipv6.
  destruct (dev_listing interface w) as [listing|]; cbn [fmap option_fmap option_map].
  2: { destruct Hr1 as [e ->]. exists w1, (Err e). unfold bind at 1. rewrite He1. eauto. }
  subst r1. rewrite (bind_eq _ _ _ _ _ _ He1 eq_refl).
  destruct (first_prefix (text_lines listing)) as [p|] eqn:Ep; [|by exists w1, (Ok None)].
  destruct (rules_checked b6 w1) as (w2 & out & He2 & Ho2 & Ha2 & Hf2);
    [by apply elem_of_app; right|eapply trusted_same_files; eauto with dockerwall|].
  rewrite (bind_eq _ _ _ _ _ _ He2 eq_refl), Ho2, Hl1. fold (text_lines (output_listing b6 w)).
  destruct (own_source _ _ _) as [ip|] eqn:Eo.
  - exists w2, (Ok (Some ip)). split; [done|]. exists ip. split; [done|].
    apply own_source_inv in Eo as (line & Hin & Hc & Hs).
    apply own_source_ipv6_inv in Hs as Hp. split; [apply Hp|]. split; [apply Hp|].
    right. exists line. split; [done|]. split; [done|]. unfold own_source_ipv6 in Hs.
    destruct (output_rule_source_ipv6 line) as [a|]; [|done]. simpl in Hs. by case_decide.
  - apply first_prefix_wf in Ep as Hp.
    destruct (source_ipv6_attempts_spec IPV6_ATTEMPTS 0 b name p w2 Hb) as (w3 & r & Hr & Hspec);
      [eapply trusted_same_files; [eauto with dockerwall|by transitivity w1|done]|done|].
    exists w3, r. split; [done|]. rewrite Ha2, Ha1 in Hspec. destruct r as [o|e].
    + destruct Hspec as (i & Hi & -> & Hn). eexists. split; [done|].
      split; [by apply source_ipv6_wf|]. split; [|by left].
      apply segments_prefix; [by apply source_ipv6_wf|done|by apply source_ipv6_prefix].
    + intros i Hi. apply Hspec. change (Z.of_nat IPV6_ATTEMPTS) with 50. lia.
Qed.
End allocation.

(** ** Reuse of an address *)

(** How [iptables -S] prints a comment: as it is when it has letters, digits,
    underscores and hyphens only; otherwise in quotation marks, with a backslash
    before each quotation mark, apostrophe and backslash. *)
Definition unquoted (a : ascii) : bool :=
  is_ascii_alphanumeric (byte_of a) || Ascii.eqb a "_" || Ascii.eqb a "-".
Definition escaped (a : ascii) : bool := Ascii.eqb a "034" || Ascii.eqb a "'" || Ascii.eqb a "\".

Fixpoint escape (s : string) : string :=
  match s with
  | "" => ""
  | String a s' => if escaped a then String "\" (String a (escape s')) else String a (escape s')
  end.

Definition quote : string := String "034" "".

Definition save_string (s : string) : string :=
  if negb (is_empty s) && all_chars unquoted s then s else quote +:+ escape s +:+ quote.

(** The words of a rule as they are printed *)
Fixpoint saved_words (r : rule) : list string :=
  match r with
  | o :: a :: r' =>
      if (o =? "--match-set")%string
      then o :: a :: match r' with d :: r'' => d :: saved_words r'' | [] => [] end
      else o :: (if (o =? "--comment")%string then save_string a else a) :: saved_words r'
  | _ => r
  end.

(** How [iptables -S] prints a rule *)
Definition rule_line (chain : string) (r : rule) : string := join " " ("-A" :: chain :: saved_words r).

(** A name that is printed as it is inside of quotation marks *)
Definition unescaped (s : string) : bool := all_chars (fun a => negb (escaped a)) s.

Lemma escape_id s : unescaped s = true -> escape s = s.
Proof.
  unfold unescaped. induction s as [|a s IH]; [done|]. unfold all_chars in *. simpl.
  intros [Ha Hs]%andb_true_iff. apply negb_true_iff in Ha. by rewrite Ha, IH.
Qed.

(** The comment of a hook rule is printed in quotation marks. *)
Lemma saved_hook name src :
  unescaped name = true ->
  saved_words (i_spec (podman_hook name src))
  = ["-s"; src; "-m"; "comment"; "--comment"; quote +:+ own_marker name +:+ quote; "-j"; PODMAN_OUTPUT_CHAIN].
Proof.
  intros Hn. cbn [podman_hook filter_insert i_spec podman_hook_args drop]. fold (own_marker name).
  assert (save_string (own_marker name) = quote +:+ own_marker name +:+ quote) as <-; [|done].
  unfold save_string. assert (unescaped (own_marker name) = true) as Hm.
  { unfold unescaped, own_marker in *. by rewrite !all_chars_app, Hn. }
  rewrite (escape_id _ Hm). unfold own_marker at 2. rewrite !all_chars_app. done.
Qed.

Lemma marker_contained name src :
  unescaped name = true ->
  contains (own_marker name) (rule_line "OUTPUT" (i_spec (podman_hook name src))) = true.
Proof.
  intros Hn. apply contains_spec.
  exists ("-A OUTPUT -s " +:+ src +:+ " -m comment --comment " +:+ quote), (quote +:+ " -j " +:+ PODMAN_OUTPUT_CHAIN).
  unfold rule_line. rewrite saved_hook by done. cbn [join]. by rewrite !sapp_assoc.
Qed.

Lemma hook_words name src :
  unescaped name = true -> word name -> word src ->
  Forall word ("-A" :: "OUTPUT" :: saved_words (i_spec (podman_hook name src))).
Proof.
  intros Hu Hn Hs. rewrite saved_hook by done.
  repeat first [apply Forall_nil_2 | apply Forall_cons_2]; try done; try (by split).
  apply word_app; [done|]. unfold own_marker. rewrite !all_chars_app. by rewrite (proj2 Hn).
Qed.

Lemma source_field_hook name src :
  unescaped name = true -> word name -> word src ->
  source_field (split_ascii_whitespace (rule_line "OUTPUT" (i_spec (podman_hook name src)))) = Some src.
Proof.
  intros Hu Hn Hs. unfold rule_line. rewrite split_aws_join by (by apply hook_words).
  by rewrite saved_hook.
Qed.

Lemma own_source_first {A} (source : string -> option A) marker pre line post a :
  Forall (fun l => contains marker l = false) pre ->
  contains marker line = true -> source line = Some a ->
  own_source source marker (pre ++ line :: post) = Some a.
Proof.
  intros Hpre Hc Hs. induction Hpre as [|l pre Hl _ IH]; cbn [app own_source].
  - by rewrite Hc, Hs.
  - by rewrite Hl.
Qed.

Section reuse.
Context `{AddressTool W} `{!StableFiles W}.

(** C25. Preparing a policy again keeps its addresses: when the listing has the
    hook rule that an earlier preparation installed for an address, behind
    rules that are not the policy's, then the IPv4 allocation gives this
    address again, whatever interfaces have it.  The name is one word without
    quotation marks, apostrophes and backslashes, which the listing escapes. *)
Theorem allocate_source_ip_stable b b4 name a pre post (w : W)
    (Hb4 : b4 ∈ IPTABLES_CANDIDATES) (Ht4 : trusted w b4)
    (Hname : word name) (Hplain : unescaped name = true) (Ha : in_width 32 a)
    (Hpre : Forall (fun l => contains (own_marker name) l = false) pre)
    (Hlist : text_lines (output_listing b4 w)
             = pre ++ rule_line "OUTPUT" (i_spec (podman_hook name (v4_to_string a +:+ "/32"))) :: post) :
  exists w', allocate_rootless_podman_source_ip b4 b name w = Some (w', Ok a).
Proof.
  destruct (rules_checked b4 w) as (w1 & out & He & Ho & _); [by apply elem_of_app; left|done|].
  exists w1. unfold allocate_rootless_podman_source_ip. eapply bind_eq; [exact He|].
  rewrite Ho. fold (text_lines (output_listing b4 w)). rewrite Hlist.
  rewrite (own_source_first _ _ _ _ _ a Hpre); [done|by apply marker_contained|].
  unfold output_rule_source_ip. rewrite source_field_hook; [|done|done|].
  - simpl. rewrite (proj2 (strip_suffix_spec _ _ _) eq_refl). simpl. by apply parse_ipv4_to_string.
  - apply word_app; [by apply (ip_word (V4 a))|done].
Qed.

(** The same for IPv6, as long as the interface still has the /64. *)
Theorem allocate_source_ipv6_stable b b6 interface name a prefix pre post (w : W)
    (Hb : b ∈ IP_CANDIDATES) (Hb6 : b6 ∈ IP6TABLES_CANDIDATES) (Ht : trusted w b) (Ht6 : trusted w b6)
    (Hinterface : validate_interface_name interface = Ok interface)
    (Hname : word name) (Hplain : unescaped name = true) (Ha : in_width 128 a)
    (Hprefix : (fun listing => first_prefix (text_lines listing)) <$> dev_listing interface w = Some (Some prefix))
    (Hsame : a / 2 ^ 64 = prefix / 2 ^ 64)
    (Hpre : Forall (fun l => contains (own_marker name) l = false) pre)
    (Hlist : text_lines (output_listing b6 w)
             = pre ++ rule_line "OUTPUT" (i_spec (podman_hook name (v6_to_string a +:+ "/128"))) :: post) :
  exists w', allocate_rootless_podman_source_ipv6 b6 b interface name w = Some (w', Ok (Some a)).
Proof.
  destruct (prefix_checked b interface w Hb Ht Hinterface) as (w1 & r1 & He1 & Hr1 & _ & Hf1 & Hl1).
  destruct (dev_listing interface w) as [listing|]; [|done]. injection Hprefix as Hprefix. subst r1.
  destruct (rules_checked b6 w1) as (w2 & out & He2 & Ho2 & _);
    [by apply elem_of_app; right|eapply trusted_same_files; eauto with dockerwall|].
  exists w2. unfold allocate_rootless_podman_source_ipv6.
  eapply bind_eq; [exact He1|]. rewrite Hprefix. eapply bind_eq; [exact He2|].
  rewrite Ho2, Hl1. fold (text_lines (output_listing b6 w)). rewrite Hlist.
  rewrite (own_source_first _ _ _ _ _ a Hpre); [done|by apply marker_contained|].
  unfold own_source_ipv6, output_rule_source_ipv6. rewrite source_field_hook; [|done|done|].
  - simpl. rewrite (proj2 (strip_suffix_spec _ _ _) eq_refl). simpl.
    rewrite parse_ipv6_to_string by done. simpl. rewrite decide_True; [done|].
    apply segments_prefix; [done|by eapply first_prefix_wf|done].
  - apply word_app; [by apply (ip_word (V6 a))|done].
Qed.
End reuse.

(** The hook rule of a policy whose name has an apostrophe is not recognised in
    the listing, so such a policy gets another address with each preparation. *)
Example apostrophe_forgotten :
  contains (own_marker "it's") (rule_line "OUTPUT" (i_spec (podman_hook "it's" "198.19.1.2/32"))) = false.
Proof. reflexivity. Qed.
