(* ===== verification/Terminate.v ===== *)
(** * The preparation of a network ends ([src/helper.rs])

    The only loop of the program without a bound of its own is the one of
    [remove_rule_all].  It ends because each of its rounds removes a rule, and
    everything around it is bounded; so a preparation has a result, a success or
    an error, for every large enough fuel, and it does not depend on the fuel. *)

From S2P Require Import Prelude RustStr Net Host Ipset Firewall Address Control Prepare.

(** The arguments of an insertion, and of a deletion: the table, if it is given,
    then the operation *)
Definition is_insertion (args : list string) : bool :=
  match args with
  | o :: rest =>
      (o =? "-I")%string
      || match rest with
         | t :: o' :: _ => (o =? "-t")%string && negb (is_operation t) && (o' =? "-I")%string
         | _ => false
         end
  | [] => false
  end.

Definition is_deletion (args : list string) : Prop :=
  exists pre rest, args = pre ++ "-D" :: rest /\ (pre = [] \/ exists t, pre = ["-t"; t]).

Definition PACKET_FILTERS : list string := IPTABLES_CANDIDATES ++ IP6TABLES_CANDIDATES.

(** A successful [iptables -D] removes a rule: a packet filter has finitely many
    rules, and has one less afterwards. *)
Class FiniteRules (W : Type) `{Host W} := {
  rule_count : string -> W -> nat;
  delete_counts b args w w' out :
    b ∈ PACKET_FILTERS -> is_deletion args -> exec b args w = (w', Ok out) -> success out = true ->
    (rule_count b w' < rule_count b w)%nat
}.

(** ** Computations that end *)

(** From every world the computation has one result for all large enough fuels. *)
Definition ends {W A} (m : nat -> M W A) : Prop :=
  forall w, exists n r, forall fuel, (n <= fuel)%nat -> m fuel w = Some r.

Section ends.
Context {W : Type}.

Lemma ends_returns {A} (m : M W A) : (forall w, returns m w) -> ends (fun _ => m).
Proof. intros Hm w. destruct (Hm w) as [r Hr]. by exists 0%nat, r. Qed.

Lemma ends_bind {A B} (m : nat -> M W A) (k : nat -> A -> M W B) :
  ends m -> (forall a, ends (fun fuel => k fuel a)) -> ends (fun fuel => bind (m fuel) (k fuel)).
Proof.
  intros Hm Hk w. destruct (Hm w) as (n & [w1 [a|e]] & Hn).
  - destruct (Hk a w1) as (n' & r & Hn'). exists (n + n')%nat, r. intros fuel Hf.
    eapply bind_eq; [apply Hn; lia|apply Hn'; lia].
  - exists n, (w1, Err e). intros fuel Hf. unfold bind. by rewrite Hn.
Qed.

Lemma ends_attempt {A} (m : nat -> M W A) : ends m -> ends (fun fuel => attempt (m fuel)).
Proof.
  intros Hm w. destruct (Hm w) as (n & [w1 r] & Hn). exists n, (w1, Ok r). intros fuel Hf.
  unfold attempt. by rewrite Hn.
Qed.

Lemma ends_ret {A} (a : A) : ends (fun _ => ret a : M W A).
Proof. apply ends_returns. by eexists. Qed.

Lemma ends_fail {A} e : ends (fun _ => fail e : M W A).
Proof. apply ends_returns. by eexists. Qed.

Lemma ends_lift {A} (r : Result A) : ends (fun _ => lift r : M W A).
Proof. apply ends_returns. by eexists. Qed.

Lemma ends_ask {A} (f : W -> A) : ends (fun _ => ask f).
Proof. apply ends_returns. by eexists. Qed.

Lemma ends_tell (f : W -> W) : ends (fun _ => tell f).
Proof. apply ends_returns. by eexists. Qed.

Lemma ends_call {A} (f : W -> W * Result A) : ends (fun _ => call f).
Proof. apply ends_returns. by eexists. Qed.
End ends.

(** A resolved binary is one of the candidates. *)
Lemma ends_resolve `{Host W} {A} candidates (k : nat -> string -> M W A) :
  (forall b, b ∈ candidates -> ends (fun fuel => k fuel b)) ->
  ends (fun fuel => bind (resolve_binary candidates) (k fuel)).
Proof.
  intros Hk. assert (forall l, (forall b, b ∈ l -> b ∈ candidates) -> forall w, exists r,
    resolve_binary l w = Some (w, r) /\ match r with Ok b => b ∈ candidates | Err _ => True end) as Hr.
  { induction l as [|c l IH]; intros Hl w; [by eexists|]. cbn [resolve_binary].
    destruct (is_trusted_binary_eq c w) as (t & Ht & _). unfold bind. rewrite Ht.
    destruct t; [exists (Ok c); split; [done|apply Hl; by left]|]. apply IH. intros b Hb. apply Hl. by right. }
  intros w. destruct (Hr candidates (fun b Hb => Hb) w) as ([b|e] & Hw & Hb).
  - destruct (Hk b Hb w) as (n & r & Hn). exists n, r. intros fuel Hf. eapply bind_eq; [exact Hw|by apply Hn].
  - exists 0%nat, (w, Err e). intros fuel _. unfold bind. by rewrite Hw.
Qed.

Create HintDb ends.
#[export] Hint Resolve ends_ret ends_fail ends_lift ends_ask ends_tell ends_call : ends.

(** Goes through a computation. *)
Ltac run_ends :=
  repeat first
    [ solve [eauto with ends]
    | match goal with
      | |- ends (fun _ => bind (resolve_binary _) _) => apply ends_resolve; intros ? ?
      | |- ends (fun _ => bind _ _) => apply ends_bind; [|intros ?]
      | |- ends (fun _ => attempt _) => apply ends_attempt
      | |- ends (fun _ => match ?x with _ => _ end) => destruct x
      end ].

Section parts.
Context `{Host W}.

Lemma ends_command b args : ends (fun _ => run_command_allow_failure b args : M W Output).
Proof. apply ends_call. Qed.

Lemma ends_checked b args : ends (fun _ => run_command_checked b args : M W Output).
Proof. apply ends_returns. intros w. apply run_command_checked_returns. Qed.

Lemma ends_trusted path : ends (fun _ => is_trusted_binary path : M W bool).
Proof. unfold is_trusted_binary. run_ends. Qed.
#[local] Hint Resolve ends_command ends_checked ends_trusted : ends.

Lemma ends_destroy b name : ends (fun _ => destroy_ipsets b name : M W unit).
Proof. unfold destroy_ipsets. run_ends. Qed.

Lemma ends_create b name : ends (fun _ => create_ipsets b name : M W unit).
Proof. unfold create_ipsets, create_ipset. run_ends. Qed.

Lemma ends_get_dns_port : ends (fun _ => get_dns_port : M W Z).
Proof. unfold get_dns_port. run_ends. Qed.

Lemma ends_send_create name subnet domains : ends (fun _ => send_create name subnet domains : M W unit).
Proof. unfold send_create, send_control_command. run_ends. Qed.

Lemma ends_chain b c : ends (fun _ => ensure_chain b c : M W unit).
Proof. unfold ensure_chain. run_ends. Qed.
End parts.

#[export] Hint Resolve ends_command ends_checked ends_trusted ends_destroy ends_create
  ends_get_dns_port ends_send_create ends_chain : ends.

(** ** Rules *)

(** What deletes a rule that was inserted is a deletion. *)
Lemma delete_args_deletion args : is_insertion args = true -> is_deletion (delete_args args).
Proof.
  assert (forall pre rest, (pre = [] \/ exists t, pre = ["-t"; t]) -> is_deletion (pre ++ "-D" :: rest)) as Hd.
  { intros pre rest Hpre. by exists pre, rest. }
  destruct args as [|o rest]; [done|]. cbn [is_insertion]. intros [Ho|Hr]%orb_true_iff.
  - apply String.eqb_eq in Ho as ->. unfold delete_args. cbn [position is_operation].
    change (is_operation "-I") with true. cbv iota zeta. cbn [Nat.add insert list_insert].
    change (<[0%nat := "-D"]> ("-I" :: rest)) with ("-D" :: rest).
    destruct (_ !! 2%nat) as [x|]; [|apply (Hd [] rest); by left].
    destruct (parse_uint 32 x); [|apply (Hd [] rest); by left].
    cbn [take app]. apply (Hd []). by left.
  - destruct rest as [|t [|o' rest]]; [done..|]. rewrite !andb_true_iff in Hr.
    destruct Hr as [[Ho%String.eqb_eq Ht%negb_true_iff] Ho'%String.eqb_eq]. subst o o'.
    unfold delete_args. cbn [position]. rewrite Ht. change (is_operation "-t") with false.
    change (is_operation "-I") with true. cbv iota zeta. cbn [fmap option_fmap option_map Nat.add].
    change (<[2%nat := "-D"]> ("-t" :: t :: "-I" :: rest)) with (["-t"; t] ++ "-D" :: rest).
    destruct (_ !! 4%nat) as [x|]; [|apply Hd; right; by eexists].
    destruct (parse_uint 32 x); [|apply Hd; right; by eexists].
    cbn [take app]. apply (Hd ["-t"; t]). right. by eexists.
Qed.

Section rules.
Context `{FiniteRules W}.

Lemma remove_rule_all_ends b args :
  b ∈ PACKET_FILTERS -> is_deletion args -> ends (fun fuel => remove_rule_all fuel b args : M W unit).
Proof.
  intros Hb Hd w. remember (rule_count b w) as k eqn:Hk. revert w Hk.
  induction k as [k IH] using (well_founded_induction lt_wf). intros w ->.
  destruct (exec b args w) as [w1 r] eqn:E.
  destruct r as [out|e]; [destruct (success out) eqn:Es|].
  - destruct (IH (rule_count b w1) (delete_counts b args w w1 out Hb Hd E Es) w1 eq_refl) as (n & r & Hn).
    exists (S n), r. intros [|fuel] Hf; [lia|]. cbn [remove_rule_all].
    unfold run_command_allow_failure, bind, call. rewrite E, Es. apply Hn. lia.
  - exists 1%nat, (w1, Ok tt). intros [|fuel] Hf; [lia|]. cbn [remove_rule_all].
    unfold run_command_allow_failure, bind, call. by rewrite E, Es.
  - exists 1%nat, (w1, Err e). intros [|fuel] Hf; [lia|]. cbn [remove_rule_all].
    unfold run_command_allow_failure, bind, call. by rewrite E.
Qed.

Lemma ends_rule b args :
  b ∈ PACKET_FILTERS -> is_insertion args = true -> ends (fun fuel => ensure_rule_present fuel b args : M W unit).
Proof.
  intros Hb Ho. unfold ensure_rule_present.
  apply ends_bind; [by apply remove_rule_all_ends, delete_args_deletion|intros _]. run_ends.
Qed.

Lemma ends_rules b rules :
  b ∈ PACKET_FILTERS -> forallb is_insertion rules = true -> ends (fun fuel => ensure_rules fuel b rules : M W unit).
Proof.
  intros Hb. induction rules as [|args rules IH]; cbn [forallb ensure_rules]; [run_ends|].
  intros [Ho Hr]%andb_true_iff. apply ends_bind; [by apply ends_rule|intros _; by apply IH].
Qed.
End rules.

#[export] Hint Resolve ends_rule ends_rules : ends.

(** ** Preparations *)

Section preparation.
Context `{FiniteRules W} (finish : string -> Z -> Z).

Lemma ends_docker_rules b plan :
  b ∈ PACKET_FILTERS -> ends (fun fuel => ensure_docker_iptables_rules fuel b plan : M W unit).
Proof. intros. unfold ensure_docker_iptables_rules. by apply ends_rules. Qed.

Lemma ends_podman_v6_rules b name cidr :
  b ∈ PACKET_FILTERS -> ends (fun fuel => ensure_rootless_podman_ipv6_rules fuel b name cidr : M W unit).
Proof.
  intros. unfold ensure_rootless_podman_ipv6_rules. apply ends_bind; [run_ends|intros _]. by apply ends_rules.
Qed.

Lemma ends_podman_rules b b6 name cidr cidr6 interface port :
  b ∈ PACKET_FILTERS -> b6 ∈ PACKET_FILTERS ->
  ends (fun fuel => ensure_rootless_podman_rules fuel b b6 name cidr cidr6 interface port : M W unit).
Proof.
  intros. unfold ensure_rootless_podman_rules. apply ends_bind; [run_ends|intros _].
  apply ends_bind; [by apply ends_rules|intros _]. apply ends_bind.
  { destruct (negb (port =? 53)); [|run_ends]. unfold ensure_rootless_dns_redirects. by apply ends_rules. }
  intros _. apply ends_bind; [by apply ends_rule|intros _].
  destruct cidr6; [by apply ends_podman_v6_rules|run_ends].
Qed.

(** The resolved packet filters *)
Lemma iptables_filter b : b ∈ IPTABLES_CANDIDATES -> b ∈ PACKET_FILTERS.
Proof. intros. apply elem_of_app. by left. Qed.

Lemma ip6tables_filter b : b ∈ IP6TABLES_CANDIDATES -> b ∈ PACKET_FILTERS.
Proof. intros. apply elem_of_app. by right. Qed.
#[local] Hint Resolve iptables_filter ip6tables_filter : ends.

Lemma ends_docker_setup plan : ends (fun fuel => setup_docker_resources fuel plan : M W unit).
Proof.
  unfold setup_docker_resources, remove_docker_network, create_docker_network. pose proof ends_docker_rules. run_ends.
Qed.

Lemma ends_docker name domains : ends (fun fuel => prepare_docker_network finish fuel name domains : M W unit).
Proof.
  unfold prepare_docker_network. apply ends_bind; [run_ends|]. intros port.
  generalize 0 (@None string). induction DOCKER_ATTEMPTS as [|n IH]; intros k err;
    cbn [docker_attempts]; [run_ends|].
  apply ends_bind; [apply ends_attempt, ends_docker_setup|]. intros []; run_ends.
Qed.

Lemma ends_daemon : ends (fun _ => ensure_rootless_dns_daemon : M W Z).
Proof.
  assert (forall n, ends (fun _ => wait_for_daemon n : M W Z)) as Hw.
  { induction n as [|n IH]; cbn [wait_for_daemon]; run_ends. }
  unfold ensure_rootless_dns_daemon. run_ends.
Qed.

Lemma ends_source_ip b4 b name : ends (fun _ => allocate_rootless_podman_source_ip b4 b name : M W Ipv4Addr).
Proof.
  unfold allocate_rootless_podman_source_ip. apply ends_bind; [run_ends|]. intros out.
  destruct (own_source _ _ _); [run_ends|]. generalize 0.
  induction (Z.to_nat SOURCE_IP_SLOTS) as [|n IH]; intros k; cbn [source_ip_attempts]; run_ends.
Qed.

Lemma ends_source_ipv6 b6 b interface name :
  ends (fun _ => allocate_rootless_podman_source_ipv6 b6 b interface name : M W (option Ipv6Addr)).
Proof.
  unfold allocate_rootless_podman_source_ipv6, rootless_podman_ipv6_prefix.
  assert (forall n k prefix, ends (fun _ => source_ipv6_attempts n k b name prefix : M W (option Ipv6Addr))) as Ha.
  { induction n as [|n IH]; intros k prefix; cbn [source_ipv6_attempts]; run_ends. }
  run_ends.
Qed.

Lemma ends_podman name domains interface :
  ends (fun fuel => prepare_rootless_podman_network fuel name domains interface : M W unit).
Proof.
  pose proof ends_daemon. pose proof ends_source_ip. pose proof ends_source_ipv6. pose proof ends_podman_rules.
  unfold prepare_rootless_podman_network, ensure_host_root, ensure_rootless_dns_alias,
    default_route_interface, configure_rootless_podman_source_ipv6, print_podman.
  run_ends.
Qed.

(** C13. Preparing a network always ends, with success or an error: on every
    host, whatever its tools answer, as long as each successful deletion of a rule
    removes one, there is a result that the preparation has for every large enough
    fuel, for either runtime and any arguments. *)
Theorem prepare_network_ends name domains runtime interface (w : W) :
  exists n w' r, forall fuel, (n <= fuel)%nat ->
    prepare_network finish fuel name domains runtime interface w = Some (w', r).
Proof.
  assert (ends (fun fuel => prepare_network finish fuel name domains runtime interface : M W unit)) as He.
  { unfold prepare_network. destruct runtime; [|apply ends_podman].
    destruct interface; [run_ends|apply ends_docker]. }
  destruct (He w) as (n & [w' r] & Hn). by exists n, w', r.
Qed.
End preparation.
