(* ===== verification/System.v ===== *)
(** * What is read of the system ([src/helper.rs], [src/main.rs])

    Who is allowed to prepare a rootless Podman network ([/proc]), the interface
    of the default route, and the upstream resolver of [/etc/resolv.conf]. *)

From S2P Require Import Prelude RustStr Net Host Ipset Address Prepare.

(** ** The upstream resolver ([src/main.rs]) *)

(** What one line of [resolv.conf] gives *)
Definition nameserver_line (raw_line : string) : option string :=
  let line := trim (default "" (head (split "#" raw_line))) in
  if is_empty line then None
  else match split_whitespace line with
       | first :: ip_text :: _ =>
           if negb (first =? "nameserver")%string then None
           else match parse_ip ip_text with
                | Some (V4 addr) => Some (v4_to_string addr +:+ ":53")
                | Some (V6 addr) => Some ("[" +:+ v6_to_string addr +:+ "]:53")
                | None => None
                end
       | _ => None
       end.

Fixpoint first_nameserver (lines : list string) : option string :=
  match lines with
  | [] => None
  | line :: lines' =>
      match nameserver_line line with
      | Some upstream => Some upstream
      | None => first_nameserver lines'
      end
  end.

Definition resolve_upstream_from_resolv_conf `{Host W} : M W (option string) :=
  let! contents := ask (read_to_string "/etc/resolv.conf") in
  match contents with
  | Ok contents => ret (first_nameserver (lines contents))
  | Err _ => ret None
  end.

Example resolv_ex :
  first_nameserver (lines ("# nameserver 9.9.9.9" +:+ nl +:+ "search lan" +:+ nl
                           +:+ "nameserver fe80::1%eth0" +:+ nl +:+ "nameserver" +:+ tabs +:+ "10.0.0.2 # local" +:+ nl))
  = Some "10.0.0.2:53".
Proof. vm_compute. done. Qed.

(** ** Theorems: the identity of the caller *)

(** Lines, then the rest of a text *)
Definition with_lines (ls : list string) (rest : string) : string :=
  fold_right (fun l t => l +:+ nl +:+ t) rest ls.

Definition plain_line (l : string) : Prop := has_char newline l = false /\ has_char cr l = false.

Lemma lines_with_lines ls rest : Forall plain_line ls -> lines (with_lines ls rest) = ls ++ lines rest.
Proof.
  induction 1 as [|l ls [Hn Hc] _ IH]; [done|]. cbn [with_lines fold_right app].
  rewrite lines_line by done. by f_equal.
Qed.

(** The line of [/proc/self/status] with the real, effective, saved and file
    system user, and a line of [/proc/self/uid_map], whose columns are padded *)
Definition uid_line (real effective saved fs : Z) : string :=
  "Uid:" +:+ tabs +:+ dec real +:+ tabs +:+ dec effective +:+ tabs +:+ dec saved +:+ tabs +:+ dec fs.

Definition uid_map_line (a b c : nat) (inside outside count : Z) : string :=
  spaces a +:+ dec inside +:+ " " +:+ spaces b +:+ dec outside +:+ " " +:+ spaces c +:+ dec count.

Lemma dec_plain n : 0 <= n -> plain_line (dec n).
Proof. intros. split; by apply dec_has_char. Qed.

Lemma plain_app a b : plain_line a -> plain_line b -> plain_line (a +:+ b).
Proof. intros [Ha Hc] [Hb Hd]. split; by rewrite has_char_app, ?Ha, ?Hb, ?Hc, ?Hd. Qed.

Lemma spaces_plain n : plain_line (spaces n).
Proof. induction n as [|n [IH1 IH2]]; by split. Qed.

#[local] Hint Resolve dec_plain plain_app spaces_plain : dockerwall.

Lemma split_whitespace_tab w rest :
  graph_word w -> split_whitespace (w +:+ tabs +:+ rest) = w :: split_whitespace rest.
Proof. intros. by apply (split_whitespace_word w tab). Qed.

Lemma split_whitespace_space w rest :
  graph_word w -> split_whitespace (w +:+ " " +:+ rest) = w :: split_whitespace rest.
Proof. intros. by apply (split_whitespace_word w " "%char). Qed.

Lemma effective_uid_line pre real effective saved fs rest :
  Forall (fun l => plain_line l /\ starts_with "Uid:" l = false) pre ->
  0 <= real -> 0 <= effective -> 0 <= saved -> 0 <= fs ->
  effective_uid (with_lines pre (uid_line real effective saved fs +:+ nl +:+ rest)) = Ok (dec effective).
Proof.
  intros Hpre Hr He Hs Hf. unfold effective_uid.
  rewrite lines_with_lines by (eapply Forall_impl; [exact Hpre|]; by intros ? []).
  assert (plain_line (uid_line real effective saved fs)) as [Hn Hc].
  { unfold uid_line. repeat apply plain_app; try (by apply dec_plain); by split. }
  rewrite lines_line by done.
  assert (List.find (starts_with "Uid:") (pre ++ uid_line real effective saved fs :: lines rest)
          = Some (uid_line real effective saved fs)) as ->.
  { induction Hpre as [|l pre [_ Hl] _ IH]; cbn [app List.find]; [done|]. by rewrite Hl. }
  cbn [ok_or rbind]. unfold uid_line.
  rewrite !split_whitespace_tab by (first [by apply dec_graph | by split]). done.
Qed.

Lemma host_uid_line a b c inside outside count rest :
  0 <= inside -> 0 <= outside -> 0 <= count ->
  host_uid (uid_map_line a b c inside outside count +:+ nl +:+ rest) = Ok (dec outside).
Proof.
  intros Hi Ho Hc. unfold host_uid.
  assert (plain_line (uid_map_line a b c inside outside count)) as [Hn Hcr].
  { unfold uid_map_line. repeat apply plain_app; try (by apply dec_plain); try apply spaces_plain; by split. }
  rewrite lines_line by done. cbn [head option_bind mbind]. unfold uid_map_line.
  rewrite split_whitespace_spaces, split_whitespace_space by (by apply dec_graph).
  rewrite split_whitespace_spaces, split_whitespace_space by (by apply dec_graph). done.
Qed.

Lemma dec_zero n : 0 <= n -> (dec n =? "0")%string = (n =? 0).
Proof.
  intros Hn. destruct (Z.eqb_spec n 0) as [->|Hne]; [done|].
  apply String.eqb_neq. intros E. apply Hne, dec_inj; [done|lia|done].
Qed.

Section identity.
Context `{Host W}.

(** C34. Only the host's root gets past the check: with the files as the kernel
    writes them, the check succeeds exactly when the effective user is 0 and
    the user namespace maps it to the host's user 0, and otherwise gives the
    error for the condition that fails, the first one first; it changes
    nothing. *)
Theorem ensure_host_root_spec pre real effective saved fs rest a b c inside outside count rest' (w : W)
    (Hpre : Forall (fun l => plain_line l /\ starts_with "Uid:" l = false) pre)
    (Hreal : 0 <= real) (Heff : 0 <= effective) (Hsaved : 0 <= saved) (Hfs : 0 <= fs)
    (Hin : 0 <= inside) (Hout : 0 <= outside) (Hcount : 0 <= count)
    (Hstatus : read_to_string "/proc/self/status" w
               = Ok (with_lines pre (uid_line real effective saved fs +:+ nl +:+ rest)))
    (Hmap : read_to_string "/proc/self/uid_map" w
            = Ok (uid_map_line a b c inside outside count +:+ nl +:+ rest')) :
  ensure_host_root w =
  Some (w, if negb (effective =? 0) then Err "rootless Podman preparation must run as host root"
           else if negb (outside =? 0)
           then Err "rootless Podman preparation must run as host root, not a user namespace root"
           else Ok tt).
Proof.
  unfold ensure_host_root, bind, ask, lift. rewrite Hstatus, effective_uid_line by done.
  rewrite dec_zero by done. destruct (effective =? 0); [|done]. cbn [negb].
  rewrite Hmap, host_uid_line by done. rewrite dec_zero by done. by destruct (outside =? 0).
Qed.
End identity.

(** ** Theorems: the default route *)

Lemma route_device_found mid interface post :
  "dev" ∉ mid -> route_device (mid ++ "dev" :: interface :: post) = Some (validate_interface_name interface).
Proof.
  induction mid as [|f mid IH]; intros Hd; [done|].
  apply not_elem_of_cons in Hd as [Hf Hd]. cbn [app route_device].
  rewrite (proj2 (String.eqb_neq f "dev")) by congruence. by apply IH.
Qed.

(** The interface of the first default route is found, and checked: behind
    lines that are no default routes, the device of a route
    ["default ... dev <interface> ..."] is the result when it is a valid name,
    and an invalid name is an error even if other routes follow. *)
Theorem route_interface_found pre mid interface post rest
    (Hpre : Forall (fun l => head (split_ascii_whitespace l) <> Some "default") pre)
    (Hmid : Forall word mid) (Hdev : "dev" ∉ mid) (Hi : word interface) (Hpost : Forall word post) :
  route_interface (pre ++ join " " ("default" :: mid ++ "dev" :: interface :: post) :: rest)
  = validate_interface_name interface.
Proof.
  induction Hpre as [|l pre Hl _ IH]; cbn [app route_interface].
  - rewrite split_aws_join.
    + change ("default" =? "default")%string with true. cbv iota. by rewrite route_device_found.
    + apply Forall_cons_2; [by split|]. apply Forall_app. split; [done|].
      repeat apply Forall_cons_2; [by split|done|done].
  - destruct (split_ascii_whitespace l) as [|first fields]; [exact IH|].
    rewrite (proj2 (String.eqb_neq first "default")); [exact IH|]. intros ->. by apply Hl.
Qed.

Lemma route_interface_found_witness :
  route_interface ["broadcast 10.0.0.255 dev eth1"; "default via 10.0.0.1 dev enp0s3.100 metric 100"]
  = Ok "enp0s3.100".
Proof.
  assert (word "via" /\ word "10.0.0.1" /\ word "enp0s3.100" /\ word "metric" /\ word "100")
    as (? & ? & ? & ? & ?) by (by repeat split).
  refine (eq_trans (route_interface_found ["broadcast 10.0.0.255 dev eth1"] ["via"; "10.0.0.1"] "enp0s3.100"
                      ["metric"; "100"] [] _ _ _ _ _) _).
  - apply Forall_cons_2; [|apply Forall_nil_2]. vm_compute. congruence.
  - by repeat (apply Forall_cons_2 || apply Forall_nil_2).
  - rewrite !not_elem_of_cons. split; [done|]. split; [done|apply not_elem_of_nil].
  - done.
  - by repeat (apply Forall_cons_2 || apply Forall_nil_2).
  - reflexivity.
Defined.

(** ** Theorems: the upstream *)

Lemma first_nameserver_line ls u : first_nameserver ls = Some u -> exists l, nameserver_line l = Some u.
Proof.
  induction ls as [|l ls IH]; [done|]. cbn [first_nameserver].
  destruct (nameserver_line l) as [u'|] eqn:E; [|done]. intros [= <-]. eauto.
Qed.

Lemma nameserver_line_socket l u :
  nameserver_line l = Some u -> exists ip, ip_wf ip /\ u = socket_to_string ip 53.
Proof.
  unfold nameserver_line. cbv zeta. destruct (is_empty _); [done|].
  destruct (split_whitespace _) as [|first [|ip_text rest]]; [done..|].
  destruct (negb _); [done|]. destruct (parse_ip ip_text) as [ip|] eqn:E; [|done].
  intros Hu. exists ip. split; [by eapply parse_ip_wf|]. destruct ip; injection Hu as <-; done.
Qed.

(** The upstream found in [resolv.conf], if there is one, is a socket address
    that the proxy can parse, with port 53. *)
Lemma upstream_parses ls upstream (Hu : first_nameserver ls = Some upstream) :
  exists ip, ip_wf ip /\ parse_socket_addr upstream = Some (ip, 53).
Proof.
  apply first_nameserver_line in Hu as (l & Hl).
  apply nameserver_line_socket in Hl as (ip & Hip & ->). exists ip. split; [done|].
  by apply parse_socket_to_string.
Qed.

Lemma ip_graph ip : ip_wf ip -> graph_word (ip_to_string ip).
Proof.
  intros Hip. split; [by apply (ip_word ip)|]. apply ip_all_chars; [|done|done].
  intros d Hd. unfold graph_char, digit_char.
  destruct (Z.ltb_spec d 10); rewrite byte_of_chr by lia; lia.
Qed.

Lemma ip_no_hash ip : has_char "#" (ip_to_string ip) = false.
Proof.
  assert (forall s, all_chars (fun a => negb (Ascii.eqb a "#")) s = true -> has_char "#" s = false) as Hs.
  { induction s as [|a s IH]; [done|]. rewrite all_chars_cons. cbn [has_char].
    intros [Ha%negb_true_iff Hs]%andb_true_iff. by rewrite Ha, IH. }
  apply Hs, ip_all_chars; [|done|done]. intros d Hd. apply negb_true_iff, Ascii.eqb_neq.
  by apply digit_char_ne.
Qed.

(** A usable line is found, whatever comment follows it: for a nameserver
    line with an address, behind lines that give nothing, the upstream is the
    address with port 53. *)
Theorem nameserver_found pre ip comment post
    (Hpre : Forall (fun l => nameserver_line l = None) pre) (Hip : ip_wf ip) :
  first_nameserver (pre ++ ("nameserver " +:+ ip_to_string ip +:+ " #" +:+ comment) :: post)
  = Some (socket_to_string ip 53).
Proof.
  induction Hpre as [|l pre Hl _ IH]; cbn [app first_nameserver]; [|by rewrite Hl].
  pose proof (ip_graph ip Hip) as [Hne Hg].
  assert (nameserver_line ("nameserver " +:+ ip_to_string ip +:+ " #" +:+ comment)
          = Some (socket_to_string ip 53)) as ->; [|done].
  unfold nameserver_line.
  assert (default "" (head (split "#" ("nameserver " +:+ ip_to_string ip +:+ " #" +:+ comment)))
          = "nameserver " +:+ ip_to_string ip +:+ " ") as ->.
  { change (" #" +:+ comment) with (" " +:+ String "#" comment).
    rewrite <- !sapp_assoc, split_app, split_no_char; [done|].
    by rewrite !has_char_app, ip_no_hash. }
  assert (trim ("nameserver " +:+ ip_to_string ip +:+ " ") = "nameserver " +:+ ip_to_string ip) as ->.
  { unfold trim. generalize dependent (ip_to_string ip). intros t Hne Hg.
    change ("nameserver " +:+ t +:+ " ") with (String "n" ("ameserver " +:+ t +:+ " ")).
    rewrite trim_start_graph by done.
    exact (trim_end_word "nameserver " t " " eq_refl (conj Hne Hg) eq_refl). }
  change (is_empty ("nameserver " +:+ ip_to_string ip)) with false. cbv iota.
  change ("nameserver " +:+ ip_to_string ip) with ("nameserver" +:+ String " " (ip_to_string ip)).
  rewrite split_whitespace_word, split_whitespace_last by (by split).
  change (negb ("nameserver" =? "nameserver")%string) with false. cbv iota.
  rewrite parse_ip_to_string by done. by destruct ip.
Qed.

Lemma nameserver_found_witness :
  first_nameserver (["search lan"] ++ ("nameserver " +:+ ip_to_string (V4 (v4_new 10 0 0 2)) +:+ " #" +:+ "x") :: [])
  = Some "10.0.0.2:53".
Proof.
  refine (eq_trans (nameserver_found ["search lan"] (V4 (v4_new 10 0 0 2)) "x" [] _ _) _).
  - apply Forall_cons_2; [reflexivity|apply Forall_nil_2].
  - split; vm_compute; congruence.
  - vm_compute. reflexivity.
Defined.
