(* ===== verification/Proxy.v ===== *)
(** * The DNS proxy ([src/proxy.rs])

    The form of a received request and of a reply, the inspection of the
    upstream's response, and which clients are served. *)

From S2P Require Import Prelude RustStr Net State Stats Host Ipset Control.

(** ** Datagrams *)

(** A socket address: an address and a port *)
Abbreviation SocketAddr := (IpAddr * Z)%type.

(** What [recvmsg::<SockaddrIn>] gives: the bytes, whether data or control
    messages were truncated, the IPv4 sender, and the control messages (the
    destination for the packet information, [None] for another message);
    [None] for messages that cannot be read. *)
Record Received : Type := {
  rcv_bytes : string;
  rcv_truncated : bool;
  rcv_address : option (Ipv4Addr * Z);
  rcv_cmsgs : option (list (option Ipv4Addr))
}.

(** The message form of [receive_dns_request], used with packet information *)
Definition receive_with_info (message : Received) : Result (string * SocketAddr * option Ipv4Addr) :=
  if rcv_truncated message then Err "truncated DNS packet"
  else
    try! client_addr := ok_or (rcv_address message) "DNS packet has no source address" in
    try! cmsgs := ok_or (rcv_cmsgs message) "control messages" in
    try! reply_source := ok_or (head (omap id cmsgs)) "DNS packet has no destination address" in
    Ok (rcv_bytes message, (V4 client_addr.1, client_addr.2), Some reply_source).

(** How a response leaves: through the socket, or from a given source address *)
Inductive Sent : Type :=
| SendTo (response : string) (client : SocketAddr)
| SendFrom (source : Ipv4Addr) (response : string) (client : Ipv4Addr * Z).

Definition send_dns_response (response : string) (client_addr : SocketAddr)
    (reply_source : option Ipv4Addr) : Result Sent :=
  match reply_source with
  | None => Ok (SendTo response client_addr)
  | Some reply_source =>
      match client_addr with
      | (V4 a, port) => Ok (SendFrom reply_source response (a, port))
      | (V6 _, _) => Err "IPv4 packet information with an IPv6 client"
      end
  end.

(** ** Responses

    The DNS message as the program looks at it: the names of the queries as
    text, and the data of the answers.  Reading one is the work of
    [hickory_proto]: any function. *)
Inductive RData : Type :=
| RD_A (ipv4 : Ipv4Addr)
| RD_AAAA (ipv6 : Ipv6Addr)
| RD_other.

Record Message : Type := {
  queries : list string;
  answers : list RData
}.

Definition collect_resolved_ips (message : Message) : list IpAddr :=
  fold_left (fun ips answer =>
      match answer with
      | RD_A ipv4 => ips ++ [V4 ipv4]
      | RD_AAAA ipv6 => ips ++ [V6 ipv6]
      | RD_other => ips
      end) (answers message) [].

Definition query_domain (name : string) : string := to_ascii_lowercase (trim_end_matches "." name).

Section responses.
Context `{HashOrder} `{Host W} (from_vec : string -> option Message).

(** The loop over the queries; the clock is read for each. *)
Fixpoint record_queries (d : Daemon) (clock : nat -> SystemTime) (i : nat) (names : list string)
    (origin : IpAddr) (stats_ttl : Duration) : Daemon * list string :=
  match names with
  | [] => (d, [])
  | name :: names' =>
      let domain := query_domain name in
      let d1 := {| state := state d;
                   stats := record_resolve (registry d) (state d) (stats d) domain origin (clock i) stats_ttl;
                   registry := registry d |} in
      let '(d2, domains) := record_queries d1 clock (S i) names' origin stats_ttl in
      (d2, domain :: domains)
  end.

(** The loop over the changed sets *)
Fixpoint push_sets (changed_sets : list (string * list IpAddr)) : M W unit :=
  match changed_sets with
  | [] => ret tt
  | (name, ips) :: changed_sets' =>
      let! result := attempt (update_ipset name ips) in
      let! _ := match result with
                | Ok _ => ret tt
                | Err err => tell (eprintln ("ipset update error for " +:+ name +:+ ": " +:+ err))
                end in
      push_sets changed_sets'
  end.

(** When nothing else happens meanwhile; the daemon's data are passed along. *)
Definition inspect_and_update_state (d : Daemon) (clock : nat -> SystemTime) (response : string)
    (origin : IpAddr) (stats_ttl : Duration) : M W Daemon :=
  match from_vec response with
  | None => ret d
  | Some message =>
      let resolved_ips := collect_resolved_ips message in
      let '(d1, domains) := record_queries d clock 0 (queries message) origin stats_ttl in
      match resolved_ips with
      | [] => ret d1
      | _ =>
          let '(state', changed_sets) := apply_resolved_ips (state d1) domains resolved_ips in
          let d2 := {| state := state'; stats := stats d1; registry := registry d1 |} in
          let! _ := push_sets changed_sets in
          ret d2
      end
  end.
End responses.

(** ** Theorems: datagrams *)

(** A request received with packet information can be answered, and the
    answer leaves from the very address that the client asked, back to the
    client. *)
Theorem reply_from_queried_address message query client reply_source response
    (Hreceived : receive_with_info message = Ok (query, client, reply_source)) :
  exists source a port, reply_source = Some source /\ rcv_address message = Some (a, port)
    /\ (exists cmsgs, rcv_cmsgs message = Some cmsgs /\ Some source ∈ cmsgs)
    /\ send_dns_response response client reply_source = Ok (SendFrom source response (a, port)).
Proof.
  unfold receive_with_info in Hreceived. destruct (rcv_truncated message); [done|].
  destruct (rcv_address message) as [[a port]|]; [|done]. cbn [ok_or rbind] in Hreceived.
  destruct (rcv_cmsgs message) as [cmsgs|]; [|done]. cbn [ok_or rbind] in Hreceived.
  destruct (omap id cmsgs) as [|source l] eqn:E; [done|]. cbn in Hreceived.
  injection Hreceived as <- <- <-. exists source, a, port. split; [done|]. split; [done|].
  split; [|done]. exists cmsgs. split; [done|].
  assert (source ∈ omap id cmsgs) as Hin by (rewrite E; left).
  apply list_elem_of_omap in Hin as (x & Hx & Hs). by rewrite <- Hs.
Qed.

Lemma reply_from_queried_address_witness :
  exists source a port, Some 7 = Some source /\ Some (5, 1000) = Some (a, port)
    /\ (exists cmsgs, Some [None; Some 7] = Some cmsgs /\ Some source ∈ cmsgs)
    /\ send_dns_response "r" (V4 5, 1000) (Some 7) = Ok (SendFrom source "r" (a, port)).
Proof.
  apply (reply_from_queried_address
           {| rcv_bytes := "q"; rcv_truncated := false; rcv_address := Some (5, 1000);
              rcv_cmsgs := Some [None; Some 7] |} "q"). reflexivity.
Defined.

(** ** Theorems: clients *)

Definition LOCAL_SUBNETS : list string :=
  ["127.0.0.0/8"; "10.0.0.0/8"; "172.16.0.0/12"; "192.168.0.0/16"; "169.254.0.0/16"; "198.18.0.0/15";
   "::1/128"; "fc00::/7"; "fe80::/10"].

Lemma local_v4 a :
  in_width 32 a ->
  is_local_ip (V4 a) =
  (a / 2 ^ 24 =? 127) || (a / 2 ^ 24 =? 10) || (a / 2 ^ 20 =? 172 * 16 + 1)
  || (a / 2 ^ 16 =? 192 * 256 + 168) || (a / 2 ^ 16 =? 169 * 256 + 254)
  || (a / 2 ^ 17 =? 198 * 128 + 9).
Proof.
  intros Ha. cbn [is_local_ip]. unfold v4_is_loopback, v4_is_private, v4_is_link_local, octet.
  change (8 * (3 - 0)) with 24. change (8 * (3 - 1)) with 16.
  assert (a / 2 ^ 24 mod 2 ^ 8 = a / 2 ^ 24) as -> by div_mod_lia.
  assert (a / 2 ^ 16 mod 2 ^ 8 = a / 2 ^ 16 - 256 * (a / 2 ^ 24)) as -> by div_mod_lia.
  assert (a / 2 ^ 20 = a / 2 ^ 16 / 16) as -> by div_mod_lia.
  assert (a / 2 ^ 17 = a / 2 ^ 16 / 2) as -> by div_mod_lia.
  assert (0 <= a / 2 ^ 16 - 256 * (a / 2 ^ 24) < 256) as Hr by div_mod_lia.
  revert Hr. generalize (a / 2 ^ 16) (a / 2 ^ 24). intros x y Hr.
  Z.to_euclidean_division_equations. lia.
Qed.

Lemma local_v6 a :
  in_width 128 a ->
  is_local_ip (V6 a) = (a / 2 ^ 0 =? 1) || (a / 2 ^ 121 =? 126) || (a / 2 ^ 118 =? 0x3fa).
Proof.
  intros Ha. cbn [is_local_ip].
  unfold v6_is_loopback, v6_is_unique_local, v6_is_unicast_link_local.
  change 0xfe00 with (prefix_mask 16 7). change 0xffc0 with (prefix_mask 16 10).
  assert (in_width 16 (segment a 0)) as Hs by apply segment_range.
  rewrite !land_prefix_mask by (done || lia). rewrite !Z.shiftl_mul_pow2 by lia.
  assert (a / 2 ^ 121 = segment a 0 / 2 ^ (16 - 7)) as ->.
  { unfold segment. change (16 * (7 - 0)) with 112. div_mod_lia. }
  assert (a / 2 ^ 118 = segment a 0 / 2 ^ (16 - 10)) as ->.
  { unfold segment. change (16 * (7 - 0)) with 112. div_mod_lia. }
  rewrite Z.div_1_r.
  change (2 ^ (16 - 7)) with 512. change (2 ^ (16 - 10)) with 64.
  generalize (segment a 0 / 512) (segment a 0 / 64). intros x y. lia.
Qed.

(** C33. The clients served are those of the local subnets: for every address
    but the IPv4-mapped ones, the filter is membership in one of nine
    subnets (loopback, private, link-local, and the range of the rootless
    source addresses). *)
Theorem is_local_ip_subnets ip
    (Hip : ip_wf ip) (Hmapped : match ip with V4 _ => True | V6 a => to_ipv4_mapped a = None end) :
  is_local_ip ip = existsb (ip_in_subnet ip) LOCAL_SUBNETS.
Proof.
  change LOCAL_SUBNETS with
    [cidr (V4 (v4_new 127 0 0 0)) 8; cidr (V4 (v4_new 10 0 0 0)) 8; cidr (V4 (v4_new 172 16 0 0)) 12;
     cidr (V4 (v4_new 192 168 0 0)) 16; cidr (V4 (v4_new 169 254 0 0)) 16; cidr (V4 (v4_new 198 18 0 0)) 15;
     cidr (V6 1) 128; cidr (V6 (0xfc00 * 2 ^ 112)) 7; cidr (V6 (0xfe80 * 2 ^ 112)) 10].
  cbn [existsb]. rewrite !ip_in_subnet_cidr by
    (done || (cbn [ip_wf]; apply v4_new_wf; lia) || (cbn [ip_wf]; split; lia) || (split; lia)).
  destruct ip as [a|a].
  - rewrite local_v4 by done. unfold v4_new. by rewrite !orb_false_r, !orb_assoc.
  - rewrite Hmapped, local_v6 by done. cbn [orb]. by rewrite orb_false_r, orb_assoc.
Qed.

Lemma is_local_ip_subnets_witness :
  is_local_ip (V6 (0xfe80 * 2 ^ 112 + 9)) = existsb (ip_in_subnet (V6 (0xfe80 * 2 ^ 112 + 9))) LOCAL_SUBNETS.
Proof. apply is_local_ip_subnets; [split; vm_compute; congruence|reflexivity]. Defined.

(** C40. An IPv4 client that reaches a dual-stack listener (as an IPv4-mapped
    IPv6 address) is never served, whatever its IPv4 address; the statistics, on
    the other hand, would count it as its IPv4 address. *)
Theorem mapped_clients_rejected v (Hv : in_width 32 v) :
  is_local_ip (V6 (to_ipv6_mapped v)) = false
  /\ forall subnet, ip_in_subnet (V6 (to_ipv6_mapped v)) subnet = ip_in_subnet (V4 v) subnet.
Proof.
  assert (in_width 128 (to_ipv6_mapped v)) as Hm by (unfold to_ipv6_mapped; div_mod_lia).
  split.
  - rewrite local_v6 by done. unfold to_ipv6_mapped. rewrite Z.div_1_r.
    assert ((0xffff * 2 ^ 32 + v) / 2 ^ 121 = 0) as -> by div_mod_lia.
    assert ((0xffff * 2 ^ 32 + v) / 2 ^ 118 = 0) as -> by div_mod_lia.
    rewrite (proj2 (Z.eqb_neq _ 1)) by (unfold in_width in Hv; lia). done.
  - intros subnet. unfold ip_in_subnet. by rewrite (proj2 (to_ipv4_mapped_spec _ v Hm)).
Qed.

Lemma mapped_clients_rejected_witness :
  is_local_ip (V6 (to_ipv6_mapped (v4_new 10 0 0 1))) = false /\ is_local_ip (V4 (v4_new 10 0 0 1)) = true.
Proof.
  split; [|reflexivity]. apply (mapped_clients_rejected (v4_new 10 0 0 1)).
  split; vm_compute; congruence.
Defined.
