(* ===== verification/Enforce.v ===== *)
(** * What the kernel enforces ([src/proxy.rs], [src/state.rs], [src/ipset.rs])

    The handling of one response keeps the kernel's sets equal to the daemon's
    table, when nothing else happens meanwhile ([inspect_synced]) and no address is
    one that a set cannot store ([zero_address_blocks]). *)

From S2P Require Import Prelude RustStr Net State Stats Host Ipset Firewall Address Control Prepare Trust Proxy.

(** ** The table and the kernel's sets *)

(** The addresses of one family in a set *)
Definition family_ips (six : bool) (s : gset IpAddr) : gset IpAddr := filter (fun ip => is_v6 ip = six) s.

(** The two kernel sets of a network hold its addresses, each its family. *)
Definition set_synced (sets : KernelSets) (name : string) (s : gset IpAddr) : Prop :=
  forall six : bool, sets !! (if six then ipv6_ipset_name name else name)
              = Some {| inet6 := six; members := family_ips six s |}.

Definition synced (state : IpsetTable) (sets : KernelSets) : Prop :=
  forall name m, state !! name = Some m -> set_synced sets name (ips m).

(** Names that the [ipset] tool can handle: words, of which none is the name of
    the IPv6 set of another network *)
Record names_ok (state : IpsetTable) : Prop := {
  names_words name : is_Some (state !! name) -> word name;
  names_apart n n' : is_Some (state !! n) -> is_Some (state !! n') -> n <> ipv6_ipset_name n'
}.

(** The addresses of the table are addresses that a kernel set can store. *)
Definition ips_ok (state : IpsetTable) : Prop :=
  forall name m ip, state !! name = Some m -> ip ∈ ips m -> storable ip.

(** ** Lemmas: pushing several networks *)

Lemma ipv6_name_inj n n' : ipv6_ipset_name n = ipv6_ipset_name n' -> n = n'.
Proof. apply app_inj_r. Qed.

Lemma of_family_spec six ips : of_family six ips = family_ips six (list_to_set ips).
Proof.
  unfold of_family, family_ips. apply set_eq. intros ip.
  rewrite elem_of_list_to_set, elem_of_filter, elem_of_list_to_set.
  rewrite list_elem_of_In, filter_In, <- list_elem_of_In, eqb_true_iff. tauto.
Qed.

Lemma pushed_set name ips sets : set_synced (pushed name ips sets) name (list_to_set ips).
Proof.
  intros six. unfold pushed. rewrite !of_family_spec. destruct six.
  - by rewrite lookup_insert_eq.
  - by rewrite lookup_insert_ne, lookup_insert_eq by apply ipv6_name_ne.
Qed.

Lemma pushed_other name ips sets n :
  n <> name -> n <> ipv6_ipset_name name -> pushed name ips sets !! n = sets !! n.
Proof. intros. unfold pushed. by rewrite !lookup_insert_ne by done. Qed.

(** Two networks whose names do not collide *)
Definition apart (n n' : string) : Prop := n <> n' /\ n <> ipv6_ipset_name n' /\ n' <> ipv6_ipset_name n.

Lemma pushed_apart name ips sets n s :
  apart n name -> set_synced (pushed name ips sets) n s <-> set_synced sets n s.
Proof.
  intros (H1 & H2 & H3). unfold set_synced.
  assert (forall six, pushed name ips sets !! (if six : bool then ipv6_ipset_name n else n)
                      = sets !! (if six then ipv6_ipset_name n else n)) as E.
  { intros []; apply pushed_other; first [done | by apply not_eq_sym | by intros ?%ipv6_name_inj]. }
  split; intros Hs six; specialize (Hs six); rewrite E in *; done.
Qed.

(** A network whose two sets exist, with whatever addresses *)
Definition sets_exist (sets : KernelSets) (name : string) : Prop :=
  has_set name false sets /\ has_set (ipv6_ipset_name name) true sets.

Lemma synced_exist sets name s : set_synced sets name s -> sets_exist sets name.
Proof. intros Hs. split; [eexists; by rewrite (Hs false)|eexists; by rewrite (Hs true)]. Qed.

Lemma pushed_exist name ips sets n :
  n = name \/ apart n name -> sets_exist sets n -> sets_exist (pushed name ips sets) n.
Proof.
  intros [->|(H1 & H2 & H3)] Hs; [apply (synced_exist _ _ (list_to_set ips)), pushed_set|].
  unfold sets_exist, has_set in *.
  rewrite !pushed_other; first [done | by apply not_eq_sym | by intros ?%ipv6_name_inj].
Qed.

(** The sets after pushing a list *)
Definition pushed_all (l : list (string * list IpAddr)) (sets : KernelSets) : KernelSets :=
  fold_left (fun sets '(name, ips) => pushed name ips sets) l sets.

Lemma pushed_all_apart l sets n s :
  Forall (fun '(name, _) => apart n name) l -> set_synced sets n s -> set_synced (pushed_all l sets) n s.
Proof.
  unfold pushed_all. revert sets. induction l as [|[name ips] l IH]; intros sets Hl Hs; [done|].
  apply Forall_cons in Hl as [Ha Hl]. cbn [fold_left]. apply IH; [done|]. by apply pushed_apart.
Qed.

Lemma pushed_all_synced l sets name ips :
  (forall n, n ∈ l.*1 -> n <> name -> apart name n) -> NoDup l.*1 -> (name, ips) ∈ l ->
  set_synced (pushed_all l sets) name (list_to_set ips).
Proof.
  unfold pushed_all. revert sets. induction l as [|[n ips'] l IH]; intros sets Ha Hnd Hin; [by apply elem_of_nil in Hin|].
  rewrite fmap_cons in *. apply NoDup_cons in Hnd as [Hn Hnd]. cbn [fold_left].
  apply elem_of_cons in Hin as [[= <- <-]|Hin].
  - apply (pushed_all_apart l); [|apply pushed_set]. apply Forall_forall. intros [n' ips''] Hn'.
    assert (n' ∈ l.*1) as Hl by exact (list_elem_of_fmap_2 fst _ _ Hn').
    apply Ha; [by right|]. by intros ->.
  - apply IH; [|done|done]. intros n' Hn'. apply Ha. by right.
Qed.

(** ** One response *)

Section response.
Context `{HashOrder} `{IpsetTool W} `{!StableFiles W}.

(** Pushing a list of networks whose sets exist: every update succeeds. *)
Lemma push_sets_pushed l (w : W) :
  (exists b, b ∈ IPSET_CANDIDATES /\ trusted w b) -> NoDup l.*1 ->
  (forall n n', n ∈ l.*1 -> n' ∈ l.*1 -> n <> n' -> apart n n') ->
  Forall (fun '(name, ips) => word name /\ Forall storable ips /\ sets_exist (kernel_sets w) name) l ->
  exists w', push_sets l w = Some (w', Ok tt) /\ kernel_sets w' = pushed_all l (kernel_sets w).
Proof.
  revert w. induction l as [|[name ips] l IH]; intros w Hbin Hnd Ha Hl; [by exists w|].
  rewrite fmap_cons in *. apply NoDup_cons in Hnd as [Hn Hnd].
  apply Forall_cons in Hl as [(Hword & Hips & (s4 & H4 & Hf4) & (s6 & H6 & Hf6)) Hl].
  destruct (update_ipset_pushed name ips w s4 s6 Hbin Hword Hips H4 Hf4 H6 Hf6)
    as (w1 & Hw1 & Hk1 & b & Hb).
  destruct (IH w1) as (w2 & Hw2 & Hk2); [|done| | |].
  - destruct Hbin as (b' & Hb' & Ht). exists b'. split; [done|].
    eapply trusted_same_files; [eauto with dockerwall| |exact Ht]. rewrite Hb. apply stable_stdin.
  - intros. apply Ha; [by right|by right|done].
  - rewrite Forall_forall in Hl |- *. intros [n ips'] Hn'. destruct (Hl _ Hn') as (Hw & Hi & He).
    split; [done|]. split; [done|]. rewrite Hk1. apply pushed_exist; [|done]. right.
    assert (n ∈ l.*1) as Hnl by exact (list_elem_of_fmap_2 fst _ _ Hn').
    apply Ha; [by right|by left|]. by intros ->.
  - exists w2. split; [|by rewrite Hk2, Hk1]. cbn [push_sets]. unfold bind at 1, attempt. rewrite Hw1.
    unfold bind, ret. exact Hw2.
Qed.

Lemma record_queries_eq d clock i names origin ttl :
  let '(d', domains) := record_queries d clock i names origin ttl in
  state d' = state d /\ registry d' = registry d /\ domains = map query_domain names.
Proof.
  revert d i. induction names as [|name names IH]; intros d i; [done|]. cbn [record_queries map].
  specialize (IH {| state := state d;
                    stats := record_resolve (registry d) (state d) (stats d) (query_domain name) origin (clock i) ttl;
                    registry := registry d |} (S i)).
  destruct (record_queries _ _ _ _ _ _) as [d2 domains]. destruct IH as (-> & -> & ->). done.
Qed.

(** The addresses of a message can be stored in kernel sets: none is 0.0.0.0 or
    [::]. *)
Definition message_wf (message : Message) : Prop := Forall storable (collect_resolved_ips message).

Lemma updated_ips_ok st domains resolved :
  ips_ok st -> Forall storable resolved -> ips_ok (updated domains resolved <$> st).
Proof.
  intros Hst Hr name m ip Hm Hip. rewrite lookup_fmap_Some in Hm. destruct Hm as (m0 & <- & Hm0).
  apply updated_ips in Hip as [Hip|[_ Hip]]; [by eapply Hst|]. rewrite Forall_forall in Hr. by apply Hr.
Qed.

Lemma updated_names_ok st domains resolved : names_ok st -> names_ok (updated domains resolved <$> st).
Proof.
  intros [Hw Ha]. assert (forall n, is_Some ((updated domains resolved <$> st) !! n) -> is_Some (st !! n)) as Hs.
  { intros n. by rewrite lookup_fmap, fmap_is_Some. }
  split; eauto.
Qed.

(** What the pushes of a response need *)
Lemma pushes_ready st domains resolved sets :
  names_ok st -> ips_ok st -> Forall storable resolved -> synced st sets ->
  let l := (apply_resolved_ips st domains resolved).2 in
  NoDup l.*1
  /\ (forall n n', n ∈ l.*1 -> n' ∈ l.*1 -> n <> n' -> apart n n')
  /\ Forall (fun '(name, ips) => word name /\ Forall storable ips /\ sets_exist sets name) l.
Proof.
  intros Hnames Hips Hr Hsync. pose proof (apply_snd st domains resolved) as [Hnd Hl].
  set (l := (apply_resolved_ips st domains resolved).2) in *. cbv zeta.
  assert (forall n, n ∈ l.*1 -> is_Some (st !! n)) as Hin.
  { intros n ([n' ips] & -> & Hn)%list_elem_of_fmap. apply Hl in Hn as (m & Hm & _). by exists m. }
  split; [done|]. split.
  - intros n n' Hn Hn' Hne. split; [done|]. split; apply Hnames; auto.
  - apply Forall_forall. intros [name ips'] Hn. apply Hl in Hn as (m & Hm & _ & _ & ->).
    split; [apply Hnames; eauto|]. split; [|eapply synced_exist; by eapply Hsync].
    apply Forall_forall. intros ip Hip. apply elem_of_hs_iter in Hip.
    apply (updated_ips_ok st domains resolved Hips Hr name (updated domains resolved m) ip); [|done].
    by rewrite lookup_fmap, Hm.
Qed.

(** The pushes that a response leads to make the table and the kernel agree
    again. *)
Lemma changed_synced st domains resolved sets :
  names_ok st -> synced st sets ->
  let '(st', l) := apply_resolved_ips st domains resolved in synced st' (pushed_all l sets).
Proof.
  intros Hnames Hsync. destruct (apply_resolved_ips st domains resolved) as [st' l] eqn:E.
  assert (st' = updated domains resolved <$> st) as -> by (by rewrite <- apply_fst, E).
  pose proof (apply_snd st domains resolved) as [Hnd Hl]. rewrite E in Hnd, Hl. cbn [snd] in Hnd, Hl.
  assert (forall n, n ∈ l.*1 -> is_Some (st !! n)) as Hin.
  { intros n ([n' ips] & -> & Hn)%list_elem_of_fmap. apply Hl in Hn as (m & Hm & _). by exists m. }
  assert (forall n n', is_Some (st !! n) -> is_Some (st !! n') -> n <> n' -> apart n n') as Ha.
  { intros n n' Hn Hn' Hne. split; [done|]. split; by apply Hnames. }
  intros name m Hm. rewrite lookup_fmap_Some in Hm. destruct Hm as (m0 & <- & Hm0).
  destruct (decide (name ∈ l.*1)) as [Hc|Hc].
  - apply list_elem_of_fmap in Hc as ([n ips] & -> & Hn). cbn [fst] in *.
    apply Hl in Hn as Hn2. destruct Hn2 as (m1 & Hm1 & _ & _ & ->). simplify_eq.
    rewrite <- (hs_iter_set (ips (updated domains resolved m0))).
    apply pushed_all_synced; [|done|done]. intros n' Hnl Hne. apply Ha; eauto.
  - assert (ips (updated domains resolved m0) = ips m0) as ->.
    { destruct (decide (ips (updated domains resolved m0) = ips m0)) as [|Hne]; [done|]. destruct Hc.
      assert (allowed domains m0) as Hm.
      { unfold updated in Hne. by destruct (decide (allowed domains m0)). }
      apply (list_elem_of_fmap_2 fst l (name, hs_iter (ips (updated domains resolved m0)))).
      apply Hl. by exists m0. }
    apply pushed_all_apart; [|by apply Hsync]. apply Forall_forall. intros [n ips'] Hn'.
    assert (n ∈ l.*1) as Hnl by exact (list_elem_of_fmap_2 fst _ _ Hn').
    apply Ha; eauto. by intros ->.
Qed.

(** One response is enforced: if the kernel's sets agreed with the daemon's
    table, then after the response has been handled they agree again, with the
    new table, in which exactly the networks with a pattern for one of the
    queried domains have got the response's addresses; a message that cannot be
    read changes neither. *)
Lemma inspect_synced (from_vec : string -> option Message) d clock response origin ttl (w : W)
    (Hbin : exists b, b ∈ IPSET_CANDIDATES /\ trusted w b)
    (Hnames : names_ok (state d)) (Hips : ips_ok (state d))
    (Hmessage : match from_vec response with Some message => message_wf message | None => True end)
    (Hsync : synced (state d) (kernel_sets w)) :
  exists w' d', inspect_and_update_state from_vec d clock response origin ttl w = Some (w', Ok d')
    /\ synced (state d') (kernel_sets w')
    /\ state d' = match from_vec response with
                  | Some message => updated (map query_domain (queries message))
                                      (collect_resolved_ips message) <$> state d
                  | None => state d
                  end.
Proof.
  unfold inspect_and_update_state. destruct (from_vec response) as [message|]; [|by exists w, d].
  pose proof (record_queries_eq d clock 0 (queries message) origin ttl) as Hq.
  destruct (record_queries _ _ _ _ _ _) as [d1 domains]. destruct Hq as (Hs & _ & ->).
  set (domains := map query_domain (queries message)). unfold message_wf in Hmessage.
  destruct (collect_resolved_ips message) as [|ip rest] eqn:Er.
  { exists w, d1. rewrite Hs. split; [done|]. split; [done|]. apply map_eq. intros n.
    rewrite lookup_fmap. destruct (state d !! n); simpl; by rewrite ?updated_nil_ips. }
  rewrite <- Er in *. clear Er ip rest. rewrite Hs.
  pose proof (changed_synced (state d) domains (collect_resolved_ips message) _ Hnames Hsync) as Hc.
  pose proof (apply_fst (state d) domains (collect_resolved_ips message)) as Hf.
  pose proof (pushes_ready (state d) domains (collect_resolved_ips message) _ Hnames Hips Hmessage Hsync) as Hp.
  destruct (apply_resolved_ips (state d) domains (collect_resolved_ips message)) as [st' l].
  cbn [fst snd] in *. destruct Hp as (Hnd & Ha & Hl).
  destruct (push_sets_pushed l w Hbin Hnd Ha Hl) as (w' & Hw & Hk).
  eexists w', _. split; [by eapply bind_eq|]. cbn [state]. by rewrite Hk, Hf in *.
Qed.
(** *** The zero-valued address

    A response with 0.0.0.0 or [::] for an allowed domain puts it in the table, and
    from then on every push for the network has it. *)

Definition respond (table : IpsetTable) (response : list string * list IpAddr) : IpsetTable :=
  (apply_resolved_ips table response.1 response.2).1.

Lemma responded table responses name m :
  table !! name = Some m ->
  exists m', fold_left respond responses table !! name = Some m'
    /\ allowed_domain_patterns m' = allowed_domain_patterns m
    /\ (forall ip, ip ∈ ips m' <->
         ip ∈ ips m \/ exists domains resolved, (domains, resolved) ∈ responses
                         /\ allowed domains m /\ ip ∈ resolved).
Proof.
  revert table m. induction responses as [|[ds rs] responses IH]; intros table m Hm.
  { exists m. split; [done|]. split; [done|]. intros ip. split; [by left|].
    intros [|(? & ? & Hin & _)]; [done|by apply elem_of_nil in Hin]. }
  cbn [fold_left]. destruct (IH (respond table (ds, rs)) (updated ds rs m)) as (m' & Hm' & Hp & Hi).
  { unfold respond. by rewrite apply_fst, lookup_fmap, Hm. }
  assert (forall domains, allowed domains (updated ds rs m) <-> allowed domains m) as Ha.
  { intros domains. unfold allowed. by rewrite updated_patterns. }
  exists m'. split; [done|]. split; [by rewrite Hp, updated_patterns|].
  intros ip. rewrite Hi, updated_ips. setoid_rewrite elem_of_cons. setoid_rewrite Ha. naive_solver.
Qed.

(** C20. A response with the zero-valued address blocks the network: once a
    response for one of its domains had 0.0.0.0 or [::] among its addresses, every
    push for this network fails, the one of this response and that of any later
    one, whatever these responses are; the daemon ends such a push after a part of
    its script, which may be after the sets have been flushed. *)
Theorem zero_address_blocks table responses domains resolved ds rs name m l (w : W)
    (Hname : table !! name = Some m) (Hword : word name)
    (Hallowed : allowed domains m) (Hzero : Exists (fun ip => zero_ip ip = true) resolved)
    (Hresponse : (domains, resolved) ∈ responses ++ [(ds, rs)])
    (Hpush : (name, l) ∈ (apply_resolved_ips (fold_left respond responses table) ds rs).2)
    (Hips : forall ip, ip ∈ ips m -> ip_wf ip)
    (Hresponses : Forall (fun response => Forall ip_wf response.2) (responses ++ [(ds, rs)]))
    (Hbin : exists b, b ∈ IPSET_CANDIDATES /\ trusted w b) (Hsets : sets_exist (kernel_sets w) name) :
  exists w' e, update_ipset name l w = Some (w', Err e)
    /\ exists cmds, cmds `prefix_of` restore_cmds name l
         /\ restore_commands cmds (kernel_sets w) = Some (kernel_sets w').
Proof.
  destruct (responded table responses name m Hname) as (m1 & Hm1 & Hp1 & _).
  apply apply_snd in Hpush as (m2 & Hm2 & _ & _ & ->). rewrite Hm1 in Hm2. injection Hm2 as <-.
  destruct (responded table (responses ++ [(ds, rs)]) name m Hname) as (m' & Hm' & _ & Hi).
  rewrite fold_left_app in Hm'. cbn [fold_left] in Hm'. unfold respond at 1 in Hm'. cbn [fst snd] in Hm'.
  rewrite apply_fst, lookup_fmap, Hm1 in Hm'. injection Hm' as Hm'. rewrite Hm'.
  destruct Hsets as [(s4 & H4 & Hf4) (s6 & H6 & Hf6)].
  apply (update_ipset_zero name _ w s4 s6); try done.
  - apply Forall_forall. intros ip Hip%elem_of_hs_iter. apply Hi in Hip as [Hip|(d & r & Hin & _ & Hip)]; [by apply Hips|].
    rewrite Forall_forall in Hresponses. apply Hresponses in Hin. rewrite Forall_forall in Hin. by apply Hin.
  - apply Exists_exists in Hzero as (z & Hz & Ez). apply Exists_exists. exists z. split; [|done].
    apply elem_of_hs_iter, Hi. right. by exists domains, resolved.
Qed.
End response.
