(* ===== verification/Limits.v ===== *)
(** * The limits on concurrent requests ([src/proxy.rs])

    The loop of [run_dns_proxy] and the permits of its two semaphores, as steps
    that interleave in any order: a request arrives, a task obtains its address's
    permit, a task ends. *)

From S2P Require Import Prelude RustStr Net.

Definition MAX_CONCURRENT_PER_IP : nat := 32.
Definition MAX_CONCURRENT_GLOBAL : nat := Z.to_nat 10000.

(** A task that was spawned for a client: does it hold the permit of the client's
    address already, or does it wait for it? *)
Record Task : Type := { client : IpAddr; running : bool }.

#[export] Instance Task_eq_dec : EqDecision Task.
Proof. solve_decision. Defined.

(** The free permits of the global semaphore and of [PER_IP_LIMITS], and the
    tasks, each of which holds a global permit *)
Record Load : Type := {
  global_permits : nat;
  per_ip_limits : gmap IpAddr nat;
  tasks : list Task
}.

Definition initial_load : Load :=
  {| global_permits := MAX_CONCURRENT_GLOBAL; per_ip_limits := ∅; tasks := [] |}.

(** ** The loop *)

Inductive Outcome : Type := NonLocal | Overload | Spawned.

(** What the loop does with a request of a client *)
Definition accept_request (l : Load) (ip : IpAddr) : Load * Outcome :=
  if negb (is_local_ip ip) then (l, NonLocal)
  else match global_permits l with
       | O => (l, Overload)
       | S permits =>
           let limits := match per_ip_limits l !! ip with
                         | Some _ => per_ip_limits l
                         | None => <[ip := MAX_CONCURRENT_PER_IP]> (per_ip_limits l)
                         end in
           ({| global_permits := permits; per_ip_limits := limits;
               tasks := tasks l ++ [{| client := ip; running := false |}] |}, Spawned)
       end.

(** The steps of the tasks: [acquire] returns when a permit of the address is
    free, and the end of a task, whatever its result, gives both permits back. *)
Inductive TaskStep : Load -> Load -> Prop :=
| task_acquires l ip n pre post :
    tasks l = pre ++ {| client := ip; running := false |} :: post ->
    per_ip_limits l !! ip = Some (S n) ->
    TaskStep l {| global_permits := global_permits l;
                  per_ip_limits := <[ip := n]> (per_ip_limits l);
                  tasks := pre ++ {| client := ip; running := true |} :: post |}
| task_ends l ip n pre post :
    tasks l = pre ++ {| client := ip; running := true |} :: post ->
    per_ip_limits l !! ip = Some n ->
    TaskStep l {| global_permits := S (global_permits l);
                  per_ip_limits := <[ip := S n]> (per_ip_limits l);
                  tasks := pre ++ post |}.

Inductive LoadStep : Load -> Load -> Prop :=
| step_request l ip : LoadStep l (accept_request l ip).1
| step_task l l' : TaskStep l l' -> LoadStep l l'.

Definition reachable (l : Load) : Prop := rtc LoadStep initial_load l.

(** ** The accounting *)

(** How many tasks of a client hold the permit of its address *)
Definition running_of (ip : IpAddr) (ts : list Task) : nat :=
  List.length (List.filter (fun t => bool_decide (client t = ip) && running t) ts).

(** Each permit is free or held by a task, and only local clients have tasks. *)
Record load_ok (l : Load) : Prop := {
  ok_global : (global_permits l + List.length (tasks l) = MAX_CONCURRENT_GLOBAL)%nat;
  ok_limit ip n : per_ip_limits l !! ip = Some n ->
    (n + running_of ip (tasks l) = MAX_CONCURRENT_PER_IP)%nat;
  ok_entry t : t ∈ tasks l -> is_Some (per_ip_limits l !! client t);
  ok_local t : t ∈ tasks l -> is_local_ip (client t) = true
}.

Lemma running_of_app ip ts ts' : running_of ip (ts ++ ts') = (running_of ip ts + running_of ip ts')%nat.
Proof. unfold running_of. by rewrite List.filter_app, length_app. Qed.

Lemma running_of_cons ip t ts :
  running_of ip (t :: ts)
  = ((if bool_decide (client t = ip) && running t then 1 else 0) + running_of ip ts)%nat.
Proof. unfold running_of. cbn [List.filter]. by destruct (bool_decide _ && _). Qed.

Lemma running_of_none ip ts : (forall t, t ∈ ts -> client t <> ip) -> running_of ip ts = 0%nat.
Proof.
  induction ts as [|t ts IH]; intros Ht; [done|]. rewrite running_of_cons.
  rewrite bool_decide_false by (apply Ht; left). cbn [andb]. apply IH. intros t' Ht'. apply Ht. by right.
Qed.

Lemma initial_load_ok : load_ok initial_load.
Proof.
  split; cbn [initial_load global_permits per_ip_limits tasks].
  - apply Nat.add_0_r.
  - intros ip n. by rewrite lookup_empty.
  - intros t Ht. by apply elem_of_nil in Ht.
  - intros t Ht. by apply elem_of_nil in Ht.
Qed.

Lemma accept_request_ok l ip : load_ok l -> load_ok (accept_request l ip).1.
Proof.
  intros Hok. pose proof Hok as [Hg Hl He Hc]. unfold accept_request.
  destruct (is_local_ip ip) eqn:Elocal; [|done]. cbn [negb].
  destruct (global_permits l) as [|permits] eqn:Eg; [done|]. cbn [fst].
  set (limits := match per_ip_limits l !! ip with Some _ => _ | None => _ end).
  assert (forall ip' n, limits !! ip' = Some n ->
            per_ip_limits l !! ip' = Some n \/ (ip' = ip /\ n = MAX_CONCURRENT_PER_IP /\ per_ip_limits l !! ip = None))
    as Hlim.
  { intros ip' n. subst limits. destruct (per_ip_limits l !! ip) eqn:E; [by left|].
    rewrite lookup_insert. case_decide as Ei; [|by left]. intros [= <-]. right. by subst. }
  assert (forall ip', is_Some (per_ip_limits l !! ip') \/ ip' = ip -> is_Some (limits !! ip')) as Hsome.
  { intros ip' Hi. subst limits. destruct (per_ip_limits l !! ip) eqn:E.
    - destruct Hi as [| ->]; [done|by rewrite E].
    - rewrite lookup_insert. case_decide; [done|]. by destruct Hi as [| ->]. }
  split; cbn [global_permits per_ip_limits tasks].
  - rewrite length_app. simpl. lia.
  - intros ip' n Hn. rewrite running_of_app, running_of_cons. cbn [running]. rewrite andb_false_r.
    change (running_of ip' []) with 0%nat.
    apply Hlim in Hn as [Hn|(-> & -> & Hnone)]; [apply Hl in Hn; lia|].
    rewrite running_of_none; [done|]. intros t Ht E. apply He in Ht as [n Ht]. congruence.
  - intros t [Ht|Ht]%elem_of_app; apply Hsome; [left; by apply He|right].
    by apply list_elem_of_singleton in Ht as ->.
  - intros t [Ht|Ht]%elem_of_app; [by apply Hc|]. by apply list_elem_of_singleton in Ht as ->.
Qed.

Lemma task_step_ok l l' : TaskStep l l' -> load_ok l -> load_ok l'.
Proof.
  intros Hstep [Hg Hl He Hc]. destruct Hstep as [l ip n pre post Ht Hn|l ip n pre post Ht Hn];
    rewrite Ht in *; rewrite !length_app in Hg; cbn [List.length] in Hg.
  - split; cbn [global_permits per_ip_limits tasks].
    + rewrite length_app. cbn [List.length]. lia.
    + intros ip' n'. rewrite lookup_insert. intros Hn'.
      assert (match decide (ip = ip') with left _ => per_ip_limits l !! ip' = Some (S n') 
              | right _ => per_ip_limits l !! ip' = Some n' end) as Hold.
      { case_decide; [|done]. subst. by injection Hn' as <-. }
      case_decide as Ei; apply Hl in Hold;
        rewrite running_of_app, running_of_cons in *; cbn [client running] in *;
        [rewrite bool_decide_true in * by done|rewrite bool_decide_false in * by done];
        cbn [andb] in *; lia.
    + intros t Hin. rewrite lookup_insert. case_decide; [done|].
      apply elem_of_app in Hin as [Hin|[E|Hin]%elem_of_cons]; [apply He; set_solver|by subst|apply He; set_solver].
    + intros t Hin. apply elem_of_app in Hin as [Hin|[E|Hin]%elem_of_cons]; [apply Hc; set_solver| |apply Hc; set_solver].
      subst. apply (Hc {| client := ip; running := false |}). set_solver.
  - split; cbn [global_permits per_ip_limits tasks].
    + rewrite length_app. lia.
    + intros ip' n'. rewrite lookup_insert. intros Hn'.
      assert (per_ip_limits l !! ip' = Some (if decide (ip = ip') then n else n')) as Hold
        by (case_decide; by subst).
      apply Hl in Hold. rewrite running_of_app, running_of_cons in *. cbn [client running] in *.
      destruct (decide (ip = ip')) as [E|E].
      * rewrite bool_decide_true in Hold by done. injection Hn' as <-. cbn [andb] in Hold. lia.
      * rewrite bool_decide_false in Hold by done. cbn [andb] in Hold. lia.
    + intros t Hin. rewrite lookup_insert. case_decide; [done|].
      apply He. apply elem_of_app in Hin as [?|?]; set_solver.
    + intros t Hin. apply Hc. apply elem_of_app in Hin as [?|?]; set_solver.
Qed.

Lemma load_step_ok l l' : LoadStep l l' -> load_ok l -> load_ok l'.
Proof. intros [l0 ip|l0 l1 Ht]; [apply accept_request_ok|by apply task_step_ok]. Qed.

#[export] Hint Resolve initial_load_ok load_step_ok task_step_ok : dockerwall.

Lemma reachable_ok l : reachable l -> load_ok l.
Proof.
  unfold reachable. assert (forall l0, rtc LoadStep l0 l -> load_ok l0 -> load_ok l) as Hr.
  { induction 1; eauto with dockerwall. }
  intros Hl. eauto with dockerwall.
Qed.

(** ** Theorems *)

(** C22. The limits hold in every interleaving: there are never more than 10000
    tasks, no address has more than 32 tasks past its semaphore, and only local
    clients have tasks. *)
Theorem limits_hold l (Hl : reachable l) :
  (List.length (tasks l) <= MAX_CONCURRENT_GLOBAL)%nat
  /\ (forall ip, running_of ip (tasks l) <= MAX_CONCURRENT_PER_IP)%nat
  /\ forall t, t ∈ tasks l -> is_local_ip (client t) = true.
Proof.
  apply reachable_ok in Hl as [Hg Hlim He Hc]. split; [lia|]. split; [|done].
  intros ip. destruct (per_ip_limits l !! ip) as [n|] eqn:E; [apply Hlim in E; lia|].
  rewrite running_of_none; [lia|]. intros t Ht Et. apply He in Ht as [n Ht]. congruence.
Qed.

Lemma limits_hold_witness :
  (running_of (V4 (v4_new 10 0 0 1)) (tasks (accept_request initial_load (V4 (v4_new 10 0 0 1))).1)
   <= MAX_CONCURRENT_PER_IP)%nat.
Proof. apply limits_hold, rtc_once, step_request. Defined.

(** One task less, in one or two steps *)
Lemma task_leaves l :
  load_ok l -> tasks l <> [] ->
  exists l', rtc TaskStep l l' /\ List.length (tasks l) = S (List.length (tasks l')).
Proof.
  intros Hok Hne.
  destruct (decide (Exists (fun t => running t = true) (tasks l))) as [Hr|Hr].
  - apply Exists_exists in Hr as ([ip r] & Hin & Hr). cbn [running] in Hr. subst r.
    apply (ok_entry l Hok) in Hin as Hn. destruct Hn as [n Hn].
    apply list_elem_of_split in Hin as (pre & post & Ht).
    eexists. split; [apply rtc_once; by eapply task_ends|]. cbn [tasks].
    rewrite Ht, !length_app. simpl. lia.
  - rewrite <- Forall_Exists_neg in Hr.
    destruct (tasks l) as [|[ip r] post] eqn:Ht; [done|].
    assert (r = false) as ->.
    { apply Forall_cons in Hr as [Hr _]. cbn [running] in Hr. by destruct r. }
    destruct (ok_entry l Hok {| client := ip; running := false |}) as [n Hn]; [rewrite Ht; left|].
    cbn [client] in Hn. assert (n = MAX_CONCURRENT_PER_IP) as ->.
    { apply (ok_limit l Hok) in Hn. rewrite <- Hn, Ht.
      assert (running_of ip ({| client := ip; running := false |} :: post) = 0%nat) as ->; [|lia].
      unfold running_of. rewrite (List.filter_ext_in _ (fun _ => false)); [by rewrite List.filter_false|].
      intros t Hin. rewrite <- list_elem_of_In in Hin. rewrite Forall_forall in Hr.
      specialize (Hr t Hin). destruct (running t); [done|apply andb_false_r]. }
    eexists. split.
    + eapply rtc_l; [by apply (task_acquires l ip 31 [] post)|].
      apply rtc_once. apply (task_ends _ ip 31 [] post); [done|]. cbn [per_ip_limits].
      apply lookup_insert_eq.
    + cbn [tasks app]. done.
Qed.

(** C23. No permit is ever lost and the tasks never block each other for good:
    from every reachable situation the tasks that are there can all end, and then
    all permits are free again. *)
Theorem limits_drain l (Hl : reachable l) :
  exists l', rtc TaskStep l l' /\ tasks l' = [] /\ global_permits l' = MAX_CONCURRENT_GLOBAL
    /\ forall ip n, per_ip_limits l' !! ip = Some n -> n = MAX_CONCURRENT_PER_IP.
Proof.
  apply reachable_ok in Hl. remember (List.length (tasks l)) as k eqn:Hk. revert l Hl Hk.
  induction k as [|k IH]; intros l Hl Hk.
  - exists l. split; [apply rtc_refl|]. destruct (tasks l) as [|t ts] eqn:Et; [|done]. split; [done|].
    destruct Hl as [Hg Hlim _ _]. rewrite Et in *. split; [by rewrite <- Hg, Nat.add_0_r|].
    intros ip n Hn. apply Hlim in Hn. rewrite <- Hn. unfold running_of. simpl. lia.
  - destruct (task_leaves l Hl) as (l1 & Hs & Hlen); [by intros E; rewrite E in Hk|].
    assert (load_ok l1) as Hl1.
    { clear -Hs Hl. induction Hs; eauto with dockerwall. }
    destruct (IH l1 Hl1 ltac:(lia)) as (l' & Hs' & Hspec). exists l'.
    split; [by etransitivity|done].
Qed.

Lemma limits_drain_witness :
  exists l', rtc TaskStep (accept_request initial_load (V4 (v4_new 10 0 0 1))).1 l' /\ tasks l' = []
    /\ global_permits l' = MAX_CONCURRENT_GLOBAL
    /\ forall ip n, per_ip_limits l' !! ip = Some n -> n = MAX_CONCURRENT_PER_IP.
Proof. apply limits_drain, rtc_once, step_request. Defined.

Lemma flood ip n :
  is_local_ip ip = true -> (n <= MAX_CONCURRENT_GLOBAL)%nat ->
  exists l, reachable l /\ (global_permits l + n = MAX_CONCURRENT_GLOBAL)%nat
    /\ tasks l = replicate n {| client := ip; running := false |}.
Proof.
  intros Hip. induction n as [|n IH]; intros Hn.
  - exists initial_load. split; [apply rtc_refl|]. split; [apply Nat.add_0_r|done].
  - destruct IH as (l & Hl & Hg & Ht); [lia|]. exists (accept_request l ip).1.
    split; [eapply rtc_r; [exact Hl|apply step_request]|].
    unfold accept_request. rewrite Hip. cbn [negb].
    destruct (global_permits l) as [|p] eqn:Eg; [lia|]. cbn [fst global_permits tasks].
    split; [lia|]. rewrite Ht. change [{| client := ip; running := false |}] with (replicate 1 {| client := ip; running := false |}).
    rewrite <- replicate_add. f_equal. lia.
Qed.

(** C39. The limit per address does not keep one client from using up the global
    limit: waiting for the address's permit already holds a global one, so 10000
    quick requests of one local client, none of which is running, make the loop
    drop every other client's requests. *)
Theorem one_client_exhausts ip (Hip : is_local_ip ip = true) :
  exists l, reachable l /\ Forall (fun t => client t = ip /\ running t = false) (tasks l)
    /\ forall other, is_local_ip other = true -> accept_request l other = (l, Overload).
Proof.
  destruct (flood ip MAX_CONCURRENT_GLOBAL Hip (le_n _)) as (l & Hl & Hg & Ht).
  exists l. split; [done|]. rewrite Ht. split; [by apply Forall_replicate|].
  intros other Ho. unfold accept_request. rewrite Ho. cbn [negb].
  assert (global_permits l = 0%nat) as -> by lia. done.
Qed.

Lemma one_client_exhausts_witness :
  exists l, reachable l
    /\ Forall (fun t => client t = V4 (v4_new 172 30 0 2) /\ running t = false) (tasks l)
    /\ forall other, is_local_ip other = true -> accept_request l other = (l, Overload).
Proof. apply (one_client_exhausts (V4 (v4_new 172 30 0 2))). reflexivity. Defined.
