(* ===== verification/Serve.v ===== *)
(** * Serving one request ([src/proxy.rs])

    From the datagram of a client to the answer: the loop of [run_dns_proxy],
    the task that it spawns, and what the firewall then does with the client's
    packets ([served_before_answered], [firewall_follows_table]). *)

From S2P Require Import Prelude RustStr Net State Stats Host Ipset Firewall Policy.
From S2P Require Import Address Control Prepare Trust Proxy Enforce Limits.

(** ** Sockets *)

Class DnsSockets (W : Type) := {
  (** the socket that is opened for the upstream: binding it, sending, and
      waiting 5 seconds for a datagram ([None]: none came) *)
  upstream_bind : string -> W -> W * Result unit;
  upstream_send : string -> SocketAddr -> W -> W * Result unit;
  upstream_recv : W -> W * option (Result string);
  (** sending from the listener, as [Sent] says *)
  listener_send : Sent -> W -> W * Result unit
}.

(** The buffer of a datagram: what is longer is cut by [recv_from]. *)
Definition cut_datagram (datagram : string) : string := String.substring 0 (Z.to_nat 4096) datagram.

(** [recv_from] gives the datagram and its sender, [recvmsg] a message. *)
Definition receive_dns_request (receive_packet_info : bool) (recv_from : Result (string * SocketAddr))
    (recvmsg : Result Received) : Result (string * SocketAddr * option Ipv4Addr) :=
  if negb receive_packet_info then
    try! received := recv_from in
    Ok (cut_datagram received.1, received.2, None)
  else
    try! message := recvmsg in
    receive_with_info message.

Section serve.
Context `{HashOrder} `{Host W} `{DnsSockets W} (from_vec : string -> option Message).

Definition forward_dns_query (query : string) (upstream_addr : SocketAddr) : M W string :=
  let! _ := call (upstream_bind "0.0.0.0:0") in
  let! _ := call (upstream_send query upstream_addr) in
  let! result := call (fun w => let '(w', r) := upstream_recv w in (w', Ok r)) in
  match result with
  | Some (Ok response) => ret (cut_datagram response)
  | Some (Err err) => fail err
  | None => fail "upstream dns timeout"
  end.

(** [send_dns_response], with the sending *)
Definition reply (response : string) (client_addr : SocketAddr) (reply_source : option Ipv4Addr) : M W unit :=
  let! sent := lift (send_dns_response response client_addr reply_source) in
  call (listener_send sent).

(** The task of one request, once it has its permits *)
Definition serve_request (d : Daemon) (clock : nat -> SystemTime) (query : string) (client_addr : SocketAddr)
    (reply_source : option Ipv4Addr) (upstream_addr : SocketAddr) (stats_ttl : Duration) : M W Daemon :=
  let! forwarded := attempt (forward_dns_query query upstream_addr) in
  match forwarded with
  | Err err =>
      let! _ := tell (eprintln ("proxy forward error: " +:+ err)) in
      ret d
  | Ok response =>
      let! inspected := attempt (inspect_and_update_state from_vec d clock response client_addr.1 stats_ttl) in
      let! d' := match inspected with
                 | Ok d' => ret d'
                 | Err err =>
                     let! _ := tell (eprintln ("proxy state update error: " +:+ err)) in
                     ret d
                 end in
      let! sent := attempt (reply response client_addr reply_source) in
      let! _ := match sent with
                | Ok _ => ret tt
                | Err err => tell (eprintln ("proxy send_to error: " +:+ err))
                end in
      ret d'
  end.

(** One turn of the loop: the request for which a task is spawned, if any *)
Definition proxy_iteration (l : Load) (request : Result (string * SocketAddr * option Ipv4Addr))
    : M W (Load * option (string * SocketAddr * option Ipv4Addr)) :=
  match request with
  | Err err =>
      let! _ := tell (eprintln ("proxy recv_from error: " +:+ err)) in
      ret (l, None)
  | Ok (query, client_addr, reply_source) =>
      let '(l', outcome) := accept_request l client_addr.1 in
      match outcome with
      | NonLocal =>
          let! _ := tell (eprintln ("proxy: dropped packet from non-local IP: " +:+ ip_to_string client_addr.1)) in
          ret (l', None)
      | Overload =>
          let! _ := tell (eprintln "proxy: dropped packet due to extreme global load") in
          ret (l', None)
      | Spawned => ret (l', Some (query, client_addr, reply_source))
      end
  end.
End serve.

(** ** Lemmas *)

(** The table after a response, whatever becomes of the pushes *)
Definition answered_table (from_vec : string -> option Message) (response : string) (table : IpsetTable)
    : IpsetTable :=
  match from_vec response with
  | Some message =>
      updated (map query_domain (queries message)) (collect_resolved_ips message) <$> table
  | None => table
  end.

Section total.
Context `{HashOrder} `{Host W}.

Lemma is_trusted_binary_returns path (w : W) : exists b, is_trusted_binary path w = Some (w, Ok b).
Proof.
  unfold is_trusted_binary, bind, ask. destruct (metadata path w) as [md|]; [|by eexists].
  destruct (is_file md), (uid md =? 0), (Z.land (mode md) GROUP_OTHER_WRITE =? 0); by eexists.
Qed.

Lemma resolve_ipset_from_returns candidates (w : W) : returns (resolve_ipset_from candidates) w.
Proof.
  induction candidates as [|c candidates IH]; [by eexists|]. cbn [resolve_ipset_from].
  destruct (is_trusted_binary_returns c w) as [b Hb]. unfold returns. rewrite (bind_eq _ _ _ _ _ _ Hb eq_refl).
  destruct b; [by eexists|exact IH].
Qed.

Lemma update_ipset_returns name ips (w : W) : returns (update_ipset name ips) w.
Proof.
  apply bind_returns; [apply resolve_ipset_from_returns|]. intros w' b _. unfold returns, bind, call.
  destruct (exec_stdin b _ _ w') as [w2 [output|e]]; [|by eexists]. destruct (negb _); by eexists.
Qed.

(** Pushing ends, whatever the tools do, and never fails. *)
Lemma push_sets_total l (w : W) : exists w', push_sets l w = Some (w', Ok tt).
Proof.
  revert w. induction l as [|[name ips] l IH]; intros w; [by exists w|]. cbn [push_sets].
  destruct (update_ipset_returns name ips w) as [[w1 r] Hr]. unfold bind at 1, attempt. rewrite Hr.
  destruct r as [u|e]; unfold bind, ret, tell; apply IH.
Qed.

Lemma inspect_total from_vec d clock response origin ttl (w : W) :
  exists w' d', inspect_and_update_state from_vec d clock response origin ttl w = Some (w', Ok d')
    /\ state d' = answered_table from_vec response (state d) /\ registry d' = registry d.
Proof.
  unfold inspect_and_update_state, answered_table. destruct (from_vec response) as [message|]; [|by exists w, d].
  pose proof (record_queries_eq d clock 0 (queries message) origin ttl) as Hq.
  destruct (record_queries _ _ _ _ _ _) as [d1 domains]. destruct Hq as (Hs & Hr & ->).
  destruct (collect_resolved_ips message) as [|ip rest] eqn:Er.
  { exists w, d1. split; [done|]. split; [|done]. rewrite Hs. apply map_eq. intros n.
    rewrite lookup_fmap. destruct (state d !! n); simpl; by rewrite ?updated_nil_ips. }
  rewrite <- Er. rewrite Hs.
  pose proof (apply_fst (state d) (map query_domain (queries message)) (collect_resolved_ips message)) as Hf.
  destruct (apply_resolved_ips _ _ _) as [st' l]. cbn [fst] in Hf. subst st'.
  destruct (push_sets_total l w) as (w' & Hw). eexists w', _. split; [by eapply bind_eq|]. done.
Qed.
End total.

(** ** Theorems *)

Section served.
Context `{HashOrder} `{Host W} `{DnsSockets W} (from_vec : string -> option Message).

(** What is printed of a failed reply *)
Definition reported (result : Result unit) (w : W) : W :=
  match result with
  | Ok _ => w
  | Err err => eprintln ("proxy send_to error: " +:+ err) w
  end.

Lemma reply_returns response client source (w : W) : returns (reply response client source) w.
Proof. apply bind_returns; [by eexists|]. intros w' s _. by eexists. Qed.

(** The task, once the response is there: the inspection, then the reply *)
Lemma serve_request_eq d clock query client source upstream ttl (w w1 w2 : W) response d' :
  forward_dns_query query upstream w = Some (w1, Ok response) ->
  inspect_and_update_state from_vec d clock response client.1 ttl w1 = Some (w2, Ok d') ->
  exists w3 sent, reply response client source w2 = Some (w3, sent)
    /\ serve_request from_vec d clock query client source upstream ttl w = Some (reported sent w3, Ok d').
Proof.
  intros Hf Hi. destruct (reply_returns response client source w2) as [[w3 sent] Hs].
  exists w3, sent. split; [done|]. unfold serve_request, bind, attempt. rewrite Hf, Hi.
  unfold ret at 1. rewrite Hs. by destruct sent.
Qed.

(** C21. Every request's task ends, whatever the upstream, the client and the
    tools do, and never with an error: it leaves the daemon's table as it was when
    there is no response, and otherwise the table that the response leads to,
    even if the kernel's sets could not be updated or the client not be answered. *)
Theorem serve_request_total d clock query client source upstream ttl (w : W) :
  exists w' d', serve_request from_vec d clock query client source upstream ttl w = Some (w', Ok d')
    /\ registry d' = registry d
    /\ match forward_dns_query query upstream w with
       | Some (_, Ok response) => state d' = answered_table from_vec response (state d)
       | _ => d' = d
       end.
Proof.
  assert (returns (forward_dns_query query upstream) w) as [[w1 [response|err]] Hf].
  { unfold forward_dns_query. apply bind_returns; [by eexists|]. intros wa _ _.
    apply bind_returns; [by eexists|]. intros wb _ _.
    apply bind_returns; [unfold returns, call; destruct (upstream_recv wb); by eexists|].
    intros wc [[r|e]|] _; by eexists. }
  - rewrite Hf. destruct (inspect_total from_vec d clock response client.1 ttl w1) as (w2 & d' & Hi & Hs & Hr).
    destruct (serve_request_eq d clock query client source upstream ttl w w1 w2 response d' Hf Hi)
      as (w3 & sent & _ & Hw). eauto.
  - rewrite Hf. unfold serve_request, bind, attempt. rewrite Hf. by eexists _, _.
Qed.

(** C3. The client is answered only after the firewall has been updated: whatever
    the upstream's response is, it is sent to the client, unchanged, in the world
    in which its inspection ended, so after every push that it leads to has been
    tried.  If before the kernel's sets held exactly the addresses of the daemon's
    table, a trusted [ipset] is there, the names of the networks are words and their sets
    do not collide, no address is the zero-valued one, and no other task changes
    the table or the sets meanwhile, then at that moment the sets hold for every
    network exactly the addresses of the new table. *)
Theorem served_before_answered `{!IpsetTool W} `{!StableFiles W}
    d clock query client source upstream ttl (w w1 : W) response
    (Hforward : forward_dns_query query upstream w = Some (w1, Ok response)) :
  exists w2 w3 sent d',
    inspect_and_update_state from_vec d clock response client.1 ttl w1 = Some (w2, Ok d')
    /\ serve_request from_vec d clock query client source upstream ttl w = Some (reported sent w3, Ok d')
    /\ reply response client source w2 = Some (w3, sent)
    /\ state d' = answered_table from_vec response (state d)
    /\ ((exists b, b ∈ IPSET_CANDIDATES /\ trusted w1 b) -> names_ok (state d) -> ips_ok (state d) ->
        match from_vec response with Some message => message_wf message | None => True end ->
        synced (state d) (kernel_sets w1) -> synced (state d') (kernel_sets w2)).
Proof.
  destruct (inspect_total from_vec d clock response client.1 ttl w1) as (w2 & d' & Hi & Hs & _).
  destruct (serve_request_eq d clock query client source upstream ttl w w1 w2 response d' Hforward Hi)
    as (w3 & sent & Hr & Hw). exists w2, w3, sent, d'. do 4 (split; [done|]).
  intros Hbin Hnames Hips Hmessage Hsync.
  destruct (inspect_synced from_vec d clock response client.1 ttl w1 Hbin Hnames Hips Hmessage Hsync)
    as (w2' & d2 & Hi2 & Hk & _). rewrite Hi in Hi2. by injection Hi2 as <- <-.
Qed.
End served.

(** ** The packets *)

(** What a match on a set sees of the kernel's sets *)
Definition set_view (sets : KernelSets) : SetView := fun n ip =>
  match sets !! n with
  | Some s => bool_decide (ip ∈ members s)
  | None => false
  end.

Lemma set_view_synced table sets name m a :
  synced table sets -> table !! name = Some m -> set_view sets name (V4 a) = bool_decide (V4 a ∈ ips m).
Proof.
  intros Hs Hm. unfold set_view. rewrite (Hs name m Hm false). cbn [members].
  apply bool_decide_ext. unfold family_ips. rewrite elem_of_filter. cbn [is_v6]. tauto.
Qed.

Section packets.
Context `{HashOrder} `{Host W} `{!IpsetTool W} `{!StableFiles W} `{!Netfilter W} `{RuleSemantics}.
Context (from_vec : string -> option Message).

(** Inspecting a response leaves the chains alone, whatever becomes of it. *)
Lemma resolve_ipset_inv cs (w w' : W) r :
  resolve_ipset_from cs w = Some (w', r) -> w' = w /\ match r with Ok b => b ∈ cs | Err _ => True end.
Proof.
  induction cs as [|c cs IH]; [by intros [= <- <-]|]. cbn [resolve_ipset_from]. unfold bind.
  destruct (is_trusted_binary_eq c w) as (b & -> & _). destruct b.
  - intros [= <- <-]. split; [done|]. by left.
  - intros [-> Hr]%IH. split; [done|]. destruct r; [by right|done].
Qed.

Lemma update_ipset_chains name ips (w w' : W) r :
  update_ipset name ips w = Some (w', r) -> chains w' = chains w.
Proof.
  unfold update_ipset, resolve_ipset_binary, bind at 1.
  destruct (resolve_ipset_from IPSET_CANDIDATES w) as [[w1 r1]|] eqn:E; [|done].
  apply resolve_ipset_inv in E as [-> Hb]. destruct r1 as [b|e]; [|by intros [= <- <-]].
  pose proof (nf_restore b (restore_payload name ips) w Hb) as Hc. unfold bind, call.
  destruct (exec_stdin b _ _ w) as [w2 [out|e]]; cbn [fst] in Hc; [|by intros [= <- <-]].
  by destruct (negb (success out)); intros [= <- <-].
Qed.

Lemma push_sets_chains l (w w' : W) r : push_sets l w = Some (w', r) -> chains w' = chains w.
Proof.
  revert w. induction l as [|[name ips] l IH]; intros w; [by intros [= <- <-]|]. cbn [push_sets].
  unfold bind at 1, attempt. destruct (update_ipset name ips w) as [[w1 r1]|] eqn:E; [|done].
  apply update_ipset_chains in E. destruct r1 as [u|e]; unfold bind, ret, tell; intros H'%IH.
  - congruence.
  - by rewrite H', nf_eprintln.
Qed.

Lemma inspect_chains d clock response origin ttl (w w' : W) r :
  inspect_and_update_state from_vec d clock response origin ttl w = Some (w', r) -> chains w' = chains w.
Proof.
  unfold inspect_and_update_state. destruct (from_vec response) as [message|]; [|by intros [= <- <-]].
  destruct (record_queries _ _ _ _ _ _) as [d1 domains].
  destruct (collect_resolved_ips message) as [|ip0 rest0]; [by intros [= <- <-]|].
  destruct (apply_resolved_ips _ _ _) as [st' l]. unfold bind.
  destruct (push_sets l w) as [[w1 [u|e]]|] eqn:E; [|intros [= <- <-]|done];
    apply push_sets_chains in E; [|done]. by intros [= <- <-].
Qed.

(** C1. The firewall follows the daemon's table.  A Docker network's rules are
    installed (the filter accepts them, and the network's set exists).  Later
    nobody has changed the chain of these rules, and the kernel's sets hold
    exactly the addresses of the daemon's table; a trusted [ipset] is there, the
    names of the networks are words and their sets do not collide, no address
    is the zero-valued one, and no other task runs meanwhile.  Then a response is
    handled, whatever it is, and afterwards the chain as it then is lets a new
    connection of one of the network's containers to an IPv4 address pass exactly
    if the new table has the address for this network (so it was resolved for a
    domain that the network allows), or it lies in 172.16.0.0/12; everything else
    is dropped. *)
Theorem firewall_follows_table fuel b plan (w : W) rs nat_rs n
    (Hrs : chains w !! DOCKER_USER b = Some rs) (Hnat : chains w !! PREROUTING b = Some nat_rs)
    (Hn : chains_within n (chains w)) (Hfuel : (n + 6 <= fuel)%nat)
    (Hready : block_ready b (plan_name plan) (docker_inserts plan) w = true) :
  exists w1, ensure_docker_iptables_rules fuel b plan w = Some (w1, Ok tt)
    /\ forall d clock response origin ttl w2 m,
         chains w2 !! DOCKER_USER b = chains w1 !! DOCKER_USER b ->
         (exists i, i ∈ IPSET_CANDIDATES /\ trusted w2 i) -> names_ok (state d) -> ips_ok (state d) ->
         match from_vec response with Some message => message_wf message | None => True end ->
         synced (state d) (kernel_sets w2) -> state d !! plan_name plan = Some m ->
         exists w3 d' m' rs', inspect_and_update_state from_vec d clock response origin ttl w2 = Some (w3, Ok d')
           /\ state d' = answered_table from_vec response (state d)
           /\ state d' !! plan_name plan = Some m' /\ chains w3 !! DOCKER_USER b = Some rs'
           /\ forall jump p a,
                pkt_established p = false -> ip_in_subnet (pkt_src p) (plan_subnet plan) = true ->
                pkt_dst p = V4 a ->
                run_chain (set_view (kernel_sets w3)) jump rs' p
                = if bool_decide (V4 a ∈ ips m') || ip_in_subnet (V4 a) LOCAL_RANGE then Accept else Drop.
Proof.
  destruct (docker_rules_verdict fuel b plan w rs nat_rs n Hrs Hnat Hn Hfuel) as (w1 & r & He & Hr).
  rewrite Hready in Hr. destruct Hr as (-> & rs' & Hc & Hv).
  exists w1. split; [done|].
  intros d clock response origin ttl w2 m Hsame Hbin Hnames Hips Hmessage Hsync Hm.
  destruct (inspect_synced from_vec d clock response origin ttl w2 Hbin Hnames Hips Hmessage Hsync)
    as (w3 & d' & Hi & Hk & Hs).
  assert (exists m', state d' !! plan_name plan = Some m') as [m' Hm'].
  { rewrite Hs. destruct (from_vec response); [rewrite lookup_fmap, Hm|]; by eexists. }
  exists w3, d', m', rs'. split; [done|]. split; [done|]. split; [done|].
  split; [by rewrite (inspect_chains _ _ _ _ _ _ _ _ Hi), Hsame|]. intros jump p a Hest Hsrc Hdst.
  rewrite Hv, Hest, Hsrc. unfold docker_policy. by rewrite Hdst, (set_view_synced _ _ _ _ _ Hk Hm').
Qed.
End packets.
