(* ===== verification/Main.v ===== *)
(** * The program ([src/main.rs], [src/cli.rs], [src/daemon.rs], [src/control.rs])

    The commands, the start of the daemon with its two servers and the permissions
    of its control socket, and the client of the statistics. *)

From S2P Require Import Prelude RustStr Net State Stats Host Control Ipset Address Prepare System Proxy.

(** ** The commands ([src/cli.rs]) *)

Module Cli.

Inductive IpsetCommands : Type :=
| Create (name : string) (allowed_domains : list string)
| Remove (name : string).

Inductive Commands : Type :=
| Stats
| Daemon (dns_listen_addr : string) (dns_upstream_addr : option string) (stats_ttl : Z)
| PrepareNetwork (runtime : ContainerRuntime) (interface : option string) (name : string)
    (domain_patterns : list string)
| Ipset (command : IpsetCommands).
End Cli.

(** ** The operating system *)

Class ServerIO (W : Type) := {
  (** the socket file: [Path::exists], [remove_file], [UnixListener::bind] and
      [set_permissions] *)
  path_exists : string -> W -> bool;
  remove_file : string -> W -> W * Result unit;
  unix_bind : string -> W -> W * Result unit;
  set_permissions : string -> Z -> W -> W * Result unit;
  (** [UdpSocket::bind], with the local address of the socket, and its option *)
  udp_bind : string -> W -> W * Result SocketAddr;
  set_packet_info : W -> W * Result unit;
  (** connecting to the control socket and sending the bytes: all that comes
      back, and whether the stream was closed or broke *)
  control_stream : string -> W -> W * (string * Result unit);
  print : string -> W -> W
}.

Definition CONTROL_SOCKET_PATH : string := "/run/dockerwall.sock".
(** The mode [0o600] *)
Definition SOCKET_MODE : Z := 6 * 64.

(** ** The statistics' client ([send_stats]) *)

(** The lines that [read_line] gives one after the other, with their ends; the
    last one may have none. *)
Fixpoint stream_lines (current s : string) : list string :=
  match s with
  | "" => if is_empty current then [] else [current]
  | String a s' =>
      if Ascii.eqb a newline then (current +:+ String a "") :: stream_lines "" s'
      else stream_lines (current +:+ String a "") s'
  end.

Section program.
Context `{Host W} `{ServerIO W}.

(** A line that is not UTF-8 is an error, and so is the end of a broken stream,
    whose unfinished line is lost. *)
Fixpoint print_lines (lines : list string) (ended : Result unit) : M W unit :=
  match lines with
  | [] => lift ended
  | line :: lines' =>
      match ended, ends_with nl line with
      | Err err, false => fail err
      | _, _ =>
          if is_utf8 line then
            let! _ := tell (print line) in
            print_lines lines' ended
          else fail "stream did not contain valid UTF-8"
      end
  end.

Definition send_stats : M W unit :=
  let! answer := call (fun w => let '(w', r) := control_stream ("STATS" +:+ nl) w in (w', Ok r)) in
  print_lines (stream_lines "" answer.1) answer.2.

(** ** The daemon's start *)

(** [run_control_server] up to its loop *)
Definition start_control_server : M W unit :=
  let! present := ask (path_exists CONTROL_SOCKET_PATH) in
  let! _ := if present : bool then call (remove_file CONTROL_SOCKET_PATH) else ret tt in
  let! _ := call (unix_bind CONTROL_SOCKET_PATH) in
  let! _ := call (set_permissions CONTROL_SOCKET_PATH SOCKET_MODE) in
  tell (println ("dockerwall control socket listening on " +:+ CONTROL_SOCKET_PATH)).

Definition is_ipv4 (addr : SocketAddr) : bool := match addr.1 with V4 _ => true | V6 _ => false end.

(** [run_dns_proxy] up to its loop: the form of reception, and the upstream *)
Definition start_dns_proxy (dns_listen_addr dns_upstream_addr : string) : M W (bool * SocketAddr) :=
  let! local_addr := call (udp_bind dns_listen_addr) in
  let receive_packet_info := is_ipv4 local_addr in
  let! _ := if receive_packet_info then call set_packet_info else ret tt in
  let! upstream_addr := lift (ok_or (parse_socket_addr dns_upstream_addr) "invalid socket address syntax") in
  let! _ := tell (println ("dockerwall dns proxy listening on " +:+ dns_listen_addr)) in
  ret (receive_packet_info, upstream_addr).

(** A daemon whose proxy loop runs: it does so for good, and so the result of the
    task of the control server is never looked at. *)
Record Serving : Type := {
  serving_port : Z;
  serving_info : bool;
  serving_upstream : SocketAddr;
  serving_ttl : Duration;
  serving_control : Result unit
}.

(** [run_daemon], when the control server's task comes first *)
Definition run_daemon (dns_listen_addr dns_upstream_addr : string) (stats_ttl : Duration) : M W Serving :=
  let! listen_addr := lift (ok_or (parse_socket_addr dns_listen_addr) "invalid socket address syntax") in
  let dns_port := listen_addr.2 in
  let! control_handle := attempt start_control_server in
  let! proxy := start_dns_proxy dns_listen_addr dns_upstream_addr in
  ret {| serving_port := dns_port; serving_info := proxy.1; serving_upstream := proxy.2;
         serving_ttl := stats_ttl; serving_control := control_handle |}.

(** ** [main] *)

(** What a command comes to: a daemon that runs, or the end of the program *)
Definition run_command (finish : string -> Z -> Z) (fuel : nat) (command : Cli.Commands) : M W (option Serving) :=
  match command with
  | Cli.Stats => let! _ := send_stats in ret None
  | Cli.Daemon dns_listen_addr dns_upstream_addr stats_ttl =>
      let! dns_upstream_addr :=
        match dns_upstream_addr with
        | Some addr => ret addr
        | None =>
            let! found := resolve_upstream_from_resolv_conf in
            ret (default "1.1.1.1:53" found)
        end in
      let! serving := run_daemon dns_listen_addr dns_upstream_addr (stats_ttl * NANOS) in
      ret (Some serving)
  | Cli.PrepareNetwork runtime interface name domain_patterns =>
      let! _ := prepare_network finish fuel name domain_patterns runtime interface in ret None
  | Cli.Ipset command =>
      let! _ := match command with
                | Cli.Create name allowed_domains => send_create name None allowed_domains
                | Cli.Remove name => send_remove name
                end in
      ret None
  end.

(** The end of the program with its exit code, or the daemon *)
Definition main (finish : string -> Z -> Z) (fuel : nat) (command : Cli.Commands) (w : W)
    : option (W * (Z + Serving)) :=
  match run_command finish fuel command w with
  | Some (w', Ok None) => Some (w', inl 0)
  | Some (w', Ok (Some serving)) => Some (w', inr serving)
  | Some (w', Err err) => Some (eprintln ("error: " +:+ err) w', inl 1)
  | None => None
  end.
End program.

(** ** Theorems: the statistics' client *)

Lemma stream_lines_all current s : push_all (stream_lines current s) = current +:+ s.
Proof.
  revert current. induction s as [|a s IH]; intros current; cbn [stream_lines].
  - destruct current; [done|]. cbn [is_empty push_all foldr]. done.
  - destruct (Ascii.eqb a newline).
    + cbn [push_all foldr]. fold (push_all (stream_lines "" s)). rewrite IH. by rewrite sapp_assoc.
    + rewrite IH. by rewrite sapp_assoc.
Qed.

Section client.
Context `{Host W} `{ServerIO W}.

Lemma print_lines_all ls (w : W) :
  Forall (fun l => is_utf8 l = true) ls ->
  print_lines ls (Ok tt) w = Some (fold_left (fun w l => print l w) ls w, Ok tt).
Proof.
  intros Hls. revert w. induction Hls as [|l ls Hl _ IH]; intros w; [done|]. cbn [print_lines fold_left].
  rewrite Hl. by rewrite <- IH.
Qed.

(** The report is printed in full: what [dockerwall stats] prints, line by
    line, is the daemon's whole answer, also when its last line has no end. *)
Theorem send_stats_prints (w w1 : W) answer
    (Hanswer : control_stream ("STATS" +:+ nl) w = (w1, (answer, Ok tt)))
    (Hutf8 : Forall (fun l => is_utf8 l = true) (stream_lines "" answer)) :
  exists ls, send_stats w = Some (fold_left (fun w l => print l w) ls w1, Ok tt) /\ push_all ls = answer.
Proof.
  exists (stream_lines "" answer). split; [|apply (stream_lines_all "")].
  unfold send_stats, bind, call. rewrite Hanswer. by apply print_lines_all.
Qed.
End client.

(** ** Theorems: the control server *)

(** The files, as far as the control socket is concerned: each call may fail,
    and when it reports success, the path is free after its removal, was free
    before its binding and has a file afterwards, and has the permissions that were set. *)
Class SocketFiles (W : Type) `{Host W} `{!ServerIO W} := {
  file_mode : string -> W -> option Z;
  remove_mode path w w' : remove_file path w = (w', Ok tt) -> file_mode path w' = None;
  bind_mode path w w' : unix_bind path w = (w', Ok tt) ->
    file_mode path w = None /\ is_Some (file_mode path w');
  chmod_mode path mode w w' : set_permissions path mode w = (w', Ok tt) -> file_mode path w' = Some mode;
  println_mode path s w : file_mode path (println s w) = file_mode path w
}.

(** Of the twelve bits of the permissions, those of the owner to read and to
    write are set, and no other: 0600. *)
Definition owner_only (mode : Z) : Prop :=
  forall i, 0 <= i < 12 -> Z.testbit mode i = bool_decide (i = 7 \/ i = 8).

Lemma owner_only_check mode :
  forallb (fun i => Bool.eqb (Z.testbit mode (Z.of_nat i)) (bool_decide (Z.of_nat i = 7 \/ Z.of_nat i = 8))) (seq 0 12)
    = true -> owner_only mode.
Proof.
  rewrite forallb_forall. intros Hm i Hi. apply eqb_true_iff. rewrite <- (Z2Nat.id i) by lia.
  apply Hm, in_seq. lia.
Qed.

(** C35. The control socket is the daemon's owner's only: the control server's
    start returns; if it succeeds, whether or not a socket was left over, the
    socket has the mode 0600 before its first connection is accepted, and if it
    fails, then because a left-over socket could not be removed, because the
    socket could not be bound (to a path that is free if something was
    removed from it), or because its mode could not be set. *)
Theorem control_socket_private `{SocketFiles W} (w : W) :
  exists w' r, start_control_server w = Some (w', r)
    /\ match r with
       | Ok _ => exists mode, file_mode CONTROL_SOCKET_PATH w' = Some mode /\ owner_only mode
       | Err e =>
           (path_exists CONTROL_SOCKET_PATH w = true /\ exists w1, remove_file CONTROL_SOCKET_PATH w = (w1, Err e))
           \/ exists w1,
                (if path_exists CONTROL_SOCKET_PATH w
                 then remove_file CONTROL_SOCKET_PATH w = (w1, Ok tt) /\ file_mode CONTROL_SOCKET_PATH w1 = None
                 else w1 = w)
                /\ ((exists w2, unix_bind CONTROL_SOCKET_PATH w1 = (w2, Err e))
                    \/ exists w2 w3, unix_bind CONTROL_SOCKET_PATH w1 = (w2, Ok tt)
                         /\ set_permissions CONTROL_SOCKET_PATH SOCKET_MODE w2 = (w3, Err e))
       end.
Proof.
  unfold start_control_server, bind at 1, ask. set (P := CONTROL_SOCKET_PATH).
  assert ((exists w1 e, remove_file P w = (w1, Err e) /\ path_exists P w = true
             /\ (if path_exists P w then call (remove_file P) else ret tt) w = Some (w1, Err e))
          \/ exists w1, (if path_exists P w then remove_file P w = (w1, Ok tt) /\ file_mode P w1 = None else w1 = w)
               /\ (if path_exists P w then call (remove_file P) else ret tt) w = Some (w1, Ok tt))
    as [(w1 & e & Hr & Hp & E)|(w1 & Hw1 & E)].
  { unfold call, ret. destruct (path_exists P w); [|right; by exists w].
    destruct (remove_file P w) as [w1 [[]|e]] eqn:Er; [right|left; by exists w1, e].
    exists w1. split; [|done]. split; [done|by eapply remove_mode]. }
  { exists w1, (Err e). unfold bind. rewrite E. split; [done|]. left. split; [done|by exists w1]. }
  rewrite (bind_eq _ _ _ _ _ _ E eq_refl). unfold bind at 1, call at 1.
  destruct (unix_bind P w1) as [w2 [[]|e]] eqn:Eb; [|exists w2, (Err e); eauto 8].
  unfold bind, call. destruct (set_permissions P SOCKET_MODE w2) as [w3 [[]|e]] eqn:Ec;
    [|exists w3, (Err e); split; [done|]; right; exists w1; eauto 8].
  eexists _, (Ok tt). split; [done|]. exists SOCKET_MODE. rewrite println_mode.
  split; [by eapply chmod_mode|]. by apply owner_only_check.
Qed.

(** ** Theorems: the daemon's start *)

(** The upstream of [dockerwall daemon] without the option *)
Definition default_upstream (resolv_conf : Result string) : string :=
  default "1.1.1.1:53" (match resolv_conf with Ok contents => first_nameserver (lines contents) | Err _ => None end).

Lemma default_upstream_parses resolv_conf :
  exists ip, parse_socket_addr (default_upstream resolv_conf) = Some (ip, 53).
Proof.
  unfold default_upstream. destruct resolv_conf as [contents|e]; [|by eexists].
  destruct (first_nameserver (lines contents)) as [u|] eqn:E; [|by eexists].
  destruct (upstream_parses _ _ E) as (ip & _ & Hu). by exists ip.
Qed.

Section daemon.
Context `{Host W} `{ServerIO W}.

Lemma start_control_server_returns (w : W) : returns start_control_server w.
Proof.
  apply bind_returns; [by eexists|]. intros w1 present _.
  apply bind_returns; [by destruct present; eexists|]. intros w2 _ _.
  apply bind_returns; [by eexists|]. intros w3 _ _. apply bind_returns; by eexists.
Qed.

Lemma start_dns_proxy_serves listen upstream local (w : W) :
  (forall w, exists w', udp_bind listen w = (w', Ok local)) ->
  (is_ipv4 local = true -> forall w, exists w', set_packet_info w = (w', Ok tt)) ->
  exists w', start_dns_proxy listen upstream w
    = Some (w', match parse_socket_addr upstream with
                | Some addr => Ok (is_ipv4 local, addr)
                | None => Err "invalid socket address syntax"
                end).
Proof.
  intros Hbind Hinfo. destruct (Hbind w) as (w1 & Hw1).
  unfold start_dns_proxy, bind, call, lift, tell, ret. rewrite Hw1.
  destruct (is_ipv4 local).
  - destruct (Hinfo eq_refl w1) as (w2 & ->). destruct (parse_socket_addr upstream); by eexists.
  - destruct (parse_socket_addr upstream); by eexists.
Qed.

(** C36. [dockerwall daemon] starts: if its address can be parsed, its socket be
    bound, and packet information be asked for (which it is exactly on an IPv4
    socket), then the upstream decides.  It is the one given, or else the first usable
    nameserver of [/etc/resolv.conf], or else 1.1.1.1, these at port 53.  If it can be parsed,
    which it always can when none is given, the proxy's loop runs, even if
    the control socket could not be opened, tells its clients the port of the
    address it was given, and keeps statistics for the given seconds; a given
    one that cannot be parsed ends the program with exit code 1. *)
Theorem daemon_starts finish fuel listen ip port local upstream ttl (w : W)
    (Hlisten : parse_socket_addr listen = Some (ip, port))
    (Hbind : forall w, exists w', udp_bind listen w = (w', Ok local))
    (Hinfo : is_ipv4 local = true -> forall w, exists w', set_packet_info w = (w', Ok tt)) :
  let addr := default (default_upstream (read_to_string "/etc/resolv.conf" w)) upstream in
  (exists w' control, main finish fuel (Cli.Daemon listen upstream ttl) w
     = Some (w', match parse_socket_addr addr with
                 | Some upstream_addr =>
                     inr {| serving_port := port; serving_info := is_ipv4 local;
                            serving_upstream := upstream_addr; serving_ttl := ttl * NANOS;
                            serving_control := control |}
                 | None => inl 1
                 end))
  /\ (upstream = None -> exists upstream_ip, parse_socket_addr addr = Some (upstream_ip, 53)).
Proof.
  cbv zeta. split; [|intros ->; apply default_upstream_parses].
  set (addr := default _ upstream).
  assert (exists w0, forall k : string -> M W (option Serving),
    bind (match upstream with
          | Some addr => ret addr
          | None => let! found := resolve_upstream_from_resolv_conf in ret (default "1.1.1.1:53" found)
          end) k w = k addr w0) as [w0 Hup].
  { exists w. intros k. subst addr. destruct upstream as [addr|]; [done|]. unfold bind, ask, ret.
    unfold resolve_upstream_from_resolv_conf, bind, ask, default_upstream. by destruct (read_to_string _ w). }
  destruct (start_control_server_returns w0) as [[w1 control] Hc].
  destruct (start_dns_proxy_serves listen addr local w1 Hbind Hinfo) as (w2 & Hw2).
  unfold main, run_command. rewrite Hup. unfold run_daemon, bind, attempt, lift, ret.
  rewrite Hlisten. cbn [ok_or]. rewrite Hc, Hw2. destruct (parse_socket_addr addr); by eexists _, control.
Qed.
End daemon.
