(* ===== verification/Interleave.v ===== *)
(** * Concurrent tasks of the daemon ([src/proxy.rs], [src/control.rs], [src/stats.rs])

    The daemon handles every connection of the control socket and every response
    in a task of its own.  A task is where it stands: what it has read, and what it
    has still to do.  A step runs one critical section of one task, or one command of a
    push; the tasks take turns in any order. *)

From S2P Require Import Prelude RustStr Net State Stats Host Ipset Control Proxy.

(** ** Tasks *)

(** A response whose message has been read: the names of its queries, its
    addresses, the client, and the time to live of the statistics *)
Record Inspection : Type := {
  insp_queries : list string;
  insp_resolved : list IpAddr;
  insp_origin : IpAddr;
  insp_ttl : Duration
}.

Inductive Task : Type :=
(** a connection with the sections that it has still to enter *)
| Connection (todo : list CriticalSection)
(** a response before the recording of the queries that are left; then the three
    sections of [record_resolve] for a domain: the clock has been read, the
    network been found, the policy been asked *)
| Recording (m : Inspection) (left : list string)
| Seen (m : Inspection) (left : list string) (domain : string) (now : SystemTime)
| Found (m : Inspection) (left : list string) (domain : string) (now : SystemTime)
    (network : option Z * option string)
| Judged (m : Inspection) (left : list string) (domain : string) (now : SystemTime)
    (network_id : option Z) (accepted : option bool)
(** the sets that are left to push, and in [update_ipset] the commands that are
    left to carry out *)
| Pushing (sets : list (string * list IpAddr))
| Restoring (cmds : list (list string)) (sets : list (string * list IpAddr)).

(** What a step did, for the history *)
Inductive Event : Type :=
| Accepted (input : option string)
| Entered (c : CriticalSection)
| Started
| Responded (table : IpsetTable) (domains : list string) (resolved_ips : list IpAddr)
| Internal
| Pushed
| PushFailed.

Definition with_state (d : Daemon) (s : IpsetTable) : Daemon :=
  {| state := s; stats := stats d; registry := registry d |}.
Definition with_stats (d : Daemon) (s : StatsTable) : Daemon :=
  {| state := state d; stats := s; registry := registry d |}.

(** The daemon, the kernel's sets, and all tasks there have been *)
Record Sys : Type := {
  sys_daemon : Daemon;
  sys_kernel : KernelSets;
  sys_tasks : list Task
}.

Definition spawn (s : Sys) (t : Task) : Sys :=
  {| sys_daemon := sys_daemon s; sys_kernel := sys_kernel s; sys_tasks := sys_tasks s ++ [t] |}.

(** The domains that a response is about *)
Definition insp_domains (m : Inspection) : list string := map query_domain (insp_queries m).

Section steps.
Context `{HashOrder}.

(** One step of a task, with the daemon's data and the kernel's sets *)
Inductive TaskStep (d : Daemon) (k : KernelSets) : Event -> Task -> Daemon -> KernelSets -> Task -> Prop :=
| task_enters c todo :
    TaskStep d k (Entered c) (Connection (c :: todo)) (run_section d c) k (Connection todo)
| task_sees m name left now :
    TaskStep d k Internal (Recording m (name :: left)) d k (Seen m left (query_domain name) now)
| task_finds m left domain now :
    TaskStep d k Internal (Seen m left domain now)
      d k (Found m left domain now (find_network (registry d) (insp_origin m)))
| task_judges m left domain now network :
    TaskStep d k Internal (Found m left domain now network)
      d k (Judged m left domain now network.1 (acceptance (state d) domain network.2))
| task_records m left domain now network_id accepted :
    TaskStep d k Internal (Judged m left domain now network_id accepted)
      (with_stats d (write_stats (stats d) domain (insp_origin m) now (insp_ttl m) network_id accepted))
      k (Recording m left)
(** the section of [apply_resolved_ips] *)
| task_applies m :
    TaskStep d k (Responded (state d) (insp_domains m) (insp_resolved m)) (Recording m [])
      (with_state d (apply_resolved_ips (state d) (insp_domains m) (insp_resolved m)).1)
      k (Pushing (apply_resolved_ips (state d) (insp_domains m) (insp_resolved m)).2)
(** [update_ipset]: its commands are carried out one by one, and it may fail
    before any of them; the error is printed, and that is all *)
| task_starts name ips sets :
    word name ->
    TaskStep d k Internal (Pushing ((name, ips) :: sets)) d k (Restoring (restore_cmds name ips) sets)
| task_skips push sets : TaskStep d k PushFailed (Pushing (push :: sets)) d k (Pushing sets)
| task_restores c cmds sets k' :
    restore_command c k = Some k' ->
    TaskStep d k Internal (Restoring (c :: cmds) sets) d k' (Restoring cmds sets)
| task_pushed sets : TaskStep d k Pushed (Restoring [] sets) d k (Pushing sets)
| task_fails cmds sets : TaskStep d k PushFailed (Restoring cmds sets) d k (Pushing sets).

(** A connection is accepted, with any bytes or none in time; a response begins
    to be inspected; a task makes a step. *)
Inductive SysStep : Event -> Sys -> Sys -> Prop :=
| sys_accepts s input : SysStep (Accepted input) s (spawn s (Connection (control_sections input)))
| sys_inspects s m : Forall ip_wf (insp_resolved m) -> SysStep Started s (spawn s (Recording m (insp_queries m)))
| sys_runs s i e t d' k' t' :
    sys_tasks s !! i = Some t -> TaskStep (sys_daemon s) (sys_kernel s) e t d' k' t' ->
    SysStep e s {| sys_daemon := d'; sys_kernel := k'; sys_tasks := <[i := t']> (sys_tasks s) |}.

(** The runs of the daemon from its start, with their histories *)
Inductive Run (kernel : KernelSets) : list Event -> Sys -> Prop :=
| run_start : Run kernel [] {| sys_daemon := initial_daemon; sys_kernel := kernel; sys_tasks := [] |}
| run_step history s e s' :
    Run kernel history s -> SysStep e s s' -> Run kernel (history ++ [e]) s'.

(** A name that is not one word is refused with the first command of its script,
    so that only a word's commands are carried out. *)
Lemma refused_name name sets :
  (forall n, split_ascii_whitespace name <> [n]) ->
  restore_command (split_ascii_whitespace ("flush " +:+ name)) sets = None.
Proof.
  intros Hn. unfold split_ascii_whitespace in *.
  change ("flush " +:+ name) with ("flush" +:+ String " " name). rewrite split_aws_word by done.
  change ("" +:+ "flush") with "flush". destruct (split_aws_from "" name) as [|n [|n' l]]; [done|by destruct (Hn n)|].
  cbn. by destruct l.
Qed.

(** ** Only what the policy allowed *)

(** At some time a response with the address was handled for a domain that a
    pattern which the network had then accepts. *)
Definition granted (history : list Event) (name : string) (ip : IpAddr) : Prop :=
  exists table domains resolved_ips m domain pattern,
    Responded table domains resolved_ips ∈ history /\ table !! name = Some m
    /\ ip ∈ resolved_ips /\ domain ∈ domains /\ pattern ∈ allowed_domain_patterns m
    /\ domain_matches_pattern domain pattern = true.

Lemma granted_more history e name ip : granted history name ip -> granted (history ++ [e]) name ip.
Proof.
  intros (t & ds & ips & m & d & p & Hin & Hrest). exists t, ds, ips, m, d, p.
  split; [|done]. apply elem_of_app. by left.
Qed.

Definition sets_granted (history : list Event) (sets : list (string * list IpAddr)) : Prop :=
  forall name l ip, (name, l) ∈ sets -> ip ∈ l -> granted history name ip.

(** A command of a push empties a set, or adds an address that was granted. *)
Definition command_granted (history : list Event) (c : list string) : Prop :=
  (exists n, c = ["flush"; n])
  \/ exists name ip, granted history name ip /\ ip_wf ip
       /\ c = ["add"; family_set name ip; ip_to_string ip; "-exist"].

Definition task_granted (history : list Event) (t : Task) : Prop :=
  match t with
  | Connection _ => True
  | Recording m _ | Seen m _ _ _ | Found m _ _ _ _ | Judged m _ _ _ _ _ => Forall ip_wf (insp_resolved m)
  | Pushing sets => sets_granted history sets
  | Restoring cmds sets => Forall (command_granted history) cmds /\ sets_granted history sets
  end.

(** An address of a set was there at the start, or was granted to a network that
    has the set. *)
Definition sets_from (kernel : KernelSets) (history : list Event) (sets : KernelSets) : Prop :=
  forall n ks ip, sets !! n = Some ks -> ip ∈ members ks ->
    (exists ks0, kernel !! n = Some ks0 /\ ip ∈ members ks0)
    \/ exists name, (n = name \/ n = ipv6_ipset_name name) /\ granted history name ip.

Record provenance (kernel : KernelSets) (history : list Event) (s : Sys) : Prop := {
  responses_wf table domains resolved :
    Responded table domains resolved ∈ history -> Forall ip_wf resolved;
  table_granted name m ip :
    state (sys_daemon s) !! name = Some m -> ip ∈ ips m -> granted history name ip;
  tasks_granted : Forall (task_granted history) (sys_tasks s);
  kernel_granted : sets_from kernel history (sys_kernel s)
}.

Lemma sets_granted_more history e sets : sets_granted history sets -> sets_granted (history ++ [e]) sets.
Proof. intros Hs name l ip Hin Hip. eapply granted_more, Hs; eauto. Qed.

Lemma command_granted_more history e c : command_granted history c -> command_granted (history ++ [e]) c.
Proof. intros [?|(name & ip & Hg & ?)]; [by left|right]. exists name, ip. split; [by apply granted_more|done]. Qed.

Lemma task_granted_more history e t : task_granted history t -> task_granted (history ++ [e]) t.
Proof.
  destruct t; cbn [task_granted]; try done; [apply sets_granted_more|].
  intros [Hc Hs]. split; [|by apply sets_granted_more].
  eapply Forall_impl; [exact Hc|]. intros c. apply command_granted_more.
Qed.

Lemma sets_from_more kernel history e sets : sets_from kernel history sets -> sets_from kernel (history ++ [e]) sets.
Proof.
  intros Hk n ks ip Hn Hip. destruct (Hk n ks ip Hn Hip) as [|(name & ? & ?)]; [by left|right].
  exists name. split; [done|]. by apply granted_more.
Qed.

#[local] Hint Resolve granted_more sets_granted_more task_granted_more sets_from_more : dockerwall.

Lemma updated_granted history table domains resolved_ips name m ip :
  (forall name m ip, table !! name = Some m -> ip ∈ ips m -> granted history name ip) ->
  table !! name = Some m -> ip ∈ ips (updated domains resolved_ips m) ->
  granted (history ++ [Responded table domains resolved_ips]) name ip.
Proof.
  intros Ht Hm [Hip|[Ha Hip]]%updated_ips; [by eapply granted_more, Ht|].
  apply allowed_inv in Ha as (d & p & Hd & Hp & E).
  exists table, domains, resolved_ips, m, d, p. split; [|done]. apply elem_of_app. right. by left.
Qed.

(** The commands of a push whose addresses were granted *)
Lemma restore_cmds_granted history name l :
  (forall ip, ip ∈ l -> granted history name ip /\ ip_wf ip) ->
  Forall (command_granted history) (restore_cmds name l).
Proof.
  intros Hl. apply Forall_cons_2; [left; by eexists|]. apply Forall_cons_2; [left; by eexists|].
  apply Forall_forall. intros c (ip & -> & Hip)%list_elem_of_fmap. right. exists name, ip.
  destruct (Hl ip Hip). auto.
Qed.

(** What such a command does to the sets *)
Lemma command_sets kernel history c sets sets' :
  command_granted history c -> restore_command c sets = Some sets' ->
  sets_from kernel history sets -> sets_from kernel history sets'.
Proof.
  intros Hc E Hk n ks ip Hn Hip.
  destruct Hc as [[m ->]|(name & ip' & Hg & Hwf & ->)]; cbn [restore_command option_bind mbind] in E.
  - destruct (sets !! m) as [s0|]; [|done]. injection E as <-. rewrite lookup_insert in Hn.
    case_decide; [|by eapply Hk]. injection Hn as <-. by apply elem_of_empty in Hip.
  - destruct (sets !! family_set name ip') as [s0|] eqn:Em; [|done]. cbn [option_bind mbind] in E.
    rewrite parse_ip_to_string in E by done. cbn [option_bind mbind] in E.
    destruct (_ && _); [|done]. injection E as <-. rewrite lookup_insert in Hn.
    case_decide as En; [|by eapply Hk]. subst n. injection Hn as <-. cbn [members] in Hip.
    apply elem_of_union in Hip as [->%elem_of_singleton|Hip]; [right|by eapply Hk].
    exists name. split; [destruct ip'; auto|done].
Qed.

(** A step of a task keeps what is known of the table, the task and the sets. *)
Lemma task_provenance kernel history e d k t d' k' t' :
  TaskStep d k e t d' k' t' ->
  (forall table domains resolved, Responded table domains resolved ∈ history -> Forall ip_wf resolved) ->
  (forall name m ip, state d !! name = Some m -> ip ∈ ips m -> granted history name ip) ->
  task_granted history t -> sets_from kernel history k ->
  (forall table domains resolved, e = Responded table domains resolved -> Forall ip_wf resolved)
  /\ (forall name m ip, state d' !! name = Some m -> ip ∈ ips m -> granted (history ++ [e]) name ip)
  /\ task_granted (history ++ [e]) t' /\ sets_from kernel (history ++ [e]) k'.
Proof.
  intros Hstep Hwf Hd Ht Hk.
  assert (forall name m ip, state d !! name = Some m -> ip ∈ ips m -> granted (history ++ [e]) name ip) as Hd'
    by eauto with dockerwall.
  destruct Hstep as [c todo|m name left now|m left domain now|m left domain now network|m left domain now nid acc
                    |m|name l sets Hword|push sets|c cmds sets k' Hr|sets|cmds sets];
    cbn [task_granted with_state with_stats state] in *;
    (split; [try done|split; [try done|split; [|eauto with dockerwall]]]); try done.
  - intros name m ip Hm Hip. destruct c as [n s|n ps|n]; cbn [run_section state] in Hm; [by eapply Hd'| |].
    + rewrite lookup_insert in Hm. case_decide; [|by eapply Hd']. injection Hm as <-.
      by apply elem_of_empty in Hip.
    + rewrite lookup_delete in Hm. case_decide; [done|by eapply Hd'].
  - by intros table domains resolved [= _ _ <-].
  - intros name m' ip. rewrite apply_fst, lookup_fmap_Some. intros (m0 & <- & Hm0). by eapply updated_granted.
  - intros name l ip Hin Hip. apply apply_snd in Hin as (m' & Hm & _ & _ & ->).
    apply elem_of_hs_iter in Hip. by eapply updated_granted.
  - split; [|intros n l' ip Hin Hip; eapply granted_more, Ht; [by right|done]].
    apply restore_cmds_granted. intros ip Hip.
    assert (granted history name ip) as Hg by (eapply Ht; [by left|done]). split; [by apply granted_more|].
    destruct Hg as (? & ? & rs & ? & ? & ? & Hin & _ & Hrs & _). apply Hwf in Hin.
    rewrite Forall_forall in Hin. by apply Hin.
  - intros n l ip Hin Hip. eapply granted_more, Ht; [by right|done].
  - destruct Ht as [[Hc Hcs]%Forall_cons Hs]. split; [|by apply sets_granted_more].
    eapply Forall_impl; [exact Hcs|]. intros c'. apply command_granted_more.
  - destruct Ht as [[Hc _]%Forall_cons _]. eapply sets_from_more, command_sets; eauto.
  - destruct Ht as [_ Hs]. by apply sets_granted_more.
  - destruct Ht as [_ Hs]. by apply sets_granted_more.
Qed.

Lemma tasks_granted_more history e ts :
  Forall (task_granted history) ts -> Forall (task_granted (history ++ [e])) ts.
Proof. intros Ht. eapply Forall_impl; [exact Ht|]. intros t. apply task_granted_more. Qed.

Lemma provenance_step kernel history e s s' :
  SysStep e s s' -> provenance kernel history s -> provenance kernel (history ++ [e]) s'.
Proof.
  intros Hstep [Hwf Hd Ht Hk]. destruct Hstep as [s input|s m Hm|s i e t d' k' t' Hi Hstep];
    cbn [spawn sys_daemon sys_kernel sys_tasks] in *.
  - split; cbn; [|eauto with dockerwall| |by apply sets_from_more].
    + intros table ds rs [Hin|Hin%list_elem_of_singleton]%elem_of_app; [by eapply Hwf|done].
    + apply Forall_app. split; [by apply tasks_granted_more|]. by repeat constructor.
  - split; cbn; [|eauto with dockerwall| |by apply sets_from_more].
    + intros table ds rs [Hin|Hin%list_elem_of_singleton]%elem_of_app; [by eapply Hwf|done].
    + apply Forall_app. split; [by apply tasks_granted_more|]. by repeat constructor.
  - pose proof (Forall_lookup_1 _ _ _ _ Ht Hi) as Hti.
    destruct (task_provenance _ _ _ _ _ _ _ _ _ Hstep Hwf Hd Hti Hk) as (He & Hd' & Ht' & Hk').
    split; cbn; [|done| |done].
    + intros table ds rs [Hin|Hin%list_elem_of_singleton]%elem_of_app; [by eapply Hwf|by eapply He].
    + apply Forall_insert; [by apply tasks_granted_more|done].
Qed.

(** C2. Zero trust in every interleaving: at any time, however responses,
    pushes, failures and commands have interleaved since the daemon's start, an
    address in a set of the kernel was there at the start, or belongs to a
    network for which a response with this address was handled, for a domain
    that a pattern of the network accepted at that time. *)
Theorem kernel_addresses_granted kernel history s n ks ip
    (Hrun : Run kernel history s) (Hset : sys_kernel s !! n = Some ks) (Hip : ip ∈ members ks) :
  (exists ks0, kernel !! n = Some ks0 /\ ip ∈ members ks0)
  \/ exists name, (n = name \/ n = ipv6_ipset_name name) /\ granted history name ip.
Proof.
  assert (provenance kernel history s) as [_ _ _ Hk]; [|by eapply Hk].
  clear Hset Hip. induction Hrun as [|history s e s' _ IH Hstep]; [|by eapply provenance_step].
  split; cbn.
  - intros table ds rs Hin. by apply elem_of_nil in Hin.
  - intros name m ip' Hm. by rewrite lookup_empty in Hm.
  - apply Forall_nil_2.
  - intros n' ks' ip' Hn Hip. left. eauto.
Qed.

(** ** The table is the history's *)

(** What the responses of a part of the history have opened, for a network with
    the patterns *)
Fixpoint opened (patterns : list string) (later : list Event) : gset IpAddr :=
  match later with
  | [] => ∅
  | Responded _ domains resolved :: later' =>
      (if decide (allowed domains {| allowed_domain_patterns := patterns; ips := ∅ |})
       then list_to_set resolved else ∅) ∪ opened patterns later'
  | _ :: later' => opened patterns later'
  end.

Lemma elem_of_opened patterns later ip :
  ip ∈ opened patterns later <->
  exists table domains resolved domain pattern, Responded table domains resolved ∈ later /\ ip ∈ resolved
    /\ domain ∈ domains /\ pattern ∈ patterns /\ domain_matches_pattern domain pattern = true.
Proof.
  induction later as [|e later IH].
  { cbn. split; [by intros ?%elem_of_empty|]. intros (? & ? & ? & ? & ? & Hin & _). by apply elem_of_nil in Hin. }
  assert ((exists t ds rs dom pat, Responded t ds rs ∈ e :: later /\ ip ∈ rs /\ dom ∈ ds /\ pat ∈ patterns
              /\ domain_matches_pattern dom pat = true)
          <-> (exists t ds rs dom pat, Responded t ds rs = e /\ ip ∈ rs /\ dom ∈ ds /\ pat ∈ patterns
              /\ domain_matches_pattern dom pat = true) \/ ip ∈ opened patterns later) as ->.
  { split.
    - intros (t & ds & rs & dom & pat & [E|Hin]%elem_of_cons & Hrest);
        [left; exists t, ds, rs, dom, pat; by split|right; apply IH; exists t, ds, rs, dom, pat; by split].
    - intros [(t & ds & rs & dom & pat & E & Hrest)|(t & ds & rs & dom & pat & Hin & Hrest)%IH];
        exists t, ds, rs, dom, pat; (split; [|done]); [rewrite E; by left|by right]. }
  destruct e as [| | |t ds rs| | |]; cbn [opened]; try (split; [by right|by intros [(? & ? & ? & ? & ? & [=] & _)|]]).
  rewrite elem_of_union. apply or_iff_compat_r.
  pose proof (allowed_inv ds {| allowed_domain_patterns := patterns; ips := ∅ |}) as Ha. cbn in Ha.
  case_decide as Hd; [rewrite elem_of_list_to_set|rewrite elem_of_empty]; naive_solver.
Qed.

Lemma opened_snoc patterns later e :
  opened patterns (later ++ [e])
  = opened patterns later ∪ match e with
                            | Responded _ domains resolved =>
                                if decide (allowed domains {| allowed_domain_patterns := patterns; ips := ∅ |})
                                then list_to_set resolved else ∅
                            | _ => ∅
                            end.
Proof.
  induction later as [|e' later IH]; cbn [app opened].
  - destruct e; cbn; set_solver.
  - destruct e'; rewrite IH; set_solver.
Qed.

(** A request for the network took effect. *)
Definition requested (name : string) (e : Event) : bool :=
  match e with
  | Entered (InsertNetwork n _) | Entered (DeleteNetwork n) => (n =? name)%string
  | _ => false
  end.

(** The last request for the network was to create it, with the patterns; and
    what happened after it *)
Definition created (history : list Event) (name : string) (patterns : list string) (later : list Event) : Prop :=
  exists before, history = before ++ Entered (InsertNetwork name patterns) :: later
    /\ Forall (fun e => requested name e = false) later.

Lemma created_snoc history e name patterns later :
  created (history ++ [e]) name patterns later <->
  (e = Entered (InsertNetwork name patterns) /\ later = [])
  \/ (requested name e = false /\ exists later', later = later' ++ [e] /\ created history name patterns later').
Proof.
  split.
  - intros (before & E & Hl). destruct later as [|e' later _] using rev_ind.
    + apply app_inj_2 in E as [_ [= ->]]; [|done]. by left.
    + rewrite app_comm_cons, app_assoc in E. apply app_inj_2 in E as [-> [= ->]]; [|done].
      apply Forall_app in Hl as [Hl [He _]%Forall_cons]. right. split; [done|].
      exists later. split; [done|]. by exists before.
  - intros [[-> ->]|(He & later' & -> & before & -> & Hl)].
    + exists history. split; [done|]. apply Forall_nil_2.
    + exists before. rewrite <- app_assoc. split; [done|]. apply Forall_app. split; [done|]. by repeat constructor.
Qed.

(** What a step does to the table *)
Definition apply_event (table : IpsetTable) (e : Event) : IpsetTable :=
  match e with
  | Entered (InsertNetwork name patterns) => <[name := {| allowed_domain_patterns := patterns; ips := ∅ |}]> table
  | Entered (DeleteNetwork name) => delete name table
  | Responded _ domains resolved => updated domains resolved <$> table
  | _ => table
  end.

Lemma step_table e s s' : SysStep e s s' -> state (sys_daemon s') = apply_event (state (sys_daemon s)) e.
Proof.
  intros [| |s0 i t e0 d' k' t' _ Hstep]; [done..|]. cbn [sys_daemon].
  destruct Hstep as [[| |] todo| | | | |m| | | | |]; try done. apply apply_fst.
Qed.

Definition entry_of (patterns : list string) (later : list Event) : ManagedIpset :=
  {| allowed_domain_patterns := patterns; ips := opened patterns later |}.

Lemma updated_entry table domains resolved patterns later :
  updated domains resolved (entry_of patterns later)
  = entry_of patterns (later ++ [Responded table domains resolved]).
Proof.
  unfold updated. cbn [entry_of allowed_domain_patterns ips].
  change (entry_of patterns (later ++ [Responded table domains resolved]))
    with {| allowed_domain_patterns := patterns; ips := opened patterns (later ++ [Responded table domains resolved]) |}.
  rewrite opened_snoc.
  destruct (decide (allowed domains (entry_of patterns later))) as [Ha|Ha];
    destruct (decide (allowed domains {| allowed_domain_patterns := patterns; ips := ∅ |})) as [Hb|Hb];
    [f_equal; set_solver|by destruct Hb|by destruct Ha|]. unfold entry_of. f_equal. set_solver.
Qed.

(** The table after a run, network by network *)
Lemma run_table kernel history s name m :
  Run kernel history s ->
  (state (sys_daemon s) !! name = Some m <->
   exists patterns later, created history name patterns later /\ m = entry_of patterns later).
Proof.
  intros Hrun. revert m. induction Hrun as [|history s e s' _ IH Hstep]; intros m.
  { cbn. rewrite lookup_empty. split; [done|]. intros (ps & later & (before & E & _) & _). by destruct before. }
  rewrite (step_table _ _ _ Hstep). setoid_rewrite created_snoc.
  assert ((exists ps l, (e = Entered (InsertNetwork name ps) /\ l = []
                         \/ requested name e = false /\ exists l', l = l' ++ [e] /\ created history name ps l')
                        /\ m = entry_of ps l)
          <-> (exists ps, e = Entered (InsertNetwork name ps) /\ m = entry_of ps [])
              \/ requested name e = false /\ exists ps l', created history name ps l' /\ m = entry_of ps (l' ++ [e]))
    as -> by naive_solver.
  assert (forall f : ManagedIpset -> ManagedIpset,
    (forall ps l, f (entry_of ps l) = entry_of ps (l ++ [e])) -> requested name e = false ->
    (f <$> state (sys_daemon s) !! name = Some m
     <-> exists ps l', created history name ps l' /\ m = entry_of ps (l' ++ [e]))) as Hkeep.
  { intros f Hf _. rewrite fmap_Some. setoid_rewrite IH. setoid_rewrite <- Hf. naive_solver. }
  assert ((forall ps l, opened ps (l ++ [e]) = opened ps l) -> requested name e = false ->
    (state (sys_daemon s) !! name = Some m
     <-> exists ps l', created history name ps l' /\ m = entry_of ps (l' ++ [e]))) as Hsame.
  { intros Ho Hr. rewrite <- (Hkeep id); [by destruct (_ !! name)| |done].
    intros ps l. unfold entry_of. by rewrite Ho. }
  assert ((forall ps, e <> Entered (InsertNetwork name ps)) -> requested name e = false ->
    forall P : Prop, P <-> (exists ps, e = Entered (InsertNetwork name ps) /\ m = entry_of ps [])
                         \/ requested name e = false /\ P) as Hother.
  { intros Hne Hr P. split; [by right|]. intros [(ps & E & _)|[_ ?]]; [by destruct (Hne ps)|done]. }
  destruct e as [input|[n sub|n ps|n]| |table ds rs| | |]; cbn [apply_event];
    try (rewrite <- Hother by done; apply Hsame; [intros; rewrite opened_snoc; apply (right_id_L ∅ (∪))|done]).
  - cbn [requested]. rewrite lookup_insert. case_decide as E.
    + subst n. rewrite String.eqb_refl. unfold entry_of. cbn. naive_solver.
    + assert ((n =? name)%string = false) as En by (by apply String.eqb_neq). cbn [requested] in *.
      rewrite <- Hother by (done || congruence). apply Hsame; [|done].
      intros. rewrite opened_snoc. apply (right_id_L ∅ (∪)).
  - cbn [requested]. rewrite lookup_delete. case_decide as E.
    + subst n. rewrite String.eqb_refl. naive_solver.
    + assert ((n =? name)%string = false) as En by (by apply String.eqb_neq). cbn [requested] in *.
      rewrite <- Hother by (done || congruence). apply Hsame; [|done].
      intros. rewrite opened_snoc. apply (right_id_L ∅ (∪)).
  - rewrite <- Hother by done. rewrite lookup_fmap. apply Hkeep; [|done]. intros. apply updated_entry.
Qed.

(** The sections that a connection still has to enter are those of its input. *)
Definition connection_of (history : list Event) (t : Task) : Prop :=
  match t with
  | Connection todo => exists input entered, Accepted input ∈ history /\ control_sections input = entered ++ todo
  | _ => True
  end.

Definition sections_accepted (history : list Event) : Prop :=
  forall c, Entered c ∈ history -> exists input, Accepted input ∈ history /\ c ∈ control_sections input.

Lemma connection_more history e t : connection_of history t -> connection_of (history ++ [e]) t.
Proof.
  destruct t; try done. intros (input & entered & Hin & E). exists input, entered. split; [|done].
  apply elem_of_app. by left.
Qed.

Lemma sections_more history e :
  (forall c, e = Entered c -> exists input, Accepted input ∈ history /\ c ∈ control_sections input) ->
  sections_accepted history -> sections_accepted (history ++ [e]).
Proof.
  intros He Hs c [Hc|Hc%list_elem_of_singleton]%elem_of_app; [apply Hs in Hc|symmetry in Hc; apply He in Hc];
    destruct Hc as (input & Hin & Hc); exists input; (split; [apply elem_of_app; by left|done]).
Qed.

Lemma run_connections kernel history s :
  Run kernel history s -> sections_accepted history /\ Forall (connection_of history) (sys_tasks s).
Proof.
  induction 1 as [|history s e s' _ [Hs Ht] Hstep].
  { split; [|apply Forall_nil_2]. intros c Hc. by apply elem_of_nil in Hc. }
  assert (Forall (connection_of (history ++ [e])) (sys_tasks s)) as Ht'.
  { eapply Forall_impl; [exact Ht|]. intros t. apply connection_more. }
  destruct Hstep as [s input|s m Hm|s i e t d' k' t' Hi Hstep]; cbn [spawn sys_tasks].
  - split; [by apply sections_more|]. apply Forall_app. split; [done|]. repeat constructor.
    exists input, []. split; [|done]. apply elem_of_app. right. by left.
  - split; [by apply sections_more|]. apply Forall_app. split; [done|]. by repeat constructor.
  - pose proof (Forall_lookup_1 _ _ _ _ Ht Hi) as Hti. destruct Hstep as [c todo| | | | | | | | | |];
      (split; [apply sections_more; [|done]|apply Forall_insert; [done|]]); try done.
    + intros c' [= <-]. destruct Hti as (input & entered & Hin & E). exists input. split; [done|].
      rewrite E. apply elem_of_app. right. by left.
    + destruct Hti as (input & entered & Hin & E). exists input, (entered ++ [c]).
      rewrite <- app_assoc. split; [apply elem_of_app; by left|done].
Qed.

(** C15. The daemon's table is what requests and responses made of it, in the
    order in which their critical sections were entered, over any interleaving
    of any connections (with any bytes, malformed or none in time) and any
    responses: a network is in the table exactly if the last request for it that
    took effect was to create it; it then has the patterns of that request, and
    exactly the addresses of the later responses about a domain which one of
    these patterns accepts; and what took effect was asked for by a connection. *)
Theorem table_follows_history kernel history s (Hrun : Run kernel history s) :
  (forall name m, state (sys_daemon s) !! name = Some m <->
     exists patterns later, created history name patterns later /\ allowed_domain_patterns m = patterns
       /\ forall ip, ip ∈ ips m <->
            exists table domains resolved domain pattern,
              Responded table domains resolved ∈ later /\ ip ∈ resolved
              /\ domain ∈ domains /\ pattern ∈ patterns /\ domain_matches_pattern domain pattern = true)
  /\ forall c, Entered c ∈ history -> exists input, Accepted input ∈ history /\ c ∈ control_sections input.
Proof.
  split; [|apply (run_connections _ _ _ Hrun)].
  intros name m. rewrite (run_table _ _ _ name m Hrun). split.
  - intros (ps & later & Hc & ->). exists ps, later. split; [done|]. split; [done|].
    intros ip. apply elem_of_opened.
  - intros (ps & later & Hc & Hp & Hi). exists ps, later. split; [done|]. destruct m as [ps' members']. cbn in Hp, Hi.
    subst ps'. unfold entry_of. f_equal. apply set_eq. intros ip. by rewrite Hi, elem_of_opened.
Qed.

(** ** The statistics *)

(** A network that a task has found is registered. *)
Definition task_known (r : Registry) (t : Task) : Prop :=
  match t with
  | Found _ _ _ _ (Some id, _) | Judged _ _ _ _ (Some id) _ => is_Some (network_registry r !! id)
  | _ => True
  end.

Lemma known_register r name subnet t : task_known r t -> task_known (register_network r name subnet) t.
Proof.
  assert (forall id, is_Some (network_registry r !! id) ->
            is_Some (network_registry (register_network r name subnet) !! id)) as Hk.
  { intros id Hid. unfold register_network. destruct (subnet_to_id r !! subnet); simpl;
      rewrite lookup_insert; case_decide; eauto. }
  destruct t as [| | |m l d n [[id|] nm]|m l d n [id|] a| |]; try done; apply Hk.
Qed.

(** The daemon's data are coherent, and so is what the tasks have found. *)
Definition sys_ok (s : Sys) : Prop :=
  daemon_ok (sys_daemon s) /\ Forall (task_known (registry (sys_daemon s))) (sys_tasks s).

Lemma section_ok d c ts :
  daemon_ok d -> Forall (task_known (registry d)) ts -> next_network_id (registry d) + 1 < 2 ^ 32 ->
  daemon_ok (run_section d c) /\ Forall (task_known (registry (run_section d c))) ts
  /\ next_network_id (registry (run_section d c)) <= next_network_id (registry d) + 1.
Proof.
  unfold daemon_ok. intros [Hr Hs] Ht Hn. destruct c as [name subnet|name ps|name]; cbn [run_section registry stats];
    [|split; [by split|split; [done|lia]]..].
  split; [split; [by apply register_network_ok|by apply stats_ok_register]|].
  split; [|by apply register_network_next]. eapply Forall_impl; [exact Ht|]. intros t. apply known_register.
Qed.

Lemma step_ok e s s' :
  SysStep e s s' -> sys_ok s -> next_network_id (registry (sys_daemon s)) + 1 < 2 ^ 32 ->
  sys_ok s' /\ next_network_id (registry (sys_daemon s')) <= next_network_id (registry (sys_daemon s)) + 1.
Proof.
  intros Hstep [Hok Ht] Hn. destruct Hstep as [s input|s m Hm|s i e t d' k' t' Hi Hstep];
    unfold sys_ok; cbn [spawn sys_daemon sys_tasks] in *.
  - split; [|lia]. split; [done|]. apply Forall_app. split; [done|]. by repeat constructor.
  - split; [|lia]. split; [done|]. apply Forall_app. split; [done|]. by repeat constructor.
  - pose proof (Forall_lookup_1 _ _ _ _ Ht Hi) as Hti.
    destruct Hstep as [c todo| |m left domain now|m left domain now [[id|] nm]|m left domain now nid acc| | | | | |];
      cbn [with_state with_stats registry];
      try (split; [split; [done|by apply Forall_insert]|lia]).
    + destruct (section_ok _ c _ Hok Ht Hn) as (Hok' & Ht' & Hn'). split; [|done].
      split; [done|]. by apply Forall_insert.
    + split; [split; [done|apply Forall_insert; [done|]]|lia]. cbn.
      destruct (find_network (registry (sys_daemon s)) (insp_origin m)) as [[id|] nm] eqn:E; [|done].
      destruct Hok as [Hr _]. by eapply find_network_known.
    + split; [split; [|by apply Forall_insert]|lia]. destruct Hok as [Hr Hs]. split; [done|].
      apply stats_ok_write; [done|]. by intros id ->.
Qed.

Lemma run_ok kernel history s :
  Run kernel history s -> Z.of_nat (List.length history) < 2 ^ 32 - 1 ->
  sys_ok s /\ next_network_id (registry (sys_daemon s)) <= 1 + Z.of_nat (List.length history).
Proof.
  induction 1 as [|history s e s' _ IH Hstep]; intros Hlen.
  { split; [|simpl; lia]. split; [apply initial_daemon_ok|apply Forall_nil_2]. }
  rewrite length_app in *. cbn [List.length] in *. destruct IH as [Hok Hn]; [lia|].
  destruct (step_ok _ _ _ Hstep Hok) as [Hok' Hn']; [lia|]. split; [done|lia].
Qed.

(** C32. The statistics can always be asked for: at any time of any run of fewer
    than 2^32 - 1 steps (so that no network identifier is used twice), also
    between the sections of recordings and of requests, the
    answer to [STATS] is a report, the task does not panic, the daemon is
    unchanged, and the report has a line for every resolution that is recorded. *)
Theorem stats_command_complete kernel history s dns_port now
    (Hrun : Run kernel history s) (Hlen : Z.of_nat (List.length history) < 2 ^ 32 - 1) :
  exists report,
    handle_control_connection (sys_daemon s) (Some ("STATS" +:+ nl)) dns_port now (Ok tt)
      = (sys_daemon s, Some report, Ok tt)
    /\ forall domain ip e, stats (sys_daemon s) !! (domain, ip) = Some e ->
         exists line, line_of now ip domain e line /\ contains line report = true.
Proof.
  destruct (run_ok kernel history s Hrun Hlen) as [[[_ Hs] _] _].
  destruct (get_stats_report_complete (registry (sys_daemon s)) (stats (sys_daemon s)) now Hs)
    as (report & Hr & Hl).
  exists report. split; [|done]. unfold handle_control_connection.
  change (trim_end_matches newline (read_line ("STATS" +:+ nl))) with "STATS".
  unfold handle_command. change ("STATS" =? "STATS")%string with true. cbv iota. by rewrite Hr.
Qed.

(** ** Tasks that nothing interrupts *)

(** Several steps, with what they did *)
Inductive Steps : list Event -> Sys -> Sys -> Prop :=
| steps_none s : Steps [] s s
| steps_more e s s1 history s2 : SysStep e s s1 -> Steps history s1 s2 -> Steps (e :: history) s s2.

Lemma steps_trans h1 h2 s s1 s2 : Steps h1 s s1 -> Steps h2 s1 s2 -> Steps (h1 ++ h2) s s2.
Proof. induction 1 as [|e s s0 h s1 Hstep _ IH]; [done|]. intros H2. eapply steps_more; [exact Hstep|auto]. Qed.

Lemma steps_one e s s' : SysStep e s s' -> Steps [e] s s'.
Proof. intros Hs. eapply steps_more; [exact Hs|apply steps_none]. Qed.

Lemma run_steps kernel history h s s' : Run kernel history s -> Steps h s s' -> Run kernel (history ++ h) s'.
Proof.
  intros Hrun Hs. revert history Hrun. induction Hs as [s|e s s1 h s2 Hstep _ IH]; intros history Hrun.
  - by rewrite app_nil_r.
  - change (e :: h) with ([e] ++ h). rewrite app_assoc. apply IH. by eapply run_step.
Qed.

(** At most [n] steps in which no push fails *)
Definition proceeds (n : nat) (s s' : Sys) : Prop :=
  exists h, Steps h s s' /\ Forall (fun e => e <> PushFailed) h /\ (List.length h <= n)%nat.

Lemma proceeds_none n s : proceeds n s s.
Proof. exists []. split; [apply steps_none|]. split; [apply Forall_nil_2|simpl; lia]. Qed.

Lemma proceeds_trans n1 n2 s1 s2 s3 : proceeds n1 s1 s2 -> proceeds n2 s2 s3 -> proceeds (n1 + n2) s1 s3.
Proof.
  intros (h1 & Hs1 & Hf1 & Hl1) (h2 & Hs2 & Hf2 & Hl2). exists (h1 ++ h2).
  split; [by eapply steps_trans|]. split; [by apply Forall_app|]. rewrite length_app. lia.
Qed.

Lemma proceeds_one e s s' : SysStep e s s' -> e <> PushFailed -> proceeds 1 s s'.
Proof. intros Hs He. exists [e]. split; [by apply steps_one|]. split; [by repeat constructor|done]. Qed.

(** A step of the last task *)
Lemma last_step e d k ts t d' k' t' :
  TaskStep d k e t d' k' t' -> e <> PushFailed ->
  proceeds 1 {| sys_daemon := d; sys_kernel := k; sys_tasks := ts ++ [t] |}
           {| sys_daemon := d'; sys_kernel := k'; sys_tasks := ts ++ [t'] |}.
Proof.
  intros Hstep He. eapply proceeds_one; [|exact He].
  assert (ts ++ [t'] = <[List.length ts := t']> (ts ++ [t])) as ->.
  { rewrite insert_app_r_alt by done. by rewrite Nat.sub_diag. }
  eapply sys_runs; [|exact Hstep]. cbn. by rewrite lookup_app_r, Nat.sub_diag.
Qed.

(** A connection changes the daemon as [handle_control_connection] does. *)
Definition connected (s : Sys) (input : option string) : Sys :=
  {| sys_daemon := (handle_control_connection (sys_daemon s) input 0 0 (Ok tt)).1.1;
     sys_kernel := sys_kernel s; sys_tasks := sys_tasks s ++ [Connection []] |}.

Lemma connection_proceeds s input : proceeds (1 + List.length (control_sections input)) s (connected s input).
Proof.
  eapply proceeds_trans; [by eapply proceeds_one; [apply (sys_accepts s input)|]|].
  unfold connected, spawn. rewrite <- sections_handle. generalize (sys_daemon s).
  induction (control_sections input) as [|c todo IH]; intros d; [apply proceeds_none|].
  apply (proceeds_trans 1 (List.length todo) _ {| sys_daemon := run_section d c; sys_kernel := sys_kernel s;
                                                  sys_tasks := sys_tasks s ++ [Connection todo] |}); [by eapply last_step; [apply task_enters|]|]. apply IH.
Qed.

(** A response changes it as [record_queries] and [apply_resolved_ips] do. *)
Definition inspected (s : Sys) (m : Inspection) (clock : nat -> SystemTime) : Sys :=
  let d := (record_queries (sys_daemon s) clock 0 (insp_queries m) (insp_origin m) (insp_ttl m)).1 in
  let applied := apply_resolved_ips (state d) (insp_domains m) (insp_resolved m) in
  {| sys_daemon := with_state d applied.1; sys_kernel := sys_kernel s;
     sys_tasks := sys_tasks s ++ [Pushing applied.2] |}.

Lemma recording_proceeds d k ts m clock i left :
  proceeds (List.length left * 4) {| sys_daemon := d; sys_kernel := k; sys_tasks := ts ++ [Recording m left] |}
    {| sys_daemon := (record_queries d clock i left (insp_origin m) (insp_ttl m)).1;
       sys_kernel := k; sys_tasks := ts ++ [Recording m []] |}.
Proof.
  revert d i. induction left as [|name left IH]; intros d i; [apply proceeds_none|].
  change (List.length (name :: left) * 4)%nat with (1 + (1 + (1 + (1 + List.length left * 4))))%nat.
  eapply proceeds_trans; [by eapply last_step; [apply (task_sees _ _ m name left (clock i))|]|].
  eapply proceeds_trans; [by eapply last_step; [apply task_finds|]|].
  eapply proceeds_trans; [by eapply last_step; [apply task_judges|]|].
  eapply proceeds_trans; [by eapply last_step; [apply task_records|]|].
  pose proof (IH (with_stats d (write_stats (stats d) (query_domain name) (insp_origin m) (clock i) (insp_ttl m)
    (find_network (registry d) (insp_origin m)).1
    (acceptance (state d) (query_domain name) (find_network (registry d) (insp_origin m)).2))) (S i)) as Hi.
  cbn [record_queries].
  unfold record_resolve. cbn [fst snd].
  unfold with_stats in Hi. destruct (find_network _ _) as [id nm]. cbn [fst snd] in *.
  by destruct (record_queries _ clock (S i) left _ _).
Qed.

Lemma inspection_proceeds s m clock : Forall ip_wf (insp_resolved m) ->
  proceeds (1 + (List.length (insp_queries m) * 4 + 1)) s (inspected s m clock).
Proof.
  intros Hm. eapply proceeds_trans; [by eapply proceeds_one; [apply (sys_inspects s m Hm)|]|].
  eapply proceeds_trans; [apply (recording_proceeds _ _ _ m clock 0)|].
  by eapply last_step; [apply task_applies|].
Qed.

(** A push whose commands all succeed *)
Lemma restoring_proceeds d k ts i cmds sets k' :
  ts !! i = Some (Restoring cmds sets) -> restore_commands cmds k = Some k' ->
  proceeds (List.length cmds + 1) {| sys_daemon := d; sys_kernel := k; sys_tasks := ts |}
    {| sys_daemon := d; sys_kernel := k'; sys_tasks := <[i := Pushing sets]> ts |}.
Proof.
  revert k ts. induction cmds as [|c cmds IH]; intros k ts Hi Hr; cbn [restore_commands] in Hr.
  - injection Hr as <-. eapply proceeds_one; [eapply sys_runs; [exact Hi|apply task_pushed]|done].
  - destruct (restore_command c k) as [k1|] eqn:E; [|done]. cbn [option_bind mbind] in Hr.
    change (List.length (c :: cmds) + 1)%nat with (1 + (List.length cmds + 1))%nat.
    eapply proceeds_trans; [eapply proceeds_one; [eapply sys_runs; [exact Hi|by apply task_restores]|done]|].
    cbn [sys_daemon sys_tasks]. rewrite <- (list_insert_insert_eq ts i (Pushing sets) (Restoring cmds sets)).
    apply IH; [|done]. apply list_lookup_insert_eq. by eapply lookup_lt_Some.
Qed.

Definition push_task (s : Sys) (i : nat) : Sys :=
  match sys_tasks s !! i with
  | Some (Pushing ((name, ips) :: sets)) =>
      match restore_commands (restore_cmds name ips) (sys_kernel s) with
      | Some kernel' => {| sys_daemon := sys_daemon s; sys_kernel := kernel';
                           sys_tasks := <[i := Pushing sets]> (sys_tasks s) |}
      | None => s
      end
  | _ => s
  end.

Lemma push_proceeds s i name ips sets :
  sys_tasks s !! i = Some (Pushing ((name, ips) :: sets)) -> word name ->
  proceeds (1 + (List.length (restore_cmds name ips) + 1)) s (push_task s i).
Proof.
  intros Hi Hw. unfold push_task. rewrite Hi.
  destruct (restore_commands (restore_cmds name ips) (sys_kernel s)) as [k'|] eqn:E; [|apply proceeds_none].
  eapply proceeds_trans; [eapply proceeds_one; [eapply sys_runs; [exact Hi|by apply task_starts]|done]|].
  cbn [sys_daemon sys_kernel sys_tasks].
  rewrite <- (list_insert_insert_eq (sys_tasks s) i (Pushing sets) (Restoring (restore_cmds name ips) sets)).
  apply (restoring_proceeds _ _ _ _ (restore_cmds name ips)); [|done]. apply list_lookup_insert_eq. by eapply lookup_lt_Some.
Qed.
End steps.

(** ** A lost update *)

(** A network, two responses for it, and their pushes in the other order *)
Definition lost_kernel : KernelSets :=
  {["net" := {| inet6 := false; members := ∅ |}; "net-v6" := {| inet6 := true; members := ∅ |}]}.
Definition lost_message (ip : IpAddr) : Inspection :=
  {| insp_queries := ["A.com."]; insp_resolved := [ip]; insp_origin := V4 (v4_new 10 0 0 1);
     insp_ttl := 86400 * NANOS |}.
Definition lost_0 : Sys := {| sys_daemon := initial_daemon; sys_kernel := lost_kernel; sys_tasks := [] |}.
Definition lost_1 : Sys :=
  @connected tree_order lost_0 (Some (create_payload "net" (Some "10.0.0.0/8") ["a.com"])).
Definition lost_2 : Sys := @inspected tree_order lost_1 (lost_message (V4 1)) (fun _ => 5).
Definition lost_3 : Sys := @inspected tree_order lost_2 (lost_message (V4 2)) (fun _ => 6).
Definition lost_4 : Sys := push_task lost_3 2.
Definition lost_5 : Sys := push_task lost_4 1.

Lemma lost_run :
  exists history, @Run tree_order lost_kernel history lost_5 /\ (PushFailed ∉ history)
    /\ (List.length history <= 26)%nat.
Proof.
  assert (@proceeds tree_order 26 lost_0 lost_5) as (h & Hs & Hf & Hl).
  { apply (@proceeds_trans tree_order 3 23 _ lost_1); [apply (@connection_proceeds tree_order)|].
    apply (@proceeds_trans tree_order 6 17 _ lost_2);
      [apply (@inspection_proceeds tree_order lost_1 (lost_message (V4 1)) (fun _ => 5)); by repeat constructor|].
    apply (@proceeds_trans tree_order 6 11 _ lost_3);
      [apply (@inspection_proceeds tree_order lost_2 (lost_message (V4 2)) (fun _ => 6)); by repeat constructor|].
    apply (@proceeds_trans tree_order 6 5 _ lost_4);
      [apply (@push_proceeds tree_order lost_3 2 "net" [V4 2; V4 1] []); [by vm_compute|by split]|].
    apply (@push_proceeds tree_order lost_4 1 "net" [V4 1] []); [by vm_compute|by split]. }
  exists h. split; [apply (@run_steps tree_order lost_kernel [] h lost_0 lost_5); [apply run_start|done]|].
  split; [|done]. intros Hin. rewrite Forall_forall in Hf. by apply (Hf _ Hin).
Qed.

(** A task with nothing left to do *)
Definition finished (t : Task) : Prop := t = Connection [] \/ t = Pushing [].

(** C38. Pushes are whole contents copied earlier, and nothing orders them: there
    is a run without any failure in which two responses add an address each, all
    tasks finish, and afterwards the kernel's set lacks the second address
    although the daemon's table has it; and as the table has it, the same
    response again pushes nothing. *)
Theorem pushes_can_be_lost :
  exists (history : list Event) (s : Sys),
    @Run tree_order lost_kernel history s /\ (PushFailed ∉ history)
    /\ Forall finished (sys_tasks s)
    /\ (exists m, state (sys_daemon s) !! "net" = Some m /\ V4 2 ∈ ips m)
    /\ (exists ks, sys_kernel s !! "net" = Some ks /\ V4 1 ∈ members ks /\ (V4 2 ∉ members ks))
    /\ (@apply_resolved_ips tree_order (state (sys_daemon s)) ["a.com"] [V4 2]).2 = [].
Proof.
  destruct lost_run as (history & Hrun & Hf & _). exists history, lost_5.
  split; [done|]. split; [done|].
  split; [repeat first [apply Forall_nil_2 | apply Forall_cons_2]; by (left + right)|].
  split; [|split; [|by vm_compute]].
  - eexists. split; [reflexivity|]. by apply (bool_decide_unpack _).
  - eexists. split; [reflexivity|]. split; by apply (bool_decide_unpack _).
Qed.

Lemma kernel_addresses_granted_witness :
  exists history, (exists ks0, lost_kernel !! "net" = Some ks0 /\ V4 1 ∈ members ks0)
    \/ exists name, ("net" = name \/ "net" = ipv6_ipset_name name) /\ granted history name (V4 1).
Proof.
  destruct lost_run as (history & Hrun & _). exists history.
  refine (@kernel_addresses_granted tree_order lost_kernel history lost_5 "net"
            {| inet6 := false; members := {[V4 1]} |} (V4 1) Hrun _ _).
  - vm_compute. reflexivity.
  - by apply (bool_decide_unpack _).
Defined.

Lemma table_follows_history_witness :
  exists history, (exists m, state (sys_daemon lost_5) !! "net" = Some m) /\
  (forall name m, state (sys_daemon lost_5) !! name = Some m <->
     exists patterns later, created history name patterns later /\ allowed_domain_patterns m = patterns
       /\ forall ip, ip ∈ ips m <->
            exists table domains resolved domain pattern,
              Responded table domains resolved ∈ later /\ ip ∈ resolved
              /\ domain ∈ domains /\ pattern ∈ patterns /\ domain_matches_pattern domain pattern = true)
  /\ forall c, Entered c ∈ history -> exists input, Accepted input ∈ history /\ c ∈ control_sections input.
Proof.
  destruct lost_run as (history & Hrun & _). exists history. split; [by eexists|].
  exact (@table_follows_history tree_order lost_kernel history lost_5 Hrun).
Defined.

(** The run has recorded its queries, under the network of the request. *)
Lemma stats_command_complete_witness :
  (exists e, stats (sys_daemon lost_5) !! ("a.com", V4 (v4_new 10 0 0 1)) = Some e
     /\ count e = 2 /\ network_id e = Some 1 /\ accepted e = Some true)
  /\ exists report,
    @handle_control_connection tree_order (sys_daemon lost_5) (Some ("STATS" +:+ nl)) 53 7 (Ok tt)
      = (sys_daemon lost_5, Some report, Ok tt)
    /\ forall domain ip e, stats (sys_daemon lost_5) !! (domain, ip) = Some e ->
         exists line, line_of 7 ip domain e line /\ contains line report = true.
Proof.
  split; [eexists; split; [vm_compute; reflexivity|by repeat split]|].
  destruct lost_run as (history & Hrun & _ & Hl).
  apply (@stats_command_complete tree_order lost_kernel history lost_5 53 7 Hrun). lia.
Defined.
