(* ===== verification/ExampleHost.v ===== *)
(** * A host to run the development on

    One implementation of all the interfaces: a machine with a packet filter,
    kernel sets, addresses and a daemon, small enough to be executed.  It shows
    that the promises assumed of the tools can be kept together, and the
    theorems are applied to it. *)

From S2P Require Import Prelude RustStr Net State Stats Host Ipset Firewall Policy.
From S2P Require Import Address Control Prepare Trust Allocate Terminate System.

Record Machine : Type := {
  m_files : gmap string Metadata;
  m_texts : gmap string string;
  m_chains : Chains;
  m_sets : KernelSets;
  m_addrs : gset IpAddr;
  m_daemon : Daemon;
  m_port : Z;
  m_printed : list string
}.

Definition set_chains (c : Chains) (w : Machine) : Machine :=
  {| m_files := m_files w; m_texts := m_texts w; m_chains := c; m_sets := m_sets w;
     m_addrs := m_addrs w; m_daemon := m_daemon w; m_port := m_port w; m_printed := m_printed w |}.
Definition set_sets (s : KernelSets) (w : Machine) : Machine :=
  {| m_files := m_files w; m_texts := m_texts w; m_chains := m_chains w; m_sets := s;
     m_addrs := m_addrs w; m_daemon := m_daemon w; m_port := m_port w; m_printed := m_printed w |}.
Definition set_daemon (d : Daemon) (w : Machine) : Machine :=
  {| m_files := m_files w; m_texts := m_texts w; m_chains := m_chains w; m_sets := m_sets w;
     m_addrs := m_addrs w; m_daemon := d; m_port := m_port w; m_printed := m_printed w |}.
Definition add_printed (s : string) (w : Machine) : Machine :=
  {| m_files := m_files w; m_texts := m_texts w; m_chains := m_chains w; m_sets := m_sets w;
     m_addrs := m_addrs w; m_daemon := m_daemon w; m_port := m_port w;
     m_printed := m_printed w ++ [s] |}.

(** ** The tools *)

Definition output (ok : bool) (text : string) : Result Output :=
  Ok {| success := ok; stdout := text; stderr := "" |}.

Definition FILTERS : list string := IPTABLES_CANDIDATES ++ IP6TABLES_CANDIDATES.

(** The chains of the filters, by binary *)
Definition filter_chains (w : Machine) : Chains := filter (fun '(k, _) => k.1.1 ∈ FILTERS) (m_chains w).

Definition split_table (args : list string) : string * list string :=
  match args with
  | o :: t :: rest => if (o =? "-t")%string then (t, rest) else ("filter", args)
  | _ => ("filter", args)
  end.

Definition split_position (args : list string) : Z * list string :=
  match args with
  | p :: spec => match parse_uint 32 p with Some n => (n, spec) | None => (1, args) end
  | [] => (1, [])
  end.

Definition list_output (b : string) (w : Machine) : string :=
  with_lines ("-P OUTPUT ACCEPT"
              :: map (rule_line "OUTPUT") (default [] (m_chains w !! (b, "filter", "OUTPUT")))) "".

(** The filter accepts a rule for the table: its words are short enough, and what
    it refers to is there. *)
Definition machine_valid (b : string) (i : Insert) : bool := forallb (fun word => len word <? 256) (i_spec i).
Definition machine_v6 (b : string) : bool := bool_decide (b ∈ IP6TABLES_CANDIDATES).
Definition accepts (b t : string) (spec : rule) (w : Machine) : bool :=
  let i := {| i_table := t; i_chain := ""; i_pos := None; i_spec := spec |} in
  machine_valid b i && refers (machine_v6 b) (m_sets w) (filter_chains w) b i.

Definition run_filter (b : string) (args : list string) (w : Machine) : Machine * Result Output :=
  let '(t, rest) := split_table args in
  match rest with
  | o :: c :: rest =>
      let k := (b, t, c) in
      if (o =? "-N")%string then
        match m_chains w !! k with
        | Some _ => (w, output false "")
        | None => (set_chains (<[k := []]> (m_chains w)) w, output true "")
        end
      else if (o =? "-S")%string then
        if (c =? "OUTPUT")%string then (w, output true (list_output b w))
        else (w, output (bool_decide (is_Some (m_chains w !! k))) "")
      else
        match m_chains w !! k with
        | None => (w, output false "")
        | Some rs =>
            if (o =? "-D")%string then
              if negb (accepts b t rest w) then (w, output false "") else
              (set_chains (<[k := remove_first rest rs]> (m_chains w)) w, output (bool_decide (rest ∈ rs)) "")
            else if (o =? "-I")%string then
              let '(n, spec) := split_position rest in
              if negb (accepts b t spec w) then (w, output false "") else
              (set_chains (<[k := insert_at (Z.to_nat (n - 1)) spec rs]> (m_chains w)) w, output true "")
            else (w, output false "")
        end
  | _ => (w, output false "")
  end.

Definition run_set_tool (args : list string) (w : Machine) : Machine * Result Output :=
  match set_command args (m_sets w) with
  | Some sets => (set_sets sets w, output true "")
  | None => (w, output false "")
  end.

(** What [ip] prints: the shown address, the addresses of a device if there is
    one, or a file of the same name for anything else *)
Definition run_ip (args : list string) (w : Machine) : Machine * Result Output :=
  let arg n := default "" (args !! n) in
  if (arg 4%nat =? "to")%string then
    let shown := strip_suffix (if (arg 1%nat =? "-4")%string then "/32" else "/128") (arg 5%nat) in
    (w, output true (match shown ≫= parse_ip with
                     | Some ip => if decide (ip ∈ m_addrs w) then "1: lo" else ""
                     | None => ""
                     end))
  else if (arg 4%nat =? "dev")%string then
    match m_texts w !! ("ip:" +:+ arg 5%nat) with
    | Some text => (w, output true text)
    | None => (w, output false "")
    end
  else (w, output true (default "" (m_texts w !! ("ip:" +:+ arg 0%nat)))).

Definition run_tool (b : string) (args : list string) (w : Machine) : Machine * Result Output :=
  if decide (b ∈ FILTERS) then run_filter b args w
  else if decide (b ∈ IPSET_CANDIDATES) then run_set_tool args w
  else run_ip args w.

(** The commands up to the first one that fails *)
Fixpoint restore_until (cmds : list (list string)) (sets : KernelSets) : KernelSets * bool :=
  match cmds with
  | [] => (sets, true)
  | c :: cmds' =>
      match restore_command c sets with
      | Some sets' => restore_until cmds' sets'
      | None => (sets, false)
      end
  end.

Definition run_restore (payload : string) (w : Machine) : Machine * Result Output :=
  let '(sets, ok) := restore_until (restore_script payload) (m_sets w) in
  (set_sets sets w, output ok "").

Definition run_control (payload : string) (w : Machine) : Machine * Result string :=
  let '(d, answer, _) := @handle_control_connection tree_order (m_daemon w) (Some payload) (m_port w) 0 (Ok tt) in
  (set_daemon d w, Ok (take_line (default "" answer))).

#[export] Instance machine_host : Host Machine := {|
  exec := run_tool;
  exec_stdin b args input := run_restore input;
  exec_detached b args w := (w, Ok (Some 2));
  metadata path w := m_files w !! path;
  read_to_string path w := ok_or (m_texts w !! path) "no such file";
  current_exe w := Ok "/usr/local/bin/dockerwall";
  control_exchange := run_control;
  sleep_ms ms w := w;
  println := add_printed;
  eprintln := add_printed
|}.

(** ** The promises are kept *)

Lemma filter_lookup w (k : chain_key) : k.1.1 ∈ FILTERS -> filter_chains w !! k = m_chains w !! k.
Proof.
  intros Hk. unfold filter_chains. destruct (m_chains w !! k) as [rs|] eqn:E.
  - by apply map_lookup_filter_Some.
  - apply map_lookup_filter_None. by left.
Qed.

Lemma filter_lookup_Some w (k : chain_key) rs :
  filter_chains w !! k = Some rs -> k.1.1 ∈ FILTERS /\ m_chains w !! k = Some rs.
Proof. unfold filter_chains. rewrite map_lookup_filter_Some. tauto. Qed.

Lemma filter_set w (k : chain_key) rs :
  k.1.1 ∈ FILTERS ->
  filter_chains (set_chains (<[k := rs]> (m_chains w)) w) = <[k := rs]> (filter_chains w).
Proof. intros Hk. unfold filter_chains. simpl. by apply map_filter_insert_True. Qed.

Lemma split_table_args t rest :
  t = "filter" \/ t = "nat" -> head rest <> Some "-t" -> split_table (table_args t ++ rest) = (t, rest).
Proof.
  intros [-> | ->] Hr; [|done]. change (split_table rest = ("filter", rest)).
  destruct rest as [|o [|x rest]]; [done..|]. unfold split_table.
  rewrite (proj2 (String.eqb_neq o "-t")); [done|]. intros ->. by apply Hr.
Qed.

Lemma restore_until_all cmds sets sets' :
  restore_commands cmds sets = Some sets' -> restore_until cmds sets = (sets', true).
Proof.
  revert sets. induction cmds as [|c cmds IH]; intros sets; [by intros [= <-]|]. cbn.
  destruct (restore_command c sets) as [sets1|]; [apply IH|done].
Qed.

Lemma restore_until_failing cmds c rest sets sets' :
  restore_commands cmds sets = Some sets' -> restore_command c sets' = None ->
  restore_until (cmds ++ c :: rest) sets = (sets', false).
Proof.
  revert sets. induction cmds as [|c' cmds IH]; intros sets; cbn.
  - intros [= <-]. by intros ->.
  - destruct (restore_command c' sets) as [sets1|]; [apply IH|done].
Qed.

#[export] Instance machine_ipset : IpsetTool Machine.
Proof.
  refine {| kernel_sets := m_sets |}.
  - intros b payload w sets' _ _ Hr. cbn [exec_stdin machine_host]. unfold run_restore.
    rewrite (restore_until_all _ _ _ Hr). eexists _, _. split; [done|]. by split.
  - intros b payload w cmds n entry ip rest sets _ _ E Hc [ks Hn] Hip Hz. cbn [exec_stdin machine_host].
    unfold run_restore. rewrite E, (restore_until_failing _ _ _ _ sets Hc).
    + eexists _, _, cmds. split; [done|]. by repeat split.
    + cbn [restore_command]. rewrite Hn. cbn. rewrite Hip. cbn. rewrite Hz. by rewrite andb_false_r.
Defined.

Lemma machine_insert b i w rs :
  insert_ok i -> filter_chains w !! key_of b i = Some rs ->
  run_filter b (insert_args i) w
  = if accepts b (i_table i) (i_spec i) w
    then (set_chains (<[key_of b i := insert_at (insert_index i) (i_spec i) rs]> (m_chains w)) w, output true "")
    else (w, output false "").
Proof.
  intros [Ht Hp Hh _] [_ Hrs]%filter_lookup_Some. unfold run_filter, insert_args.
  rewrite split_table_args by done. cbn [app].
  change ("-I" =? "-N")%string with false. change ("-I" =? "-S")%string with false.
  change ("-I" =? "-D")%string with false. change ("-I" =? "-I")%string with true. cbv iota.
  change (m_chains w !! (b, i_table i, i_chain i)) with (m_chains w !! key_of b i). rewrite Hrs.
  unfold insert_index. destruct (i_pos i) as [n|].
  - cbn [app split_position]. rewrite parse_uint_dec by (unfold in_width; lia).
    by destruct (accepts _ _ _ _).
  - cbn [app]. destruct (i_spec i) as [|s spec]; cbn [split_position]; [by destruct (accepts _ _ _ _)|].
    change (parse_uint 32 s = None) in Hh. rewrite Hh. by destruct (accepts _ _ _ _).
Qed.

Lemma machine_delete b i w rs :
  insert_ok i -> filter_chains w !! key_of b i = Some rs ->
  run_filter b (delete_rule_args i) w
  = if accepts b (i_table i) (i_spec i) w
    then (set_chains (<[key_of b i := remove_first (i_spec i) rs]> (m_chains w)) w,
          output (bool_decide (i_spec i ∈ rs)) "")
    else (w, output false "").
Proof.
  intros [Ht _ _ _] [_ Hrs]%filter_lookup_Some. unfold run_filter, delete_rule_args.
  rewrite split_table_args by done. cbn [app].
  change ("-D" =? "-N")%string with false. change ("-D" =? "-S")%string with false.
  change ("-D" =? "-D")%string with true. cbv iota.
  change (m_chains w !! (b, i_table i, i_chain i)) with (m_chains w !! key_of b i). rewrite Hrs.
  by destruct (accepts _ _ _ _).
Qed.

Lemma run_tool_filter b args w : b ∈ FILTERS -> run_tool b args w = run_filter b args w.
Proof. intros. unfold run_tool. by rewrite decide_True. Qed.

Lemma run_restore_chains payload w : filter_chains (run_restore payload w).1 = filter_chains w.
Proof. unfold run_restore. by destruct (restore_until _ _). Qed.

#[export] Instance machine_netfilter : Netfilter Machine.
Proof.
  refine {| chains := filter_chains; filter_v6 := machine_v6; valid_rule := machine_valid |}.
  - intros b i w rs Hi Hv Href Hrs _. pose proof (filter_lookup_Some _ _ _ Hrs) as [Hb _].
    assert (accepts b (i_table i) (i_spec i) w = true) as Ha by (apply andb_true_iff; split; [exact Hv|exact Href]).
    eexists _, _. cbn [exec machine_host]. rewrite run_tool_filter by done.
    rewrite (machine_insert b i w rs Hi Hrs), Ha. split; [done|]. split; [done|]. split; [by apply filter_set|done].
  - intros b i w rs Hi Hv Href Hrs. pose proof (filter_lookup_Some _ _ _ Hrs) as [Hb _].
    assert (accepts b (i_table i) (i_spec i) w = true) as Ha by (apply andb_true_iff; split; [exact Hv|exact Href]).
    eexists _, _. cbn [exec machine_host]. rewrite run_tool_filter by done.
    rewrite (machine_delete b i w rs Hi Hrs), Ha. split; [done|]. split; [done|]. split; [by apply filter_set|done].
  - intros b i w args Hi Hr [rs Hrs] Hargs. pose proof (filter_lookup_Some _ _ _ Hrs) as [Hb _].
    change (accepts b (i_table i) (i_spec i) w = false) in Hr.
    exists w, (output false ""). cbn [exec machine_host]. rewrite run_tool_filter by done.
    split; [|by repeat split]. destruct Hargs as [-> | ->];
      [rewrite (machine_insert b i w rs Hi Hrs)|rewrite (machine_delete b i w rs Hi Hrs)]; by rewrite Hr.
  - intros b c w [rs Hb] _. apply filter_lookup_Some in Hb as [Hb _].
    rewrite filter_lookup by done. cbn [exec machine_host]. rewrite run_tool_filter by done.
    unfold run_filter. cbn [split_table]. change ("-N" =? "-t")%string with false.
    change ("-N" =? "-N")%string with true. cbv iota.
    destruct (m_chains w !! (b, "filter", c)) eqn:E; eexists _, _; (split; [done|]); (split; [done|]); (split; [|done]).
    + done.
    + rewrite decide_True by done. by apply filter_set.
  - intros b c w [rs Hb] _. apply filter_lookup_Some in Hb as [Hb Hrs].
    rewrite filter_lookup by done. cbn [exec machine_host]. rewrite run_tool_filter by done.
    unfold run_filter. cbn [split_table]. change ("-S" =? "-t")%string with false.
    change ("-S" =? "-N")%string with false. change ("-S" =? "-S")%string with true. cbv iota.
    destruct (String.eqb_spec c "OUTPUT") as [->|]; eexists _, _; (split; [done|]); (split; [|done]).
    + rewrite bool_decide_true; [done|by exists rs].
    + done.
  - intros b payload w _. apply run_restore_chains.
  - done.
Defined.

(** How many rules a machine has *)
Definition total_rules (m : Chains) : nat := map_fold (fun _ rs n => (List.length rs + n)%nat) 0%nat m.

Lemma total_rules_update m k rs rs' :
  m !! k = Some rs -> (total_rules (<[k := rs']> m) + List.length rs = total_rules m + List.length rs')%nat.
Proof.
  intros Hk. assert (forall rs, total_rules (<[k := rs]> (delete k m)) = (List.length rs + total_rules (delete k m))%nat) as Hi.
  { intros l. unfold total_rules. rewrite map_fold_insert_L; [done|lia|apply lookup_delete_eq]. }
  rewrite <- (insert_delete_eq m), Hi. rewrite <- (insert_delete_id m k rs Hk) at 2. rewrite Hi. lia.
Qed.

Lemma remove_first_length r rs : r ∈ rs -> (List.length (remove_first r rs) < List.length rs)%nat.
Proof.
  induction rs as [|r' rs IH]; intros Hr; [by apply elem_of_nil in Hr|]. cbn [remove_first].
  case_decide as E; [simpl; lia|]. apply elem_of_cons in Hr as [->|Hr]; [done|]. apply IH in Hr. simpl. lia.
Qed.

#[export] Instance machine_rules : FiniteRules Machine.
Proof.
  refine {| rule_count _ w := total_rules (m_chains w) |}.
  intros b args w w' out Hb (pre & rest & -> & Hpre) He Hs. cbn [exec machine_host] in He.
  rewrite run_tool_filter in He by done. unfold run_filter in He.
  assert (exists t, split_table (pre ++ "-D" :: rest) = (t, "-D" :: rest)) as [t Ht].
  { destruct Hpre as [->|[t ->]]; [exists "filter"; by destruct rest|by exists t]. }
  rewrite Ht in He. destruct rest as [|c rest]; [injection He as <- <-; done|].
  change ("-D" =? "-N")%string with false in He. change ("-D" =? "-S")%string with false in He.
  change ("-D" =? "-D")%string with true in He. cbv iota zeta in He.
  destruct (m_chains w !! (b, t, c)) as [rs|] eqn:E; [|by injection He as <- <-].
  destruct (negb (accepts b t rest w)); injection He as <- <-; [done|].
  cbn [success] in Hs. apply bool_decide_eq_true in Hs. cbn [set_chains m_chains].
  pose proof (total_rules_update _ _ _ (remove_first rest rs) E). pose proof (remove_first_length rest rs Hs). lia.
Defined.

Lemma tools_apart b : b ∈ IPSET_CANDIDATES ++ IP_CANDIDATES -> b ∉ FILTERS.
Proof. revert b. rewrite <- Forall_forall. apply (bool_decide_unpack _). by vm_compute. Qed.

Lemma ip_is_no_ipset b : b ∈ IP_CANDIDATES -> b ∉ IPSET_CANDIDATES.
Proof. revert b. rewrite <- Forall_forall. apply (bool_decide_unpack _). by vm_compute. Qed.

#[export] Instance machine_sets : SetCommands Machine.
Proof.
  constructor. intros b args w Hb _. cbn [exec machine_host]. unfold run_tool.
  rewrite decide_False by (apply tools_apart, elem_of_app; by left). rewrite decide_True by done.
  unfold run_set_tool. cbn [kernel_sets machine_ipset].
  destruct (set_command args (m_sets w)) eqn:E; cbn [output success]; done.
Defined.

Lemma machine_show b ip w :
  b ∈ IP_CANDIDATES -> ip_wf ip ->
  run_tool b (show_args ip) w = (w, output true (if decide (ip ∈ m_addrs w) then "1: lo" else "")).
Proof.
  intros Hb Hip. unfold run_tool.
  rewrite decide_False by (apply tools_apart, elem_of_app; by right).
  rewrite decide_False by (by apply ip_is_no_ipset). unfold run_ip.
  assert (strip_suffix (if (default "" (show_args ip !! 1%nat) =? "-4")%string then "/32" else "/128")
            (default "" (show_args ip !! 5%nat)) = Some (ip_to_string ip)) as Hs.
  { apply strip_suffix_spec. by destruct ip. }
  assert ((default "" (show_args ip !! 4%nat) =? "to")%string = true) as -> by (by destruct ip).
  cbv beta iota zeta. rewrite Hs. cbn [option_bind mbind]. by rewrite parse_ip_to_string by done.
Qed.

#[export] Instance machine_addresses : AddressTool Machine.
Proof.
  refine {| assigned := m_addrs; output_listing := list_output;
            dev_listing interface w := m_texts w !! ("ip:" +:+ interface) |}.
  - intros b ip w Hb _ Hip. cbn [exec machine_host]. rewrite machine_show by done.
    eexists _, _. split; [done|]. split; [done|]. split; [|done]. cbn [stdout].
    by destruct (decide (ip ∈ m_addrs w)).
  - intros b w Hb _. cbn [exec machine_host]. rewrite run_tool_filter by done.
    eexists _, _. by repeat split.
  - intros b interface w Hb _ _. cbn [exec machine_host]. unfold run_tool.
    rewrite decide_False by (apply tools_apart, elem_of_app; by right).
    rewrite decide_False by (by apply ip_is_no_ipset). unfold run_ip. cbn.
    destruct (m_texts w !! _); eexists _, _; (split; [done|]); (split; [|done]); [by eexists|done].
Defined.

#[export] Instance machine_stable : StableFiles Machine.
Proof.
  assert (forall b args w, same_files w (run_tool b args w).1) as Hx.
  { intros b args w. unfold run_tool, run_filter, run_set_tool, run_ip.
    repeat (case_decide || case_match); by split. }
  constructor; intros; try (by split); [apply Hx|..].
  - cbn [exec_stdin machine_host]. unfold run_restore. by destruct (restore_until _ _).
  - cbn [control_exchange machine_host]. unfold run_control.
    by destruct (handle_control_connection _ _ _ _ _) as [[d answer] r].
Defined.

#[export] Instance machine_peer : @DaemonPeer Machine machine_host tree_order.
Proof.
  refine {| daemon := m_daemon; peer_port := m_port |}.
  - intros payload w. exists 0. cbn [control_exchange machine_host]. unfold run_control.
    destruct (handle_control_connection _ _ _ _ _) as [[d answer] r]. eexists. by repeat split.
  - by intros s w.
Defined.

(** ** The matches of a rule *)

Fixpoint match_rule (sets : SetView) (r : rule) (p : Packet) : bool :=
  match r with
  | [] => true
  | o :: r1 =>
      if (o =? "-j")%string then true
      else match r1 with
      | [] => false
      | x1 :: r2 =>
          if (o =? "-s")%string then ip_in_subnet (pkt_src p) x1 && match_rule sets r2 p
          else if (o =? "-d")%string then ip_in_subnet (pkt_dst p) x1 && match_rule sets r2 p
          else match r2 with
          | x2 :: x3 :: r4 =>
              if (o =? "-p")%string && (x2 =? "--dport")%string then
                (pkt_proto p =? x1)%string && (dec (pkt_dport p) =? x3)%string && match_rule sets r4 p
              else if (x1 =? "comment")%string then match_rule sets r4 p
              else if (x1 =? "conntrack")%string then pkt_established p && match_rule sets r4 p
              else match r4 with
              | x4 :: r5 =>
                  if (x1 =? "set")%string then sets x3 (pkt_dst p) && match_rule sets r5 p
                  else match r5 with
                  | x5 :: r6 => (pkt_proto p =? "ipv6-icmp")%string && (pkt_icmp_type p =? x5)%string
                                && match_rule sets r6 p
                  | [] => false
                  end
              | [] => false
              end
          | _ => false
          end
      end
  end.

#[export] Instance machine_semantics : RuleSemantics.
Proof. by refine {| matches := match_rule |}. Defined.

(** ** A machine *)

Definition IPTABLES : string := "/usr/sbin/iptables".
Definition IP6TABLES : string := "/usr/sbin/ip6tables".

(** A regular file with mode 0o100755 *)
Definition root_file : Metadata := {| is_file := true; uid := 0; mode := 33261 |}.
Definition user_file : Metadata := {| is_file := true; uid := 1000; mode := 33261 |}.

(** Another policy's rule *)
Definition other_rule : rule := ["-s"; "10.9.0.0/16"; "-j"; "DROP"].

Definition example : Machine := {|
  m_files := {["/usr/sbin/ipset" := root_file; "/usr/bin/docker" := root_file; IPTABLES := root_file;
               IP6TABLES := root_file; "/usr/sbin/ip" := user_file; "/sbin/ip" := root_file]};
  m_texts := {["/proc/self/status" := "Name:" +:+ tabs +:+ "dockerwall" +:+ nl +:+ uid_line 0 0 0 0 +:+ nl;
               "/proc/self/uid_map" := uid_map_line 9 9 0 0 0 4294967295 +:+ nl;
               "ip:route" := "default via 10.0.0.1 dev eth0 metric 100" +:+ nl;
               "ip:eth0" := "2: eth0    inet6 2001:db8::5/64 scope global" +:+ nl]};
  m_chains := {[(IPTABLES, "filter", "OUTPUT") := [other_rule];
                (IPTABLES, "filter", "DOCKER-USER") := [other_rule; ["-j"; "RETURN"]];
                (IPTABLES, "nat", "OUTPUT") := []; (IPTABLES, "nat", "PREROUTING") := [];
                (IPTABLES, "nat", "POSTROUTING") := []; (IP6TABLES, "filter", "OUTPUT") := []]};
  m_sets := {["net" := {| inet6 := false; members := {[V4 7]} |};
              "net-v6" := {| inet6 := true; members := ∅ |};
              "other" := {| inet6 := false; members := {[V4 9]} |}]};
  m_addrs := ∅;
  m_daemon := initial_daemon;
  m_port := 5353;
  m_printed := []
|}.

Definition finish_example (name : string) (attempt : Z) : Z := len name * 1000 + attempt.
Definition plan_example : NetworkPlan := network_plan finish_example "net" 5353 0.

(** Both preparations succeed on it. *)
Example docker_runs :
  match prepare_network finish_example 20 "net" ["example.com"] Docker None example with
  | Some (w, Ok _) => m_printed w = ["requested creation of ipset 'net'"]
                      /\ state (m_daemon w) !! "net"
                         = Some {| allowed_domain_patterns := ["example.com"]; ips := ∅ |}
  | _ => False
  end.
Proof. vm_compute. by split. Qed.

Example podman_runs :
  match prepare_network finish_example 20 "net" [] Podman None example with
  | Some (w, Ok _) => List.length (m_printed w) = 5%nat
                      /\ V4 (rootless_podman_source_ip "net" 0) ∉ m_addrs w
  | _ => False
  end.
Proof. vm_compute. split; [done|]. done. Qed.

Lemma example_within : chains_within 2 (chains example).
Proof.
  assert (map_Forall (fun _ rs => (List.length rs <= 2)%nat) (chains example)) as Hw.
  { apply (bool_decide_unpack _). by vm_compute. }
  intros k rs. apply Hw.
Qed.

(** ** The theorems, applied *)

Lemma is_trusted_binary_facts :
  trusted example "/usr/sbin/ipset" /\ ~ trusted example "/usr/sbin/ip" /\ trusted example "/sbin/ip".
Proof.
  split; [|split]; [apply (bool_decide_unpack _); by vm_compute| |apply (bool_decide_unpack _); by vm_compute].
  intros (md & [= <-] & _ & ? & _). done.
Qed.

Lemma update_ipset_pushes_witness :
  exists w', update_ipset "net" [V4 5; V6 6] example = Some (w', Ok tt)
    /\ kernel_sets w' = pushed "net" [V4 5; V6 6] (kernel_sets example).
Proof.
  apply (update_ipset_pushes "net" [V4 5; V6 6] example
           {| inet6 := false; members := {[V4 7]} |} {| inet6 := true; members := ∅ |}); try reflexivity.
  - exists "/usr/sbin/ipset". split; [by left|apply is_trusted_binary_facts].
  - by split.
  - repeat (apply Forall_cons_2 || apply Forall_nil_2); by split.
Defined.

Definition other_insert : Insert :=
  {| i_table := "filter"; i_chain := "DOCKER-USER"; i_pos := Some 2; i_spec := other_rule |}.

Lemma ensure_rule_present_spec_witness :
  exists w' rs',
    ensure_rule_present 3 IPTABLES (insert_args other_insert) example = Some (w', Ok tt)
    /\ chains w' !! (IPTABLES, "filter", "DOCKER-USER") = Some rs'
    /\ rs' !! 1%nat = Some other_rule /\ copies other_rule rs' = 1%nat
    /\ without other_rule rs' = [["-j"; "RETURN"]]
    /\ forall k, k <> (IPTABLES, "filter", "DOCKER-USER") -> chains w' !! k = chains example !! k.
Proof.
  destruct (ensure_rule_present_spec 3 IPTABLES other_insert example [other_rule; ["-j"; "RETURN"]])
    as (w' & r & He & Hr);
    [split; [by left|simpl; lia|done|done]|reflexivity|vm_compute; lia|vm_compute; lia|].
  assert (rule_ready IPTABLES other_insert example = true) as Hready by (vm_compute; reflexivity).
  rewrite Hready in Hr. destruct Hr as (-> & rs' & Hr). exists w', rs'. split; [exact He|exact Hr].
Defined.

Lemma docker_ready_example :
  block_ready IPTABLES (plan_name plan_example) (docker_inserts plan_example) example = true.
Proof. vm_compute. reflexivity. Qed.

Lemma docker_rules_installed_witness :
  exists w', ensure_docker_iptables_rules 8 IPTABLES plan_example example = Some (w', Ok tt)
    /\ chains w' = docker_chains IPTABLES plan_example [other_rule; ["-j"; "RETURN"]] [] (chains example).
Proof.
  destruct (docker_rules_installed 8 IPTABLES plan_example example [other_rule; ["-j"; "RETURN"]] [] 2)
    as (w' & r & He & _ & Hr); [reflexivity|reflexivity|apply example_within|vm_compute; lia|].
  rewrite docker_ready_example in Hr. destruct Hr as [-> Hc]. exists w'. split; [exact He|exact Hc].
Defined.

Lemma docker_default_deny_witness :
  exists w' rs', ensure_docker_iptables_rules 8 IPTABLES plan_example example = Some (w', Ok tt)
    /\ chains w' !! DOCKER_USER IPTABLES = Some rs'
    /\ forall sets jump p,
         run_chain sets jump rs' p =
         if pkt_established p then Accept
         else if ip_in_subnet (pkt_src p) (plan_subnet plan_example) then docker_policy sets plan_example p
         else run_chain sets jump [other_rule; ["-j"; "RETURN"]] p.
Proof.
  destruct (docker_default_deny 8 IPTABLES plan_example example [other_rule; ["-j"; "RETURN"]] [] 2)
    as (w' & r & He & Hr); [reflexivity|reflexivity|apply example_within|vm_compute; lia|].
  rewrite docker_ready_example in Hr. destruct Hr as (-> & rs' & Hr). exists w', rs'. split; [exact He|exact Hr].
Defined.

Lemma podman_default_deny_witness :
  exists w' rs' prs',
    ensure_rootless_podman_rules 13 IPTABLES IP6TABLES "net" "198.18.0.9/32" None "eth0" 5353 example
      = Some (w', Ok tt)
    /\ chains w' !! OUTPUT IPTABLES = Some rs' /\ chains w' !! PODMAN_CHAIN IPTABLES = Some prs'
    /\ forall sets other p,
      run_chain sets (with_podman sets prs' other) rs' p =
      if ip_in_subnet (pkt_src p) "198.18.0.9/32"
      then podman_policy sets "net" ROOTLESS_DNS_REDIRECT_CIDR 5353 p
      else run_chain sets (with_podman sets [] other) [other_rule] p.
Proof.
  destruct (podman_default_deny 13 IPTABLES IP6TABLES "net" "198.18.0.9/32" "eth0" 5353 example [other_rule] 2)
    as (w' & r & He & Hr);
    [reflexivity|eexists; reflexivity|eexists; reflexivity|eexists; reflexivity|apply example_within|lia|].
  assert (block_ready IPTABLES "net" (podman_all_inserts "net" "198.18.0.9/32"
            (if 5353 =? 53 then ROOTLESS_DNS_CIDR else ROOTLESS_DNS_REDIRECT_CIDR) "eth0" 5353) example = true)
    as Hready by (vm_compute; reflexivity).
  rewrite Hready in Hr. destruct Hr as (-> & rs' & prs' & Hr). exists w', rs', prs'. split; [exact He|exact Hr].
Defined.

Lemma podman_v6_default_deny_witness :
  exists w' rs' prs',
    ensure_rootless_podman_ipv6_rules 8 IP6TABLES "net" "2001:db8::9/128" example = Some (w', Ok tt)
    /\ chains w' !! OUTPUT IP6TABLES = Some rs' /\ chains w' !! PODMAN_CHAIN IP6TABLES = Some prs'
    /\ forall sets other p,
      run_chain sets (with_podman sets prs' other) rs' p =
      if ip_in_subnet (pkt_src p) "2001:db8::9/128" then podman_v6_policy sets "net" p
      else run_chain sets (with_podman sets [] other) [] p.
Proof.
  destruct (podman_v6_default_deny 8 IP6TABLES "net" "2001:db8::9/128" example [] 2)
    as (w' & r & He & Hr); [reflexivity|apply example_within|lia|].
  assert (block_ready IP6TABLES (ipv6_ipset_name "net")
            (podman_hook "net" "2001:db8::9/128" :: podman_v6_inserts "net" "2001:db8::9/128") example = true)
    as Hready by (vm_compute; reflexivity).
  rewrite Hready in Hr. destruct Hr as (-> & rs' & prs' & Hr). exists w', rs', prs'. split; [exact He|exact Hr].
Defined.


Lemma send_remove_effect_witness :
  exists w', send_remove "net" example = Some (w', Ok tt)
    /\ @daemon Machine _ tree_order _ w' =
      {| state := delete "net" (state initial_daemon); stats := stats initial_daemon;
         registry := registry initial_daemon |}.
Proof.
  destruct (@send_remove_effect Machine _ tree_order _ "net" example) as (w' & Hr & Hd); [reflexivity..|].
  exists w'. split; [exact Hr|exact Hd].
Defined.

Lemma get_dns_port_effect_witness :
  exists w', get_dns_port example = Some (w', Ok 5353)
    /\ @daemon Machine _ tree_order _ w' = @daemon Machine _ tree_order _ example.
Proof.
  destruct (@get_dns_port_effect Machine _ tree_order _ example) as (w' & Hr & Hd);
    [split; vm_compute; congruence|].
  exists w'. split; [exact Hr|exact Hd].
Defined.

Lemma unknown_command_rejected_witness :
  exists answer,
    @handle_control_connection tree_order initial_daemon (Some ("create" +:+ nl)) 53 0 (Ok tt)
      = (initial_daemon, Some answer, Ok tt)
    /\ command_result answer = Err "unknown command".
Proof.
  apply (@unknown_command_rejected tree_order initial_daemon ("create" +:+ nl) 53 0).
  by repeat split.
Defined.

(** Both sides of an equation of machines are evaluated, and compared without
    writing them out. *)
Ltac by_evaluation := match goal with |- ?a = ?b => exact (@eq_refl _ b <: a = b) end.

(** The machine after a computation *)
Definition after {W A} (m : M W A) (w : W) : W :=
  match m w with Some (w', _) => w' | None => w end.

Definition succeeds {W A} (m : M W A) (w : W) : bool :=
  match m w with Some (_, Ok _) => true | _ => false end.

Lemma after_succeeds {W} (m : M W unit) w : succeeds m w = true -> m w = Some (after m w, Ok tt).
Proof. unfold succeeds, after. by destruct (m w) as [[w' [[]|e]]|]. Qed.

Lemma prepared_sets_accept_pushes_witness :
  exists w'', update_ipset "new" [V4 5; V6 6] (after (create_ipsets "/usr/sbin/ipset" "new") example)
      = Some (w'', Ok tt)
    /\ kernel_sets w'' = pushed "new" [V4 5; V6 6]
                           (kernel_sets (after (create_ipsets "/usr/sbin/ipset" "new") example)).
Proof.
  apply (prepared_sets_accept_pushes "/usr/sbin/ipset" "new" [V4 5; V6 6] example).
  - by left.
  - by_evaluation.
  - exists "/usr/sbin/ipset". split; [by left|]. exists root_file. by repeat split.
  - by split.
  - reflexivity.
  - repeat (apply Forall_cons_2 || apply Forall_nil_2); by split.
Defined.

Lemma prepare_docker_network_ok_witness :
  exists port attempt w0 w1 w2,
    get_dns_port example = Some (w0, Ok port) /\ 0 <= attempt < 50
    /\ let plan := network_plan finish_example "net" port attempt in
       setup_docker_resources 20 plan w1 = Some (w2, Ok tt)
       /\ send_create "net" (Some (plan_subnet plan)) [] w2
          = Some (after (prepare_docker_network finish_example 20 "net" []) example, Ok tt).
Proof.
  apply (prepare_docker_network_ok finish_example 20 "net" [] example), after_succeeds.
  vm_compute. reflexivity.
Defined.

(** The preparation with a log of the binaries *)
Definition podman_log : list string :=
  (after (prepare_network finish_example 20 "net" [] Podman None) (example, [])).2.

Lemma prepare_network_runs_trusted_witness :
  List.length podman_log = 49%nat
  /\ Forall (fun b => trusted example b \/ current_exe example = Ok b) podman_log.
Proof.
  split; [vm_compute; reflexivity|].
  apply (prepare_network_runs_trusted example finish_example 20 "net" [] Podman None
           (after (prepare_network finish_example 20 "net" [] Podman None) (example, [])).1 podman_log (Ok tt)).
  unfold podman_log. rewrite <- surjective_pairing. apply after_succeeds. vm_compute. reflexivity.
Defined.

Lemma prepare_network_ends_witness :
  exists n w' r, forall fuel, (n <= fuel)%nat ->
    prepare_network finish_example fuel "net" ["example.com"] Podman None example = Some (w', r).
Proof. apply prepare_network_ends. Defined.

Lemma update_ipset_runs_trusted_witness :
  Forall (fun b => trusted example b \/ current_exe example = Ok b)
    (after (update_ipset "net" [V4 5]) (example, [])).2.
Proof.
  apply (update_ipset_runs_trusted example "net" [V4 5]
           (after (update_ipset "net" [V4 5]) (example, [])).1 _ (Ok tt)).
  rewrite <- surjective_pairing. apply after_succeeds. vm_compute. reflexivity.
Defined.

Lemma ensure_host_root_spec_witness : ensure_host_root example = Some (example, Ok tt).
Proof.
  refine (eq_trans (ensure_host_root_spec ["Name:" +:+ tabs +:+ "dockerwall"] 0 0 0 0 ""
                      9 9 0 0 0 4294967295 "" example _ _ _ _ _ _ _ _ _ _) _);
    try lia; try reflexivity.
  apply Forall_cons_2; [|apply Forall_nil_2]. by repeat split.
Defined.

(** *** Addresses *)

Lemma example_tools :
  trusted example "/sbin/ip" /\ trusted example IPTABLES /\ trusted example IP6TABLES.
Proof. split; [|split]; apply (bool_decide_unpack _); by vm_compute. Qed.

(** A machine without rules of the policy *)
Lemma allocate_source_ip_complete_witness :
  exists w' r, allocate_rootless_podman_source_ip IPTABLES "/sbin/ip" "net" example = Some (w', r)
    /\ match r with
       | Ok a => managed a /\ free (text_lines (output_listing IPTABLES example)) (assigned example) a
       | Err _ => forall a, managed a ->
                    ~ free (text_lines (output_listing IPTABLES example)) (assigned example) a
       end.
Proof.
  destruct (allocate_source_ip_complete "/sbin/ip" IPTABLES "net" example) as (w' & r & Hr & Hspec);
    [by right; left|by left|apply example_tools|apply example_tools|].
  exists w', r. split; [exact Hr|].
  assert (own_source output_rule_source_ip (own_marker "net") (text_lines (output_listing IPTABLES example)) = None)
    as Hown by by_evaluation.
  cbv zeta in Hspec. rewrite Hown in Hspec. exact Hspec.
Defined.

Lemma allocate_source_ipv6_spec_witness :
  exists w' ip, allocate_rootless_podman_source_ipv6 IP6TABLES "/sbin/ip" "eth0" "net" example
      = Some (w', Ok (Some ip))
    /\ take 4 (segments ip) = [0x2001; 0xdb8; 0; 0].
Proof.
  destruct (allocate_source_ipv6_spec "/sbin/ip" IP6TABLES "eth0" "net" example) as (w' & r & Hr & Hspec);
    [by right; left|by left|apply example_tools|apply example_tools|reflexivity|].
  assert ((fun listing => first_prefix (text_lines listing)) <$> dev_listing "eth0" example
          = Some (Some (v6_of_segments [0x2001; 0xdb8; 0; 0; 0; 0; 0; 5]))) as Ep by (vm_compute; reflexivity).
  rewrite Ep in Hspec. destruct r as [o|e].
  - destruct Hspec as (ip & -> & _ & Hs & _). exists w', ip. split; [exact Hr|]. rewrite Hs.
    vm_compute. reflexivity.
  - specialize (Hspec 0 ltac:(lia)). revert Hspec.
    generalize (rootless_podman_source_ipv6 (v6_of_segments [0x2001; 0xdb8; 0; 0; 0; 0; 0; 5]) "net" 0).
    intros a Ha. destruct (not_elem_of_empty (C := gset IpAddr) (V6 a) Ha).
Defined.

(** The machine with rules in its [OUTPUT] chains *)
Definition with_hooks : Machine :=
  set_chains {[(IPTABLES, "filter", "OUTPUT")
                 := [other_rule; i_spec (podman_hook "net" (v4_to_string (v4_new 198 19 1 2) +:+ "/32"))];
               (IP6TABLES, "filter", "OUTPUT")
                 := [i_spec (podman_hook "net" (v6_to_string (v6_of_segments [0x2001; 0xdb8; 0; 0; 1; 2; 3; 4])
                                                  +:+ "/128"))]]} example.

Lemma allocate_source_ip_stable_witness :
  exists w', allocate_rootless_podman_source_ip IPTABLES "/sbin/ip" "net" with_hooks
    = Some (w', Ok (v4_new 198 19 1 2)).
Proof.
  apply (allocate_source_ip_stable "/sbin/ip" IPTABLES "net" (v4_new 198 19 1 2)
           ["-P OUTPUT ACCEPT"; rule_line "OUTPUT" other_rule] [] with_hooks).
  - by left.
  - apply example_tools.
  - by split.
  - reflexivity.
  - split; vm_compute; congruence.
  - apply Forall_cons_2; [reflexivity|]. apply Forall_cons_2; [reflexivity|]. apply Forall_nil_2.
  - vm_compute. reflexivity.
Defined.

Lemma allocate_source_ipv6_stable_witness :
  exists w', allocate_rootless_podman_source_ipv6 IP6TABLES "/sbin/ip" "eth0" "net" with_hooks
    = Some (w', Ok (Some (v6_of_segments [0x2001; 0xdb8; 0; 0; 1; 2; 3; 4]))).
Proof.
  apply (allocate_source_ipv6_stable "/sbin/ip" IP6TABLES "eth0" "net"
           (v6_of_segments [0x2001; 0xdb8; 0; 0; 1; 2; 3; 4])
           (v6_of_segments [0x2001; 0xdb8; 0; 0; 0; 0; 0; 5]) ["-P OUTPUT ACCEPT"] [] with_hooks).
  - by right; left.
  - by left.
  - apply example_tools.
  - apply example_tools.
  - reflexivity.
  - by split.
  - reflexivity.
  - split; vm_compute; congruence.
  - vm_compute. reflexivity.
  - vm_compute. reflexivity.
  - apply Forall_cons_2; [reflexivity|apply Forall_nil_2].
  - vm_compute. reflexivity.
Defined.
