(* ===== verification/ExampleServe.v ===== *)
(** * The example machine as a daemon

    The machine of [ExampleHost] with sockets and a control socket file, and the
    theorems on serving requests applied to it. *)

From S2P Require Import Prelude RustStr Net State Stats Host Ipset Firewall Policy.
From S2P Require Import Address Control Prepare Trust Allocate System Proxy Enforce Limits.
From S2P Require Import Serve Main ExampleHost.

Definition set_file (path : string) (file : option Metadata) (w : Machine) : Machine :=
  {| m_files := partial_alter (fun _ => file) path (m_files w); m_texts := m_texts w; m_chains := m_chains w;
     m_sets := m_sets w; m_addrs := m_addrs w; m_daemon := m_daemon w; m_port := m_port w;
     m_printed := m_printed w |}.

(** A socket file with the mode; the bits of its type are left out. *)
Definition socket_file (mode : Z) : Metadata := {| is_file := false; uid := 0; mode := mode |}.

(** An upstream that answers every query with the same response *)
#[export] Instance machine_sockets : DnsSockets Machine := {|
  upstream_bind addr w := (w, Ok tt);
  upstream_send query addr w := (w, Ok tt);
  upstream_recv w := (w, Some (Ok "r"));
  listener_send sent w := (add_printed (match sent with SendTo r _ | SendFrom _ r _ => r end) w, Ok tt)
|}.

#[export] Instance machine_servers : ServerIO Machine := {|
  path_exists path w := bool_decide (is_Some (m_files w !! path));
  remove_file path w := (set_file path None w, Ok tt);
  unix_bind path w :=
    match m_files w !! path with
    | Some _ => (w, Err "Address already in use")
    | None => (set_file path (Some (socket_file 493)) w, Ok tt)
    end;
  set_permissions path mode w := (set_file path (Some (socket_file mode)) w, Ok tt);
  udp_bind addr w := (w, ok_or (parse_socket_addr addr) "invalid socket address");
  set_packet_info w := (w, Ok tt);
  control_stream payload w :=
    let '(d, answer, _) := @handle_control_connection tree_order (m_daemon w) (Some payload) (m_port w) 0 (Ok tt) in
    (set_daemon d w, (default "" answer, Ok tt));
  print := add_printed
|}.

#[export] Instance machine_socket_files : SocketFiles Machine.
Proof.
  assert (forall w path file, m_files (set_file path file w) !! path = file) as Hf.
  { intros w path file. cbn [set_file m_files]. by rewrite lookup_partial_alter_eq. }
  refine {| file_mode path w := mode <$> m_files w !! path |}.
  - intros path w w' [= <-]. by rewrite Hf.
  - intros path w w'. cbn [unix_bind machine_servers]. destruct (m_files w !! path) as [file|]; [done|].
    intros [= <-]. rewrite Hf. split; [done|by eexists].
  - intros path m w w' [= <-]. by rewrite Hf.
  - done.
Defined.

(** ** The theorems, applied *)

Definition serving_example : Daemon :=
  {| state := {["net" := {| allowed_domain_patterns := ["a.com"]; ips := {[V4 7]} |}]};
     stats := ∅; registry := initial_registry |}.

(** A reader of messages that knows one *)
Definition from_vec_example (response : string) : option Message :=
  if (response =? "r")%string then Some {| queries := ["A.com."]; answers := [RD_A 5; RD_other; RD_AAAA 6] |}
  else None.

Lemma serving_lookup n m :
  state serving_example !! n = Some m -> n = "net" /\ m = {| allowed_domain_patterns := ["a.com"]; ips := {[V4 7]} |}.
Proof. cbn [serving_example state]. by intros [<- <-]%lookup_singleton_Some. Qed.

Lemma serving_names : names_ok (state serving_example).
Proof.
  split.
  - intros n [m [-> _]%serving_lookup]. by split.
  - intros n n' [m [-> _]%serving_lookup] [m' [-> _]%serving_lookup]. done.
Qed.

Lemma serving_ips : ips_ok (state serving_example).
Proof.
  intros name m ip [_ ->]%serving_lookup Hip. cbn [ips] in Hip.
  apply elem_of_singleton in Hip as ->. by repeat split.
Qed.

Lemma serving_synced : synced (state serving_example) (kernel_sets example).
Proof.
  intros name m [-> ->]%serving_lookup []; by vm_compute.
Qed.

Lemma example_ipset : exists b, b ∈ IPSET_CANDIDATES /\ trusted example b.
Proof. exists "/usr/sbin/ipset". split; [by left|apply is_trusted_binary_facts]. Qed.

Lemma serving_message :
  match from_vec_example "r" with Some message => message_wf message | None => True end.
Proof. repeat (apply Forall_cons_2 || apply Forall_nil_2); by repeat split. Qed.

Lemma served_before_answered_witness :
  exists w2 w3 sent d',
    @serve_request tree_order _ _ _ from_vec_example serving_example (fun _ => 0) "q" (V4 5, 1000) (Some 9)
      (V4 1, 53) 60 example = Some (reported sent w3, Ok d')
    /\ reply "r" (V4 5, 1000) (Some 9) w2 = Some (w3, sent)
    /\ state d' = answered_table from_vec_example "r" (state serving_example)
    /\ synced (state d') (kernel_sets w2).
Proof.
  destruct (@served_before_answered tree_order Machine _ _ from_vec_example _ _ serving_example (fun _ => 0) "q"
           (V4 5, 1000) (Some 9) (V4 1, 53) 60 example example "r") as (w2 & w3 & sent & d' & _ & Hw & Hr & Hs & Hk).
  - by_evaluation.
  - exists w2, w3, sent, d'. split; [exact Hw|]. split; [exact Hr|]. split; [exact Hs|].
    apply Hk; [apply example_ipset|apply serving_names|apply serving_ips|apply serving_message|apply serving_synced].
Defined.

(** The installation of rules leaves the files alone. *)
Lemma trusted_after_rules w1 :
  ensure_docker_iptables_rules 8 IPTABLES plan_example example = Some (w1, Ok tt) ->
  exists i, i ∈ IPSET_CANDIDATES /\ trusted w1 i.
Proof.
  intros He. exists "/usr/sbin/ipset". split; [by left|].
  assert (bool_decide (trusted (after (ensure_docker_iptables_rules 8 IPTABLES plan_example) example)
            "/usr/sbin/ipset") = true) as Ht%bool_decide_eq_true by (vm_compute; reflexivity).
  unfold after in Ht. by rewrite He in Ht.
Qed.

Lemma firewall_follows_table_witness :
  exists w1 w3 d' m' rs',
    ensure_docker_iptables_rules 8 IPTABLES plan_example example = Some (w1, Ok tt)
    /\ @inspect_and_update_state tree_order Machine _ from_vec_example serving_example (fun _ => 0) "r" (V4 5) 60
         w1 = Some (w3, Ok d')
    /\ state d' !! "net" = Some m' /\ chains w3 !! DOCKER_USER IPTABLES = Some rs'
    /\ forall jump p a,
         pkt_established p = false -> ip_in_subnet (pkt_src p) (plan_subnet plan_example) = true ->
         pkt_dst p = V4 a ->
         run_chain (set_view (kernel_sets w3)) jump rs' p
         = if bool_decide (V4 a ∈ ips m') || ip_in_subnet (V4 a) LOCAL_RANGE then Accept else Drop.
Proof.
  destruct (docker_rules_installed 8 IPTABLES plan_example example [other_rule; ["-j"; "RETURN"]] [] 2)
    as (w0 & r & He0 & Hk0 & _); [reflexivity|reflexivity|apply example_within|vm_compute; lia|].
  destruct (@firewall_follows_table tree_order Machine _ _ _ _ _ from_vec_example 8 IPTABLES plan_example example
              [other_rule; ["-j"; "RETURN"]] [] 2) as (w1 & He & Hserve);
    [reflexivity|reflexivity|apply example_within|vm_compute; lia|apply docker_ready_example|].
  rewrite He in He0. injection He0 as <- <-.
  destruct (Hserve serving_example (fun _ => 0) "r" (V4 5) 60 w1
              {| allowed_domain_patterns := ["a.com"]; ips := {[V4 7]} |})
    as (w3 & d' & m' & rs' & Hi & _ & Hm & Hc & Hv).
  - reflexivity.
  - apply (trusted_after_rules w1 He).
  - apply serving_names.
  - apply serving_ips.
  - apply serving_message.
  - rewrite Hk0. apply serving_synced.
  - reflexivity.
  - exists w1, w3, d', m', rs'. split; [exact He|]. split; [exact Hi|]. split; [exact Hm|]. split; [exact Hc|exact Hv].
Defined.

Lemma send_stats_prints_witness :
  exists ls, send_stats example = Some (fold_left (fun w l => print l w) ls example, Ok tt)
    /\ push_all ls = "".
Proof. apply (send_stats_prints example example ""); [by_evaluation|by apply (bool_decide_unpack _)]. Defined.

(** With a socket left over by an earlier daemon *)
Lemma control_socket_private_witness :
  exists w' mode,
    start_control_server (set_file CONTROL_SOCKET_PATH (Some (socket_file 511)) example) = Some (w', Ok tt)
    /\ file_mode CONTROL_SOCKET_PATH w' = Some mode /\ owner_only mode.
Proof.
  set (w := set_file CONTROL_SOCKET_PATH (Some (socket_file 511)) example).
  destruct (control_socket_private w) as (w' & r & Hr & Hspec).
  assert (succeeds start_control_server w = true) as Hs by (vm_compute; reflexivity).
  unfold succeeds in Hs. rewrite Hr in Hs. destruct r as [[]|e]; [|discriminate Hs].
  destruct Hspec as (mode & Hm & Ho). exists w', mode. split; [exact Hr|]. split; [exact Hm|exact Ho].
Defined.

Lemma daemon_starts_witness :
  (exists w' control,
    main finish_example 0 (Cli.Daemon "127.0.0.1:5353" (Some "10.0.0.1:5300") 86400) example
      = Some (w', inr {| serving_port := 5353; serving_info := true;
                         serving_upstream := (V4 (v4_new 10 0 0 1), 5300); serving_ttl := 86400 * NANOS;
                         serving_control := control |}))
  /\ (exists w', main finish_example 0 (Cli.Daemon "127.0.0.1:5353" (Some "10.0.0.1") 86400) example
      = Some (w', inl 1)).
Proof.
  assert (forall upstream,
    (exists w' control, main finish_example 0 (Cli.Daemon "127.0.0.1:5353" upstream 86400) example
       = Some (w', match parse_socket_addr (default (default_upstream (read_to_string "/etc/resolv.conf" example)) upstream) with
                   | Some upstream_addr =>
                       inr {| serving_port := 5353; serving_info := true; serving_upstream := upstream_addr;
                              serving_ttl := 86400 * NANOS; serving_control := control |}
                   | None => inl 1
                   end))) as Hd.
  { intros upstream.
    apply (daemon_starts finish_example 0 "127.0.0.1:5353" (V4 (v4_new 127 0 0 1)) 5353
             (V4 (v4_new 127 0 0 1), 5353) upstream 86400 example).
    - reflexivity.
    - intros w. by exists w.
    - intros _ w. by exists w. }
  split.
  - destruct (Hd (Some "10.0.0.1:5300")) as (w' & control & E). exists w', control. exact E.
  - destruct (Hd (Some "10.0.0.1")) as (w' & control & E). exists w'. exact E.
Defined.

(** A response with 0.0.0.0, and later one with an address *)
Definition blocking : list (list string * list IpAddr) := [(["a.com"], [V4 0])].

(** What the later response pushes *)
Definition blocked_push : list IpAddr :=
  match (@apply_resolved_ips tree_order (fold_left (@respond tree_order) blocking (state serving_example))
           ["a.com"] [V4 5]).2 with
  | (_, l) :: _ => l
  | [] => []
  end.

Lemma zero_address_blocks_witness :
  List.length blocked_push = 3%nat
  /\ exists w' e, update_ipset "net" blocked_push example = Some (w', Err e)
     /\ exists cmds, cmds `prefix_of` restore_cmds "net" blocked_push
          /\ restore_commands cmds (kernel_sets example) = Some (kernel_sets w').
Proof.
  split; [vm_compute; reflexivity|].
  apply (@zero_address_blocks tree_order Machine _ _ (state serving_example) blocking ["a.com"] [V4 0] ["a.com"] [V4 5]
           "net" {| allowed_domain_patterns := ["a.com"]; ips := {[V4 7]} |} blocked_push example).
  - reflexivity.
  - by split.
  - apply (bool_decide_unpack _). by vm_compute.
  - by repeat constructor.
  - by left.
  - apply (bool_decide_unpack _). by vm_compute.
  - intros ip Hip. cbn [ips] in Hip. apply elem_of_singleton in Hip as ->. by split.
  - by repeat (apply Forall_cons_2 || apply Forall_nil_2 || split).
  - apply example_ipset.
  - split; by eexists.
Defined.
